(** * mtmm: a Hoard-style multi-heap allocator (src/mtmm.c)

    Shallow embedding of [mtmm.c] and the properties of its specification.

    Data model.  The program is C for Linux; the embedding fixes the LP64
    data model of x86-64 Linux/glibc:
    - [size_t] and [pthread_t] are 64-bit unsigned, [unsigned int] is 32-bit
      unsigned, [int] is 32-bit signed; their wrap-around is written out
      with [wrap64] and [wrap32];
    - a pointer is an address in [Z], [NULL] is [0];
    - [sizeof(blockHeader) = 24] and [sizeof(superblockHeader) = 80]
      (the latter contains a 40-byte [pthread_mutex_t]);
    - a pointer [&heaps[i]] into the static heap array is the index [i].

    Memory.  The allocator's headers live in two typed stores keyed by
    address (superblock headers and block headers); payload bytes live in
    a byte store.  Memory obtained from the OS is zero-filled, so the
    first write to a header that is not yet in a store starts from the
    all-zero header.  Reading a header that the allocator never wrote,
    dereferencing [NULL], indexing an array out of bounds and converting a
    non-finite [double] to [int] are undefined behaviour in C; they are
    the outcome [Fault].  So is a [memset] or [memcpy] that leaves the
    payload of the block it is given: past the payload are the header of
    the next block or memory that is not mapped, and neither is a byte of
    the byte store.

    Execution is sequential: every exported operation runs to completion.
    Mutexes are kept in the state, and locking a held mutex is the outcome
    [Blocked].  The loops of the source that walk linked structures take a
    fuel argument, and running out of fuel is the outcome [Timeout]. *)

From stdpp Require Import base gmap list sorting.
From Stdlib Require Import ZArith Lia.

Open Scope Z_scope.

(** ** Compile-time configuration *)

(** Modelled from the spec: [SUPERBLOCK_SIZE] is defined in [mtmm.h], which
    is not part of the sources; the specification gives 65536 and the
    comment in [init_superblock] says the superblock size is 64K. *)
Definition SUPERBLOCK_SIZE : Z := 65536.

Definition NUM_OF_CLASSES : Z := 16.
Definition NUM_OF_CPUS : Z := 2.
Definition NUM_OF_HEAPS : Z := NUM_OF_CPUS + 1.
Definition SIZE_THRESHOLD : Z := SUPERBLOCK_SIZE / 2.

(** [F] is the floating-point literal [0.4]; it is kept as the fraction
    [F_num / F_den]. *)
Definition F_num : Z := 4.
Definition F_den : Z := 10.
Definition K : Z := 0.

Definition SIZE_OF_CLASS (class : Z) : Z := Z.shiftl 1 class.
Definition HASH (id : Z) : Z := id mod NUM_OF_CPUS.

Definition sizeof_blockHeader : Z := 24.
Definition sizeof_superblockHeader : Z := 80.

Definition wrap32 (x : Z) : Z := x mod 2 ^ 32.
Definition wrap64 (x : Z) : Z := x mod 2 ^ 64.

(** ** Data structures *)

Record blockHeader := mkBlock {
  blockSize : Z;          (* unsigned int *)
  inUse : Z;              (* int *)
  b_next : Z;             (* struct sBlockHeader * *)
  parentSuperblock : Z    (* struct sSuperblockHeader * *)
}.

Record superblockHeader := mkSuperblock {
  sb_usedBlocks : Z;      (* unsigned int *)
  sb_numOfBlocks : Z;     (* unsigned int *)
  freeList : Z;           (* freeList.head *)
  sb_lock : bool;         (* pthread_mutex_t: held or not *)
  sb_next : Z;
  sb_prev : Z;
  parentHeap : option Z   (* struct sHeap *: [None] is NULL, [Some i] is &heaps[i] *)
}.

Record sizeClass := mkClass {
  sc_size : Z;
  usedBlocks : Z;
  numOfBlocks : Z;
  sc_head : Z;            (* superblocks.head *)
  sc_tail : Z;            (* superblocks.tail *)
  sc_lock : bool
}.

Record memHeap := mkHeap {
  heap_id : Z;
  classes : list sizeClass
}.

(** Calls to the OS mapping primitives, most recent first. *)
Inductive os_event :=
| Mmap (len : Z) (res : Z)
| Munmap (addr : Z) (len : Z).

Record state := mkState {
  isInitialized : bool;
  heaps : list memHeap;
  sbmem : gmap Z superblockHeader;
  blkmem : gmap Z blockHeader;
  bytes : Z → Z;
  os_log : list os_event
}.

Definition zero_block : blockHeader := mkBlock 0 0 0 0.
Definition zero_superblock : superblockHeader := mkSuperblock 0 0 0 false 0 0 None.
Definition zero_class : sizeClass := mkClass 0 0 0 0 0 false.

(** The state of the process before the first call: static storage is
    zero-initialised and nothing is mapped. *)
Definition cold_state : state :=
  mkState false
          (replicate (Z.to_nat NUM_OF_HEAPS)
                     (mkHeap 0 (replicate (Z.to_nat NUM_OF_CLASSES) zero_class)))
          ∅ ∅ (λ _, 0) [].

(** Field assignments. *)
Definition set_blockSize (v : Z) (b : blockHeader) : blockHeader :=
  mkBlock v (inUse b) (b_next b) (parentSuperblock b).
Definition set_inUse (v : Z) (b : blockHeader) : blockHeader :=
  mkBlock (blockSize b) v (b_next b) (parentSuperblock b).
Definition set_b_next (v : Z) (b : blockHeader) : blockHeader :=
  mkBlock (blockSize b) (inUse b) v (parentSuperblock b).
Definition set_parentSuperblock (v : Z) (b : blockHeader) : blockHeader :=
  mkBlock (blockSize b) (inUse b) (b_next b) v.

Definition set_sb_usedBlocks (v : Z) (s : superblockHeader) : superblockHeader :=
  mkSuperblock v (sb_numOfBlocks s) (freeList s) (sb_lock s) (sb_next s) (sb_prev s) (parentHeap s).
Definition set_sb_numOfBlocks (v : Z) (s : superblockHeader) : superblockHeader :=
  mkSuperblock (sb_usedBlocks s) v (freeList s) (sb_lock s) (sb_next s) (sb_prev s) (parentHeap s).
Definition set_freeList (v : Z) (s : superblockHeader) : superblockHeader :=
  mkSuperblock (sb_usedBlocks s) (sb_numOfBlocks s) v (sb_lock s) (sb_next s) (sb_prev s) (parentHeap s).
Definition set_sb_lock (v : bool) (s : superblockHeader) : superblockHeader :=
  mkSuperblock (sb_usedBlocks s) (sb_numOfBlocks s) (freeList s) v (sb_next s) (sb_prev s) (parentHeap s).
Definition set_sb_next (v : Z) (s : superblockHeader) : superblockHeader :=
  mkSuperblock (sb_usedBlocks s) (sb_numOfBlocks s) (freeList s) (sb_lock s) v (sb_prev s) (parentHeap s).
Definition set_sb_prev (v : Z) (s : superblockHeader) : superblockHeader :=
  mkSuperblock (sb_usedBlocks s) (sb_numOfBlocks s) (freeList s) (sb_lock s) (sb_next s) v (parentHeap s).
Definition set_parentHeap (v : option Z) (s : superblockHeader) : superblockHeader :=
  mkSuperblock (sb_usedBlocks s) (sb_numOfBlocks s) (freeList s) (sb_lock s) (sb_next s) (sb_prev s) v.

Definition set_sc_size (v : Z) (c : sizeClass) : sizeClass :=
  mkClass v (usedBlocks c) (numOfBlocks c) (sc_head c) (sc_tail c) (sc_lock c).
Definition set_usedBlocks (v : Z) (c : sizeClass) : sizeClass :=
  mkClass (sc_size c) v (numOfBlocks c) (sc_head c) (sc_tail c) (sc_lock c).
Definition set_numOfBlocks (v : Z) (c : sizeClass) : sizeClass :=
  mkClass (sc_size c) (usedBlocks c) v (sc_head c) (sc_tail c) (sc_lock c).
Definition set_sc_head (v : Z) (c : sizeClass) : sizeClass :=
  mkClass (sc_size c) (usedBlocks c) (numOfBlocks c) v (sc_tail c) (sc_lock c).
Definition set_sc_tail (v : Z) (c : sizeClass) : sizeClass :=
  mkClass (sc_size c) (usedBlocks c) (numOfBlocks c) (sc_head c) v (sc_lock c).
Definition set_sc_lock (v : bool) (c : sizeClass) : sizeClass :=
  mkClass (sc_size c) (usedBlocks c) (numOfBlocks c) (sc_head c) (sc_tail c) v.

Definition with_heaps (v : list memHeap) (s : state) : state :=
  mkState (isInitialized s) v (sbmem s) (blkmem s) (bytes s) (os_log s).
Definition with_sbmem (v : gmap Z superblockHeader) (s : state) : state :=
  mkState (isInitialized s) (heaps s) v (blkmem s) (bytes s) (os_log s).
Definition with_blkmem (v : gmap Z blockHeader) (s : state) : state :=
  mkState (isInitialized s) (heaps s) (sbmem s) v (bytes s) (os_log s).
Definition with_bytes (v : Z → Z) (s : state) : state :=
  mkState (isInitialized s) (heaps s) (sbmem s) (blkmem s) v (os_log s).
Definition with_os_log (v : list os_event) (s : state) : state :=
  mkState (isInitialized s) (heaps s) (sbmem s) (blkmem s) (bytes s) v.
Definition with_isInitialized (v : bool) (s : state) : state :=
  mkState v (heaps s) (sbmem s) (blkmem s) (bytes s) (os_log s).

(** ** The monad of the embedding *)

Inductive result (A : Type) : Type :=
| Ok (a : A) (s : state)
| Fault (s : state)
| Blocked (s : state)
| Timeout.
Arguments Ok {A} a s.
Arguments Fault {A} s.
Arguments Blocked {A} s.
Arguments Timeout {A}.

Definition M (A : Type) : Type := state → result A.

Definition ret {A} (a : A) : M A := λ s, Ok a s.
Definition bind {A B} (m : M A) (f : A → M B) : M B :=
  λ s, match m s with
       | Ok a s' => f a s'
       | Fault s' => Fault s'
       | Blocked s' => Blocked s'
       | Timeout => Timeout
       end.
Definition fault {A} : M A := λ s, Fault s.
Definition blocked {A} : M A := λ s, Blocked s.
Definition timeout {A} : M A := λ _, Timeout.
Definition modify (f : state → state) : M unit := λ s, Ok tt (f s).
Definition when (b : bool) (m : M unit) : M unit := if b then m else ret tt.

Notation "x <- m ;; k" := (bind m (λ x, k))
  (at level 100, m at next level, right associativity,
   format "'[v' x  <-  m  ;;  '/' k ']'").
Notation "m ;;; k" := (bind m (λ _, k))
  (at level 100, right associativity, format "'[v' m  ;;;  '/' k ']'").

(** ** Memory access *)

Definition load_sb (p : Z) : M superblockHeader :=
  λ s, match sbmem s !! p with
       | Some h => if p =? 0 then Fault s else Ok h s
       | None => Fault s
       end.

Definition store_sb (p : Z) (f : superblockHeader → superblockHeader) : M unit :=
  λ s, if p =? 0 then Fault s
       else Ok tt (with_sbmem (<[p := f (default zero_superblock (sbmem s !! p))]> (sbmem s)) s).

Definition load_blk (p : Z) : M blockHeader :=
  λ s, match blkmem s !! p with
       | Some h => if p =? 0 then Fault s else Ok h s
       | None => Fault s
       end.

Definition store_blk (p : Z) (f : blockHeader → blockHeader) : M unit :=
  λ s, if p =? 0 then Fault s
       else Ok tt (with_blkmem (<[p := f (default zero_block (blkmem s !! p))]> (blkmem s)) s).

(** [heaps[heap].classes[class]], with the array bounds checked. *)
Definition get_class (s : state) (heap class : Z) : option sizeClass :=
  if (0 <=? heap) && (heap <? NUM_OF_HEAPS) && (0 <=? class) && (class <? NUM_OF_CLASSES)
  then hp ← heaps s !! Z.to_nat heap; classes hp !! Z.to_nat class
  else None.

Definition put_class (heap class : Z) (c : sizeClass) (s : state) : state :=
  with_heaps
    (alter (λ hp, mkHeap (heap_id hp) (<[Z.to_nat class := c]> (classes hp)))
           (Z.to_nat heap) (heaps s)) s.

Definition load_class (heap class : Z) : M sizeClass :=
  λ s, match get_class s heap class with
       | Some c => Ok c s
       | None => Fault s
       end.

Definition store_class (heap class : Z) (f : sizeClass → sizeClass) : M unit :=
  λ s, match get_class s heap class with
       | Some c => Ok tt (put_class heap class (f c) s)
       | None => Fault s
       end.

(** [pthread_mutex_lock] and [pthread_mutex_unlock] on a class lock and on
    a superblock lock. *)
Definition lock_class (heap class : Z) : M unit :=
  c <- load_class heap class ;;
  if sc_lock c then blocked else store_class heap class (set_sc_lock true).

Definition unlock_class (heap class : Z) : M unit :=
  store_class heap class (set_sc_lock false).

Definition lock_sb (p : Z) : M unit :=
  h <- load_sb p ;;
  if sb_lock h then blocked else store_sb p (set_sb_lock true).

Definition unlock_sb (p : Z) : M unit :=
  _ <- load_sb p ;; store_sb p (set_sb_lock false).

(** ** Operations of [mtmm.c] *)

(** [init] (lines 86-101).  [pthread_mutex_init] is taken to succeed; the
    [head] and [tail] of the lists keep their static zero. *)
Definition init : M unit :=
  modify (λ s,
    with_heaps
      (imap (λ i hp,
         mkHeap (Z.of_nat i)
           (imap (λ j c,
              set_sc_lock false
                (set_numOfBlocks 0
                   (set_usedBlocks 0
                      (set_sc_size (SIZE_OF_CLASS (Z.of_nat j)) c))))
              (classes hp)))
         (heaps s)) s).

(** [fetch_memory] (lines 104-120).  The answer of the OS is the argument
    [os]: [None] when [open] or [mmap] fails, [Some p] when [mmap] returns
    [p].  A mapped region is zero-filled.  On failure the source calls
    [perror], which is taken to write its diagnostic and return: a C
    library whose [perror] allocates would call back into this [malloc],
    and that is not modelled. *)
Definition fetch_memory (sz : Z) (os : option Z) : M Z :=
  λ s, match os with
       | None => Ok 0 (with_os_log (Mmap sz 0 :: os_log s) s)
       | Some p =>
         Ok p (with_os_log (Mmap sz p :: os_log s)
                 (with_bytes (λ x, if (p <=? x) && (x <? p + sz) then 0 else bytes s x) s))
       end.

(** [munmap]: the region was obtained by one [mmap] and its only header is
    at its start, which is released with it.  The length is recorded in
    the log; headers of other mappings are kept whatever the length. *)
Definition munmap (addr len : Z) : M unit :=
  modify (λ s, with_os_log (Munmap addr len :: os_log s)
                 (with_blkmem (delete addr (blkmem s)) s)).

(** The loop of [search_sizeclass] (lines 129-134). *)
Fixpoint search_loop (fuel : nat) (p : Z) : M Z :=
  match fuel with
  | O => timeout
  | S fuel' =>
    if p =? 0 then ret 0
    else
      h <- load_sb p ;;
      if sb_usedBlocks h <? sb_numOfBlocks h then ret (freeList h)
      else search_loop fuel' (sb_next h)
  end.

(** [search_sizeclass] (lines 124-137). *)
Definition search_sizeclass (fuel : nat) (heap class : Z) : M Z :=
  c <- load_class heap class ;;
  if usedBlocks c =? numOfBlocks c then ret 0
  else search_loop fuel (sc_head c).

(** [swap_superblocks] (lines 140-160); the list is [heaps[heap].classes[class].superblocks]. *)
Definition swap_superblocks (heap class : Z) (sb : Z) : M unit :=
  s <- load_sb sb ;;
  let nextSB := sb_next s in
  if nextSB =? 0 then ret tt
  else
    when (negb (sb_prev s =? 0)) (store_sb (sb_prev s) (set_sb_next nextSB)) ;;;
    n <- load_sb nextSB ;;
    when (negb (sb_next n =? 0)) (store_sb (sb_next n) (set_sb_prev sb)) ;;;
    s <- load_sb sb ;;
    let tmp_prev := sb_prev s in
    n <- load_sb nextSB ;;
    store_sb sb (set_sb_next (sb_next n)) ;;;
    store_sb sb (set_sb_prev nextSB) ;;;
    store_sb nextSB (set_sb_next sb) ;;;
    store_sb nextSB (set_sb_prev tmp_prev) ;;;
    c <- load_class heap class ;;
    when (sc_head c =? sb) (store_class heap class (set_sc_head nextSB)) ;;;
    c <- load_class heap class ;;
    when (sc_tail c =? nextSB) (store_class heap class (set_sc_tail sb)).

(** The loop that moves a superblock towards the tail while it is emptier
    than its successor ([move_superblock] lines 187-190 and [free] lines
    369-372). *)
Fixpoint bubble_to_tail (fuel : nat) (heap class : Z) (sb : Z) : M unit :=
  match fuel with
  | O => timeout
  | S fuel' =>
    s <- load_sb sb ;;
    if sb_next s =? 0 then ret tt
    else
      n <- load_sb (sb_next s) ;;
      if sb_usedBlocks s <? sb_usedBlocks n
      then swap_superblocks heap class sb ;;; bubble_to_tail fuel' heap class sb
      else ret tt
  end.

(** The loop that moves a superblock towards the head while it is fuller
    than its predecessor ([malloc] lines 267-270 and 324-327). *)
Fixpoint bubble_to_head (fuel : nat) (heap class : Z) (superblock : Z) : M unit :=
  match fuel with
  | O => timeout
  | S fuel' =>
    s <- load_sb superblock ;;
    if sb_prev s =? 0 then ret tt
    else
      p <- load_sb (sb_prev s) ;;
      if sb_usedBlocks s >? sb_usedBlocks p
      then swap_superblocks heap class (sb_prev s) ;;;
           bubble_to_head fuel' heap class superblock
      else ret tt
  end.

(** [move_superblock] (lines 163-197). *)
Definition move_superblock (fuel : nat) (sb : Z) (src dst : Z) (class : Z) : M unit :=
  (* remove superblock from the original list *)
  c <- load_class src class ;;
  s <- load_sb sb ;;
  when (sc_head c =? sb) (store_class src class (set_sc_head (sb_next s))) ;;;
  c <- load_class src class ;;
  when (sc_tail c =? sb) (store_class src class (set_sc_tail (sb_prev s))) ;;;
  when (negb (sb_next s =? 0)) (store_sb (sb_next s) (set_sb_prev (sb_prev s))) ;;;
  s <- load_sb sb ;;
  when (negb (sb_prev s =? 0)) (store_sb (sb_prev s) (set_sb_next (sb_next s))) ;;;
  (* add sb to the head of the destination *)
  store_sb sb (set_sb_prev 0) ;;;
  d <- load_class dst class ;;
  store_sb sb (set_sb_next (sc_head d)) ;;;
  (if negb (sc_head d =? 0)
   then store_sb (sc_head d) (set_sb_prev sb)
   else store_class dst class (set_sc_tail sb)) ;;;
  store_class dst class (set_sc_head sb) ;;;
  (* move sb to its place according to its fullness *)
  bubble_to_tail fuel dst class sb ;;;
  store_sb sb (set_parentHeap (Some dst)) ;;;
  (* update statistics *)
  s <- load_sb sb ;;
  store_class src class (λ c, set_usedBlocks (wrap32 (usedBlocks c - sb_usedBlocks s)) c) ;;;
  store_class src class (λ c, set_numOfBlocks (wrap32 (numOfBlocks c - sb_numOfBlocks s)) c) ;;;
  store_class dst class (λ c, set_usedBlocks (wrap32 (usedBlocks c + sb_usedBlocks s)) c) ;;;
  store_class dst class (λ c, set_numOfBlocks (wrap32 (numOfBlocks c + sb_numOfBlocks s)) c).

(** The block-initialising loop of [init_superblock] (lines 215-222):
    [k] iterations are left and [p] is the block being written. *)
Fixpoint init_blocks (k : nat) (p : Z) (sb : Z) (class : Z) : M unit :=
  match k with
  | O => ret tt
  | S k' =>
    store_blk p (set_blockSize (SIZE_OF_CLASS class)) ;;;
    store_blk p (set_inUse 0) ;;;
    store_blk p (set_b_next (p + sizeof_blockHeader + SIZE_OF_CLASS class)) ;;;
    store_blk p (set_parentSuperblock sb) ;;;
    b <- load_blk p ;;
    init_blocks k' (b_next b) sb class
  end.

(** [init_superblock] (lines 200-224); [pthread_mutex_init] is taken to
    succeed, so the function returns 0. *)
Definition init_superblock (sb : Z) (class : Z) : M Z :=
  store_sb sb (set_sb_usedBlocks 0) ;;;
  store_sb sb (set_sb_numOfBlocks
                 (wrap32 ((SUPERBLOCK_SIZE - sizeof_superblockHeader)
                          / (sizeof_blockHeader + SIZE_OF_CLASS class)))) ;;;
  store_sb sb (set_sb_lock false) ;;;
  store_sb sb (set_freeList (sb + sizeof_superblockHeader)) ;;;
  s <- load_sb sb ;;
  init_blocks (Z.to_nat (sb_numOfBlocks s)) (freeList s) sb class ;;;
  ret 0.

(** [(int) ceil(log2(sz))] (line 252).  For [1 <= sz <= 2^53] the double
    computation is exact and yields the integer ceiling of the logarithm;
    [log2(0)] is minus infinity, whose conversion to [int] is undefined. *)
Definition class_of_size (sz : Z) : option Z :=
  if sz =? 0 then None else Some (Z.log2_up sz).

(** [(int) log2(blockSize)] (line 351): truncation of the logarithm. *)
Definition class_of_block (blockSize : Z) : option Z :=
  if blockSize =? 0 then None else Some (Z.log2 blockSize).

Definition lift_option {A} (o : option A) : M A :=
  match o with Some a => ret a | None => fault end.

(** [malloc] (lines 230-334).  [tid] is the value of [pthread_self()] and
    [os] the answer of the OS to the one mapping request the call can
    make. *)
Definition malloc (fuel : nat) (tid : Z) (os : option Z) (sz : Z) : M Z :=
  (λ s, if isInitialized s then Ok tt s
        else bind init (λ _, modify (with_isInitialized true)) s) ;;;
  if sz >? SIZE_THRESHOLD then
    (* "large" block, directly from the OS *)
    p <- fetch_memory (wrap64 (sz + sizeof_blockHeader)) os ;;
    if p =? 0 then ret 0
    else
      store_blk p (set_blockSize (wrap32 sz)) ;;;
      ret (p + sizeof_blockHeader)
  else
    class <- lift_option (class_of_size sz) ;;
    let heap := HASH tid in
    lock_class heap class ;;;
    block <- search_sizeclass fuel heap class ;;
    if negb (block =? 0) then
      b <- load_blk block ;;
      let superblock := parentSuperblock b in
      s <- load_sb superblock ;;
      hd <- load_blk (freeList s) ;;
      store_sb superblock (set_freeList (b_next hd)) ;;;
      store_blk block (set_inUse 1) ;;;
      store_sb superblock (λ s, set_sb_usedBlocks (wrap32 (sb_usedBlocks s + 1)) s) ;;;
      store_class heap class (λ c, set_usedBlocks (wrap32 (usedBlocks c + 1)) c) ;;;
      bubble_to_head fuel heap class superblock ;;;
      unlock_class heap class ;;;
      ret (block + sizeof_blockHeader)
    else
      (* try to fetch a superblock from the global heap *)
      let globalHeap := NUM_OF_CPUS in
      lock_class globalHeap class ;;;
      g <- load_class globalHeap class ;;
      let superblock := sc_head g in
      if negb (superblock =? 0) then
        s <- load_sb superblock ;;
        let block := freeList s in
        hd <- load_blk (freeList s) ;;
        store_sb superblock (set_freeList (b_next hd)) ;;;
        store_blk block (set_inUse 1) ;;;
        store_sb superblock (λ s, set_sb_usedBlocks (wrap32 (sb_usedBlocks s + 1)) s) ;;;
        store_class globalHeap class (λ c, set_usedBlocks (wrap32 (usedBlocks c + 1)) c) ;;;
        move_superblock fuel superblock globalHeap heap class ;;;
        unlock_class globalHeap class ;;;
        unlock_class heap class ;;;
        ret (block + sizeof_blockHeader)
      else
        (* allocate a new superblock from the OS *)
        superblock <- fetch_memory SUPERBLOCK_SIZE os ;;
        _ <- init_superblock superblock class ;;
        if negb (superblock =? 0) then
          store_sb superblock (set_parentHeap (Some heap)) ;;;
          s <- load_sb superblock ;;
          let block := freeList s in
          hd <- load_blk (freeList s) ;;
          store_sb superblock (set_freeList (b_next hd)) ;;;
          store_blk block (set_inUse 1) ;;;
          store_sb superblock (λ s, set_sb_usedBlocks (wrap32 (sb_usedBlocks s + 1)) s) ;;;
          store_class heap class (λ c, set_usedBlocks (wrap32 (usedBlocks c + 1)) c) ;;;
          s <- load_sb superblock ;;
          store_class heap class
            (λ c, set_numOfBlocks (wrap32 (numOfBlocks c + sb_numOfBlocks s)) c) ;;;
          store_sb superblock (set_parentHeap (Some heap)) ;;;
          c <- load_class heap class ;;
          (if negb (sc_tail c =? 0)
           then store_sb (sc_tail c) (set_sb_next superblock)
           else store_class heap class (set_sc_head superblock)) ;;;
          c <- load_class heap class ;;
          store_sb superblock (set_sb_prev (sc_tail c)) ;;;
          store_class heap class (set_sc_tail superblock) ;;;
          store_sb superblock (set_sb_next 0) ;;;
          bubble_to_head fuel heap class superblock ;;;
          unlock_class heap class ;;;
          unlock_class globalHeap class ;;;
          ret (block + sizeof_blockHeader)
        else ret 0.

(** The conversion of an [unsigned int] to [float] (IEEE 754 binary32,
    round to nearest, ties to even): a value below [2^24] is kept, a
    larger one keeps its 24 leading bits. *)
Definition to_float (u : Z) : Z :=
  if u <? 2 ^ 24 then u
  else
    let e := Z.log2 u - 23 in
    let q := Z.shiftr u e in
    let r := u - Z.shiftl q e in
    let half := Z.shiftl 1 (e - 1) in
    let q' := if r <? half then q
              else if half <? r then q + 1
              else if Z.even q then q else q + 1 in
    Z.shiftl q' e.

(** The test of line 377.  [K * sb->numOfBlocks] and the subtraction are
    unsigned 32-bit.  In [(float) used < (1 - F) * num] the left side is
    the integer [to_float used]; the right side is a [double] product:
    [1 - F] is the [double] nearest to [0.6] and the product with a 32-bit
    [num] is rounded to a [double], which is the integer [0.6 * num] when
    that is one and is otherwise on the same side of every integer as
    [0.6 * num]; so the comparison is decided on the exact fraction. *)
Definition emptiness_violated (c : sizeClass) (sb : superblockHeader) : bool :=
  (usedBlocks c <? wrap32 (numOfBlocks c - wrap32 (K * sb_numOfBlocks sb)))
  && (to_float (usedBlocks c) * F_den <? (F_den - F_num) * numOfBlocks c).

(** [free] (lines 337-387). *)
Definition free (fuel : nat) (ptr : Z) : M unit :=
  if negb (ptr =? 0) then
    let block := ptr - sizeof_blockHeader in
    b <- load_blk block ;;
    if blockSize b >? SUPERBLOCK_SIZE / 2 then
      munmap block (blockSize b + sizeof_blockHeader)
    else
      let sb := parentSuperblock b in
      class <- lift_option (class_of_block (blockSize b)) ;;
      s <- load_sb sb ;;
      heap <- lift_option (parentHeap s) ;;
      lock_sb sb ;;;
      lock_class heap class ;;;
      unlock_sb sb ;;;
      (* free the block *)
      store_blk block (set_inUse 0) ;;;
      s <- load_sb sb ;;
      store_blk block (set_b_next (freeList s)) ;;;
      store_sb sb (set_freeList block) ;;;
      (* update statistics *)
      store_sb sb (λ s, set_sb_usedBlocks (wrap32 (sb_usedBlocks s - 1)) s) ;;;
      store_class heap class (λ c, set_usedBlocks (wrap32 (usedBlocks c - 1)) c) ;;;
      bubble_to_tail fuel heap class sb ;;;
      let globalHeap := NUM_OF_CPUS in
      c <- load_class heap class ;;
      s <- load_sb sb ;;
      (if negb (heap =? globalHeap) && emptiness_violated c s then
         lock_class globalHeap class ;;;
         let badSB := sc_tail c in
         move_superblock fuel badSB heap globalHeap class ;;;
         unlock_class globalHeap class
       else ret tt) ;;;
      unlock_class heap class
  else ret tt.

(** The length of the live mapping at [addr], from the log of the calls
    to the OS (the latest call first). *)
Fixpoint mapped_len (log : list os_event) (addr : Z) : option Z :=
  match log with
  | [] => None
  | Mmap len res :: log' => if res =? addr then Some len else mapped_len log' addr
  | Munmap a _ :: log' => if a =? addr then None else mapped_len log' addr
  end.

(** The number of payload bytes of the block whose payload starts at [p]:
    the block size for a block of a superblock, and what was mapped past
    the header for a block that was mapped for one request (its header
    names no superblock). *)
Definition payload_len (s : state) (p : Z) : option Z :=
  match blkmem s !! (p - sizeof_blockHeader) with
  | Some b =>
    if parentSuperblock b =? 0
    then (λ len, len - sizeof_blockHeader) <$> mapped_len (os_log s) (p - sizeof_blockHeader)
    else Some (blockSize b)
  | None => None
  end.

(** [n] bytes from [p] are bytes of the payload that starts at [p]. *)
Definition in_payload (s : state) (p n : Z) : bool :=
  match payload_len s p with
  | Some len => n <=? len
  | None => false
  end.

(** [memset(p, 0, n)] and [memcpy(dst, src, n)] on the byte store; [n] is
    a [size_t].  With [n = 0] they touch no byte. *)
Definition memset0 (p n : Z) : M unit :=
  λ s, if n =? 0 then Ok tt s
       else if in_payload s p n
       then Ok tt (with_bytes (λ x, if (p <=? x) && (x <? p + n) then 0 else bytes s x) s)
       else Fault s.

Definition memcpy (dst src n : Z) : M unit :=
  λ s, if n =? 0 then Ok tt s
       else if in_payload s dst n && in_payload s src n
       then Ok tt (with_bytes
                     (λ x, if (dst <=? x) && (x <? dst + n) then bytes s (src + (x - dst))
                           else bytes s x) s)
       else Fault s.

(** [calloc] (lines 390-399); [num * sz] is a [size_t] product. *)
Definition calloc (fuel : nat) (tid : Z) (os : option Z) (num sz : Z) : M Z :=
  p <- malloc fuel tid os (wrap64 (num * sz)) ;;
  if negb (p =? 0) then memset0 p (wrap64 (num * sz)) ;;; ret p
  else ret p.

(** [realloc] (lines 402-411). *)
Definition realloc (fuel : nat) (tid : Z) (os : option Z) (ptr sz : Z) : M Z :=
  newPtr <- malloc fuel tid os sz ;;
  if negb (newPtr =? 0) then
    memcpy newPtr ptr sz ;;;
    free fuel ptr ;;;
    ret newPtr
  else ret newPtr.

(** ** Derived notions used by the properties *)

(** Running one call after another. *)
Definition and_then {A B} (r : result A) (k : A → state → result B) : result B :=
  match r with
  | Ok a s => k a s
  | Fault s => Fault s
  | Blocked s => Blocked s
  | Timeout => Timeout
  end.

(** The emptiness invariant of a size class, as the header comment of
    [mtmm.c] and the specification state it, for a class whose superblocks
    hold [S] blocks each: [u >= a - K*S] or [u >= (1 - F) * a]. *)
Definition emptiness_invariant (c : sizeClass) (S : Z) : Prop :=
  usedBlocks c >= numOfBlocks c - K * S
  ∨ F_den * usedBlocks c >= (F_den - F_num) * numOfBlocks c.

(** The number of blocks of a superblock of a class (line 205). *)
Definition blocks_per_superblock (class : Z) : Z :=
  (SUPERBLOCK_SIZE - sizeof_superblockHeader) / (sizeof_blockHeader + SIZE_OF_CLASS class).

(** The address of block [i] of the superblock at [sb] (lines 212 and 219). *)
Definition block_addr (sb class i : Z) : Z :=
  sb + sizeof_superblockHeader + i * (sizeof_blockHeader + SIZE_OF_CLASS class).

(** The free list of the superblock at [sb]: the blocks reached from
    [freeList.head] through [next], as long as the pointer is at a block
    header of this superblock that is marked free.  A superblock has
    [numOfBlocks] blocks, so one more step than that is enough to see the
    end of any list without repetition. *)
Fixpoint free_walk (m : gmap Z blockHeader) (sb : Z) (fuel : nat) (p : Z) : list Z :=
  match fuel with
  | O => []
  | S fuel' =>
    match m !! p with
    | Some b =>
      if (inUse b =? 0) && (parentSuperblock b =? sb)
      then p :: free_walk m sb fuel' (b_next b)
      else []
    | None => []
    end
  end.

Definition free_list (s : state) (sb : Z) : list Z :=
  match sbmem s !! sb with
  | Some h => free_walk (blkmem s) sb (S (Z.to_nat (sb_numOfBlocks h))) (freeList h)
  | None => []
  end.

(** ** Concrete executions *)

(** Three requests of 32768 bytes by one thread from a cold start (class
    15, one block per superblock, each request maps a new superblock),
    then the first block is freed. *)
Definition scenario_three_superblocks : result (Z * Z * Z) :=
  and_then (malloc 8 0 (Some 65536) 32768 cold_state) (λ p1 s,
  and_then (malloc 8 0 (Some 131072) 32768 s) (λ p2 s,
  and_then (malloc 8 0 (Some 196608) 32768 s) (λ p3 s,
  and_then (free 8 p1 s) (λ _ s, Ok (p1, p2, p3) s)))).

(** A request of [2^32 + 32769] bytes served by the large path. *)
Definition huge_request : Z := 2 ^ 32 + 32769.

(** The value and the final state of a run that returned. *)
Definition value_of {A} (r : result A) : option A :=
  match r with Ok a _ => Some a | _ => None end.

Definition state_after {A} (r : result A) : state :=
  match r with Ok _ s => s | Fault s => s | Blocked s => s | Timeout => cold_state end.

Definition is_fault {A} (r : result A) : bool :=
  match r with Fault _ => true | _ => false end.

(** ** Two-state properties of a computation *)

(** Every terminating run of [m] relates its initial and final state by [R]. *)
Definition preserves {A} (R : state → state → Prop) (m : M A) : Prop :=
  ∀ s a s', m s = Ok a s' → R s s'.

(** What [free] of the small block at address [b0] leaves alone: the
    headers of all other blocks, the size and the superblock of the block
    itself, the capacity of every superblock, the block size of every
    class, the payload bytes and the OS log. *)
Definition free_frame (b0 : Z) (s s' : state) : Prop :=
  (∀ q, q ≠ b0 → blkmem s' !! q = blkmem s !! q)
  ∧ (∀ b, blkmem s !! b0 = Some b →
       ∃ b', blkmem s' !! b0 = Some b'
             ∧ blockSize b' = blockSize b
             ∧ parentSuperblock b' = parentSuperblock b)
  ∧ (∀ a h, sbmem s !! a = Some h →
       ∃ h', sbmem s' !! a = Some h' ∧ sb_numOfBlocks h' = sb_numOfBlocks h)
  ∧ (∀ hp c x, get_class s hp c = Some x →
       ∃ x', get_class s' hp c = Some x' ∧ sc_size x' = sc_size x)
  ∧ bytes s' = bytes s
  ∧ os_log s' = os_log s.

(** ** Superblock lists *)

(** [dseg m prev l nxt]: the superblocks of [l] are linked in this order
    through [next] and [prev]; the first one has [prev] as predecessor and
    the last one has [nxt] as successor. *)
Fixpoint dseg (m : gmap Z superblockHeader) (prev : Z) (l : list Z) (nxt : Z) : Prop :=
  match l with
  | [] => True
  | a :: l' =>
    a ≠ 0
    ∧ (∃ h, m !! a = Some h ∧ sb_prev h = prev ∧ sb_next h = default nxt (head l'))
    ∧ dseg m a l' nxt
  end.

(** [class_links s hp c l]: the list of class [c] of heap [hp] is [l], from
    head to tail. *)
Definition class_links (s : state) (hp c : Z) (l : list Z) : Prop :=
  ∃ x, get_class s hp c = Some x
       ∧ NoDup l
       ∧ dseg (sbmem s) 0 l 0
       ∧ sc_head x = default 0 (head l)
       ∧ sc_tail x = default 0 (last l).

(** The fields of a superblock header and of a class other than the list
    links and the locks. *)
Definition sb_data (h : superblockHeader) : Z * Z * Z * option Z :=
  (sb_usedBlocks h, sb_numOfBlocks h, freeList h, parentHeap h).

Definition sc_data (x : sizeClass) : Z * Z * Z :=
  (sc_size x, usedBlocks x, numOfBlocks x).

Definition used_of (m : gmap Z superblockHeader) (a : Z) : Z :=
  default 0 (sb_usedBlocks <$> m !! a).

(** [a] is at least as full as [b]. *)
Definition fuller (m : gmap Z superblockHeader) (a b : Z) : Prop :=
  used_of m b <= used_of m a.

(** What the relinking of the list [l] of class [(hp, c)] leaves alone:
    everything but the links of the members of [l] and the head and tail
    of the class. *)
Definition links_frame (hp c : Z) (l : list Z) (s s' : state) : Prop :=
  blkmem s' = blkmem s
  ∧ bytes s' = bytes s
  ∧ os_log s' = os_log s
  ∧ isInitialized s' = isInitialized s
  ∧ (∀ a, a ∉ l → sbmem s' !! a = sbmem s !! a)
  ∧ (∀ a, sb_data <$> sbmem s' !! a = sb_data <$> sbmem s !! a)
  ∧ (∀ a, sb_lock <$> sbmem s' !! a = sb_lock <$> sbmem s !! a)
  ∧ (∀ hp' c', (hp', c') ≠ (hp, c) → get_class s' hp' c' = get_class s hp' c')
  ∧ (∀ hp' c', sc_data <$> get_class s' hp' c' = sc_data <$> get_class s hp' c')
  ∧ (∀ hp' c', sc_lock <$> get_class s' hp' c' = sc_lock <$> get_class s hp' c').

(** The store after [if (p != NULL) p->field = ...]: no write through NULL. *)
Definition wr (p : Z) (g : superblockHeader → superblockHeader)
           (m : gmap Z superblockHeader) : gmap Z superblockHeader :=
  if p =? 0 then m else <[p := g (default zero_superblock (m !! p))]> m.

(** Two header stores that differ in list links only. *)
Definition links_only (m m' : gmap Z superblockHeader) : Prop :=
  ∀ a, sb_data <$> m' !! a = sb_data <$> m !! a
       ∧ sb_lock <$> m' !! a = sb_lock <$> m !! a.

(** The fields of a superblock header that a migration keeps: everything
    but the list links and the owning heap. *)
Definition sb_core (h : superblockHeader) : Z * Z * Z * bool :=
  (sb_usedBlocks h, sb_numOfBlocks h, freeList h, sb_lock h).

Definition num_of (m : gmap Z superblockHeader) (a : Z) : Z :=
  default 0 (sb_numOfBlocks <$> m !! a).

(** What [move_superblock] of [x] from heap [src] to heap [dst] does to
    the state besides the relinking of the two lists, whose members are
    in [fp]. *)
Definition move_frame (src dst c x : Z) (fp : list Z) (s s' : state) : Prop :=
  blkmem s' = blkmem s
  ∧ bytes s' = bytes s
  ∧ os_log s' = os_log s
  ∧ isInitialized s' = isInitialized s
  ∧ (∀ a, a ∉ fp → sbmem s' !! a = sbmem s !! a)
  ∧ (∀ a, sb_core <$> sbmem s' !! a = sb_core <$> sbmem s !! a)
  ∧ (∀ a, a ≠ x → parentHeap <$> sbmem s' !! a = parentHeap <$> sbmem s !! a)
  ∧ (parentHeap <$> sbmem s' !! x = Some (Some dst))
  ∧ (∀ hp' c', (hp', c') ≠ (src, c) → (hp', c') ≠ (dst, c) →
       get_class s' hp' c' = get_class s hp' c')
  ∧ (∃ cs cs', get_class s src c = Some cs ∧ get_class s' src c = Some cs'
       ∧ sc_size cs' = sc_size cs ∧ sc_lock cs' = sc_lock cs
       ∧ usedBlocks cs' = wrap32 (usedBlocks cs - used_of (sbmem s) x)
       ∧ numOfBlocks cs' = wrap32 (numOfBlocks cs - num_of (sbmem s) x))
  ∧ (∃ cd cd', get_class s dst c = Some cd ∧ get_class s' dst c = Some cd'
       ∧ sc_size cd' = sc_size cd ∧ sc_lock cd' = sc_lock cd
       ∧ usedBlocks cd' = wrap32 (usedBlocks cd + used_of (sbmem s) x)
       ∧ numOfBlocks cd' = wrap32 (numOfBlocks cd + num_of (sbmem s) x)).

(** ** The invariant of the allocator *)

Fixpoint sum_with (f : Z → Z) (l : list Z) : Z :=
  match l with
  | [] => 0
  | a :: l' => f a + sum_with f l'
  end.

(** [chain m sb p l e]: from the pointer [p], the [next] links go through
    the blocks [l], all free and owned by [sb], and end at the pointer
    [e]. *)
Fixpoint chain (m : gmap Z blockHeader) (sb : Z) (p : Z) (l : list Z) (e : Z) : Prop :=
  match l with
  | [] => p = e
  | b :: l' =>
    p = b
    ∧ ∃ h, m !! b = Some h ∧ inUse h = 0 ∧ parentSuperblock h = sb
           ∧ chain m sb (b_next h) l' e
  end.

(** Block [i] of the superblock [a] of class [c] has its header in place. *)
Definition slot_ok (s : state) (a c i : Z) : Prop :=
  ∃ b, blkmem s !! block_addr a c i = Some b
       ∧ blockSize b = SIZE_OF_CLASS c
       ∧ parentSuperblock b = a.

(** The superblock [a] of class [c], owned by heap [hp]: its counters and
    the chain of its free blocks, which ends at the address just past its
    last block. *)
Definition sb_ok (s : state) (hp c a : Z) : Prop :=
  0 < a
  ∧ ∃ h l,
      sbmem s !! a = Some h
      ∧ parentHeap h = Some hp
      ∧ sb_numOfBlocks h = blocks_per_superblock c
      ∧ 0 <= sb_usedBlocks h
      ∧ sb_usedBlocks h + Z.of_nat (length l) = blocks_per_superblock c
      ∧ NoDup l
      ∧ (∀ b, b ∈ l → ∃ i, 0 <= i < blocks_per_superblock c ∧ b = block_addr a c i)
      ∧ chain (blkmem s) a (freeList h) l (block_addr a c (blocks_per_superblock c))
      ∧ (∀ i, 0 <= i < blocks_per_superblock c → slot_ok s a c i).

Definition counters_ok (l : list Z) (s : state) (hp c : Z) : Prop :=
  ∃ x, get_class s hp c = Some x
       ∧ sc_size x = SIZE_OF_CLASS c
       ∧ usedBlocks x = wrap32 (sum_with (used_of (sbmem s)) l)
       ∧ numOfBlocks x = wrap32 (Z.of_nat (length l) * blocks_per_superblock c).

Definition in_range (hp c : Z) : Prop :=
  0 <= hp < NUM_OF_HEAPS ∧ 0 <= c < NUM_OF_CLASSES.

(** [wf_data L s]: the structure of the state [s], where [L hp c] is the
    list of superblocks of class [c] of heap [hp]. *)
Definition wf_data (L : Z → Z → list Z) (s : state) : Prop :=
  isInitialized s = true
  ∧ (∀ hp c, in_range hp c → class_links s hp c (L hp c) ∧ counters_ok (L hp c) s hp c)
  ∧ (∀ hp c a, a ∈ L hp c → in_range hp c ∧ sb_ok s hp c a)
  ∧ (∀ a, is_Some (sbmem s !! a) → ∃ hp c, a ∈ L hp c)
  ∧ (∀ p b, blkmem s !! p = Some b →
       (parentSuperblock b = 0 ∧ inUse b = 0)
       ∨ ∃ hp c i, parentSuperblock b ∈ L hp c
                   ∧ 0 <= i < blocks_per_superblock c
                   ∧ p = block_addr (parentSuperblock b) c i).

(** Every list is ordered by non-increasing [usedBlocks]. *)
Definition sorted_lists (L : Z → Z → list Z) (s : state) : Prop :=
  ∀ hp c, StronglySorted (fuller (sbmem s)) (L hp c).

(** No superblock of the global heap is full. *)
Definition global_not_full (L : Z → Z → list Z) (s : state) : Prop :=
  ∀ c a, a ∈ L NUM_OF_CPUS c → used_of (sbmem s) a < blocks_per_superblock c.

Definition wf_with (L : Z → Z → list Z) (s : state) : Prop :=
  wf_data L s ∧ sorted_lists L s ∧ global_not_full L s.

Definition wf (s : state) : Prop := ∃ L, wf_with L s.

Definition update_list (L : Z → Z → list Z) (hp c : Z) (l : list Z) : Z → Z → list Z :=
  λ hp' c', if decide (hp' = hp ∧ c' = c) then l else L hp' c'.

(** The state before the first [malloc]. *)
Definition cold (s : state) : Prop :=
  isInitialized s = false
  ∧ heaps s = heaps cold_state
  ∧ sbmem s = ∅
  ∧ blkmem s = ∅.

(** ** Executions from a cold start *)

(** The length of the mapping that [malloc sz] can request. *)
Definition request_len (sz : Z) : Z :=
  if sz >? SIZE_THRESHOLD then wrap64 (sz + sizeof_blockHeader) else SUPERBLOCK_SIZE.

(** What the OS guarantees of a granted mapping: it is not at NULL, not
    empty, and no header that is in use lies inside it. *)
Definition fresh_region (s : state) (p len : Z) : Prop :=
  0 < p ∧ 0 < len
  ∧ (∀ q, is_Some (blkmem s !! q) → q < p ∨ p + len <= q)
  ∧ (∀ q, is_Some (sbmem s !! q) → q < p ∨ p + len <= q).

Definition os_ok (s : state) (os : option Z) (sz : Z) : Prop :=
  match os with
  | None => True
  | Some p => fresh_region s p (request_len sz)
  end.

(** [reachable live s]: [s] is reached from the cold state by calls of
    [malloc] and [free] and by writes to payload bytes; [live] is the set
    of pointers returned by [malloc] and not yet freed, and [free] is only
    called on NULL or on such a pointer. *)
Inductive reachable : gset Z → state → Prop :=
| reach_cold : reachable ∅ cold_state
| reach_malloc live s fuel tid os sz p s' :
    reachable live s →
    0 <= sz < 2 ^ 64 →
    os_ok s os sz →
    malloc fuel tid os sz s = Ok p s' →
    reachable (if decide (p = 0) then live else {[p]} ∪ live) s'
| reach_free live s fuel ptr s' :
    reachable live s →
    ptr = 0 ∨ ptr ∈ live →
    free fuel ptr s = Ok tt s' →
    reachable (live ∖ {[ptr]}) s'
| reach_write live s v :
    reachable live s →
    reachable live (with_bytes v s).

(** The blocks behind the live pointers are marked used, or are large
    blocks. *)
Definition live_ok (live : gset Z) (s : state) : Prop :=
  ∀ p, p ∈ live →
    ∃ b, blkmem s !! (p - sizeof_blockHeader) = Some b
         ∧ (inUse b = 1 ∨ parentSuperblock b = 0).

(** Two states that differ in the state of their mutexes only (and in
    their payload bytes and OS log). *)
Definition lock_equiv (s s' : state) : Prop :=
  isInitialized s' = isInitialized s
  ∧ blkmem s' = blkmem s
  ∧ (∀ a, set_sb_lock false <$> sbmem s' !! a = set_sb_lock false <$> sbmem s !! a)
  ∧ (∀ hp c, set_sc_lock false <$> get_class s' hp c = set_sc_lock false <$> get_class s hp c).

(** The state after a block is taken from the head of the free list of the
    superblock [a] ([ha] is its header, [bh] the header of the block and
    [x] the record of its class). *)
Definition pop_state (hp c a : Z) (ha : superblockHeader) (bh : blockHeader)
           (x : sizeClass) (s : state) : state :=
  put_class hp c (set_usedBlocks (wrap32 (usedBlocks x + 1)) x)
    (with_sbmem
       (<[a := set_sb_usedBlocks (wrap32 (sb_usedBlocks ha + 1))
                 (set_freeList (b_next bh) ha)]> (sbmem s))
       (with_blkmem (<[freeList ha := set_inUse 1 bh]> (blkmem s)) s)).

(** The state after the block [b] is put back at the head of the free
    list of the superblock [a]. *)
Definition push_state (hp c a : Z) (ha : superblockHeader) (b : Z) (bh : blockHeader)
           (x : sizeClass) (s : state) : state :=
  put_class hp c (set_usedBlocks (wrap32 (usedBlocks x - 1)) x)
    (with_sbmem
       (<[a := set_sb_usedBlocks (wrap32 (sb_usedBlocks ha - 1)) (set_freeList b ha)]>
          (sbmem s))
       (with_blkmem (<[b := set_b_next (freeList ha) (set_inUse 0 bh)]> (blkmem s)) s)).

(** ** A new superblock *)

(** The block headers written by the loop of [init_superblock] for the
    blocks [i], ..., [i + k - 1] of the superblock [a] of class [c]. *)
Fixpoint init_map (k : nat) (i : Z) (a c : Z) (m : gmap Z blockHeader) : gmap Z blockHeader :=
  match k with
  | O => m
  | S k' =>
    init_map k' (i + 1) a c
      (<[block_addr a c i := mkBlock (SIZE_OF_CLASS c) 0 (block_addr a c (i + 1)) a]> m)
  end.

(** The header written by [init_superblock] over the header [h]. *)
Definition init_header (a c : Z) (h : superblockHeader) : superblockHeader :=
  set_freeList (a + sizeof_superblockHeader)
    (set_sb_lock false
       (set_sb_numOfBlocks (wrap32 (blocks_per_superblock c))
          (set_sb_usedBlocks 0 h))).

(** The state after [init_superblock a c]. *)
Definition init_state (a c : Z) (s : state) : state :=
  with_blkmem (init_map (Z.to_nat (blocks_per_superblock c)) 0 a c (blkmem s))
    (with_sbmem (<[a := init_header a c (default zero_superblock (sbmem s !! a))]> (sbmem s)) s).

(** The state of the grow path of [malloc] before the new superblock [a]
    is moved to its place: the superblock is initialised, its first block
    is taken, and it is linked at the tail of the list of class [c] of
    heap [hp], whose record was [x]. *)
Definition grow_state (a c hp : Z) (x : sizeClass) (s : state) : state :=
  let t := sc_tail x in
  let x1 := set_usedBlocks (wrap32 (usedBlocks x + 1)) x in
  let x2 := set_numOfBlocks (wrap32 (numOfBlocks x1 + blocks_per_superblock c)) x1 in
  let x3 := if negb (t =? 0) then x2 else set_sc_head a x2 in
  put_class hp c (set_sc_tail a x3)
    (put_class hp c x3
       (put_class hp c x2
          (put_class hp c x1
             (with_sbmem
                (<[a := mkSuperblock 1 (blocks_per_superblock c) (block_addr a c 1)
                          false 0 t (Some hp)]>
                   (wr t (set_sb_next a) (sbmem s)))
                (with_blkmem
                   (<[a + sizeof_superblockHeader :=
                        mkBlock (SIZE_OF_CLASS c) 1 (block_addr a c 1) a]>
                      (init_map (Z.to_nat (blocks_per_superblock c)) 0 a c (blkmem s)))
                   s))))).

(** What [malloc] does to the block headers: the headers of the blocks in
    use and of the blocks obtained from the OS directly are kept, and the
    block behind the returned pointer is marked used, or is a block
    obtained from the OS directly. *)
Definition malloc_blocks (s s' : state) (p : Z) : Prop :=
  (∀ q b, blkmem s !! q = Some b → inUse b ≠ 0 ∨ parentSuperblock b = 0 →
          blkmem s' !! q = Some b)
  ∧ (p ≠ 0 → ∃ b, blkmem s' !! (p - sizeof_blockHeader) = Some b
                  ∧ (inUse b = 1 ∨ parentSuperblock b = 0)).

(** ** Two reachable states *)

(** The state after a first request of 16 bytes by thread 0, served by a
    superblock mapped at [1048576]; the request returns [1048680]. *)
Definition state_alloc : state :=
  state_after (malloc 8 0 (Some 1048576) 16 cold_state).

(** The state after this block has been freed: the superblock has moved
    to the global heap. *)
Definition state_alloc_free : state :=
  state_after (free 8 1048680 state_alloc).

(** ** One superblock of a class *)

(** The state has one superblock of class [c], at [a], in the list of
    heap [hp], with [u] used blocks and [fl] at the head of its free list;
    the lists of class [c] of the other heaps are empty and no mutex of
    the class is held. *)
Definition lone (c : Z) (s : state) (a hp u fl : Z) : Prop :=
  isInitialized s = true
  ∧ sbmem s !! a
    = Some (mkSuperblock u (blocks_per_superblock c) fl false 0 0 (Some hp))
  ∧ get_class s hp c
    = Some (mkClass (SIZE_OF_CLASS c) u (blocks_per_superblock c) a a false)
  ∧ (∀ hp', 0 <= hp' < NUM_OF_HEAPS → hp' ≠ hp →
            get_class s hp' c = Some (mkClass (SIZE_OF_CLASS c) 0 0 0 0 false)).

(** The state is initialised, the lists of class [c] of all heaps are
    empty and no mutex of the class is held. *)
Definition vacant (c : Z) (s : state) : Prop :=
  isInitialized s = true
  ∧ (∀ hp, 0 <= hp < NUM_OF_HEAPS →
           get_class s hp c = Some (mkClass (SIZE_OF_CLASS c) 0 0 0 0 false)).

(** The state after the initialisation that the first call of [malloc]
    performs. *)
Definition booted_state : state :=
  state_after (bind init (λ _, modify (with_isInitialized true)) cold_state).

(** ** Mutexes *)

(** No mutex is held. *)
Definition unlocked (s : state) : Prop :=
  (∀ a h, sbmem s !! a = Some h → sb_lock h = false)
  ∧ (∀ hp c x, get_class s hp c = Some x → sc_lock x = false).

(** The mutexes held in [s] are among those of the superblocks in [S] and
    of the classes in [C]. *)
Definition held_within (S : list Z) (C : list (Z * Z)) (s : state) : Prop :=
  (∀ a h, sbmem s !! a = Some h → sb_lock h = true → a ∈ S)
  ∧ (∀ hp c x, get_class s hp c = Some x → sc_lock x = true → (hp, c) ∈ C).

(** Every mutex held in [s'] is held in [s]. *)
Definition no_new_lock (s s' : state) : Prop :=
  (∀ a h', sbmem s' !! a = Some h' → sb_lock h' = true →
     ∃ h, sbmem s !! a = Some h ∧ sb_lock h = true)
  ∧ (∀ hp c x', get_class s' hp c = Some x' → sc_lock x' = true →
       ∃ x, get_class s hp c = Some x ∧ sc_lock x = true).

(** Every terminating run of [m] from a state in [P] ends with a value
    and a state in [Q]. *)
Definition hoare {A} (P : state → Prop) (m : M A) (Q : A → state → Prop) : Prop :=
  ∀ s a s', P s → m s = Ok a s' → Q a s'.

(** ** Payload bytes and the OS *)

(** The payload bytes and the log of the calls to the OS are the same. *)
Definition same_os (s s' : state) : Prop :=
  bytes s' = bytes s ∧ os_log s' = os_log s.

(** The state after [scenario_three_superblocks]: class 15 of heap 0 has
    three superblocks. *)
Definition state_three : state := state_after scenario_three_superblocks.

(** [state_three] in the middle of [free] of the block of its first
    superblock: [usedBlocks] of the superblock is decremented (line 365)
    and the loop of lines 369-372 has not run.  The list of class 15 of
    heap 0 is then [131072; 196608; 65536] with 0, 1 and 0 used blocks. *)
Definition state_three_mid : state :=
  state_after
    (store_sb 131072 (λ h, set_sb_usedBlocks (wrap32 (sb_usedBlocks h - 1)) h) state_three).

(** [reachable32 live s]: as [reachable], with every request of [malloc]
    below [2^32] bytes, so that the [unsigned int] field [blockSize] holds
    the size of the request. *)
Inductive reachable32 : gset Z → state → Prop :=
| reach32_cold : reachable32 ∅ cold_state
| reach32_malloc live s fuel tid os sz p s' :
    reachable32 live s →
    0 <= sz < 2 ^ 32 →
    os_ok s os sz →
    malloc fuel tid os sz s = Ok p s' →
    reachable32 (if decide (p = 0) then live else {[p]} ∪ live) s'
| reach32_free live s fuel ptr s' :
    reachable32 live s →
    ptr = 0 ∨ ptr ∈ live →
    free fuel ptr s = Ok tt s' →
    reachable32 (live ∖ {[ptr]}) s'
| reach32_write live s v :
    reachable32 live s →
    reachable32 live (with_bytes v s).

(** * Properties *)

Lemma value_of_Ok {A} (r : result A) (a : A) :
  value_of r = Some a → r = Ok a (state_after r).
Proof. destruct r; simpl; congruence. Qed.

Lemma is_fault_Fault {A} (r : result A) :
  is_fault r = true → r = Fault (state_after r).
Proof. destruct r; simpl; congruence. Qed.

(** ** Executions that diverge from the specification *)

(** C1.  The emptiness invariant is not restored by evicting one
    superblock.  After three requests of 32768 bytes and one free, class
    15 of heap 0 holds three superblocks of one block each, two of them
    used, and the invariant holds ([2 >= 0.6 * 3]).  The next free leaves
    one used block of three, [free] finds the invariant violated and moves
    the tail superblock to the global heap; the class is left with one
    used block of two, which still violates the invariant
    ([1 < 2] and [1 < 0.6 * 2]). *)
Theorem C1_one_eviction_leaves_invariant_violated :
  ∃ s0 c0 s c t,
    scenario_three_superblocks = Ok (65640, 131176, 196712) s0
    ∧ get_class s0 0 15 = Some c0
    ∧ emptiness_invariant c0 (blocks_per_superblock 15)
    ∧ (parentHeap <$> sbmem s0 !! (131176 - sizeof_blockHeader - sizeof_superblockHeader))
      = Some (Some 0)
    ∧ free 8 131176 s0 = Ok tt s
    ∧ get_class s 0 15 = Some c
    ∧ (usedBlocks c, numOfBlocks c) = (1, 2)
    ∧ sbmem s !! sc_tail c = Some t
    ∧ emptiness_violated c t = true
    ∧ ¬ emptiness_invariant c (blocks_per_superblock 15).
Proof.
  exists (state_after scenario_three_superblocks). eexists.
  exists (state_after (free 8 131176 (state_after scenario_three_superblocks))).
  do 2 eexists.
  split; [apply value_of_Ok; vm_compute; reflexivity|].
  split; [vm_compute; reflexivity|].
  split; [right; vm_compute; discriminate|].
  split; [vm_compute; reflexivity|].
  split; [apply value_of_Ok; vm_compute; reflexivity|].
  split; [vm_compute; reflexivity|].
  split; [reflexivity|].
  split; [vm_compute; reflexivity|].
  split; [vm_compute; reflexivity|].
  intros [H|H]; vm_compute in H; apply H; reflexivity.
Qed.

(** C2.  When the OS refuses the mapping in the grow path, [malloc] passes
    the NULL pointer to [init_superblock] before testing it: the call
    faults on the first header write, and at that point the class lock of
    the CPU heap and the class lock of the global heap are both held.
    Nothing is returned and no lock is released. *)
Theorem C2_grow_failure_faults_holding_both_locks :
  ∀ fuel, ∃ s,
    malloc fuel 0 None 16 cold_state = Fault s
    ∧ (sc_lock <$> get_class s (HASH 0) 4) = Some true
    ∧ (sc_lock <$> get_class s NUM_OF_CPUS 4) = Some true.
Proof.
  intros fuel. exists (state_after (malloc fuel 0 None 16 cold_state)).
  split; [apply is_fault_Fault; vm_compute; reflexivity|].
  split; vm_compute; reflexivity.
Qed.

(** C3.  A request of size 0 has no class: [log2(0)] is minus infinity and
    its conversion to [int] is undefined, so [malloc(0)] does not return a
    block. *)
Theorem C3_zero_size_has_no_class :
  class_of_size 0 = None
  ∧ ∀ fuel tid os, ∃ s, malloc fuel tid os 0 cold_state = Fault s.
Proof.
  split; [reflexivity|].
  intros fuel tid os. exists (state_after (malloc fuel tid os 0 cold_state)).
  apply is_fault_Fault. vm_compute. reflexivity.
Qed.

(** The classes of the sizes from 1 to half a superblock are in bounds. *)
Lemma class_of_size_in_bounds (sz : Z) :
  1 <= sz <= SIZE_THRESHOLD →
  ∃ c, class_of_size sz = Some c ∧ 0 <= c < NUM_OF_CLASSES ∧ sz <= SIZE_OF_CLASS c.
Proof.
  intros [H1 H2]. unfold class_of_size.
  destruct (Z.eqb_spec sz 0) as [->|_]; [lia|].
  exists (Z.log2_up sz). split; [done|].
  assert (Hlo : 0 <= Z.log2_up sz) by apply Z.log2_up_nonneg.
  assert (Hhi : Z.log2_up sz <= Z.log2_up (2 ^ 15)).
  { apply Z.log2_up_le_mono. change SIZE_THRESHOLD with 32768 in H2. lia. }
  rewrite Z.log2_up_pow2 in Hhi by lia.
  split; [unfold NUM_OF_CLASSES; lia|].
  unfold SIZE_OF_CLASS. rewrite Z.shiftl_1_l.
  destruct (Z.eq_dec sz 1) as [->|Hne].
  - change (Z.log2_up 1) with 0. simpl. lia.
  - apply Z.log2_up_spec. lia.
Qed.

(** C6.  The large path stores the request size in the 32-bit field
    [blockSize].  For a request of [2^32 + 32769] bytes the region mapped
    has [2^32 + 32769 + 24] bytes, the header records 32769, and [free]
    unmaps [32769 + 24] bytes. *)
Theorem C6_large_size_is_truncated :
  ∃ s1 s2 b,
    malloc 0 0 (Some 1048576) huge_request cold_state = Ok (1048576 + sizeof_blockHeader) s1
    ∧ blkmem s1 !! 1048576 = Some b
    ∧ blockSize b = 32769
    ∧ free 0 (1048576 + sizeof_blockHeader) s1 = Ok tt s2
    ∧ os_log s2 = [Munmap 1048576 (32769 + sizeof_blockHeader);
                   Mmap (huge_request + sizeof_blockHeader) 1048576].
Proof.
  exists (state_after (malloc 0 0 (Some 1048576) huge_request cold_state)).
  exists (state_after (free 0 (1048576 + sizeof_blockHeader)
            (state_after (malloc 0 0 (Some 1048576) huge_request cold_state)))).
  eexists.
  split; [apply value_of_Ok; vm_compute; reflexivity|].
  split; [vm_compute; reflexivity|].
  split; [reflexivity|].
  split; [apply value_of_Ok; vm_compute; reflexivity|].
  vm_compute; reflexivity.
Qed.

(** ** Reasoning about runs *)

Lemma bind_Ok {A B} (m : M A) (f : A → M B) s b s' :
  bind m f s = Ok b s' ↔ ∃ a s1, m s = Ok a s1 ∧ f a s1 = Ok b s'.
Proof.
  unfold bind. split.
  - destruct (m s) as [a s1| | |] eqn:E; try discriminate. eauto.
  - intros (a & s1 & -> & H). done.
Qed.

Lemma ret_Ok {A} (a b : A) s s' : ret a s = Ok b s' ↔ b = a ∧ s' = s.
Proof. unfold ret. split; [intros [= <- <-]; done | intros [-> ->]; done]. Qed.

Lemma modify_Ok f s u s' : modify f s = Ok u s' ↔ s' = f s.
Proof. unfold modify. destruct u. split; [intros [= <-]; done | intros ->; done]. Qed.

Lemma load_sb_Ok p s h s' :
  load_sb p s = Ok h s' ↔ s' = s ∧ p ≠ 0 ∧ sbmem s !! p = Some h.
Proof.
  unfold load_sb. destruct (sbmem s !! p) as [h0|]; [|split; [done | intros (_ & _ & [=])]].
  destruct (Z.eqb_spec p 0).
  - split; [done | intros (_ & ? & _); done].
  - split; [intros [= <- <-]; done | intros (-> & _ & [= ->]); done].
Qed.

Lemma load_blk_Ok p s h s' :
  load_blk p s = Ok h s' ↔ s' = s ∧ p ≠ 0 ∧ blkmem s !! p = Some h.
Proof.
  unfold load_blk. destruct (blkmem s !! p) as [h0|]; [|split; [done | intros (_ & _ & [=])]].
  destruct (Z.eqb_spec p 0).
  - split; [done | intros (_ & ? & _); done].
  - split; [intros [= <- <-]; done | intros (-> & _ & [= ->]); done].
Qed.

Lemma store_sb_Ok p f s u s' :
  store_sb p f s = Ok u s' ↔
  p ≠ 0 ∧ s' = with_sbmem (<[p := f (default zero_superblock (sbmem s !! p))]> (sbmem s)) s.
Proof.
  unfold store_sb. destruct u. destruct (Z.eqb_spec p 0).
  - split; [done | intros (? & _); done].
  - split; [intros [= <-]; done | intros (_ & ->); done].
Qed.

Lemma store_blk_Ok p f s u s' :
  store_blk p f s = Ok u s' ↔
  p ≠ 0 ∧ s' = with_blkmem (<[p := f (default zero_block (blkmem s !! p))]> (blkmem s)) s.
Proof.
  unfold store_blk. destruct u. destruct (Z.eqb_spec p 0).
  - split; [done | intros (? & _); done].
  - split; [intros [= <-]; done | intros (_ & ->); done].
Qed.

Lemma load_class_Ok hp c s x s' :
  load_class hp c s = Ok x s' ↔ s' = s ∧ get_class s hp c = Some x.
Proof.
  unfold load_class. destruct (get_class s hp c) as [x0|].
  - split; [intros [= <- <-]; done | intros (-> & [= ->]); done].
  - split; [done | intros (_ & [=])].
Qed.

Lemma store_class_Ok hp c f s u s' :
  store_class hp c f s = Ok u s' ↔
  ∃ x, get_class s hp c = Some x ∧ s' = put_class hp c (f x) s.
Proof.
  unfold store_class. destruct u. destruct (get_class s hp c) as [x0|].
  - split; [intros [= <-]; eauto | intros (x & [= ->] & ->); done].
  - split; [done | intros (x & [=] & _)].
Qed.

Lemma lift_option_Ok {A} (o : option A) s a s' :
  lift_option o s = Ok a s' ↔ o = Some a ∧ s' = s.
Proof.
  destruct o as [a0|]; simpl.
  - rewrite ret_Ok. split; [intros [-> ->]; done | intros [[= ->] ->]; done].
  - split; [done | intros [[=] _]].
Qed.

(** *** The class array *)

Lemma get_class_Some s hp c x :
  get_class s hp c = Some x →
  0 <= hp < NUM_OF_HEAPS ∧ 0 <= c < NUM_OF_CLASSES.
Proof.
  unfold get_class.
  destruct (0 <=? hp) eqn:E1, (hp <? NUM_OF_HEAPS) eqn:E2,
           (0 <=? c) eqn:E3, (c <? NUM_OF_CLASSES) eqn:E4; simpl; try discriminate.
  intros _. lia.
Qed.

Lemma get_class_put s hp c x0 x hp' c' :
  get_class s hp c = Some x0 →
  get_class (put_class hp c x s) hp' c' =
  if decide (hp' = hp ∧ c' = c) then Some x else get_class s hp' c'.
Proof.
  intros H0. pose proof (get_class_Some _ _ _ _ H0) as [Hh Hc].
  unfold get_class in *. simpl.
  destruct ((0 <=? hp') && (hp' <? NUM_OF_HEAPS) && (0 <=? c') && (c' <? NUM_OF_CLASSES)) eqn:E.
  2:{ case_decide as D; [|done]. destruct D as [-> ->].
      destruct (0 <=? hp) eqn:E1, (hp <? NUM_OF_HEAPS) eqn:E2,
           (0 <=? c) eqn:E3, (c <? NUM_OF_CLASSES) eqn:E4; simpl in *; try discriminate; lia. }
  assert (0 <= hp' ∧ 0 <= c') as [Hh' Hc'].
  { destruct (0 <=? hp') eqn:E1, (0 <=? c') eqn:E3; simpl in E;
      rewrite ?andb_false_r in E; try discriminate; lia. }
  destruct ((0 <=? hp) && (hp <? NUM_OF_HEAPS) && (0 <=? c) && (c <? NUM_OF_CLASSES)); [|done].
  destruct (heaps s !! Z.to_nat hp) as [h0|] eqn:Eh; [|done]. simpl in H0.
  destruct (decide (hp' = hp)) as [->|Hne].
  - rewrite list_lookup_alter_eq, Eh. simpl.
    destruct (decide (c' = c)) as [->|Hnc].
    + rewrite decide_True by done.
      apply list_lookup_insert_eq. by eapply lookup_lt_Some.
    + rewrite decide_False by (intros [_ ?]; done).
      apply list_lookup_insert_ne. lia.
  - rewrite decide_False by (intros [? _]; done).
    rewrite list_lookup_alter_ne by lia. done.
Qed.

Lemma get_class_put_eq s hp c x0 x :
  get_class s hp c = Some x0 → get_class (put_class hp c x s) hp c = Some x.
Proof. intros H. rewrite (get_class_put _ _ _ x0) by done. by rewrite decide_True. Qed.

Lemma get_class_put_ne s hp c x0 x hp' c' :
  get_class s hp c = Some x0 → (hp', c') ≠ (hp, c) →
  get_class (put_class hp c x s) hp' c' = get_class s hp' c'.
Proof.
  intros H Hne. rewrite (get_class_put _ _ _ x0) by done.
  rewrite decide_False; [done|]. intros [-> ->]. done.
Qed.

Lemma get_class_with_sbmem m s hp c : get_class (with_sbmem m s) hp c = get_class s hp c.
Proof. done. Qed.
Lemma get_class_with_blkmem m s hp c : get_class (with_blkmem m s) hp c = get_class s hp c.
Proof. done. Qed.

(** *** Composition of two-state properties *)

Lemma preserves_bind {A B} (R : state → state → Prop) `{!Transitive R}
      (m : M A) (f : A → M B) :
  preserves R m → (∀ a, preserves R (f a)) → preserves R (bind m f).
Proof.
  intros Hm Hf s b s' H. apply bind_Ok in H as (a & s1 & H1 & H2).
  etrans; [eapply Hm | eapply Hf]; eauto.
Qed.

Lemma preserves_ret {A} (R : state → state → Prop) `{!Reflexive R} (a : A) :
  preserves R (ret a).
Proof. intros s b s' H. apply ret_Ok in H as [_ ->]. done. Qed.

Lemma preserves_fault {A} (R : state → state → Prop) : preserves R (@fault A).
Proof. intros s b s' H. discriminate. Qed.

Lemma preserves_blocked {A} (R : state → state → Prop) : preserves R (@blocked A).
Proof. intros s b s' H. discriminate. Qed.

Lemma preserves_timeout {A} (R : state → state → Prop) : preserves R (@timeout A).
Proof. intros s b s' H. discriminate. Qed.

Lemma preserves_when (R : state → state → Prop) `{!Reflexive R} (b : bool) (m : M unit) :
  preserves R m → preserves R (when b m).
Proof. intros H. destruct b; [done | by apply preserves_ret]. Qed.

Lemma preserves_load_sb (R : state → state → Prop) `{!Reflexive R} p :
  preserves R (load_sb p).
Proof. intros s b s' H. apply load_sb_Ok in H as (-> & _). done. Qed.

Lemma preserves_load_blk (R : state → state → Prop) `{!Reflexive R} p :
  preserves R (load_blk p).
Proof. intros s b s' H. apply load_blk_Ok in H as (-> & _). done. Qed.

Lemma preserves_load_class (R : state → state → Prop) `{!Reflexive R} hp c :
  preserves R (load_class hp c).
Proof. intros s b s' H. apply load_class_Ok in H as (-> & _). done. Qed.

Lemma preserves_lift_option {A} (R : state → state → Prop) `{!Reflexive R} (o : option A) :
  preserves R (lift_option o).
Proof. intros s b s' H. apply lift_option_Ok in H as (_ & ->). done. Qed.

(** Splits a goal [preserves R m] along the structure of [m]. *)
Ltac preserves_step :=
  lazymatch goal with
  | |- preserves _ (bind _ _) => apply preserves_bind; [tc_solve | | intros ?]
  | |- preserves _ (ret _) => apply preserves_ret; tc_solve
  | |- preserves _ fault => apply preserves_fault
  | |- preserves _ blocked => apply preserves_blocked
  | |- preserves _ timeout => apply preserves_timeout
  | |- preserves _ (when _ _) => apply preserves_when; [tc_solve | ]
  | |- preserves _ (load_sb _) => apply preserves_load_sb; tc_solve
  | |- preserves _ (load_blk _) => apply preserves_load_blk; tc_solve
  | |- preserves _ (load_class _ _) => apply preserves_load_class; tc_solve
  | |- preserves _ (lift_option _) => apply preserves_lift_option; tc_solve
  | |- preserves _ (if ?b then _ else _) => destruct b
  | |- preserves _ (let _ := _ in _) => cbv zeta
  end.

(** ** What [free] leaves alone (C10) *)

Global Instance free_frame_refl b0 : Reflexive (free_frame b0).
Proof. intros s. unfold free_frame. naive_solver. Qed.

Global Instance free_frame_trans b0 : Transitive (free_frame b0).
Proof.
  intros s1 s2 s3 (A1 & A2 & A3 & A4 & A5 & A6) (B1 & B2 & B3 & B4 & B5 & B6).
  unfold free_frame. split_and!.
  - intros q Hq. rewrite B1, A1; done.
  - intros b Hb. destruct (A2 _ Hb) as (b' & Hb' & E1 & E2).
    destruct (B2 _ Hb') as (b'' & Hb'' & E3 & E4). exists b''. split_and!; congruence.
  - intros a h Hh. destruct (A3 _ _ Hh) as (h' & Hh' & E1).
    destruct (B3 _ _ Hh') as (h'' & Hh'' & E2). exists h''. split; congruence.
  - intros hp c x Hx. destruct (A4 _ _ _ Hx) as (x' & Hx' & E1).
    destruct (B4 _ _ _ Hx') as (x'' & Hx'' & E2). exists x''. split; congruence.
  - congruence.
  - congruence.
Qed.












(** ** Linked segments of superblocks *)

Lemma dseg_frame m m' p l n :
  (∀ a, a ∈ l → m' !! a = m !! a) → dseg m p l n → dseg m' p l n.
Proof.
  revert p. induction l as [|a l IH]; intros p Hm; simpl; [done|].
  intros (Ha & (h & Hh & Hp & Hn) & Hl). split_and!; [done| |].
  - exists h. rewrite Hm by set_solver. done.
  - apply IH; [|done]. intros b Hb. apply Hm. set_solver.
Qed.

Lemma dseg_links_frame m m' p l n :
  (∀ a, a ∈ l → ∃ h h', m !! a = Some h ∧ m' !! a = Some h'
                        ∧ sb_next h' = sb_next h ∧ sb_prev h' = sb_prev h) →
  dseg m p l n → dseg m' p l n.
Proof.
  revert p. induction l as [|a l IH]; intros p Hm; simpl; [done|].
  intros (Ha & (h & Hh & Hp & Hn) & Hl). split_and!; [done| |].
  - destruct (Hm a) as (h1 & h' & E1 & E2 & E3 & E4); [set_solver|].
    exists h'. split; [done|]. assert (h1 = h) as -> by congruence. split; congruence.
  - apply IH; [|done]. intros b Hb. apply Hm. set_solver.
Qed.

Lemma dseg_app m p l1 l2 n :
  dseg m p (l1 ++ l2) n ↔
  dseg m p l1 (default n (head l2)) ∧ dseg m (default p (last l1)) l2 n.
Proof.
  revert p. induction l1 as [|a l1 IH]; intros p; simpl.
  - tauto.
  - rewrite IH, head_app.
    replace (default p (last (a :: l1))) with (default a (last l1))
      by (rewrite last_cons; destruct (last l1); done).
    destruct (head l1); simpl; tauto.
Qed.

Lemma dseg_not_null m p l n a : dseg m p l n → a ∈ l → a ≠ 0.
Proof.
  revert p. induction l as [|b l IH]; intros p; simpl; [set_solver|].
  intros (Hb & _ & Hl) [->|Ha]%elem_of_cons; eauto.
Qed.

Lemma dseg_lookup m p l n a : dseg m p l n → a ∈ l → is_Some (m !! a).
Proof.
  revert p. induction l as [|b l IH]; intros p; simpl; [set_solver|].
  intros (Hb & (h & Hh & _) & Hl) [->|Ha]%elem_of_cons; eauto.
Qed.

(** Changing the successor of the last element of a segment. *)
Lemma dseg_set_next_last m p l z h n n' :
  NoDup (l ++ [z]) → m !! z = Some h →
  dseg m p (l ++ [z]) n →
  dseg (<[z := set_sb_next n' h]> m) p (l ++ [z]) n'.
Proof.
  intros Hnd Hz. revert p. induction l as [|a l IH]; intros p; simpl.
  - intros (Ha & (h0 & Hh0 & Hp & Hn) & _). split_and!; [done| |done].
    rewrite lookup_insert_eq. eexists. split; [done|]. simpl.
    assert (h0 = h) as -> by congruence. done.
  - intros (Ha & (h0 & Hh0 & Hp & Hn) & Hl).
    simpl in Hnd. apply NoDup_cons in Hnd as [Hnotin Hnd].
    split_and!; [done| |by apply IH].
    rewrite lookup_insert_ne by set_solver.
    exists h0. split_and!; [done|done|].
    rewrite Hn. rewrite !head_app. destruct (head l); done.
Qed.

(** Changing the predecessor of the first element of a segment. *)
Lemma dseg_set_prev_head m p l z h n p' :
  NoDup (z :: l) → m !! z = Some h →
  dseg m p (z :: l) n →
  dseg (<[z := set_sb_prev p' h]> m) p' (z :: l) n.
Proof.
  intros [Hnotin Hnd]%NoDup_cons Hz. simpl.
  intros (Ha & (h0 & Hh0 & Hp & Hn) & Hl). split_and!; [done| |].
  - rewrite lookup_insert_eq. eexists. split; [done|].
    assert (h0 = h) as -> by congruence. done.
  - eapply dseg_frame; [|done]. intros a Ha'. rewrite lookup_insert_ne; [done|set_solver].
Qed.

(** *** Forward execution of the primitive steps *)

Lemma run_load_sb {B} p h (f : superblockHeader → M B) s :
  sbmem s !! p = Some h → p ≠ 0 → bind (load_sb p) f s = f h s.
Proof.
  intros Hh Hp. unfold bind, load_sb. rewrite Hh.
  destruct (Z.eqb_spec p 0); done.
Qed.

Lemma run_load_blk {B} p h (f : blockHeader → M B) s :
  blkmem s !! p = Some h → p ≠ 0 → bind (load_blk p) f s = f h s.
Proof.
  intros Hh Hp. unfold bind, load_blk. rewrite Hh.
  destruct (Z.eqb_spec p 0); done.
Qed.

Lemma run_store_sb {B} p g (f : unit → M B) s :
  p ≠ 0 →
  bind (store_sb p g) f s =
  f tt (with_sbmem (<[p := g (default zero_superblock (sbmem s !! p))]> (sbmem s)) s).
Proof. intros Hp. unfold bind, store_sb. destruct (Z.eqb_spec p 0); done. Qed.

Lemma run_store_blk {B} p g (f : unit → M B) s :
  p ≠ 0 →
  bind (store_blk p g) f s =
  f tt (with_blkmem (<[p := g (default zero_block (blkmem s !! p))]> (blkmem s)) s).
Proof. intros Hp. unfold bind, store_blk. destruct (Z.eqb_spec p 0); done. Qed.

Lemma run_load_class {B} hp c x (f : sizeClass → M B) s :
  get_class s hp c = Some x → bind (load_class hp c) f s = f x s.
Proof. intros Hx. unfold bind, load_class. by rewrite Hx. Qed.

Lemma run_store_class {B} hp c x g (f : unit → M B) s :
  get_class s hp c = Some x →
  bind (store_class hp c g) f s = f tt (put_class hp c (g x) s).
Proof. intros Hx. unfold bind, store_class. by rewrite Hx. Qed.

Lemma run_ret {A B} (a : A) (f : A → M B) s : bind (ret a) f s = f a s.
Proof. done. Qed.

Lemma run_when_false {B} (m : M unit) (f : unit → M B) s :
  bind (when false m) f s = f tt s.
Proof. done. Qed.

Lemma run_when_true {B} (m : M unit) (f : unit → M B) s :
  bind (when true m) f s = bind m f s.
Proof. done. Qed.

Lemma store_sb_run p g s :
  p ≠ 0 →
  store_sb p g s =
  Ok tt (with_sbmem (<[p := g (default zero_superblock (sbmem s !! p))]> (sbmem s)) s).
Proof. intros Hp. unfold store_sb. destruct (Z.eqb_spec p 0); done. Qed.

Lemma store_class_run hp c x g s :
  get_class s hp c = Some x →
  store_class hp c g s = Ok tt (put_class hp c (g x) s).
Proof. intros Hx. unfold store_class. by rewrite Hx. Qed.

Lemma with_sbmem_same s : with_sbmem (sbmem s) s = s.
Proof. by destruct s. Qed.

Lemma put_class_same s hp c x : get_class s hp c = Some x → put_class hp c x s = s.
Proof.
  intros H. unfold get_class in H. unfold put_class.
  destruct ((0 <=? hp) && (hp <? NUM_OF_HEAPS) && (0 <=? c) && (c <? NUM_OF_CLASSES)); [|done].
  destruct (heaps s !! Z.to_nat hp) as [h0|] eqn:Eh; [|done]. simpl in H.
  destruct s as [i hs sm bm bs ol]. unfold with_heaps. simpl in *. f_equal.
  apply list_eq. intros k. destruct (decide (k = Z.to_nat hp)) as [->|Hne].
  - rewrite list_lookup_alter_eq, Eh. simpl. rewrite list_insert_id by done. by destruct h0.
  - by rewrite list_lookup_alter_ne.
Qed.

(** Projections of updated states. *)
Lemma sbmem_put_class hp c x s : sbmem (put_class hp c x s) = sbmem s.
Proof. done. Qed.
Lemma blkmem_put_class hp c x s : blkmem (put_class hp c x s) = blkmem s.
Proof. done. Qed.

(** *** Conditional header writes *)

Lemma wr_lookup_ne p g m a : a ≠ p → wr p g m !! a = m !! a.
Proof. intros H. unfold wr. destruct (p =? 0); [done|]. by rewrite lookup_insert_ne. Qed.

Lemma wr_lookup_eq p g m h :
  p ≠ 0 → m !! p = Some h → wr p g m !! p = Some (g h).
Proof.
  intros Hp Hh. unfold wr. destruct (Z.eqb_spec p 0); [done|].
  by rewrite lookup_insert_eq, Hh.
Qed.

Lemma wr_null g m : wr 0 g m = m.
Proof. done. Qed.

Lemma run_when_store_sb {B} p g (f : unit → M B) s :
  bind (when (negb (p =? 0)) (store_sb p g)) f s =
  f tt (with_sbmem (wr p g (sbmem s)) s).
Proof.
  unfold wr, when. destruct (Z.eqb_spec p 0) as [->|Hp]; cbn [negb].
  - rewrite run_ret. by rewrite with_sbmem_same.
  - by rewrite run_store_sb.
Qed.

Lemma run_store_sb_wr {B} p g (f : unit → M B) s :
  p ≠ 0 → bind (store_sb p g) f s = f tt (with_sbmem (wr p g (sbmem s)) s).
Proof.
  intros Hp. rewrite run_store_sb by done. unfold wr.
  destruct (Z.eqb_spec p 0); done.
Qed.

Lemma run_when_store_class {B} (b : bool) hp c x g (f : unit → M B) s :
  get_class s hp c = Some x →
  bind (when b (store_class hp c g)) f s =
  f tt (put_class hp c (if b then g x else x) s).
Proof.
  intros Hx. unfold when. destruct b.
  - by apply run_store_class.
  - rewrite run_ret. by rewrite put_class_same.
Qed.

Lemma when_store_class_run (b : bool) hp c x g s :
  get_class s hp c = Some x →
  when b (store_class hp c g) s = Ok tt (put_class hp c (if b then g x else x) s).
Proof.
  intros Hx. destruct b; simpl.
  - by apply store_class_run.
  - by rewrite put_class_same.
Qed.

Global Instance links_only_refl : Reflexive links_only.
Proof. intros m a. done. Qed.

Global Instance links_only_trans : Transitive links_only.
Proof.
  intros m1 m2 m3 H1 H2 a. destruct (H1 a), (H2 a). split; congruence.
Qed.

Lemma links_only_wr p g m :
  (∀ h, sb_data (g h) = sb_data h ∧ sb_lock (g h) = sb_lock h) →
  (p ≠ 0 → is_Some (m !! p)) →
  links_only m (wr p g m).
Proof.
  intros Hg Hp a. unfold wr. destruct (Z.eqb_spec p 0) as [->|Hne]; [done|].
  destruct (Hp Hne) as [h Hh].
  destruct (decide (a = p)) as [->|Hap].
  - rewrite lookup_insert_eq, Hh. simpl. destruct (Hg h) as [-> ->]. done.
  - by rewrite lookup_insert_ne.
Qed.

Lemma dseg_wr_next_last m p l n n' :
  NoDup l → dseg m p l n →
  dseg (wr (default 0 (last l)) (set_sb_next n') m) p l n'.
Proof.
  intros Hnd Hseg. destruct l as [|z l _] using rev_ind; [done|].
  rewrite last_snoc. simpl.
  assert (z ∈ l ++ [z]) as Hin by (apply elem_of_app; right; by left).
  assert (z ≠ 0) as Hz by (eapply dseg_not_null; done).
  destruct (dseg_lookup _ _ _ _ z Hseg) as [h Hh]; [done|].
  unfold wr. destruct (Z.eqb_spec z 0); [done|]. rewrite Hh. simpl.
  by eapply dseg_set_next_last.
Qed.

Lemma dseg_wr_prev_head m p l n p' :
  NoDup l → dseg m p l n →
  dseg (wr (default 0 (head l)) (set_sb_prev p') m) p' l n.
Proof.
  intros Hnd Hseg. destruct l as [|z l]; [done|].
  change (default 0 (head (z :: l))) with z.
  assert (z ≠ 0) as Hz by (eapply dseg_not_null; [done|by left]).
  destruct (dseg_lookup _ _ _ _ z Hseg) as [h Hh]; [by left|].
  unfold wr. destruct (Z.eqb_spec z 0); [done|]. rewrite Hh.
  by eapply dseg_set_prev_head.
Qed.

Lemma last_elem_or_null (l : list Z) : default 0 (last l) = 0 ∧ l = [] ∨ default 0 (last l) ∈ l.
Proof.
  destruct l as [|z l _] using rev_ind; [by left|]. right.
  rewrite last_snoc. apply elem_of_app. right. by left.
Qed.

Lemma head_elem_or_null (l : list Z) : default 0 (head l) = 0 ∧ l = [] ∨ default 0 (head l) ∈ l.
Proof. destruct l as [|z l]; [by left|]. right. by left. Qed.

Lemma with_sbmem_with_sbmem m1 m2 s : with_sbmem m1 (with_sbmem m2 s) = with_sbmem m1 s.
Proof. done. Qed.

Lemma with_blkmem_with_blkmem m1 m2 s : with_blkmem m1 (with_blkmem m2 s) = with_blkmem m1 s.
Proof. done. Qed.

Lemma run_store_sb_at {B} p h g (f : unit → M B) s :
  sbmem s !! p = Some h → p ≠ 0 →
  bind (store_sb p g) f s = f tt (with_sbmem (<[p := g h]> (sbmem s)) s).
Proof. intros Hh Hp. rewrite run_store_sb by done. by rewrite Hh. Qed.

Lemma run_store_blk_at {B} p h g (f : unit → M B) s :
  blkmem s !! p = Some h → p ≠ 0 →
  bind (store_blk p g) f s = f tt (with_blkmem (<[p := g h]> (blkmem s)) s).
Proof. intros Hh Hp. rewrite run_store_blk by done. by rewrite Hh. Qed.

(** ** Relinking operations on class lists *)

Lemma sb_data_set_next v h : sb_data (set_sb_next v h) = sb_data h ∧ sb_lock (set_sb_next v h) = sb_lock h.
Proof. done. Qed.
Lemma sb_data_set_prev v h : sb_data (set_sb_prev v h) = sb_data h ∧ sb_lock (set_sb_prev v h) = sb_lock h.
Proof. done. Qed.

Lemma links_frame_refl hp c l s : links_frame hp c l s s.
Proof. unfold links_frame. split_and!; done. Qed.

Lemma links_frame_trans hp c l s1 s2 s3 :
  links_frame hp c l s1 s2 → links_frame hp c l s2 s3 → links_frame hp c l s1 s3.
Proof.
  intros (A1 & A2 & A3 & A4 & A5 & A6 & A7 & A8 & A9 & A10)
         (B1 & B2 & B3 & B4 & B5 & B6 & B7 & B8 & B9 & B10).
  unfold links_frame. split_and!.
  1-4: congruence.
  - intros a Ha. rewrite B5, A5; done.
  - intros a. rewrite B6, A6; done.
  - intros a. rewrite B7, A7; done.
  - intros hp' c' H. rewrite B8, A8; done.
  - intros hp' c'. rewrite B9, A9; done.
  - intros hp' c'. rewrite B10, A10; done.
Qed.

Lemma links_frame_perm hp c l l' s s' :
  (∀ a, a ∈ l ↔ a ∈ l') → links_frame hp c l s s' → links_frame hp c l' s s'.
Proof.
  intros Hl (A1 & A2 & A3 & A4 & A5 & A6 & A7 & A8 & A9 & A10).
  unfold links_frame. split_and!; try done.
  intros a Ha. apply A5. by rewrite Hl.
Qed.

Lemma wr_lookup_notin p g m a : (p ≠ 0 → a ≠ p) → wr p g m !! a = m !! a.
Proof.
  intros H. unfold wr. destruct (Z.eqb_spec p 0); [done|]. rewrite lookup_insert_ne; [done|].
  intros ->. by apply H.
Qed.

Lemma links_only_insert m p h h' :
  m !! p = Some h → sb_data h' = sb_data h → sb_lock h' = sb_lock h →
  links_only m (<[p := h']> m).
Proof.
  intros Hh Hd Hl a. destruct (decide (a = p)) as [->|Hne].
  - rewrite lookup_insert_eq, Hh. simpl. by rewrite Hd, Hl.
  - by rewrite lookup_insert_ne.
Qed.

Lemma swap_superblocks_spec hp c pre x y post s s' :
  class_links s hp c (pre ++ x :: y :: post) →
  swap_superblocks hp c x s = Ok tt s' →
  class_links s' hp c (pre ++ y :: x :: post)
  ∧ links_frame hp c (pre ++ x :: y :: post) s s'.
Proof.
  intros (cx & Hc & Hnd & Hseg & Hhd & Htl) Hrun.
  apply dseg_app in Hseg as [Hpre Hrest].
  change (default 0 (head (x :: y :: post))) with x in Hpre.
  destruct Hrest as (Hx0 & (hx & Hhx & Hxp & Hxn) & (Hy0 & (hy & Hhy & Hyp & Hyn) & Hpost)).
  change (default 0 (head (y :: post))) with y in Hxn.
  set (m := sbmem s) in *.
  set (p0 := default 0 (last pre)) in *. set (n0 := default 0 (head post)) in *.
  apply NoDup_app in Hnd as (Hndpre & Hdisj & Hnd).
  apply NoDup_cons in Hnd as (Hxnotin & Hnd).
  apply NoDup_cons in Hnd as (Hynotin & Hndpost).
  assert (x ≠ y) as Hxy by (intros ->; apply Hxnotin; by left).
  assert (x ∉ pre) as Hxpre by (intros H; eapply Hdisj; [done|by left]).
  assert (y ∉ pre) as Hypre by (intros H; eapply Hdisj; [done|right; by left]).
  assert (x ∉ post) as Hxpost by (intros H; apply Hxnotin; by right).
  assert (p0 ≠ x ∧ p0 ≠ y ∧ (p0 ≠ 0 → p0 ∈ pre)) as (Hp0x & Hp0y & Hp0in).
  { destruct (last_elem_or_null pre) as [[E _]|Hin]; fold p0 in E || fold p0 in Hin.
    - rewrite E. done.
    - split_and!; [intros E; by rewrite E in Hin..|done]. }
  assert (n0 ≠ x ∧ n0 ≠ y ∧ (n0 ≠ 0 → n0 ∈ post)) as (Hn0x & Hn0y & Hn0in).
  { destruct (head_elem_or_null post) as [[E _]|Hin]; fold n0 in E || fold n0 in Hin.
    - rewrite E. done.
    - split_and!; [intros E; by rewrite E in Hin..|done]. }
  assert (p0 ≠ 0 → n0 ≠ p0) as Hn0p0.
  { intros Hp E. eapply Hdisj; [by apply Hp0in|]. rewrite <-E. do 2 right. apply Hn0in. congruence. }
  set (m1 := wr p0 (set_sb_next y) m).
  set (m2 := wr n0 (set_sb_prev x) m1).
  assert (m2 !! x = Some hx) as Hm2x by (unfold m2, m1; by rewrite !wr_lookup_ne).
  assert (m2 !! y = Some hy) as Hm2y by (unfold m2, m1; by rewrite !wr_lookup_ne).
  set (hx' := set_sb_prev y (set_sb_next n0 hx)).
  set (hy' := set_sb_prev p0 (set_sb_next x hy)).
  set (M := <[y := hy']> (<[x := hx']> m2)).
  set (cx1 := if sc_head cx =? x then set_sc_head y cx else cx).
  set (cx2 := if sc_tail cx1 =? y then set_sc_tail x cx1 else cx1).
  assert (s' = put_class hp c cx2 (put_class hp c cx1 (with_sbmem M s))) as ->.
  { revert Hrun. unfold swap_superblocks.
    rewrite (run_load_sb x hx) by done. cbv zeta. rewrite Hxn.
    destruct (Z.eqb_spec y 0) as [?|_]; [done|].
    rewrite Hxp. rewrite run_when_store_sb. fold m m1.
    rewrite (run_load_sb y hy); [|simpl; unfold m1; rewrite wr_lookup_ne by done; done|done].
    rewrite Hyn. rewrite run_when_store_sb. simpl sbmem. fold m2.
    rewrite with_sbmem_with_sbmem.
    rewrite (run_load_sb x hx) by done.
    rewrite (run_load_sb y hy) by done.
    rewrite Hxp, Hyn.
    rewrite (run_store_sb_at x hx) by done. simpl sbmem. rewrite with_sbmem_with_sbmem.
    rewrite (run_store_sb_at x (set_sb_next n0 hx)) by (simpl; by rewrite ?lookup_insert_eq).
    simpl sbmem. rewrite with_sbmem_with_sbmem, insert_insert_eq. fold hx'.
    rewrite (run_store_sb_at y hy) by (simpl; by rewrite ?lookup_insert_ne).
    simpl sbmem. rewrite with_sbmem_with_sbmem.
    rewrite (run_store_sb_at y (set_sb_next x hy)) by (simpl; by rewrite ?lookup_insert_eq).
    simpl sbmem. rewrite with_sbmem_with_sbmem, insert_insert_eq. fold hy' M.
    rewrite (run_load_class hp c cx) by done.
    rewrite (run_when_store_class _ hp c cx) by done. fold cx1.
    erewrite (run_load_class hp c) by (by eapply get_class_put_eq).
    erewrite when_store_class_run by (by eapply get_class_put_eq).
    fold cx2. intros [= <-]. done. }
  clear Hrun.
  assert (∀ a, a ∈ pre → a ≠ 0) as Hpre0 by (intros a Ha; eapply dseg_not_null; [exact Hpre|done]).
  assert (∀ a, a ∈ post → a ≠ 0) as Hpost0 by (intros a Ha; eapply dseg_not_null; [exact Hpost|done]).
  assert (∀ a, a ∈ pre → a ≠ n0) as Hpren0.
  { intros a Ha E. destruct (decide (n0 = 0)) as [E0|Hn]; [apply (Hpre0 a Ha); congruence|].
    eapply Hdisj; [done|]. do 2 right. rewrite E. by apply Hn0in. }
  assert (∀ a, a ∈ post → a ≠ p0) as Hpostp0.
  { intros a Ha E. destruct (decide (p0 = 0)) as [E0|Hn]; [apply (Hpost0 a Ha); congruence|].
    eapply Hdisj; [by apply Hp0in|]. do 2 right. by rewrite <-E. }
  assert (get_class (put_class hp c cx1 (with_sbmem M s)) hp c = Some cx1) as Hc1
    by (by eapply get_class_put_eq).
  split.
  - exists cx2. split_and!.
    + by eapply get_class_put_eq.
    + apply NoDup_app. split_and!; [done| |].
      * intros a Ha [->|[->|Hin]%elem_of_cons]%elem_of_cons; [done|done|].
        eapply Hdisj; [done|]. by do 2 right.
      * apply NoDup_cons. split; [|apply NoDup_cons; split; done].
        intros [?|?]%elem_of_cons; done.
    + simpl sbmem. apply dseg_app. split.
      * change (default 0 (head (y :: x :: post))) with y.
        eapply (dseg_frame m1).
        { intros a Ha. unfold M, m2.
          rewrite !lookup_insert_ne by (intros ->; done).
          rewrite wr_lookup_ne by (by apply Hpren0). done. }
        unfold m1, p0. eapply dseg_wr_next_last; [done|exact Hpre].
      * fold p0. simpl. split_and!; [done| | done | |].
        -- exists hy'. unfold M. rewrite lookup_insert_eq. done.
        -- exists hx'. unfold M. rewrite lookup_insert_ne, lookup_insert_eq by done. done.
        -- eapply (dseg_frame m2).
           { intros a Ha. unfold M. rewrite !lookup_insert_ne by (intros ->; done). done. }
           unfold m2, n0. eapply dseg_wr_prev_head; [done|].
           eapply (dseg_frame m); [|done].
           intros a Ha. unfold m1. rewrite wr_lookup_ne by (by apply Hpostp0). done.
    + unfold cx2. rewrite head_app in Hhd |- *.
      assert (sc_head cx1 = default 0 (match head pre with Some z => Some z | None => Some y end)) as E.
      { unfold cx1. destruct pre as [|z pre']; simpl in *.
        - rewrite Hhd, Z.eqb_refl. done.
        - destruct (Z.eqb_spec (sc_head cx) x) as [E|_]; [|done].
          exfalso. apply Hxpre. rewrite <-E, Hhd. by left. }
      destruct (sc_tail cx1 =? y); simpl; rewrite E; by destruct (head pre).
    + unfold cx2. rewrite last_app_cons, last_cons_cons, last_cons in Htl |- *.
      assert (sc_tail cx1 = sc_tail cx) as E by (unfold cx1; by destruct (sc_head cx =? x)).
      rewrite E.
      destruct (last post) as [z|] eqn:El; simpl in *.
      * destruct (Z.eqb_spec (sc_tail cx) y) as [E2|_]; simpl; [|congruence].
        exfalso. apply Hynotin. rewrite <-E2, Htl. by eapply last_Some_elem_of.
      * rewrite Htl, Z.eqb_refl. done.
  - assert (links_only m M) as Hlo.
    { etrans; [apply (links_only_wr p0 (set_sb_next y)); [apply sb_data_set_next|]|].
      { intros Hp. eapply dseg_lookup; [exact Hpre|by apply Hp0in]. }
      fold m1.
      etrans; [apply (links_only_wr n0 (set_sb_prev x)); [apply sb_data_set_prev|]|].
      { intros Hn. unfold m1. rewrite wr_lookup_ne by (by apply Hpostp0, Hn0in).
        eapply dseg_lookup; [exact Hpost|by apply Hn0in]. }
      fold m2.
      etrans; [by apply (links_only_insert m2 x hx hx')|].
      apply (links_only_insert _ y hy hy'); [|done..].
      by rewrite lookup_insert_ne. }
    unfold links_frame. split_and!; try done.
    + intros a Ha. simpl. unfold M, m2, m1.
      assert (a ≠ x ∧ a ≠ y) as [? ?].
      { split; intros ->; apply Ha; apply elem_of_app; right; [by left|right; by left]. }
      rewrite !lookup_insert_ne by done.
      rewrite !wr_lookup_notin; [done| |].
      * intros Hp ->. apply Ha. apply elem_of_app. left. by apply Hp0in.
      * intros Hn ->. apply Ha. apply elem_of_app. right. do 2 right. by apply Hn0in.
    + intros a. apply Hlo.
    + intros a. apply Hlo.
    + intros hp' c' Hne.
      rewrite (get_class_put_ne _ hp c cx1) by done.
      rewrite (get_class_put_ne _ hp c cx) by done. done.
    + intros hp' c'. rewrite (get_class_put _ hp c cx1) by done.
      rewrite (get_class_put _ hp c cx) by done.
      case_decide as D; [|done]. destruct D as [-> ->]. rewrite Hc.
      simpl. f_equal. unfold cx2, cx1.
      by destruct (sc_head cx =? x), (sc_tail _ =? y).
    + intros hp' c'. rewrite (get_class_put _ hp c cx1) by done.
      rewrite (get_class_put _ hp c cx) by done.
      case_decide as D; [|done]. destruct D as [-> ->]. rewrite Hc.
      simpl. f_equal. unfold cx2, cx1.
      by destruct (sc_head cx =? x), (sc_tail _ =? y).
Qed.

Lemma class_links_lookup s hp c pre x post :
  class_links s hp c (pre ++ x :: post) →
  x ≠ 0 ∧ ∃ h, sbmem s !! x = Some h
               ∧ sb_prev h = default 0 (last pre)
               ∧ sb_next h = default 0 (head post).
Proof.
  intros (cx & Hc & Hnd & Hseg & Hhd & Htl).
  apply dseg_app in Hseg as [_ (Hx & (h & Hh & Hp & Hn) & _)]. eauto.
Qed.

Lemma used_of_links_only m m' a : links_only m m' → used_of m' a = used_of m a.
Proof.
  intros H. destruct (H a) as [Hd _]. unfold used_of.
  destruct (m' !! a) as [h'|], (m !! a) as [h|]; simpl in *; try done.
  by injection Hd as -> _ _ _.
Qed.

Lemma links_frame_links_only hp c l s s' :
  links_frame hp c l s s' → links_only (sbmem s) (sbmem s').
Proof. intros (A1 & A2 & A3 & A4 & A5 & A6 & A7 & _) a. split; [apply A6 | apply A7]. Qed.

Lemma used_of_lookup m a h : m !! a = Some h → used_of m a = sb_usedBlocks h.
Proof. intros H. unfold used_of. by rewrite H. Qed.

Ltac solve_elem_iff :=
  intros; repeat (rewrite elem_of_app || rewrite elem_of_cons);
  rewrite ?elem_of_nil; tauto.

Lemma elem_of_snoc_mid (pre : list Z) x y post a :
  a ∈ (pre ++ [y]) ++ x :: post ↔ a ∈ pre ++ x :: y :: post.
Proof.
  repeat (rewrite elem_of_app || rewrite elem_of_cons). rewrite elem_of_nil. tauto.
Qed.

Lemma elem_of_swap_mid (pre : list Z) x y post a :
  a ∈ pre ++ y :: x :: post ↔ a ∈ pre ++ x :: y :: post.
Proof.
  repeat (rewrite elem_of_app || rewrite elem_of_cons). tauto.
Qed.

Lemma bubble_to_tail_spec fuel hp c : ∀ pre x post s s',
  class_links s hp c (pre ++ x :: post) →
  bubble_to_tail fuel hp c x s = Ok tt s' →
  ∃ post1 post2,
    post = post1 ++ post2
    ∧ class_links s' hp c (pre ++ post1 ++ x :: post2)
    ∧ (∀ y, y ∈ post1 → used_of (sbmem s) x < used_of (sbmem s) y)
    ∧ (∀ y, head post2 = Some y → used_of (sbmem s) y <= used_of (sbmem s) x)
    ∧ links_frame hp c (pre ++ x :: post) s s'.
Proof.
  induction fuel as [|fuel IH]; intros pre x post s s' Hl Hrun; [done|].
  simpl in Hrun.
  destruct (class_links_lookup _ _ _ _ _ _ Hl) as (Hx0 & hx & Hhx & Hxp & Hxn).
  rewrite (run_load_sb x hx) in Hrun by done. rewrite Hxn in Hrun.
  destruct post as [|y post].
  { simpl in Hrun. injection Hrun as <-. exists [], [].
    split_and!; try done; by intros y ?%elem_of_nil. }
  change (default 0 (head (y :: post))) with y in Hrun.
  destruct (class_links_lookup s hp c (pre ++ [x]) y post) as (Hy0 & hy & Hhy & Hyp & Hyn).
  { by rewrite <-app_assoc. }
  destruct (Z.eqb_spec y 0) as [?|_]; [done|].
  rewrite (run_load_sb y hy) in Hrun by done.
  destruct (Z.ltb_spec (sb_usedBlocks hx) (sb_usedBlocks hy)) as [Hlt|Hge].
  - apply bind_Ok in Hrun as ([] & s1 & Hswap & Hrun).
    destruct (swap_superblocks_spec _ _ _ _ _ _ _ _ Hl Hswap) as [Hl1 Hf1].
    replace (pre ++ y :: x :: post) with ((pre ++ [y]) ++ x :: post) in Hl1
      by (by rewrite <-app_assoc).
    destruct (IH _ _ _ _ _ Hl1 Hrun) as (post1 & post2 & -> & Hl2 & Hgt & Hle & Hf2).
    pose proof (links_frame_links_only _ _ _ _ _ Hf1) as Hlo.
    exists (y :: post1), post2. split_and!.
    + done.
    + by rewrite <-app_assoc in Hl2.
    + intros z [->|Hz]%elem_of_cons.
      * rewrite (used_of_lookup _ _ _ Hhx), (used_of_lookup _ _ _ Hhy). done.
      * rewrite <-!(used_of_links_only _ _ _ Hlo). by apply Hgt.
    + intros z Hz. rewrite <-!(used_of_links_only _ _ _ Hlo). by apply Hle.
    + eapply links_frame_trans; [done|].
      eapply links_frame_perm; [|done]. intros a. apply elem_of_snoc_mid.
  - injection Hrun as <-. exists [], (y :: post).
    split_and!; try done; try (by intros z ?%elem_of_nil).
    intros z [= <-]. rewrite (used_of_lookup _ _ _ Hhx), (used_of_lookup _ _ _ Hhy). done.
Qed.

Lemma bubble_to_head_spec fuel hp c : ∀ pre x post s s',
  class_links s hp c (pre ++ x :: post) →
  bubble_to_head fuel hp c x s = Ok tt s' →
  ∃ pre1 pre2,
    pre = pre1 ++ pre2
    ∧ class_links s' hp c (pre1 ++ x :: pre2 ++ post)
    ∧ (∀ y, y ∈ pre2 → used_of (sbmem s) y < used_of (sbmem s) x)
    ∧ (∀ y, last pre1 = Some y → used_of (sbmem s) x <= used_of (sbmem s) y)
    ∧ links_frame hp c (pre ++ x :: post) s s'.
Proof.
  induction fuel as [|fuel IH]; intros pre x post s s' Hl Hrun; [done|].
  simpl in Hrun.
  destruct (class_links_lookup _ _ _ _ _ _ Hl) as (Hx0 & hx & Hhx & Hxp & Hxn).
  rewrite (run_load_sb x hx) in Hrun by done. rewrite Hxp in Hrun.
  destruct pre as [|p pre _] using rev_ind.
  { simpl in Hrun. injection Hrun as <-. exists [], [].
    split_and!; try done; by intros y ?%elem_of_nil. }
  rewrite last_snoc in Hrun. change (default 0 (Some p)) with p in Hrun.
  rewrite last_snoc in Hxp. change (default 0 (Some p)) with p in Hxp.
  destruct (class_links_lookup s hp c pre p (x :: post)) as (Hp0 & hp0 & Hhp & Hpp & Hpn).
  { by rewrite <-app_assoc in Hl. }
  destruct (Z.eqb_spec p 0) as [?|_]; [done|].
  rewrite (run_load_sb p hp0) in Hrun by done.
  destruct (Z.gtb_spec (sb_usedBlocks hx) (sb_usedBlocks hp0)) as [Hlt|Hge].
  - apply bind_Ok in Hrun as ([] & s1 & Hswap & Hrun).
    rewrite <-app_assoc in Hl. simpl in Hl.
    destruct (swap_superblocks_spec _ _ _ _ _ _ _ _ Hl Hswap) as [Hl1 Hf1].
    destruct (IH _ _ _ _ _ Hl1 Hrun) as (pre1 & pre2 & -> & Hl2 & Hgt & Hle & Hf2).
    pose proof (links_frame_links_only _ _ _ _ _ Hf1) as Hlo.
    exists pre1, (pre2 ++ [p]). split_and!.
    + by rewrite app_assoc.
    + by rewrite <-app_assoc.
    + intros z [Hz|Hz%list_elem_of_singleton]%elem_of_app.
      * rewrite <-!(used_of_links_only _ _ _ Hlo). by apply Hgt.
      * subst z. rewrite (used_of_lookup _ _ _ Hhx), (used_of_lookup _ _ _ Hhp). lia.
    + intros z Hz. rewrite <-!(used_of_links_only _ _ _ Hlo). by apply Hle.
    + eapply links_frame_trans.
      * eapply links_frame_perm; [|exact Hf1]. solve_elem_iff.
      * eapply links_frame_perm; [|exact Hf2]. solve_elem_iff.
  - injection Hrun as <-. exists (pre ++ [p]), [].
    split_and!; try done; try (by intros z ?%elem_of_nil).
    + by rewrite app_nil_r.
    + intros z Hz. rewrite last_snoc in Hz. injection Hz as <-.
      rewrite (used_of_lookup _ _ _ Hhx), (used_of_lookup _ _ _ Hhp). lia.
Qed.

(** ** Migration of a superblock *)

Lemma bind_assoc_run {A B C} (m : M A) (f : A → M B) (g : B → M C) s :
  bind (bind m f) g s = bind m (λ a, bind (f a) g) s.
Proof. unfold bind. destruct (m s); done. Qed.

Lemma run_if_store {B} (b : bool) (m1 m2 : M unit) (f : unit → M B) s :
  bind (if b then m1 else m2) f s = if b then bind m1 f s else bind m2 f s.
Proof. by destruct b. Qed.

Lemma move_superblock_unlink_push_eq fuel src dst c pre x post ld s :
  src ≠ dst →
  class_links s src c (pre ++ x :: post) →
  class_links s dst c ld →
  (∀ a, a ∈ ld → a ∉ pre ++ x :: post) →
  ∃ s1,
    class_links s1 src c (pre ++ post)
    ∧ class_links s1 dst c (x :: ld)
    ∧ links_only (sbmem s) (sbmem s1)
    ∧ (∀ a, a ∉ pre ++ x :: post ++ ld → sbmem s1 !! a = sbmem s !! a)
    ∧ blkmem s1 = blkmem s ∧ bytes s1 = bytes s ∧ os_log s1 = os_log s
    ∧ isInitialized s1 = isInitialized s
    ∧ (∀ hp' c', (hp', c') ≠ (src, c) → (hp', c') ≠ (dst, c) →
         get_class s1 hp' c' = get_class s hp' c')
    ∧ (∀ hp' c', sc_data <$> get_class s1 hp' c' = sc_data <$> get_class s hp' c')
    ∧ (∀ hp' c', sc_lock <$> get_class s1 hp' c' = sc_lock <$> get_class s hp' c')
    ∧ move_superblock fuel x src dst c s
      = (bubble_to_tail fuel dst c x ;;;
         store_sb x (set_parentHeap (Some dst)) ;;;
         h <- load_sb x ;;
         store_class src c (λ c, set_usedBlocks (wrap32 (usedBlocks c - sb_usedBlocks h)) c) ;;;
         store_class src c (λ c, set_numOfBlocks (wrap32 (numOfBlocks c - sb_numOfBlocks h)) c) ;;;
         store_class dst c (λ c, set_usedBlocks (wrap32 (usedBlocks c + sb_usedBlocks h)) c) ;;;
         store_class dst c (λ c, set_numOfBlocks (wrap32 (numOfBlocks c + sb_numOfBlocks h)) c))
          s1.
Proof.
  intros Hsd (cs & Hcs & Hnd & Hseg & Hhd & Htl) (cd & Hcd & Hndd & Hsegd & Hhdd & Htld) Hdisj.
  apply dseg_app in Hseg as [Hpre Hrest].
  change (default 0 (head (x :: post))) with x in Hpre.
  destruct Hrest as (Hx0 & (hx & Hhx & Hxp & Hxn) & Hpost).
  set (m := sbmem s) in *.
  set (p0 := default 0 (last pre)) in *. set (n0 := default 0 (head post)) in *.
  set (d0 := default 0 (head ld)) in *.
  apply NoDup_app in Hnd as (Hndpre & Hdisj1 & Hnd).
  apply NoDup_cons in Hnd as (Hxpost & Hndpost).
  assert (x ∉ pre) as Hxpre by (intros H; eapply Hdisj1; [done|by left]).
  assert (x ∉ ld) as Hxld.
  { intros H. eapply Hdisj; [done|]. apply elem_of_app. right. by left. }
  assert (∀ a, a ∈ pre → a ∉ post) as Hprepost.
  { intros a Ha Hb. eapply Hdisj1; [done|by right]. }
  assert (∀ a, a ∈ ld → a ∉ pre ∧ a ∉ post) as Hldsrc.
  { intros a Ha. split; intros Hb; eapply Hdisj; try done; apply elem_of_app;
      [by left|right; (by right)]. }
  assert (∀ a, a ∈ pre → a ≠ 0) as Hpre0 by (intros a Ha; eapply dseg_not_null; [exact Hpre|done]).
  assert (∀ a, a ∈ post → a ≠ 0) as Hpost0 by (intros a Ha; eapply dseg_not_null; [exact Hpost|done]).
  assert (∀ a, a ∈ ld → a ≠ 0) as Hld0 by (intros a Ha; eapply dseg_not_null; [exact Hsegd|done]).
  assert (p0 ≠ 0 → p0 ∈ pre) as Hp0in.
  { intros Hp. destruct (last_elem_or_null pre) as [[E _]|Hin]; [by fold p0 in E|done]. }
  assert (n0 ≠ 0 → n0 ∈ post) as Hn0in.
  { intros Hp. destruct (head_elem_or_null post) as [[E _]|Hin]; [by fold n0 in E|done]. }
  assert (d0 ≠ 0 → d0 ∈ ld) as Hd0in.
  { intros Hp. destruct (head_elem_or_null ld) as [[E _]|Hin]; [by fold d0 in E|done]. }
  assert (p0 ≠ x) as Hp0x.
  { intros E. destruct (decide (p0 = 0)); [congruence|]. apply Hxpre. rewrite <-E. auto. }
  assert (n0 ≠ x) as Hn0x.
  { intros E. destruct (decide (n0 = 0)); [congruence|]. apply Hxpost. rewrite <-E. auto. }
  assert (d0 ≠ x) as Hd0x.
  { intros E. destruct (decide (d0 = 0)); [congruence|]. apply Hxld. rewrite <-E. auto. }
  set (cs1 := if sc_head cs =? x then set_sc_head n0 cs else cs).
  set (cs2 := if sc_tail cs1 =? x then set_sc_tail p0 cs1 else cs1).
  set (m1 := wr n0 (set_sb_prev p0) m).
  set (m2 := wr p0 (set_sb_next n0) m1).
  set (hx' := set_sb_next d0 (set_sb_prev 0 hx)).
  set (m3 := <[x := hx']> m2).
  set (m4 := wr d0 (set_sb_prev x) m3).
  set (cd1 := if negb (d0 =? 0) then cd else set_sc_tail x cd).
  set (cd2 := set_sc_head x cd1).
  set (s1 := put_class dst c cd2 (put_class dst c cd1
               (with_sbmem m4 (put_class src c cs2 (put_class src c cs1 s))))).
  assert (get_class (put_class src c cs1 s) src c = Some cs1) as Hg1
    by (by eapply get_class_put_eq).
  assert (get_class (put_class src c cs2 (put_class src c cs1 s)) src c = Some cs2) as Hg2
    by (by eapply get_class_put_eq).
  assert (get_class (put_class src c cs2 (put_class src c cs1 s)) dst c = Some cd) as Hg3.
  { rewrite (get_class_put_ne _ src c cs1) by (done || congruence).
    rewrite (get_class_put_ne _ src c cs) by (done || congruence). done. }
  assert (m !! x = Some hx) as Hmx by done.
  assert (m2 !! x = Some hx) as Hm2x by (unfold m2, m1; by rewrite !wr_lookup_ne).
  assert (get_class (with_sbmem m4 (put_class src c cs2 (put_class src c cs1 s))) dst c = Some cd)
    as Hg4 by done.
  assert (get_class (put_class dst c cd1
            (with_sbmem m4 (put_class src c cs2 (put_class src c cs1 s)))) dst c = Some cd1)
    as Hg5 by (by eapply get_class_put_eq).
  assert (links_only m m4) as Hlo.
  { etrans; [apply (links_only_wr n0 (set_sb_prev p0)); [apply sb_data_set_prev|]|].
    { intros Hn. eapply dseg_lookup; [exact Hpost|by apply Hn0in]. }
    fold m1.
    etrans; [apply (links_only_wr p0 (set_sb_next n0)); [apply sb_data_set_next|]|].
    { intros Hp. unfold m1. rewrite wr_lookup_notin.
      - eapply dseg_lookup; [exact Hpre|by apply Hp0in].
      - intros Hn E. eapply Hprepost; [by apply Hp0in|]. rewrite E. by apply Hn0in. }
    fold m2.
    etrans; [by apply (links_only_insert m2 x hx hx')|]. fold m3.
    apply (links_only_wr d0 (set_sb_prev x)); [apply sb_data_set_prev|].
    intros Hd. unfold m3. rewrite lookup_insert_ne by done.
    unfold m2, m1. rewrite !wr_lookup_notin.
    - eapply dseg_lookup; [exact Hsegd|by apply Hd0in].
    - intros Hn E. destruct (Hldsrc d0 (Hd0in Hd)) as [_ H2]. apply H2. rewrite E. by apply Hn0in.
    - intros Hp E. destruct (Hldsrc d0 (Hd0in Hd)) as [H1 _]. apply H1. rewrite E. by apply Hp0in. }
  exists s1. split_and!.
  - (* the source list *)
    exists cs2. split_and!.
    + unfold s1. rewrite (get_class_put_ne _ dst c cd1) by (done || congruence).
      rewrite (get_class_put_ne _ dst c cd) by (done || congruence). done.
    + apply NoDup_app. split_and!; done.
    + unfold s1. simpl sbmem. apply dseg_app. split.
      * fold n0. eapply (dseg_frame m2).
        { intros a Ha. unfold m4, m3. rewrite wr_lookup_notin.
          - rewrite lookup_insert_ne by (intros ->; done). done.
          - intros Hd ->. destruct (Hldsrc d0 (Hd0in Hd)) as [H1 _]. by apply H1. }
        unfold m2, p0. eapply dseg_wr_next_last; [done|].
        eapply (dseg_frame m); [|exact Hpre].
        intros a Ha. unfold m1. rewrite wr_lookup_notin; [done|].
        intros Hn ->. eapply Hprepost; [done|by apply Hn0in].
      * fold p0. eapply (dseg_frame m1).
        { intros a Ha. unfold m4, m3, m2. rewrite wr_lookup_notin.
          - rewrite lookup_insert_ne by (intros ->; done).
            rewrite wr_lookup_notin; [done|].
            intros Hp ->. eapply Hprepost; [by apply Hp0in|done].
          - intros Hd ->. destruct (Hldsrc d0 (Hd0in Hd)) as [_ H2]. by apply H2. }
        unfold m1, n0. eapply dseg_wr_prev_head; [done|exact Hpost].
    + unfold cs2. rewrite head_app in Hhd |- *.
      assert (sc_head cs1 = default 0 (match head pre with Some z => Some z | None => head post end)) as E.
      { unfold cs1. destruct pre as [|z pre']; simpl in *.
        - rewrite Hhd, Z.eqb_refl. done.
        - destruct (Z.eqb_spec (sc_head cs) x) as [E|_]; [|done].
          exfalso. apply Hxpre. rewrite <-E, Hhd. by left. }
      destruct (sc_tail cs1 =? x); simpl; rewrite E; by destruct (head pre).
    + unfold cs2. rewrite last_app_cons, last_cons in Htl. rewrite last_app.
      assert (sc_tail cs1 = sc_tail cs) as E by (unfold cs1; by destruct (sc_head cs =? x)).
      rewrite E.
      destruct (last post) as [z|] eqn:El; simpl in *.
      * destruct (Z.eqb_spec (sc_tail cs) x) as [E2|_]; simpl; [|congruence].
        exfalso. apply Hxpost. rewrite <-E2, Htl. by eapply last_Some_elem_of.
      * rewrite Htl, Z.eqb_refl. done.
  - (* the destination list *)
    exists cd2. split_and!.
    + unfold s1. by eapply get_class_put_eq.
    + apply NoDup_cons. done.
    + unfold s1. simpl sbmem. simpl. split_and!; [done| |].
      * exists hx'. split_and!; [|done|done].
        unfold m4. rewrite wr_lookup_ne by done. unfold m3. by rewrite lookup_insert_eq.
      * unfold m4, d0. eapply dseg_wr_prev_head; [done|].
        eapply (dseg_frame m); [|exact Hsegd].
        intros a Ha. destruct (Hldsrc a Ha). unfold m3, m2, m1.
        rewrite lookup_insert_ne by (intros ->; done).
        rewrite !wr_lookup_notin; [done| |].
        -- intros Hn ->. by apply Hn0in in Hn.
        -- intros Hp ->. by apply Hp0in in Hp.
    + done.
    + unfold cd2, cd1. rewrite last_cons. simpl. fold d0 in Hhdd.
      destruct ld as [|z ld']; simpl in *.
      * done.
      * unfold d0. simpl. destruct (Z.eqb_spec z 0) as [->|_]; simpl.
        { exfalso. apply (Hld0 0); [by left|done]. }
        rewrite Htld. rewrite last_cons. by destruct (last ld').
  - apply Hlo.
  - intros a Ha. unfold s1. simpl sbmem. unfold m4, m3, m2, m1.
    assert (a ≠ x) by (intros ->; apply Ha; apply elem_of_app; right; by left).
    rewrite wr_lookup_notin.
    2:{ intros Hd ->. apply Ha. apply elem_of_app. right. right. apply elem_of_app. right.
        by apply Hd0in. }
    rewrite lookup_insert_ne by done.
    rewrite !wr_lookup_notin; [done| |].
    + intros Hn ->. apply Ha. apply elem_of_app. right. right. apply elem_of_app. left.
      by apply Hn0in.
    + intros Hp ->. apply Ha. apply elem_of_app. left. by apply Hp0in.
  - done.
  - done.
  - done.
  - done.
  - intros hp' c' H1 H2. unfold s1.
    rewrite (get_class_put_ne _ dst c cd1) by done.
    rewrite (get_class_put_ne _ dst c cd) by done.
    rewrite get_class_with_sbmem.
    rewrite (get_class_put_ne _ src c cs1) by done.
    rewrite (get_class_put_ne _ src c cs) by done. done.
  - intros hp' c'. unfold s1.
    rewrite (get_class_put _ dst c cd1) by done.
    rewrite (get_class_put _ dst c cd) by done.
    case_decide as D1.
    { destruct D1 as [-> ->]. rewrite Hcd. simpl. unfold cd2, cd1. by destruct (negb _). }
    rewrite get_class_with_sbmem.
    rewrite (get_class_put _ src c cs1) by done.
    rewrite (get_class_put _ src c cs) by done.
    case_decide as D2; [|done].
    destruct D2 as [-> ->]. rewrite Hcs. simpl. unfold cs2, cs1.
    by destruct (sc_head cs =? x), (sc_tail _ =? x).
  - intros hp' c'. unfold s1.
    rewrite (get_class_put _ dst c cd1) by done.
    rewrite (get_class_put _ dst c cd) by done.
    case_decide as D1.
    { destruct D1 as [-> ->]. rewrite Hcd. simpl. unfold cd2, cd1. by destruct (negb _). }
    rewrite get_class_with_sbmem.
    rewrite (get_class_put _ src c cs1) by done.
    rewrite (get_class_put _ src c cs) by done.
    case_decide as D2; [|done].
    destruct D2 as [-> ->]. rewrite Hcs. simpl. unfold cs2, cs1.
    by destruct (sc_head cs =? x), (sc_tail _ =? x).
  - match goal with |- _ = ?r => set (rhs := r) end.
    unfold move_superblock.
    rewrite (run_load_class src c cs) by done.
    rewrite (run_load_sb x hx) by done.
    rewrite (run_when_store_class _ src c cs) by done. rewrite Hxn. fold cs1.
    rewrite (run_load_class src c cs1) by done.
    rewrite (run_when_store_class _ src c cs1) by done. rewrite Hxp. fold cs2.
    rewrite run_when_store_sb. simpl sbmem. fold m m1.
    rewrite (run_load_sb x hx) by (simpl; unfold m1; by rewrite ?wr_lookup_ne).
    rewrite Hxp, Hxn.
    rewrite run_when_store_sb. simpl sbmem. fold m2. rewrite with_sbmem_with_sbmem.
    rewrite (run_store_sb_at x hx) by done. simpl sbmem. rewrite with_sbmem_with_sbmem.
    rewrite (run_load_class dst c cd) by done.
    rewrite (run_store_sb_at x (set_sb_prev 0 hx)) by (simpl; by rewrite ?lookup_insert_eq).
    simpl sbmem. rewrite with_sbmem_with_sbmem, insert_insert_eq.
    rewrite Hhdd. fold d0 hx' m3.
    destruct (Z.eqb_spec d0 0) as [Ed|Hd]; cbn [negb].
    + rewrite (run_store_class dst c cd) by done.
      rewrite (run_store_class dst c (set_sc_tail x cd)) by (by eapply get_class_put_eq).
      subst rhs.
      unfold s1, cd2, cd1, m4. rewrite Ed. rewrite wr_null.
      destruct (Z.eqb_spec 0 0); [|done]. cbn [negb]. done.
    + rewrite run_store_sb_wr by done. simpl sbmem. rewrite with_sbmem_with_sbmem. fold m4.
      rewrite (run_store_class dst c cd) by done.
      subst rhs.
      unfold s1, cd2, cd1. destruct (Z.eqb_spec d0 0); [done|]. cbn [negb].
      rewrite (put_class_same _ dst c cd) by done. done.
Qed.

Lemma move_superblock_unlink_push fuel src dst c pre x post ld s s' :
  src ≠ dst →
  class_links s src c (pre ++ x :: post) →
  class_links s dst c ld →
  (∀ a, a ∈ ld → a ∉ pre ++ x :: post) →
  move_superblock fuel x src dst c s = Ok tt s' →
  ∃ s1,
    class_links s1 src c (pre ++ post)
    ∧ class_links s1 dst c (x :: ld)
    ∧ links_only (sbmem s) (sbmem s1)
    ∧ (∀ a, a ∉ pre ++ x :: post ++ ld → sbmem s1 !! a = sbmem s !! a)
    ∧ blkmem s1 = blkmem s ∧ bytes s1 = bytes s ∧ os_log s1 = os_log s
    ∧ isInitialized s1 = isInitialized s
    ∧ (∀ hp' c', (hp', c') ≠ (src, c) → (hp', c') ≠ (dst, c) →
         get_class s1 hp' c' = get_class s hp' c')
    ∧ (∀ hp' c', sc_data <$> get_class s1 hp' c' = sc_data <$> get_class s hp' c')
    ∧ (∀ hp' c', sc_lock <$> get_class s1 hp' c' = sc_lock <$> get_class s hp' c')
    ∧ (bubble_to_tail fuel dst c x ;;;
       store_sb x (set_parentHeap (Some dst)) ;;;
       h <- load_sb x ;;
       store_class src c (λ c, set_usedBlocks (wrap32 (usedBlocks c - sb_usedBlocks h)) c) ;;;
       store_class src c (λ c, set_numOfBlocks (wrap32 (numOfBlocks c - sb_numOfBlocks h)) c) ;;;
       store_class dst c (λ c, set_usedBlocks (wrap32 (usedBlocks c + sb_usedBlocks h)) c) ;;;
       store_class dst c (λ c, set_numOfBlocks (wrap32 (numOfBlocks c + sb_numOfBlocks h)) c))
        s1 = Ok tt s'.
Proof.
  intros Hsd Hsrc Hdst Hdisj Hrun.
  destruct (move_superblock_unlink_push_eq fuel src dst c pre x post ld s Hsd Hsrc Hdst Hdisj)
    as (s1 & H1 & H2 & H3 & H4 & H5 & H6 & H7 & H8 & H9 & H10 & H11 & Heq).
  exists s1. split_and!; try done. by rewrite <-Heq.
Qed.

Lemma class_links_frame_other s s' hp c l :
  class_links s hp c l →
  get_class s' hp c = get_class s hp c →
  (∀ a, a ∈ l → sbmem s' !! a = sbmem s !! a) →
  class_links s' hp c l.
Proof.
  intros (x & Hx & Hnd & Hseg & Hhd & Htl) Hc Hm.
  exists x. split_and!; try done; [congruence|]. by eapply dseg_frame.
Qed.

Lemma class_links_data_frame s s' hp c l :
  class_links s hp c l →
  (∀ x, get_class s hp c = Some x →
     ∃ x', get_class s' hp c = Some x' ∧ sc_head x' = sc_head x ∧ sc_tail x' = sc_tail x) →
  (∀ a h, a ∈ l → sbmem s !! a = Some h →
     ∃ h', sbmem s' !! a = Some h' ∧ sb_next h' = sb_next h ∧ sb_prev h' = sb_prev h) →
  class_links s' hp c l.
Proof.
  intros (x & Hx & Hnd & Hseg & Hhd & Htl) Hc Hm.
  destruct (Hc x Hx) as (x' & Hx' & E1 & E2).
  exists x'. split_and!; try done; [|congruence..].
  eapply dseg_links_frame; [|done]. intros a Ha.
  destruct (dseg_lookup _ _ _ _ a Hseg Ha) as [h Hh].
  destruct (Hm a h Ha Hh) as (h' & Hh' & ? & ?). eauto 10.
Qed.

Lemma get_class_data s s' hp c x :
  sc_data <$> get_class s' hp c = sc_data <$> get_class s hp c →
  sc_lock <$> get_class s' hp c = sc_lock <$> get_class s hp c →
  get_class s hp c = Some x →
  ∃ x', get_class s' hp c = Some x' ∧ sc_size x' = sc_size x
        ∧ usedBlocks x' = usedBlocks x ∧ numOfBlocks x' = numOfBlocks x
        ∧ sc_lock x' = sc_lock x.
Proof.
  intros Hd Hl Hx. rewrite Hx in Hd, Hl.
  destruct (get_class s' hp c) as [x'|]; [|done]. simpl in *.
  injection Hd as ? ? ?. injection Hl as ?. eauto 10.
Qed.

Lemma links_only_lookup m m' a h :
  links_only m m' → m !! a = Some h →
  ∃ h', m' !! a = Some h' ∧ sb_usedBlocks h' = sb_usedBlocks h
        ∧ sb_numOfBlocks h' = sb_numOfBlocks h ∧ freeList h' = freeList h
        ∧ parentHeap h' = parentHeap h ∧ sb_lock h' = sb_lock h.
Proof.
  intros H Hh. destruct (H a) as [Hd Hl]. rewrite Hh in Hd, Hl.
  destruct (m' !! a) as [h'|]; [|done]. simpl in *.
  injection Hd as ? ? ? ?. injection Hl as ?. eauto 10.
Qed.

Lemma links_only_core m m' a :
  links_only m m' →
  sb_core <$> m' !! a = sb_core <$> m !! a
  ∧ parentHeap <$> m' !! a = parentHeap <$> m !! a.
Proof.
  intros H. destruct (H a) as [Hd Hl].
  destruct (m' !! a) as [h'|], (m !! a) as [h|]; simpl in *; try done.
  injection Hd as ? ? ? ?. injection Hl as ?. unfold sb_core. split; congruence.
Qed.

Lemma num_of_links_only m m' a : links_only m m' → num_of m' a = num_of m a.
Proof.
  intros H. destruct (H a) as [Hd _]. unfold num_of.
  destruct (m' !! a) as [h'|], (m !! a) as [h|]; simpl in *; try done.
  by injection Hd as _ -> _ _.
Qed.

Lemma num_of_lookup m a h : m !! a = Some h → num_of m a = sb_numOfBlocks h.
Proof. intros H. unfold num_of. by rewrite H. Qed.

(** [move_superblock] unlinks [x] from the list of [src], inserts it in
    the list of [dst] behind the superblocks that are strictly fuller,
    rebinds its heap and transfers its counts. *)
Lemma move_superblock_spec fuel src dst c pre x post ld s s' :
  src ≠ dst →
  class_links s src c (pre ++ x :: post) →
  class_links s dst c ld →
  (∀ a, a ∈ ld → a ∉ pre ++ x :: post) →
  move_superblock fuel x src dst c s = Ok tt s' →
  ∃ ld1 ld2,
    ld = ld1 ++ ld2
    ∧ class_links s' src c (pre ++ post)
    ∧ class_links s' dst c (ld1 ++ x :: ld2)
    ∧ (∀ y, y ∈ ld1 → used_of (sbmem s) x < used_of (sbmem s) y)
    ∧ (∀ y, head ld2 = Some y → used_of (sbmem s) y <= used_of (sbmem s) x)
    ∧ move_frame src dst c x (pre ++ x :: post ++ ld) s s'.
Proof.
  intros Hsd Hsrc Hdst Hdisj Hrun.
  pose proof Hsrc as (cs & Hcs & _). pose proof Hdst as (cd & Hcd & _).
  destruct (class_links_lookup _ _ _ _ _ _ Hsrc) as (Hx0 & hx & Hhx & _).
  destruct (move_superblock_unlink_push _ _ _ _ _ _ _ _ _ _ Hsd Hsrc Hdst Hdisj Hrun)
    as (s1 & Hsrc1 & Hdst1 & Hlo1 & Hfp1 & Hb1 & Hby1 & Hos1 & Hin1 & Hoc1 & Hcd1 & Hcl1 & Hrun1).
  clear Hrun.
  apply bind_Ok in Hrun1 as ([] & s2 & Hbub & Hrun2).
  destruct (bubble_to_tail_spec fuel dst c [] x ld s1 s2 Hdst1 Hbub)
    as (ld1 & ld2 & -> & Hdst2 & Hgt & Hle & Hf2).
  simpl in Hdst2, Hf2.
  pose proof (links_frame_links_only _ _ _ _ _ Hf2) as Hlo2.
  destruct Hf2 as (F1 & F2 & F3 & F4 & F5 & F6 & F7 & F8 & F9 & F10).
  assert (links_only (sbmem s) (sbmem s2)) as Hlo by (by etrans).
  destruct (links_only_lookup _ _ _ _ Hlo Hhx) as (h2 & Hh2 & Eu & En & Ef & Ep & El).
  destruct (get_class_data s s2 src c cs) as (cs2 & Hcs2 & Es1 & Es2 & Es3 & Es4);
    [by rewrite F9, Hcd1 | by rewrite F10, Hcl1 | done |].
  destruct (get_class_data s s2 dst c cd) as (cd2 & Hcd2 & Ed1 & Ed2 & Ed3 & Ed4);
    [by rewrite F9, Hcd1 | by rewrite F10, Hcl1 | done |].
  set (h3 := set_parentHeap (Some dst) h2).
  set (m3 := <[x := h3]> (sbmem s2)).
  set (cs3 := set_numOfBlocks (wrap32 (numOfBlocks cs2 - sb_numOfBlocks h3))
                (set_usedBlocks (wrap32 (usedBlocks cs2 - sb_usedBlocks h3)) cs2)).
  set (cd3 := set_numOfBlocks (wrap32 (numOfBlocks cd2 + sb_numOfBlocks h3))
                (set_usedBlocks (wrap32 (usedBlocks cd2 + sb_usedBlocks h3)) cd2)).
  set (t1 := put_class src c (set_usedBlocks (wrap32 (usedBlocks cs2 - sb_usedBlocks h3)) cs2)
               (with_sbmem m3 s2)).
  set (t2 := put_class src c cs3 t1).
  set (t3 := put_class dst c (set_usedBlocks (wrap32 (usedBlocks cd2 + sb_usedBlocks h3)) cd2) t2).
  assert (get_class t1 src c = Some (set_usedBlocks (wrap32 (usedBlocks cs2 - sb_usedBlocks h3)) cs2))
    as Ht1 by (by eapply get_class_put_eq).
  assert (get_class t2 src c = Some cs3) as Ht2 by (by eapply get_class_put_eq).
  assert (get_class t2 dst c = Some cd2) as Ht2d.
  { unfold t2. rewrite (get_class_put_ne t1 src c _ cs3 dst c Ht1) by congruence.
    unfold t1. rewrite (get_class_put_ne _ src c cs2) by (done || congruence). done. }
  assert (get_class t3 dst c = Some (set_usedBlocks (wrap32 (usedBlocks cd2 + sb_usedBlocks h3)) cd2))
    as Ht3 by (by eapply get_class_put_eq).
  assert (s' = put_class dst c cd3 t3) as ->.
  { revert Hrun2.
    rewrite (run_store_sb_at x h2) by done. fold h3 m3.
    rewrite (run_load_sb x h3) by (simpl; unfold m3; by rewrite ?lookup_insert_eq).
    rewrite (run_store_class src c cs2) by done. fold t1.
    rewrite (run_store_class src c _ _ _ _ Ht1). fold cs3 t2.
    rewrite (run_store_class dst c cd2) by done. fold t3.
    rewrite (store_class_run dst c _ _ _ Ht3). fold cd3. by intros [= <-]. }
  assert (x ∉ pre ++ post) as Hxsrc.
  { destruct Hsrc as (_ & _ & Hnd & _).
    apply NoDup_app in Hnd as (_ & Hd & [Hxp _]%NoDup_cons).
    intros [H|H]%elem_of_app; [|done]. eapply Hd; [done|by left]. }
  assert (get_class (put_class dst c cd3 t3) src c = Some cs3) as Hfs.
  { rewrite (get_class_put_ne t3 dst c _ cd3 src c Ht3) by congruence.
    unfold t3. rewrite (get_class_put_ne t2 dst c cd2) by (done || congruence). done. }
  assert (get_class (put_class dst c cd3 t3) dst c = Some cd3) as Hfd
    by (by eapply get_class_put_eq).
  assert (sbmem (put_class dst c cd3 t3) = m3) as Hfm by done.
  exists ld1, ld2. split_and!.
  - done.
  - eapply (class_links_data_frame s2).
    + eapply (class_links_frame_other s1); [done| |].
      * apply F8. congruence.
      * intros a Ha. apply F5. intros [->|Hin]%elem_of_cons; [done|].
        eapply Hdisj; [done|]. apply elem_of_app in Ha as [?|?]; apply elem_of_app;
          [by left|right; (by right)].
    + intros x0 Hx0'. exists cs3. split; [done|].
      assert (x0 = cs2) as -> by congruence. done.
    + intros a h Ha Hh. rewrite Hfm. unfold m3.
      rewrite lookup_insert_ne by (intros ->; done). eauto.
  - eapply (class_links_data_frame s2); [done| |].
    + intros x0 Hx0'. exists cd3. split; [done|].
      assert (x0 = cd2) as -> by congruence. done.
    + intros a h Ha Hh. rewrite Hfm. unfold m3.
      destruct (decide (a = x)) as [->|Hne].
      * rewrite lookup_insert_eq. exists h3. assert (h = h2) as -> by congruence. done.
      * rewrite lookup_insert_ne by done. eauto.
  - intros y Hy. rewrite <-!(used_of_links_only _ _ _ Hlo1). by apply Hgt.
  - intros y Hy. rewrite <-!(used_of_links_only _ _ _ Hlo1). by apply Hle.
  - unfold move_frame. rewrite Hfm. split_and!.
    + simpl. congruence.
    + simpl. congruence.
    + simpl. congruence.
    + simpl. congruence.
    + intros a Ha. unfold m3.
      assert (a ≠ x) by (intros ->; apply Ha; apply elem_of_app; right; by left).
      rewrite lookup_insert_ne by done. rewrite F5.
      * apply Hfp1. done.
      * intros [->|Hin]%elem_of_cons; [done|]. apply Ha.
        apply elem_of_app. right. right. apply elem_of_app. by right.
    + intros a. unfold m3. destruct (decide (a = x)) as [->|Hne].
      * rewrite lookup_insert_eq, Hhx. unfold h3, sb_core. simpl. congruence.
      * rewrite lookup_insert_ne by done. apply (links_only_core _ _ a Hlo).
    + intros a Ha. unfold m3. rewrite lookup_insert_ne by done.
      apply (links_only_core _ _ a Hlo).
    + unfold m3. by rewrite lookup_insert_eq.
    + intros hp' c' H1 H2.
      rewrite (get_class_put_ne t3 dst c _ cd3 hp' c' Ht3) by done.
      unfold t3. rewrite (get_class_put_ne t2 dst c cd2) by done.
      unfold t2. rewrite (get_class_put_ne t1 src c _ cs3 hp' c' Ht1) by done.
      unfold t1. rewrite (get_class_put_ne _ src c cs2) by done.
      rewrite get_class_with_sbmem. rewrite F8 by done. by apply Hoc1.
    + exists cs, cs3. unfold cs3, h3.
      rewrite (used_of_lookup _ _ _ Hhx), (num_of_lookup _ _ _ Hhx).
      split_and!; try done; simpl; congruence.
    + exists cd, cd3. unfold cd3, h3.
      rewrite (used_of_lookup _ _ _ Hhx), (num_of_lookup _ _ _ Hhx).
      split_and!; try done; simpl; congruence.
Qed.

(** ** Lists ordered by fullness, sums and 32-bit counters *)

Section sorted_by.
Context (f : Z → Z).
Local Abbreviation SS := (StronglySorted (λ a b, f b <= f a)).

Lemma SS_ext (g : Z → Z) l :
  (∀ a, a ∈ l → f a = g a) → SS l → StronglySorted (λ a b, g b <= g a) l.
Proof.
  induction l as [|x l IH]; intros Hfg Hs; [constructor|].
  apply StronglySorted_cons in Hs as [Hall Hs].
  apply StronglySorted_cons. split.
  - rewrite Forall_forall in Hall |- *. intros y Hy.
    rewrite <-(Hfg x), <-(Hfg y); [by apply Hall|by right|by left].
  - apply IH; [|done]. intros a Ha. apply Hfg. by right.
Qed.

Lemma SS_insert l1 x l2 :
  SS (l1 ++ l2) →
  (∀ y, y ∈ l1 → f x <= f y) →
  (∀ y, y ∈ l2 → f y <= f x) →
  SS (l1 ++ x :: l2).
Proof.
  intros (H12 & H1 & H2)%StronglySorted_app Hl1 Hl2.
  apply StronglySorted_app. split_and!; [|done|].
  - intros x1 x2 Hx1 [->|Hx2]%elem_of_cons; [by apply Hl1|by apply H12].
  - apply StronglySorted_cons. split; [|done].
    rewrite Forall_forall. done.
Qed.

Lemma SS_remove l1 x l2 : SS (l1 ++ x :: l2) → SS (l1 ++ l2).
Proof.
  intros (H12 & H1 & [_ H2]%StronglySorted_cons)%StronglySorted_app.
  apply StronglySorted_app. split_and!; [|done..].
  intros x1 x2 Hx1 Hx2. apply H12; [done|by right].
Qed.

Lemma SS_le_head l y z : SS l → head l = Some y → z ∈ l → f z <= f y.
Proof.
  destruct l as [|y' l]; [done|]. intros [Hall _]%StronglySorted_cons [= ->].
  intros [->|Hz]%elem_of_cons; [lia|]. rewrite Forall_forall in Hall. by apply Hall.
Qed.

Lemma SS_ge_last l y z : SS l → last l = Some y → z ∈ l → f y <= f z.
Proof.
  intros Hs [l' ->]%last_Some Hz.
  apply StronglySorted_app in Hs as (H12 & _ & _).
  apply elem_of_app in Hz as [Hz|Hz%list_elem_of_singleton]; [|subst; lia].
  apply H12; [done|by left].
Qed.
End sorted_by.

Lemma sum_with_app f l1 l2 : sum_with f (l1 ++ l2) = sum_with f l1 + sum_with f l2.
Proof. induction l1 as [|a l1 IH]; simpl; lia. Qed.

Lemma sum_with_ext f g l : (∀ a, a ∈ l → f a = g a) → sum_with f l = sum_with g l.
Proof.
  induction l as [|a l IH]; intros H; simpl; [done|].
  rewrite (H a) by (by left). rewrite IH; [done|]. intros b Hb. apply H. by right.
Qed.

Lemma sum_with_bounds f n l :
  (∀ a, a ∈ l → 0 <= f a <= n) →
  0 <= sum_with f l <= Z.of_nat (length l) * n.
Proof.
  induction l as [|a l IH]; intros H; simpl length; simpl sum_with; [lia|].
  assert (0 <= f a <= n) by (apply H; by left).
  assert (0 <= sum_with f l <= Z.of_nat (length l) * n) by (apply IH; intros b Hb; apply H; by right).
  lia.
Qed.

Lemma sum_with_full f n l :
  (∀ a, a ∈ l → 0 <= f a <= n) →
  sum_with f l = Z.of_nat (length l) * n → ∀ a, a ∈ l → f a = n.
Proof.
  induction l as [|x l IH]; intros H Hsum a Ha; [by apply elem_of_nil in Ha|].
  simpl length in Hsum. simpl sum_with in Hsum.
  assert (0 <= f x <= n) by (apply H; by left).
  assert (0 <= sum_with f l <= Z.of_nat (length l) * n)
    by (apply sum_with_bounds; intros b Hb; apply H; by right).
  apply elem_of_cons in Ha as [->|Ha]; [lia|].
  apply IH; [intros b Hb; apply H; by right|lia|done].
Qed.

Lemma wrap32_small x : 0 <= x < 2 ^ 32 → wrap32 x = x.
Proof. intros H. unfold wrap32. by apply Z.mod_small. Qed.

Lemma wrap32_range x : 0 <= wrap32 x < 2 ^ 32.
Proof. unfold wrap32. apply Z.mod_pos_bound. lia. Qed.

Lemma wrap32_add_l a b : wrap32 (wrap32 a + b) = wrap32 (a + b).
Proof. unfold wrap32. by rewrite Zplus_mod_idemp_l. Qed.

Lemma wrap32_sub_l a b : wrap32 (wrap32 a - b) = wrap32 (a - b).
Proof. unfold wrap32. by rewrite Zminus_mod_idemp_l. Qed.

Lemma wrap32_idem a : wrap32 (wrap32 a) = wrap32 a.
Proof. unfold wrap32. by rewrite Zmod_mod. Qed.

(** ** The layout of a superblock *)

Lemma class_cases c :
  0 <= c < NUM_OF_CLASSES →
  c = 0 ∨ c = 1 ∨ c = 2 ∨ c = 3 ∨ c = 4 ∨ c = 5 ∨ c = 6 ∨ c = 7 ∨ c = 8 ∨ c = 9
  ∨ c = 10 ∨ c = 11 ∨ c = 12 ∨ c = 13 ∨ c = 14 ∨ c = 15.
Proof. unfold NUM_OF_CLASSES. lia. Qed.

Lemma blocks_per_superblock_range c :
  0 <= c < NUM_OF_CLASSES → 1 <= blocks_per_superblock c <= 2618.
Proof.
  intros H. destruct (class_cases c H) as [->|[->|[->|[->|[->|[->|[->|[->|[->|[->|[->|[->|[->|[->|[->| ->]]]]]]]]]]]]]]];
    vm_compute; split; discriminate.
Qed.

Lemma SIZE_OF_CLASS_range c :
  0 <= c < NUM_OF_CLASSES → 1 <= SIZE_OF_CLASS c <= SIZE_THRESHOLD.
Proof.
  intros H. destruct (class_cases c H) as [->|[->|[->|[->|[->|[->|[->|[->|[->|[->|[->|[->|[->|[->|[->| ->]]]]]]]]]]]]]]];
    vm_compute; split; discriminate.
Qed.

Lemma class_of_block_SIZE_OF_CLASS c :
  0 <= c < NUM_OF_CLASSES → class_of_block (SIZE_OF_CLASS c) = Some c.
Proof.
  intros H. destruct (class_cases c H) as [->|[->|[->|[->|[->|[->|[->|[->|[->|[->|[->|[->|[->|[->|[->| ->]]]]]]]]]]]]]]];
    reflexivity.
Qed.

Lemma SIZE_OF_CLASS_inj c c' :
  0 <= c < NUM_OF_CLASSES → 0 <= c' < NUM_OF_CLASSES →
  SIZE_OF_CLASS c = SIZE_OF_CLASS c' → c = c'.
Proof.
  intros H H' E.
  assert (class_of_block (SIZE_OF_CLASS c) = class_of_block (SIZE_OF_CLASS c')) as E2 by congruence.
  rewrite !class_of_block_SIZE_OF_CLASS in E2 by done. congruence.
Qed.

Lemma block_addr_inj a c i j :
  0 <= c < NUM_OF_CLASSES → block_addr a c i = block_addr a c j → i = j.
Proof.
  intros H. pose proof (SIZE_OF_CLASS_range c H). unfold block_addr, sizeof_blockHeader. nia.
Qed.

Lemma block_addr_succ a c i :
  block_addr a c i + sizeof_blockHeader + SIZE_OF_CLASS c = block_addr a c (i + 1).
Proof. unfold block_addr. lia. Qed.

Lemma block_addr_pos a c i :
  0 < a → 0 <= c < NUM_OF_CLASSES → 0 <= i → 0 < block_addr a c i.
Proof.
  intros Ha H Hi. pose proof (SIZE_OF_CLASS_range c H).
  unfold block_addr, sizeof_blockHeader, sizeof_superblockHeader. nia.
Qed.

Lemma block_addr_in_region a c i :
  0 <= c < NUM_OF_CLASSES → 0 <= i < blocks_per_superblock c →
  a <= block_addr a c i ∧ block_addr a c i < a + SUPERBLOCK_SIZE.
Proof.
  intros H Hi. pose proof (SIZE_OF_CLASS_range c H) as Hs.
  unfold block_addr, blocks_per_superblock in *.
  set (st := sizeof_blockHeader + SIZE_OF_CLASS c) in *.
  assert (0 < st) by (unfold st, sizeof_blockHeader; lia).
  pose proof (Z.mul_div_le (SUPERBLOCK_SIZE - sizeof_superblockHeader) st ltac:(done)).
  unfold sizeof_superblockHeader, SUPERBLOCK_SIZE in *. nia.
Qed.

(** ** Frame properties of the invariant *)

Lemma update_list_eq L hp c l : update_list L hp c l hp c = l.
Proof. unfold update_list. by rewrite decide_True. Qed.

Lemma update_list_ne L hp c l hp' c' :
  (hp', c') ≠ (hp, c) → update_list L hp c l hp' c' = L hp' c'.
Proof. intros H. unfold update_list. rewrite decide_False; [done|]. intros [-> ->]. done. Qed.

Lemma sum_with_perm f l l' : l ≡ₚ l' → sum_with f l = sum_with f l'.
Proof. induction 1; simpl; lia. Qed.

Lemma chain_frame m m' a p l e :
  (∀ q bh, m !! q = Some bh → parentSuperblock bh = a → m' !! q = Some bh) →
  chain m a p l e → chain m' a p l e.
Proof.
  intros Hm. revert p. induction l as [|b l IH]; intros p; simpl; [done|].
  intros (-> & h & Hh & Hu & Hp & Hc). split; [done|].
  exists h. split_and!; try done; [by apply Hm|by apply IH].
Qed.

Lemma sb_ok_frame s s' hp c a :
  sb_ok s hp c a →
  sb_data <$> sbmem s' !! a = sb_data <$> sbmem s !! a →
  (∀ q bh, blkmem s !! q = Some bh → parentSuperblock bh = a → blkmem s' !! q = Some bh) →
  sb_ok s' hp c a.
Proof.
  intros (Ha & h & l & Hh & Hp & Hn & Hu0 & Hu & Hnd & Hl & Hc & Hs) Hd Hb.
  split; [done|]. rewrite Hh in Hd.
  destruct (sbmem s' !! a) as [h'|] eqn:Hh'; [|done]. simpl in Hd. injection Hd as E1 E2 E3 E4.
  exists h', l. rewrite E1, E2, E3, E4. split_and!; try done.
  - by eapply chain_frame.
  - intros i Hi. destruct (Hs i Hi) as (b & Hb1 & Hb2 & Hb3).
    exists b. split_and!; try done. by apply Hb.
Qed.

Lemma wf_data_disjoint L s a hp c hp' c' :
  wf_data L s → a ∈ L hp c → a ∈ L hp' c' → hp = hp' ∧ c = c'.
Proof.
  intros (_ & _ & W3 & _) H1 H2.
  destruct (W3 _ _ _ H1) as ([_ Hc] & _ & h & l & Hh & Hp & _ & _ & _ & _ & _ & _ & Hs).
  destruct (W3 _ _ _ H2) as ([_ Hc'] & _ & h' & l' & Hh' & Hp' & _ & _ & _ & _ & _ & _ & Hs').
  split; [congruence|].
  pose proof (blocks_per_superblock_range c Hc).
  pose proof (blocks_per_superblock_range c' Hc').
  destruct (Hs 0) as (b & Hb & Hsz & _); [lia|].
  destruct (Hs' 0) as (b' & Hb' & Hsz' & _); [lia|].
  assert (block_addr a c 0 = block_addr a c' 0) as E by (unfold block_addr; lia).
  rewrite E in Hb. assert (b = b') as -> by congruence.
  apply SIZE_OF_CLASS_inj; [done..|congruence].
Qed.

Lemma counters_ok_frame l l' s s' hp c :
  counters_ok l s hp c →
  sc_data <$> get_class s' hp c = sc_data <$> get_class s hp c →
  sum_with (used_of (sbmem s')) l' = sum_with (used_of (sbmem s)) l →
  length l' = length l →
  counters_ok l' s' hp c.
Proof.
  intros (x & Hx & Hsz & Hu & Hn) Hd Hsum Hlen. rewrite Hx in Hd.
  destruct (get_class s' hp c) as [x'|] eqn:Hx'; [|done]. simpl in Hd. injection Hd as E1 E2 E3.
  exists x'. rewrite E1, E2, E3, Hsum, Hlen. split_and!; done.
Qed.

Lemma links_only_is_Some m m' a : links_only m m' → is_Some (m' !! a) → is_Some (m !! a).
Proof.
  intros H [h' Hh']. destruct (H a) as [Hd _]. rewrite Hh' in Hd.
  destruct (m !! a); [eauto|done].
Qed.

Lemma in_update_list L hp c l' hp' c' a :
  (∀ b, b ∈ l' ↔ b ∈ L hp c) →
  a ∈ update_list L hp c l' hp' c' ↔ a ∈ L hp' c'.
Proof.
  intros H. unfold update_list. case_decide as D; [|done].
  destruct D as [-> ->]. apply H.
Qed.

(** Relinking the list of one class keeps the structure. *)
Lemma wf_data_relink L s s' hp c l' :
  wf_data L s →
  links_frame hp c (L hp c) s s' →
  class_links s' hp c l' →
  l' ≡ₚ L hp c →
  wf_data (update_list L hp c l') s'.
Proof.
  intros Hwf Hf Hl' Hperm.
  pose proof (links_frame_links_only _ _ _ _ _ Hf) as Hlo.
  pose proof Hwf as (W1 & W2 & W3 & W4 & W5).
  destruct Hf as (F1 & F2 & F3 & F4 & F5 & F6 & F7 & F8 & F9 & F10).
  assert (∀ b, b ∈ l' ↔ b ∈ L hp c) as Hmem by (intros b; by rewrite Hperm).
  unfold wf_data. split_and!.
  - congruence.
  - intros hp' c' Hr. destruct (W2 hp' c' Hr) as [Hcl Hco].
    destruct (decide (hp' = hp ∧ c' = c)) as [[-> ->]|Hne].
    + rewrite update_list_eq. split; [done|].
      eapply counters_ok_frame; [done|apply F9| |by rewrite Hperm].
      rewrite (sum_with_perm _ _ _ Hperm).
      apply sum_with_ext. intros a _. by apply used_of_links_only.
    + rewrite update_list_ne by (intros [= -> ->]; apply Hne; split; reflexivity). split.
      * eapply class_links_frame_other; [done| |].
        -- apply F8. intros [= -> ->]. apply Hne; split; reflexivity.
        -- intros a Ha. apply F5. intros Ha'.
           destruct (wf_data_disjoint L s a hp' c' hp c Hwf Ha Ha') as [-> ->].
           apply Hne; split; reflexivity.
      * eapply counters_ok_frame; [done|apply F9| |done].
        apply sum_with_ext. intros a _. by apply used_of_links_only.
  - intros hp' c' a Ha. rewrite in_update_list in Ha by done.
    destruct (W3 _ _ _ Ha) as [Hr Hok]. split; [done|].
    eapply sb_ok_frame; [done|apply F6|]. intros q bh. by rewrite F1.
  - intros a Ha. destruct (W4 a) as (hp' & c' & Hin); [by eapply links_only_is_Some|].
    exists hp', c'. by rewrite in_update_list.
  - intros p b Hb. rewrite F1 in Hb. destruct (W5 p b Hb) as [?|(hp' & c' & i & Hin & Hi & Hp)];
      [by left|right].
    exists hp', c', i. by rewrite in_update_list.
Qed.

Lemma sorted_lists_relink L s s' hp c l' :
  sorted_lists L s → links_only (sbmem s) (sbmem s') →
  StronglySorted (fuller (sbmem s')) l' →
  sorted_lists (update_list L hp c l') s'.
Proof.
  intros Hs Hlo Hl' hp' c'. unfold update_list. case_decide; [done|].
  eapply (SS_ext (used_of (sbmem s))); [|apply Hs].
  intros a _. symmetry. by apply used_of_links_only.
Qed.

Lemma global_not_full_relink L s s' hp c l' :
  global_not_full L s → links_only (sbmem s) (sbmem s') →
  (∀ b, b ∈ l' ↔ b ∈ L hp c) →
  global_not_full (update_list L hp c l') s'.
Proof.
  intros Hg Hlo Hmem c' a Ha. rewrite in_update_list in Ha by done.
  rewrite (used_of_links_only _ _ _ Hlo). by apply Hg.
Qed.

(** *** Mutexes are not part of the invariant *)

Global Instance lock_equiv_refl : Reflexive lock_equiv.
Proof. intros s. unfold lock_equiv. done. Qed.

Global Instance lock_equiv_trans : Transitive lock_equiv.
Proof.
  intros s1 s2 s3 (A1 & A2 & A3 & A4) (B1 & B2 & B3 & B4).
  unfold lock_equiv. split_and!; [congruence..| |].
  - intros a. by rewrite B3, A3.
  - intros hp c. by rewrite B4, A4.
Qed.

Lemma lock_equiv_sb s s' a h :
  lock_equiv s s' → sbmem s !! a = Some h →
  ∃ h', sbmem s' !! a = Some h' ∧ sb_usedBlocks h' = sb_usedBlocks h
        ∧ sb_numOfBlocks h' = sb_numOfBlocks h ∧ freeList h' = freeList h
        ∧ sb_next h' = sb_next h ∧ sb_prev h' = sb_prev h
        ∧ parentHeap h' = parentHeap h.
Proof.
  intros (_ & _ & H & _) Hh. specialize (H a). rewrite Hh in H.
  destruct (sbmem s' !! a) as [h'|]; [|done]. simpl in H.
  injection H as ? ? ? ? ? ?. eauto 10.
Qed.

Lemma lock_equiv_class s s' hp c x :
  lock_equiv s s' → get_class s hp c = Some x →
  ∃ x', get_class s' hp c = Some x' ∧ sc_size x' = sc_size x
        ∧ usedBlocks x' = usedBlocks x ∧ numOfBlocks x' = numOfBlocks x
        ∧ sc_head x' = sc_head x ∧ sc_tail x' = sc_tail x.
Proof.
  intros (_ & _ & _ & H) Hx. specialize (H hp c). rewrite Hx in H.
  destruct (get_class s' hp c) as [x'|]; [|done]. simpl in H.
  injection H as ? ? ? ? ?. eauto 10.
Qed.

Lemma lock_equiv_links_only s s' : lock_equiv s s' → ∀ a, sb_data <$> sbmem s' !! a = sb_data <$> sbmem s !! a.
Proof.
  intros (_ & _ & H & _) a. specialize (H a).
  destruct (sbmem s' !! a) as [h'|], (sbmem s !! a) as [h|]; simpl in *; try done.
  injection H as ? ? ? ? ? ?. unfold sb_data. congruence.
Qed.

Lemma lock_equiv_used s s' a : lock_equiv s s' → used_of (sbmem s') a = used_of (sbmem s) a.
Proof.
  intros H. pose proof (lock_equiv_links_only _ _ H a) as Hd. unfold used_of.
  destruct (sbmem s' !! a) as [h'|], (sbmem s !! a) as [h|]; simpl in *; try done.
  by injection Hd as -> _ _ _.
Qed.

Lemma wf_with_lock_equiv L s s' : lock_equiv s s' → wf_with L s → wf_with L s'.
Proof.
  intros Hle ((W1 & W2 & W3 & W4 & W5) & Hs & Hg).
  pose proof Hle as (E1 & E2 & E3 & E4).
  split_and!.
  - unfold wf_data. split_and!.
    + congruence.
    + intros hp c Hr. destruct (W2 hp c Hr) as [Hcl Hco]. split.
      * eapply class_links_data_frame; [done| |].
        -- intros x Hx. destruct (lock_equiv_class _ _ _ _ _ Hle Hx) as (x' & ? & ? & ? & ? & ? & ?).
           eauto.
        -- intros a h Ha Hh. destruct (lock_equiv_sb _ _ _ _ Hle Hh) as (h' & ? & ? & ? & ? & ? & ? & ?).
           eauto.
      * destruct Hco as (x & Hx & Hsz & Hu & Hn).
        destruct (lock_equiv_class _ _ _ _ _ Hle Hx) as (x' & Hx' & F1 & F2 & F3 & F4 & F5).
        exists x'. split_and!; [done|congruence| |congruence].
        rewrite F2, Hu. f_equal. apply sum_with_ext. intros a _. symmetry.
        by apply lock_equiv_used.
    + intros hp c a Ha. destruct (W3 _ _ _ Ha) as [Hr Hok]. split; [done|].
      eapply sb_ok_frame; [done|by apply lock_equiv_links_only|]. intros q bh. by rewrite E2.
    + intros a [h' Hh']. apply W4. specialize (E3 a). rewrite Hh' in E3.
      destruct (sbmem s !! a); [eauto|done].
    + intros p b Hb. rewrite E2 in Hb. by apply W5.
  - intros hp c. eapply (SS_ext (used_of (sbmem s))); [|apply Hs].
    intros a _. symmetry. by apply lock_equiv_used.
  - intros c a Ha. rewrite (lock_equiv_used _ _ _ Hle). by apply Hg.
Qed.

Lemma lock_equiv_store_class_lock s hp c x v :
  get_class s hp c = Some x → lock_equiv s (put_class hp c (set_sc_lock v x) s).
Proof.
  intros Hx. unfold lock_equiv. split_and!; try done.
  intros hp' c'. rewrite (get_class_put _ _ _ x) by done.
  case_decide as D; [|done]. destruct D as [-> ->]. by rewrite Hx.
Qed.

Lemma lock_equiv_store_sb_lock s a h v :
  sbmem s !! a = Some h →
  lock_equiv s (with_sbmem (<[a := set_sb_lock v h]> (sbmem s)) s).
Proof.
  intros Hh. unfold lock_equiv. split_and!; try done.
  intros a'. simpl. destruct (decide (a' = a)) as [->|Hne].
  - by rewrite lookup_insert_eq, Hh.
  - by rewrite lookup_insert_ne.
Qed.

Lemma lock_class_lock_equiv hp c s u s' :
  lock_class hp c s = Ok u s' → lock_equiv s s'.
Proof.
  unfold lock_class. intros H. apply bind_Ok in H as (x & s1 & H1 & H2).
  apply load_class_Ok in H1 as [-> Hx]. destruct (sc_lock x); [done|].
  apply store_class_Ok in H2 as (x' & Hx' & ->). assert (x' = x) as -> by congruence.
  by apply lock_equiv_store_class_lock.
Qed.

Lemma unlock_class_lock_equiv hp c s u s' :
  unlock_class hp c s = Ok u s' → lock_equiv s s'.
Proof.
  unfold unlock_class. intros H.
  apply store_class_Ok in H as (x' & Hx' & ->).
  by apply lock_equiv_store_class_lock.
Qed.

Lemma lock_sb_lock_equiv a s u s' :
  lock_sb a s = Ok u s' → lock_equiv s s'.
Proof.
  unfold lock_sb. intros H. apply bind_Ok in H as (h & s1 & H1 & H2).
  apply load_sb_Ok in H1 as (-> & Ha & Hh). destruct (sb_lock h); [done|].
  apply store_sb_Ok in H2 as (_ & ->). rewrite Hh. by apply lock_equiv_store_sb_lock.
Qed.

Lemma unlock_sb_lock_equiv a s u s' :
  unlock_sb a s = Ok u s' → lock_equiv s s'.
Proof.
  unfold unlock_sb. intros H. apply bind_Ok in H as (h & s1 & H1 & H2).
  apply load_sb_Ok in H1 as (-> & Ha & Hh).
  apply store_sb_Ok in H2 as (_ & ->). rewrite Hh. by apply lock_equiv_store_sb_lock.
Qed.

(** ** Taking and returning a block *)

Lemma chain_frame_elems m m' a p l e :
  (∀ q, q ∈ l → m' !! q = m !! q) → chain m a p l e → chain m' a p l e.
Proof.
  revert p. induction l as [|b l IH]; intros p Hm; simpl; [done|].
  intros (-> & h & Hh & Hu & Hp & Hc). split; [done|].
  exists h. split_and!; try done.
  - rewrite Hm; [done|by left].
  - apply IH; [|done]. intros q Hq. apply Hm. by right.
Qed.

Lemma sum_with_notin f g l a :
  a ∉ l → (∀ b, b ≠ a → g b = f b) → sum_with g l = sum_with f l.
Proof.
  intros Ha Hfg. apply sum_with_ext. intros b Hb. apply Hfg. intros ->. done.
Qed.

Lemma sum_with_bump f g l a d :
  NoDup l → a ∈ l → g a = f a + d → (∀ b, b ≠ a → g b = f b) →
  sum_with g l = sum_with f l + d.
Proof.
  intros Hnd Ha Hga Hfg.
  apply list_elem_of_split in Ha as (l1 & l2 & ->).
  apply NoDup_app in Hnd as (_ & Hd & [Hn _]%NoDup_cons).
  rewrite !sum_with_app. simpl.
  assert (a ∉ l1) as Hn1 by (intros H; eapply Hd; [done|by left]).
  rewrite (sum_with_notin f g l1 a Hn1 Hfg), (sum_with_notin f g l2 a Hn Hfg). lia.
Qed.

Lemma slots_bound (a c : Z) (l : list Z) :
  0 <= c < NUM_OF_CLASSES →
  NoDup l →
  (∀ b, b ∈ l → ∃ i, 0 <= i < blocks_per_superblock c ∧ b = block_addr a c i) →
  Z.of_nat (length l) <= blocks_per_superblock c.
Proof.
  intros Hc Hnd Hl.
  pose proof (blocks_per_superblock_range c Hc) as Hn.
  assert (l ⊆+ block_addr a c <$> seqZ 0 (blocks_per_superblock c)) as Hsub.
  { apply NoDup_submseteq; [done|]. intros b Hb.
    destruct (Hl b Hb) as (i & Hi & ->). apply list_elem_of_fmap. exists i. split; [done|].
    apply elem_of_seqZ. lia. }
  apply submseteq_length in Hsub. rewrite length_fmap, length_seqZ in Hsub. lia.
Qed.

Lemma used_of_insert m a h b :
  used_of (<[a := h]> m) b = if decide (b = a) then sb_usedBlocks h else used_of m b.
Proof.
  unfold used_of. case_decide as D.
  - subst. by rewrite lookup_insert_eq.
  - by rewrite lookup_insert_ne.
Qed.

Lemma pop_wf L s hp c a ha bh x :
  wf_data L s →
  a ∈ L hp c →
  sbmem s !! a = Some ha →
  sb_usedBlocks ha < sb_numOfBlocks ha →
  blkmem s !! freeList ha = Some bh →
  get_class s hp c = Some x →
  wf_data L (pop_state hp c a ha bh x s)
  ∧ freeList ha ≠ 0
  ∧ parentSuperblock bh = a
  ∧ (∃ i, 0 <= i < blocks_per_superblock c ∧ freeList ha = block_addr a c i)
  ∧ wrap32 (sb_usedBlocks ha + 1) = sb_usedBlocks ha + 1
  ∧ sb_usedBlocks ha + 1 <= blocks_per_superblock c.
Proof.
  intros Hwf Ha Hha Hlt Hbh Hx.
  pose proof Hwf as (W1 & W2 & W3 & W4 & W5).
  destruct (W3 _ _ _ Ha) as ([Hhp Hc] & Hapos & h & l & Hh & Hp & Hn & Hu0 & Hu & Hnd & Hl & Hch & Hs).
  assert (h = ha) as -> by congruence.
  pose proof (blocks_per_superblock_range c Hc) as Hbps.
  destruct l as [|b l]; [simpl in Hu; lia|].
  destruct Hch as (Hb & bh0 & Hbh0 & Hin0 & Hpar & Hch).
  rewrite Hb in Hbh. assert (bh0 = bh) as -> by congruence.
  apply NoDup_cons in Hnd as [Hbl Hnd].
  destruct (Hl b) as (ib & Hib & Hbaddr); [by left|].
  assert (0 < b) as Hbpos by (rewrite Hbaddr; apply block_addr_pos; [done..|lia]).
  simpl length in Hu.
  assert (wrap32 (sb_usedBlocks ha + 1) = sb_usedBlocks ha + 1) as Hw
    by (apply wrap32_small; lia).
  split_and!; [|lia|done|exists ib; rewrite Hb; done|done|lia].
  set (ha' := set_sb_usedBlocks (wrap32 (sb_usedBlocks ha + 1)) (set_freeList (b_next bh) ha)).
  set (s' := pop_state hp c a ha bh x s).
  assert (sbmem s' = <[a := ha']> (sbmem s)) as Hsm by done.
  assert (blkmem s' = <[b := set_inUse 1 bh]> (blkmem s)) as Hbm
    by (unfold s', pop_state; simpl; by rewrite Hb).
  assert (∀ a', used_of (sbmem s') a' =
                if decide (a' = a) then sb_usedBlocks ha + 1 else used_of (sbmem s) a') as Hused.
  { intros a'. rewrite Hsm, used_of_insert. case_decide; [|done]. unfold ha'. simpl. done. }
  assert (∀ hp' c', get_class s' hp' c' =
            if decide (hp' = hp ∧ c' = c)
            then Some (set_usedBlocks (wrap32 (usedBlocks x + 1)) x)
            else get_class s hp' c') as Hgc.
  { intros hp' c'. unfold s', pop_state. by rewrite (get_class_put _ _ _ x). }
  assert (isInitialized s' = true) as Hini by done.
  clearbody s'.
  unfold wf_data. split_and!.
  - done.
  - intros hp' c' Hr. destruct (W2 hp' c' Hr) as [Hcl Hco]. split.
    + eapply class_links_data_frame; [done| |].
      * intros x0 Hx0. rewrite Hgc.
        case_decide as D; [|eauto]. destruct D as [-> ->].
        assert (x0 = x) as -> by congruence. eauto.
      * intros a' h' Ha' Hh'. rewrite Hsm. destruct (decide (a' = a)) as [->|Hne].
        -- rewrite lookup_insert_eq. assert (h' = ha) as -> by congruence. eauto.
        -- rewrite lookup_insert_ne by done. eauto.
    + destruct Hco as (x0 & Hx0 & Hsz & Hus & Hnu).
      unfold counters_ok. rewrite Hgc. case_decide as D.
      * destruct D as [-> ->]. assert (x0 = x) as -> by congruence.
        eexists. split; [done|]. simpl. split_and!; [done| |done].
        rewrite Hus, wrap32_add_l. f_equal. symmetry.
        destruct (W2 hp c Hr) as [(_ & _ & Hnd' & _) _].
        apply (sum_with_bump _ _ _ a 1); [done|done| |].
        -- rewrite Hused, decide_True by done. unfold used_of. by rewrite Hha.
        -- intros b' Hb'. by rewrite Hused, decide_False.
      * exists x0. split_and!; try done. rewrite Hus. f_equal. symmetry.
        apply sum_with_notin with (a := a).
        -- intros Ha'. destruct (wf_data_disjoint L s a hp c hp' c' Hwf Ha Ha') as [-> ->].
           apply D. done.
        -- intros b' Hb'. by rewrite Hused, decide_False.
  - intros hp' c' a' Ha'. destruct (W3 _ _ _ Ha') as [Hr Hok]. split; [done|].
    destruct (decide (a' = a)) as [->|Hne].
    + destruct (wf_data_disjoint L s a hp c hp' c' Hwf Ha Ha') as [<- <-].
      split; [done|]. exists ha', l. rewrite Hsm, lookup_insert_eq. unfold ha'. simpl.
      split_and!; try done; try lia.
      * intros b' Hb'. apply Hl. by right.
      * rewrite Hbm. eapply chain_frame_elems; [|done].
        intros q Hq. rewrite lookup_insert_ne; [done|]. intros ->. done.
      * intros i Hi. destruct (Hs i Hi) as (b0 & Hb0 & Hsz0 & Hp0).
        unfold slot_ok. rewrite Hbm. destruct (decide (block_addr a c i = b)) as [E|Hne].
        -- rewrite E, lookup_insert_eq. rewrite E in Hb0.
           assert (b0 = bh) as -> by congruence. eauto.
        -- rewrite lookup_insert_ne by done. eauto.
    + eapply sb_ok_frame; [done| |].
      * rewrite Hsm. by rewrite lookup_insert_ne.
      * intros q bq Hq Hpq. rewrite Hbm. rewrite lookup_insert_ne; [done|].
        intros ->. assert (bq = bh) as -> by congruence. congruence.
  - intros a' Ha'. apply W4. rewrite Hsm in Ha'.
    destruct (decide (a' = a)) as [->|Hne]; [eauto|]. by rewrite lookup_insert_ne in Ha'.
  - intros p b0 Hb0. rewrite Hbm in Hb0. destruct (decide (p = b)) as [->|Hne].
    + rewrite lookup_insert_eq in Hb0. injection Hb0 as <-. simpl.
      right. exists hp, c, ib. rewrite Hpar. done.
    + rewrite lookup_insert_ne in Hb0 by done. by apply W5.
Qed.

Lemma chain_elem m a p l e q :
  chain m a p l e → q ∈ l →
  ∃ h, m !! q = Some h ∧ inUse h = 0 ∧ parentSuperblock h = a.
Proof.
  revert p. induction l as [|b l IH]; intros p; simpl; [by intros _ ?%elem_of_nil|].
  intros (-> & h & Hh & Hu & Hp & Hc) [->|Hq]%elem_of_cons; eauto.
Qed.

Lemma push_wf L s hp c a ha b bh x :
  wf_data L s →
  a ∈ L hp c →
  sbmem s !! a = Some ha →
  blkmem s !! b = Some bh →
  parentSuperblock bh = a →
  inUse bh ≠ 0 →
  get_class s hp c = Some x →
  wf_data L (push_state hp c a ha b bh x s)
  ∧ 1 <= sb_usedBlocks ha <= blocks_per_superblock c
  ∧ wrap32 (sb_usedBlocks ha - 1) = sb_usedBlocks ha - 1.
Proof.
  intros Hwf Ha Hha Hbh Hpar Hin Hx.
  pose proof Hwf as (W1 & W2 & W3 & W4 & W5).
  destruct (W3 _ _ _ Ha) as ([Hhp Hc] & Hapos & h & l & Hh & Hp & Hn & Hu0 & Hu & Hnd & Hl & Hch & Hs).
  assert (h = ha) as -> by congruence.
  pose proof (blocks_per_superblock_range c Hc) as Hbps.
  assert (∃ ib, 0 <= ib < blocks_per_superblock c ∧ b = block_addr a c ib) as (ib & Hib & Hbaddr).
  { destruct (W5 _ _ Hbh) as [[H0 _]|(hp' & c' & i & Hin' & Hi & Hbi)]; [lia|].
    rewrite Hpar in Hin', Hbi.
    destruct (wf_data_disjoint L s a hp c hp' c' Hwf Ha Hin') as [<- <-]. eauto. }
  assert (b ∉ l) as Hbl.
  { intros Hbl. destruct (chain_elem _ _ _ _ _ _ Hch Hbl) as (h & Hh' & Hu' & _).
    assert (h = bh) as -> by congruence. done. }
  assert (Z.of_nat (length (b :: l)) <= blocks_per_superblock c) as Hlen.
  { apply (slots_bound a); [done|by apply NoDup_cons|].
    intros b' [->|Hb']%elem_of_cons; eauto. }
  simpl length in Hlen.
  assert (wrap32 (sb_usedBlocks ha - 1) = sb_usedBlocks ha - 1) as Hw
    by (apply wrap32_small; lia).
  split_and!; [|lia|lia|done].
  set (ha' := set_sb_usedBlocks (wrap32 (sb_usedBlocks ha - 1)) (set_freeList b ha)).
  set (bh' := set_b_next (freeList ha) (set_inUse 0 bh)).
  set (s' := push_state hp c a ha b bh x s).
  assert (sbmem s' = <[a := ha']> (sbmem s)) as Hsm by done.
  assert (blkmem s' = <[b := bh']> (blkmem s)) as Hbm by done.
  assert (∀ a', used_of (sbmem s') a' =
                if decide (a' = a) then sb_usedBlocks ha - 1 else used_of (sbmem s) a') as Hused.
  { intros a'. rewrite Hsm, used_of_insert. case_decide; [|done]. unfold ha'. simpl. done. }
  assert (∀ hp' c', get_class s' hp' c' =
            if decide (hp' = hp ∧ c' = c)
            then Some (set_usedBlocks (wrap32 (usedBlocks x - 1)) x)
            else get_class s hp' c') as Hgc.
  { intros hp' c'. unfold s', push_state. by rewrite (get_class_put _ _ _ x). }
  assert (isInitialized s' = true) as Hini by done.
  clearbody s'.
  unfold wf_data. split_and!.
  - done.
  - intros hp' c' Hr. destruct (W2 hp' c' Hr) as [Hcl Hco]. split.
    + eapply class_links_data_frame; [done| |].
      * intros x0 Hx0. rewrite Hgc.
        case_decide as D; [|eauto]. destruct D as [-> ->].
        assert (x0 = x) as -> by congruence. eauto.
      * intros a' h' Ha' Hh'. rewrite Hsm. destruct (decide (a' = a)) as [->|Hne].
        -- rewrite lookup_insert_eq. assert (h' = ha) as -> by congruence. eauto.
        -- rewrite lookup_insert_ne by done. eauto.
    + destruct Hco as (x0 & Hx0 & Hsz & Hus & Hnu).
      unfold counters_ok. rewrite Hgc. case_decide as D.
      * destruct D as [-> ->]. assert (x0 = x) as -> by congruence.
        eexists. split; [done|]. simpl. split_and!; [done| |done].
        rewrite Hus, wrap32_sub_l. f_equal. symmetry.
        destruct (W2 hp c Hr) as [(_ & _ & Hnd' & _) _].
        change (sum_with (used_of (sbmem s)) (L hp c) - 1)
          with (sum_with (used_of (sbmem s)) (L hp c) + -1).
        apply (sum_with_bump _ _ _ a (-1)); [done|done| |].
        -- rewrite Hused, decide_True by done. unfold used_of. rewrite Hha. simpl. lia.
        -- intros b' Hb'. by rewrite Hused, decide_False.
      * exists x0. split_and!; try done. rewrite Hus. f_equal. symmetry.
        apply sum_with_notin with (a := a).
        -- intros Ha'. destruct (wf_data_disjoint L s a hp c hp' c' Hwf Ha Ha') as [-> ->].
           apply D. done.
        -- intros b' Hb'. by rewrite Hused, decide_False.
  - intros hp' c' a' Ha'. destruct (W3 _ _ _ Ha') as [Hr Hok]. split; [done|].
    destruct (decide (a' = a)) as [->|Hne].
    + destruct (wf_data_disjoint L s a hp c hp' c' Hwf Ha Ha') as [<- <-].
      split; [done|]. exists ha', (b :: l). rewrite Hsm, lookup_insert_eq. unfold ha'. simpl.
      split_and!; try done; try lia.
      * by apply NoDup_cons.
      * intros b' [->|Hb']%elem_of_cons; eauto.
      * rewrite Hbm, lookup_insert_eq. exists bh'. unfold bh'. simpl. split_and!; try done.
        eapply chain_frame_elems; [|done].
        intros q Hq. rewrite lookup_insert_ne; [done|]. intros ->. done.
      * intros i Hi. destruct (Hs i Hi) as (b0 & Hb0 & Hsz0 & Hp0).
        unfold slot_ok. rewrite Hbm. destruct (decide (block_addr a c i = b)) as [E|Hne].
        -- rewrite E, lookup_insert_eq. rewrite E in Hb0.
           assert (b0 = bh) as -> by congruence. eauto.
        -- rewrite lookup_insert_ne by done. eauto.
    + eapply sb_ok_frame; [done| |].
      * rewrite Hsm. by rewrite lookup_insert_ne.
      * intros q bq Hq Hpq. rewrite Hbm. rewrite lookup_insert_ne; [done|].
        intros ->. assert (bq = bh) as -> by congruence. congruence.
  - intros a' Ha'. apply W4. rewrite Hsm in Ha'.
    destruct (decide (a' = a)) as [->|Hne]; [eauto|]. by rewrite lookup_insert_ne in Ha'.
  - intros p b0 Hb0. rewrite Hbm in Hb0. destruct (decide (p = b)) as [->|Hne].
    + rewrite lookup_insert_eq in Hb0. injection Hb0 as <-. simpl.
      right. exists hp, c, ib. rewrite Hpar. done.
    + rewrite lookup_insert_ne in Hb0 by done. by apply W5.
Qed.

(** ** The search for a free block *)

Lemma search_loop_spec fuel : ∀ l prev p s blk s',
  dseg (sbmem s) prev l 0 →
  p = default 0 (head l) →
  search_loop fuel p s = Ok blk s' →
  s' = s
  ∧ (blk = 0
     ∨ ∃ a h, a ∈ l ∧ sbmem s !! a = Some h
              ∧ sb_usedBlocks h < sb_numOfBlocks h ∧ blk = freeList h).
Proof.
  induction fuel as [|fuel IH]; intros l prev p s blk s' Hseg -> Hrun; [done|].
  simpl in Hrun. destruct l as [|a l].
  - simpl in Hrun. injection Hrun as <- <-. split; [done|by left].
  - destruct Hseg as (Ha & (h & Hh & Hp & Hn) & Hseg). simpl in Hrun.
    destruct (Z.eqb_spec a 0) as [?|_]; [done|].
    rewrite (run_load_sb a h) in Hrun by done.
    destruct (Z.ltb_spec (sb_usedBlocks h) (sb_numOfBlocks h)) as [Hlt|Hge].
    + injection Hrun as <- <-. split; [done|]. right. exists a, h.
      split_and!; try done. by left.
    + destruct (IH l a _ s blk s' Hseg Hn Hrun) as [-> [->|(a' & h' & Ha' & Hh' & Hlt & ->)]].
      * split; [done|by left].
      * split; [done|]. right. exists a', h'. split_and!; try done. by right.
Qed.

Lemma search_sizeclass_spec fuel hp c l s blk s' :
  class_links s hp c l →
  search_sizeclass fuel hp c s = Ok blk s' →
  s' = s
  ∧ (blk = 0
     ∨ ∃ a h, a ∈ l ∧ sbmem s !! a = Some h
              ∧ sb_usedBlocks h < sb_numOfBlocks h ∧ blk = freeList h).
Proof.
  intros (x & Hx & Hnd & Hseg & Hhd & Htl) Hrun. unfold search_sizeclass in Hrun.
  rewrite (run_load_class hp c x) in Hrun by done.
  destruct (usedBlocks x =? numOfBlocks x).
  - injection Hrun as <- <-. split; [done|by left].
  - by eapply search_loop_spec.
Qed.

(** The head of the free list of a superblock that is not full. *)
Lemma free_head L s hp c a ha :
  wf_data L s → a ∈ L hp c → sbmem s !! a = Some ha →
  sb_usedBlocks ha < sb_numOfBlocks ha →
  a ≠ 0 ∧ freeList ha ≠ 0
  ∧ ∃ bh, blkmem s !! freeList ha = Some bh
          ∧ parentSuperblock bh = a ∧ inUse bh = 0.
Proof.
  intros Hwf Ha Hha Hlt.
  pose proof Hwf as (W1 & W2 & W3 & W4 & W5).
  destruct (W3 _ _ _ Ha) as ([Hhp Hc] & Hapos & h & l & Hh & Hp & Hn & Hu0 & Hu & Hnd & Hl & Hch & Hs).
  assert (h = ha) as -> by congruence.
  destruct l as [|b l]; [simpl in Hu; lia|].
  destruct Hch as (Hb & bh0 & Hbh0 & Hin0 & Hpar & Hch).
  destruct (Hl b) as (ib & Hib & Hbaddr); [by left|].
  assert (0 < b) as Hbpos by (rewrite Hbaddr; apply block_addr_pos; [done..|lia]).
  split_and!; [lia|lia|]. exists bh0. by rewrite Hb.
Qed.

Lemma free_head_pos L s hp c a ha :
  wf_data L s → a ∈ L hp c → sbmem s !! a = Some ha →
  sb_usedBlocks ha < sb_numOfBlocks ha →
  0 < freeList ha.
Proof.
  intros Hwf Ha Hha Hlt.
  pose proof Hwf as (W1 & W2 & W3 & W4 & W5).
  destruct (W3 _ _ _ Ha) as ([Hhp Hc] & Hapos & h & l & Hh & Hp & Hn & Hu0 & Hu & Hnd & Hl & Hch & Hs).
  assert (h = ha) as -> by congruence.
  destruct l as [|b l]; [simpl in Hu; lia|].
  destruct Hch as (Hb & _).
  destruct (Hl b) as (ib & Hib & Hbaddr); [by left|].
  rewrite Hb, Hbaddr. apply block_addr_pos; [done..|lia].
Qed.

Lemma with_blkmem_with_sbmem b m s :
  with_blkmem b (with_sbmem m s) = with_sbmem m (with_blkmem b s).
Proof. done. Qed.

(** The six steps that take the first free block of the superblock [a]. *)
Lemma run_pop {B} hp c a ha bh x (k : unit → M B) s :
  sbmem s !! a = Some ha → a ≠ 0 →
  blkmem s !! freeList ha = Some bh → freeList ha ≠ 0 →
  get_class s hp c = Some x →
  (store_sb a (set_freeList (b_next bh)) ;;;
   store_blk (freeList ha) (set_inUse 1) ;;;
   store_sb a (λ s, set_sb_usedBlocks (wrap32 (sb_usedBlocks s + 1)) s) ;;;
   x <- store_class hp c (λ c, set_usedBlocks (wrap32 (usedBlocks c + 1)) c) ;; k x) s
  = k tt (pop_state hp c a ha bh x s).
Proof.
  intros Hha Ha Hbh Hb Hx.
  rewrite (run_store_sb_at a ha) by done.
  rewrite (run_store_blk_at (freeList ha) bh) by done.
  erewrite (run_store_sb_at a); [|simpl; apply lookup_insert_eq|done].
  erewrite (run_store_class hp c x) by done.
  f_equal. unfold pop_state. simpl.
  rewrite insert_insert_eq. done.
Qed.

(** ** Order after a superblock has moved in its list *)

Section bubble_sorted.
Context (f : Z → Z).
Local Abbreviation SSf := (StronglySorted (λ a b, f b <= f a)).

Lemma SS_app_l l1 l2 : SSf (l1 ++ l2) → SSf l1.
Proof. by intros (_ & H & _)%StronglySorted_app. Qed.

Lemma SS_app_r l1 l2 : SSf (l1 ++ l2) → SSf l2.
Proof. by intros (_ & _ & H)%StronglySorted_app. Qed.

Lemma SS_bubble_up l1 l2 post x :
  SSf (l1 ++ l2 ++ post) →
  (∀ y, y ∈ l2 → f y < f x) →
  (∀ y, last l1 = Some y → f x <= f y) →
  (∀ y, y ∈ post → f y <= f x) →
  SSf (l1 ++ x :: l2 ++ post).
Proof.
  intros Hs H2 H1 Hp. apply SS_insert; [done| |].
  - intros y Hy. destruct (last l1) as [z|] eqn:Hz.
    + etrans; [by apply H1|]. eapply (SS_ge_last f l1); [by eapply SS_app_l|done..].
    + apply last_None in Hz. subst. by apply elem_of_nil in Hy.
  - intros y [Hy|Hy]%elem_of_app; [|by apply Hp]. apply H2 in Hy. lia.
Qed.

Lemma SS_bubble_down pre l1 l2 x :
  SSf (pre ++ l1 ++ l2) →
  (∀ y, y ∈ l1 → f x < f y) →
  (∀ y, head l2 = Some y → f y <= f x) →
  (∀ y, y ∈ pre → f x <= f y) →
  SSf (pre ++ l1 ++ x :: l2).
Proof.
  intros Hs H1 H2 Hp. rewrite app_assoc. rewrite app_assoc in Hs.
  apply SS_insert; [done| |].
  - intros y [Hy|Hy]%elem_of_app; [by apply Hp|]. apply H1 in Hy. lia.
  - intros y Hy. destruct (head l2) as [z|] eqn:Hz.
    + etrans; [|by apply H2]. eapply (SS_le_head f l2); [by eapply SS_app_r|done..].
    + apply head_None in Hz. subst. by apply elem_of_nil in Hy.
Qed.
End bubble_sorted.

Lemma SS_fuller_insert m a h l :
  a ∉ l → StronglySorted (fuller m) l → StronglySorted (fuller (<[a := h]> m)) l.
Proof.
  intros Ha Hs. apply (SS_ext (used_of m)); [|done].
  intros b Hb. rewrite used_of_insert, decide_False; [done|]. intros ->. done.
Qed.

Lemma SS_fuller_links_only m m' l :
  links_only m m' → StronglySorted (fuller m) l → StronglySorted (fuller m') l.
Proof.
  intros Hlo Hs. apply (SS_ext (used_of m)); [|done].
  intros b _. symmetry. by apply used_of_links_only.
Qed.

(** The last step of a relinking of the list of class [(hp, c)]. *)
Lemma relink_wf L s s' hp c l' :
  wf_data L s →
  global_not_full L s →
  (∀ hp' c', (hp', c') ≠ (hp, c) → StronglySorted (fuller (sbmem s)) (L hp' c')) →
  links_frame hp c (L hp c) s s' →
  class_links s' hp c l' →
  l' ≡ₚ L hp c →
  StronglySorted (fuller (sbmem s)) l' →
  wf_with (update_list L hp c l') s'.
Proof.
  intros Hwf Hg Hso Hf Hl' Hperm Hs'.
  pose proof (links_frame_links_only _ _ _ _ _ Hf) as Hlo.
  split_and!.
  - by eapply wf_data_relink.
  - intros hp' c'. unfold update_list. case_decide as D.
    + by eapply SS_fuller_links_only.
    + eapply SS_fuller_links_only; [done|]. apply Hso. intros [= -> ->]. by apply D.
  - eapply global_not_full_relink; [done..|]. intros b. by rewrite Hperm.
Qed.

(** ** The fast path of [malloc] *)

Lemma pop_bubble_wf L s hp c a ha bh x fuel s' :
  wf_with L s →
  hp ≠ NUM_OF_CPUS →
  a ∈ L hp c →
  sbmem s !! a = Some ha →
  sb_usedBlocks ha < sb_numOfBlocks ha →
  blkmem s !! freeList ha = Some bh →
  get_class s hp c = Some x →
  bubble_to_head fuel hp c a (pop_state hp c a ha bh x s) = Ok tt s' →
  wf s' ∧ blkmem s' = <[freeList ha := set_inUse 1 bh]> (blkmem s).
Proof.
  intros (Hwf & Hso & Hg) Hhp Ha Hha Hlt Hbh Hx Hrun.
  destruct (pop_wf L s hp c a ha bh x Hwf Ha Hha Hlt Hbh Hx)
    as (Hwf2 & Hb0 & Hpar & _ & Hw & _).
  set (s2 := pop_state hp c a ha bh x s) in *.
  assert (sbmem s2 =
          <[a := set_sb_usedBlocks (wrap32 (sb_usedBlocks ha + 1))
                   (set_freeList (b_next bh) ha)]> (sbmem s)) as Hsm by done.
  assert (blkmem s2 = <[freeList ha := set_inUse 1 bh]> (blkmem s)) as Hbm by done.
  assert (used_of (sbmem s2) a = used_of (sbmem s) a + 1) as Hua.
  { rewrite Hsm, used_of_insert, decide_True by done. simpl.
    rewrite (used_of_lookup _ _ _ Hha). done. }
  assert (∀ b, b ≠ a → used_of (sbmem s2) b = used_of (sbmem s) b) as Hub.
  { intros b Hb. by rewrite Hsm, used_of_insert, decide_False. }
  clearbody s2.
  pose proof Hwf2 as (_ & W2 & _).
  destruct (list_elem_of_split _ _ Ha) as (pre & post & HL).
  assert (in_range hp c) as Hr.
  { destruct Hwf as (_ & _ & W3 & _). by destruct (W3 _ _ _ Ha). }
  destruct (W2 hp c Hr) as [Hcl _]. rewrite HL in Hcl.
  pose proof Hcl as (_ & _ & Hnd & _).
  apply NoDup_app in Hnd as (Hnpre & Hdis & [Hnpost _]%NoDup_cons).
  assert (a ∉ pre) as Hapre by (intros H; eapply Hdis; [done|by left]).
  destruct (bubble_to_head_spec fuel hp c pre a post s2 s' Hcl Hrun)
    as (pre1 & pre2 & -> & Hcl' & Hlt2 & Hle1 & Hf).
  split.
  - exists (update_list L hp c (pre1 ++ a :: pre2 ++ post)).
    apply (relink_wf L s2).
    + done.
    + intros c' a' Ha'. rewrite Hub; [by apply Hg|].
      intros ->. destruct (wf_data_disjoint L s a hp c NUM_OF_CPUS c' Hwf Ha Ha') as [-> _].
      done.
    + intros hp' c' Hne. rewrite Hsm. apply SS_fuller_insert; [|apply Hso].
      intros Ha'. destruct (wf_data_disjoint L s a hp c hp' c' Hwf Ha Ha') as [-> ->].
      done.
    + by rewrite HL.
    + done.
    + rewrite HL. rewrite <-!app_assoc. apply Permutation_app_head.
      by rewrite Permutation_middle.
    + specialize (Hso hp c). rewrite HL in Hso.
      apply (SS_bubble_up (used_of (sbmem s2))).
      * rewrite app_assoc, Hsm. apply SS_fuller_insert.
        -- intros [H|H]%elem_of_app; done.
        -- by eapply SS_remove.
      * done.
      * done.
      * intros y Hy. rewrite Hua, Hub by (intros ->; done).
        apply StronglySorted_app in Hso as (_ & _ & [Hall _]%StronglySorted_cons).
        rewrite Forall_forall in Hall. specialize (Hall y Hy). unfold fuller in Hall. lia.
  - destruct Hf as (F1 & _). by rewrite F1.
Qed.

(** ** Migration of a superblock between two heaps *)

Lemma core_used m m' a :
  sb_core <$> m' !! a = sb_core <$> m !! a → used_of m' a = used_of m a.
Proof.
  unfold used_of. destruct (m' !! a) as [h'|], (m !! a) as [h|]; simpl; try done.
  by intros [= -> _ _ _].
Qed.

Lemma core_data (m m' : gmap Z superblockHeader) a :
  sb_core <$> m' !! a = sb_core <$> m !! a →
  parentHeap <$> m' !! a = parentHeap <$> m !! a →
  sb_data <$> m' !! a = sb_data <$> m !! a.
Proof.
  destruct (m' !! a) as [h'|], (m !! a) as [h|]; simpl; try done.
  unfold sb_data. intros [= -> -> -> _] [= ->]. done.
Qed.

Lemma move_list_mem L s src dst c pre x post ld1 ld2 :
  src ≠ dst →
  wf_data L s →
  L src c = pre ++ x :: post →
  L dst c = ld1 ++ ld2 →
  ∀ a hp' c',
    a ∈ update_list (update_list L src c (pre ++ post)) dst c (ld1 ++ x :: ld2) hp' c' ↔
    (a = x ∧ hp' = dst ∧ c' = c) ∨ (a ≠ x ∧ a ∈ L hp' c').
Proof.
  intros Hsd Hwf HLs HLd.
  pose proof Hwf as (W1 & W2 & W3 & W4 & W5).
  set (L' := update_list (update_list L src c (pre ++ post)) dst c (ld1 ++ x :: ld2)).
  assert (x ∈ L src c) as Hx by (rewrite HLs; solve_elem_iff).
  destruct (W3 _ _ _ Hx) as (Hrs & Hokx).
  destruct (W2 src c Hrs) as [Hcls Hcos].
  assert (NoDup (pre ++ x :: post)) as Hnd by (rewrite <-HLs; by destruct Hcls as (? & ? & ? & _)).
  assert (L' dst c = ld1 ++ x :: ld2) as HL'd by apply update_list_eq.
  assert (L' src c = pre ++ post) as HL's.
  { unfold L'. rewrite update_list_ne by (intros ?; simplify_eq). apply update_list_eq. }
  assert (∀ hp' c', (hp', c') ≠ (src, c) → (hp', c') ≠ (dst, c) → L' hp' c' = L hp' c') as HL'o.
  { intros hp' c' H1 H2. unfold L'. by rewrite !update_list_ne. }
  clearbody L'.
  intros a hp' c'.
    destruct (decide ((hp', c') = (dst, c))) as [[= -> ->]|Hnd1].
    { rewrite HL'd, HLd. split.
      - intros [H|[->|H]%elem_of_cons]%elem_of_app.
        + right. split; [|solve_elem_iff]. intros ->.
          destruct (wf_data_disjoint L s x src c dst c Hwf Hx) as [? _]; [|done].
          rewrite HLd. solve_elem_iff.
        + by left.
        + right. split; [|solve_elem_iff]. intros ->.
          destruct (wf_data_disjoint L s x src c dst c Hwf Hx) as [? _]; [|done].
          rewrite HLd. solve_elem_iff.
      - intros [(-> & _)|[Hne H]]; [solve_elem_iff|].
        revert H. rewrite !elem_of_app, elem_of_cons. tauto. }
    destruct (decide ((hp', c') = (src, c))) as [[= -> ->]|Hnd2].
    { rewrite HL's, HLs. split.
      - intros H. right. split; [|revert H; rewrite !elem_of_app, elem_of_cons; tauto].
        intros ->. apply NoDup_app in Hnd as (_ & Hdis & [Hn _]%NoDup_cons).
        apply elem_of_app in H as [H|H]; [|done]. eapply Hdis; [done|by left].
      - intros [(-> & -> & _)|[Hne H]]; [done|].
        revert H. rewrite !elem_of_app, elem_of_cons. tauto. }
    rewrite HL'o by done. split.
    - intros H. right. split; [|done]. intros ->.
      destruct (wf_data_disjoint L s x src c hp' c' Hwf Hx H) as [<- <-]. done.
    - intros [(-> & -> & ->)|[_ H]]; [done|done].
Qed.

Lemma wf_data_move L s s' src dst c pre x post ld1 ld2 :
  src ≠ dst →
  wf_data L s →
  L src c = pre ++ x :: post →
  L dst c = ld1 ++ ld2 →
  move_frame src dst c x (pre ++ x :: post ++ ld1 ++ ld2) s s' →
  class_links s' src c (pre ++ post) →
  class_links s' dst c (ld1 ++ x :: ld2) →
  wf_data (update_list (update_list L src c (pre ++ post)) dst c (ld1 ++ x :: ld2)) s'.
Proof.
  intros Hsd Hwf HLs HLd Hmf Hcs Hcd.
  pose proof Hwf as (W1 & W2 & W3 & W4 & W5).
  destruct Hmf as (F1 & F2 & F3 & F4 & F5 & F6 & F7 & F8 & F9 & F10 & F11).
  set (L' := update_list (update_list L src c (pre ++ post)) dst c (ld1 ++ x :: ld2)).
  assert (x ∈ L src c) as Hx by (rewrite HLs; solve_elem_iff).
  destruct (W3 _ _ _ Hx) as (Hrs & Hokx).
  assert (in_range dst c) as Hrd.
  { destruct F11 as (cd & _ & Hcd0 & _). apply get_class_Some in Hcd0. split; [tauto|apply Hrs]. }
  destruct (W2 src c Hrs) as [Hcls Hcos]. destruct (W2 dst c Hrd) as [Hcld Hcod].
  assert (NoDup (pre ++ x :: post)) as Hnd by (rewrite <-HLs; by destruct Hcls as (? & ? & ? & _)).
  assert (∀ a, used_of (sbmem s') a = used_of (sbmem s) a) as Hused
    by (intros a; by apply core_used).
  assert (L' dst c = ld1 ++ x :: ld2) as HL'd by apply update_list_eq.
  assert (L' src c = pre ++ post) as HL's.
  { unfold L'. rewrite update_list_ne by (intros ?; simplify_eq). apply update_list_eq. }
  assert (∀ hp' c', (hp', c') ≠ (src, c) → (hp', c') ≠ (dst, c) → L' hp' c' = L hp' c') as HL'o.
  { intros hp' c' H1 H2. unfold L'. by rewrite !update_list_ne. }
  assert (∀ a hp' c', a ∈ L' hp' c' ↔
            (a = x ∧ hp' = dst ∧ c' = c) ∨ (a ≠ x ∧ a ∈ L hp' c')) as Hmem
    by (by eapply move_list_mem).
  clearbody L'.
  destruct Hokx as (Hx0 & hx & lx & Hhx & Hpx & Hnx & Hux0 & Hux & Hndx & Hlx & Hchx & Hsx).
  pose proof (blocks_per_superblock_range c (proj2 Hrs)) as Hbps.
  unfold wf_data. split_and!.
  - congruence.
  - intros hp' c' Hr.
    destruct (decide ((hp', c') = (dst, c))) as [[= -> ->]|Hnd1].
    { rewrite HL'd. split; [done|].
      destruct Hcod as (cd & Hcd0 & Hsz & Hu & Hn).
      destruct F11 as (cd0 & cd' & E0 & E' & Esz & _ & Eu & En).
      assert (cd0 = cd) as -> by congruence.
      exists cd'. split_and!; [done|congruence| |].
      - rewrite Eu, Hu, wrap32_add_l. f_equal.
        rewrite (sum_with_ext _ (used_of (sbmem s)) _ (λ a _, Hused a)).
        rewrite HLd, !sum_with_app. simpl. lia.
      - rewrite En, Hn, wrap32_add_l. f_equal.
        rewrite (num_of_lookup _ _ _ Hhx), Hnx, HLd, !length_app. simpl length. lia. }
    destruct (decide ((hp', c') = (src, c))) as [[= -> ->]|Hnd2].
    { rewrite HL's. split; [done|].
      destruct Hcos as (cs & Hcs0 & Hsz & Hu & Hn).
      destruct F10 as (cs0 & cs' & E0 & E' & Esz & _ & Eu & En).
      assert (cs0 = cs) as -> by congruence.
      exists cs'. split_and!; [done|congruence| |].
      - rewrite Eu, Hu, wrap32_sub_l. f_equal.
        rewrite (sum_with_ext _ (used_of (sbmem s)) _ (λ a _, Hused a)).
        rewrite HLs, !sum_with_app. simpl. lia.
      - rewrite En, Hn, wrap32_sub_l. f_equal.
        rewrite (num_of_lookup _ _ _ Hhx), Hnx, HLs, !length_app. simpl length. lia. }
    rewrite HL'o by done. destruct (W2 hp' c' Hr) as [Hcl Hco]. split.
    + eapply class_links_frame_other; [done|by apply F9|].
      intros a Ha. apply F5. intros H.
      assert (a ∈ L src c ∨ a ∈ L dst c) as [H'|H'].
      { rewrite HLs, HLd. revert H. rewrite !elem_of_app, !elem_of_cons, !elem_of_app. tauto. }
      all: clear H; rename H' into H.
      * destruct (wf_data_disjoint L s a hp' c' src c Hwf Ha H) as [-> ->]. done.
      * destruct (wf_data_disjoint L s a hp' c' dst c Hwf Ha H) as [-> ->]. done.
    + eapply counters_ok_frame; [done|by rewrite F9| |done].
      apply sum_with_ext. intros a _. apply Hused.
  - intros hp' c' a Ha. apply Hmem in Ha as [(-> & -> & ->)|[Hne Ha]].
    + split; [done|]. split; [done|].
      assert (∃ hx', sbmem s' !! x = Some hx') as [hx' Hhx'].
      { destruct (sbmem s' !! x); [eauto|done]. }
      exists hx', lx. specialize (F6 x). rewrite Hhx, Hhx' in F6. rewrite Hhx' in F8.
      injection F6 as E1 E2 E3 E4. injection F8 as E5.
      split_and!; try done; try congruence.
      intros i Hi. destruct (Hsx i Hi) as (b0 & ? & ? & ?). exists b0. by rewrite F1.
    + destruct (W3 _ _ _ Ha) as [Hr Hok]. split; [done|].
      eapply sb_ok_frame; [done| |].
      * apply core_data; [apply F6|by apply F7].
      * intros q bq Hq _. by rewrite F1.
  - intros a Ha.
    assert (is_Some (sbmem s !! a)) as Ha0.
    { specialize (F6 a). destruct Ha as [h Hh]. rewrite Hh in F6.
      destruct (sbmem s !! a); [eauto|done]. }
    destruct (W4 a Ha0) as (hp' & c' & Hin).
    destruct (decide (a = x)) as [->|Hne].
    + exists dst, c. apply Hmem. by left.
    + exists hp', c'. apply Hmem. by right.
  - intros p b0 Hb0. rewrite F1 in Hb0.
    destruct (W5 p b0 Hb0) as [?|(hp' & c' & i & Hin & Hi & Hp)]; [by left|].
    right. destruct (decide (parentSuperblock b0 = x)) as [E|Hne].
    + rewrite E in Hin. destruct (wf_data_disjoint L s x src c hp' c' Hwf Hx Hin) as [<- <-].
      exists dst, c, i. split; [apply Hmem; left; done|]. split; [done|congruence].
    + exists hp', c', i. split; [apply Hmem; by right|]. done.
Qed.

Lemma move_wf L s s' src dst c pre x post fuel :
  src ≠ dst →
  in_range dst c →
  wf_data L s →
  L src c = pre ++ x :: post →
  StronglySorted (fuller (sbmem s)) (pre ++ post) →
  (∀ hp' c', (hp', c') ≠ (src, c) → StronglySorted (fuller (sbmem s)) (L hp' c')) →
  (∀ c' a, a ∈ L NUM_OF_CPUS c' → a ≠ x → used_of (sbmem s) a < blocks_per_superblock c') →
  (dst = NUM_OF_CPUS → used_of (sbmem s) x < blocks_per_superblock c) →
  move_superblock fuel x src dst c s = Ok tt s' →
  wf s' ∧ blkmem s' = blkmem s.
Proof.
  intros Hsd Hrd Hwf HLs Hss Hso Hg Hgx Hrun.
  pose proof Hwf as (W1 & W2 & W3 & W4 & W5).
  assert (x ∈ L src c) as Hx by (rewrite HLs; solve_elem_iff).
  destruct (W3 _ _ _ Hx) as (Hrs & Hokx).
  destruct (W2 src c Hrs) as [Hcls _]. destruct (W2 dst c Hrd) as [Hcld _].
  rewrite HLs in Hcls.
  destruct (move_superblock_spec fuel src dst c pre x post (L dst c) s s' Hsd Hcls Hcld)
    as (ld1 & ld2 & HLd & Hcs' & Hcd' & Hgt & Hle & Hmf); [|done|].
  { intros a Ha. rewrite <-HLs. intros Ha'.
    destruct (wf_data_disjoint L s a dst c src c Hwf Ha Ha') as [-> _]. done. }
  rewrite HLd in Hmf.
  pose proof (wf_data_move L s s' src dst c pre x post ld1 ld2 Hsd Hwf HLs HLd Hmf Hcs' Hcd')
    as Hwf'.
  pose proof (move_list_mem L s src dst c pre x post ld1 ld2 Hsd Hwf HLs HLd) as Hmem.
  destruct Hmf as (F1 & F2 & F3 & F4 & F5 & F6 & F7 & F8 & F9 & F10 & F11).
  assert (∀ a, used_of (sbmem s') a = used_of (sbmem s) a) as Hused
    by (intros a; by apply core_used).
  assert (∀ l, StronglySorted (fuller (sbmem s)) l → StronglySorted (fuller (sbmem s')) l) as Hext.
  { intros l. apply (SS_ext (used_of (sbmem s))). intros a _. symmetry. apply Hused. }
  split; [|done].
  exists (update_list (update_list L src c (pre ++ post)) dst c (ld1 ++ x :: ld2)).
  split_and!; [done| |].
  - intros hp' c'. unfold update_list. case_decide as D1; [|case_decide as D2].
    + apply Hext. apply (SS_bubble_down (used_of (sbmem s)) []); simpl; try done.
      * rewrite <-HLd. apply Hso. intros ?; simplify_eq.
      * by intros y ?%elem_of_nil.
    + by apply Hext.
    + apply Hext, Hso. intros ?; simplify_eq. by apply D2.
  - intros c' a Ha. apply Hmem in Ha as [(-> & E & ->)|[Hne Ha]]; rewrite Hused.
    + by apply Hgx.
    + by apply Hg.
Qed.

(** ** Construction of a superblock *)

Lemma block_addr_ne a c i j :
  0 <= c < NUM_OF_CLASSES → i ≠ j → block_addr a c i ≠ block_addr a c j.
Proof. intros Hc Hij E. by apply block_addr_inj in E. Qed.

Lemma init_map_lookup_out k : ∀ i a c m q,
  (∀ j, i <= j < i + Z.of_nat k → q ≠ block_addr a c j) →
  init_map k i a c m !! q = m !! q.
Proof.
  induction k as [|k IH]; intros i a c m q Hq; simpl; [done|].
  rewrite IH by (intros j Hj; apply Hq; lia).
  rewrite lookup_insert_ne; [done|]. intros E. eapply (Hq i); [lia|done].
Qed.

Lemma init_map_lookup_in k : ∀ i a c m j,
  0 <= c < NUM_OF_CLASSES →
  i <= j < i + Z.of_nat k →
  init_map k i a c m !! block_addr a c j
  = Some (mkBlock (SIZE_OF_CLASS c) 0 (block_addr a c (j + 1)) a).
Proof.
  induction k as [|k IH]; intros i a c m j Hc Hj; simpl; [lia|].
  destruct (decide (j = i)) as [->|Hne].
  - rewrite init_map_lookup_out.
    + by rewrite lookup_insert_eq.
    + intros j Hj'. apply block_addr_ne; [done|lia].
  - apply IH; [done|lia].
Qed.

Lemma init_blocks_run k : ∀ i a c s,
  0 < a → 0 <= c < NUM_OF_CLASSES → 0 <= i →
  init_blocks k (block_addr a c i) a c s
  = Ok tt (with_blkmem (init_map k i a c (blkmem s)) s).
Proof.
  induction k as [|k IH]; intros i a c s Ha Hc Hi.
  - simpl. unfold ret. f_equal. by destruct s.
  - cbn [init_blocks init_map].
    assert (block_addr a c i ≠ 0) as Hp
      by (pose proof (block_addr_pos a c i Ha Hc Hi); lia).
    rewrite run_store_blk by done.
    erewrite run_store_blk_at; [|simpl; apply lookup_insert_eq|done].
    erewrite run_store_blk_at; [|simpl; apply lookup_insert_eq|done].
    erewrite run_store_blk_at; [|simpl; apply lookup_insert_eq|done].
    erewrite run_load_blk; [|simpl; apply lookup_insert_eq|done].
    cbn [set_parentSuperblock set_b_next set_inUse set_blockSize
         blockSize inUse b_next parentSuperblock].
    rewrite block_addr_succ, IH by (done || lia).
    simpl. rewrite !insert_insert_eq. done.
Qed.

Lemma init_superblock_run a c s :
  0 < a → 0 <= c < NUM_OF_CLASSES →
  init_superblock a c s = Ok 0 (init_state a c s).
Proof.
  intros Ha Hc. unfold init_superblock.
  assert (a ≠ 0) as Ha0 by lia.
  pose proof (blocks_per_superblock_range c Hc) as Hbps.
  rewrite run_store_sb by done.
  erewrite run_store_sb_at; [|simpl; apply lookup_insert_eq|done].
  erewrite run_store_sb_at; [|simpl; apply lookup_insert_eq|done].
  erewrite run_store_sb_at; [|simpl; apply lookup_insert_eq|done].
  erewrite run_load_sb; [|simpl; apply lookup_insert_eq|done].
  cbn [set_freeList set_sb_lock set_sb_numOfBlocks set_sb_usedBlocks
       sb_numOfBlocks freeList].
  fold (blocks_per_superblock c).
  rewrite (wrap32_small (blocks_per_superblock c)) by lia.
  assert (a + sizeof_superblockHeader = block_addr a c 0) as E
    by (unfold block_addr; lia).
  unfold bind at 1. rewrite E at 1. rewrite init_blocks_run by (done || lia).
  unfold ret, init_state, init_header. simpl.
  rewrite !insert_insert_eq.
  rewrite (wrap32_small (blocks_per_superblock c)) by lia.
  done.
Qed.

(** ** The grow path of [malloc] *)

Lemma wr_insert_ne t g a h (m : gmap Z superblockHeader) :
  t ≠ a → wr t g (<[a := h]> m) = <[a := h]> (wr t g m).
Proof.
  intros Hne. unfold wr. destruct (t =? 0); [done|].
  rewrite lookup_insert_ne by done. by rewrite insert_insert_ne.
Qed.

Lemma grow_run {B} a c hp x s (k : superblockHeader → unit → M B) :
  0 < a → 0 <= c < NUM_OF_CLASSES →
  get_class s hp c = Some x →
  sbmem s !! a = None →
  sc_tail x ≠ a →
  (_ <- init_superblock a c ;;
   store_sb a (set_parentHeap (Some hp)) ;;;
   s0 <- load_sb a ;;
   hd <- load_blk (freeList s0) ;;
   store_sb a (set_freeList (b_next hd)) ;;;
   store_blk (freeList s0) (set_inUse 1) ;;;
   store_sb a (λ s, set_sb_usedBlocks (wrap32 (sb_usedBlocks s + 1)) s) ;;;
   store_class hp c (λ c, set_usedBlocks (wrap32 (usedBlocks c + 1)) c) ;;;
   s1 <- load_sb a ;;
   store_class hp c
     (λ c, set_numOfBlocks (wrap32 (numOfBlocks c + sb_numOfBlocks s1)) c) ;;;
   store_sb a (set_parentHeap (Some hp)) ;;;
   c0 <- load_class hp c ;;
   (if negb (sc_tail c0 =? 0)
    then store_sb (sc_tail c0) (set_sb_next a)
    else store_class hp c (set_sc_head a)) ;;;
   c0 <- load_class hp c ;;
   store_sb a (set_sb_prev (sc_tail c0)) ;;;
   store_class hp c (set_sc_tail a) ;;;
   u <- store_sb a (set_sb_next 0) ;; k s0 u) s
  = k (set_parentHeap (Some hp) (init_header a c zero_superblock)) tt
      (grow_state a c hp x s).
Proof.
  intros Ha Hc Hx Hfresh Ht.
  assert (a ≠ 0) as Ha0 by lia.
  pose proof (blocks_per_superblock_range c Hc) as Hbps.
  unfold bind at 1. rewrite init_superblock_run by done.
  unfold init_state. rewrite Hfresh. cbn [default].
  set (h0 := init_header a c zero_superblock).
  set (bm := init_map (Z.to_nat (blocks_per_superblock c)) 0 a c (blkmem s)).
  rewrite (run_store_sb_at a h0) by (simpl; by rewrite ?lookup_insert_eq).
  cbn [sbmem with_sbmem with_blkmem].
  set (h1 := set_parentHeap (Some hp) h0).
  rewrite insert_insert_eq.
  rewrite (run_load_sb a h1) by (simpl; by rewrite ?lookup_insert_eq).
  assert (freeList h1 = block_addr a c 0) as Efl by (unfold block_addr; simpl; lia).
  assert (freeList h1 ≠ 0) as Hfl0.
  { rewrite Efl. pose proof (block_addr_pos a c 0 Ha Hc). lia. }
  set (hd := mkBlock (SIZE_OF_CLASS c) 0 (block_addr a c (0 + 1)) a).
  assert (bm !! freeList h1 = Some hd) as Hhd.
  { rewrite Efl. apply init_map_lookup_in; [done|lia]. }
  rewrite (run_load_blk (freeList h1) hd) by done.
  rewrite (run_pop hp c a h1 hd x) by (done || (simpl; by rewrite ?lookup_insert_eq)).
  set (x1 := set_usedBlocks (wrap32 (usedBlocks x + 1)) x).
  set (h2 := set_sb_usedBlocks (wrap32 (sb_usedBlocks h1 + 1)) (set_freeList (b_next hd) h1)).
  unfold pop_state. fold x1 h2. cbn [sbmem blkmem with_sbmem with_blkmem].
  rewrite insert_insert_eq.
  change (with_sbmem ?m (with_blkmem ?b (with_sbmem _ (with_blkmem _ (with_sbmem _ s)))))
    with (with_sbmem m (with_blkmem b s)).
  set (bm1 := <[freeList h1 := set_inUse 1 hd]> bm).
  rewrite (run_load_sb a h2) by (simpl; by rewrite ?lookup_insert_eq).
  rewrite (run_store_class hp c x1) by (by eapply get_class_put_eq).
  set (x2 := set_numOfBlocks (wrap32 (numOfBlocks x1 + sb_numOfBlocks h2)) x1).
  rewrite (run_store_sb_at a h2) by (simpl; by rewrite ?lookup_insert_eq).
  cbn [sbmem blkmem with_sbmem with_blkmem put_class with_heaps].
  rewrite insert_insert_eq.
  set (h3 := set_parentHeap (Some hp) h2).
  set (S1 := put_class hp c x1 (with_sbmem (<[a:=h2]> (sbmem s)) (with_blkmem bm1 s))).
  assert (get_class S1 hp c = Some x1) as Hg1 by (by eapply get_class_put_eq).
  set (S2 := put_class hp c x2 S1).
  assert (get_class S2 hp c = Some x2) as Hg2 by (by eapply get_class_put_eq).
  rewrite (run_load_class hp c x2) by done.
  change (sc_tail x2) with (sc_tail x). set (t := sc_tail x) in *.
  set (x3 := if negb (t =? 0) then x2 else set_sc_head a x2).
  set (S3 := put_class hp c x3 S2).
  assert (get_class S3 hp c = Some x3) as Hg3 by (by eapply get_class_put_eq).
  assert (sc_tail x3 = t) as Et3 by (unfold x3; by destruct (negb _)).
  assert (((if negb (t =? 0)
           then store_sb t (set_sb_next a)
           else store_class hp c (set_sc_head a)) ;;;
          c1 <- load_class hp c ;;
          store_sb a (set_sb_prev (sc_tail c1)) ;;;
          store_class hp c (set_sc_tail a) ;;;
          u <- store_sb a (set_sb_next 0) ;; k h1 u)
           (with_sbmem (<[a:=h3]> (sbmem s)) S2)
          = (c1 <- load_class hp c ;;
             store_sb a (set_sb_prev (sc_tail c1)) ;;;
             store_class hp c (set_sc_tail a) ;;;
             u <- store_sb a (set_sb_next 0) ;; k h1 u)
              (with_sbmem (<[a:=h3]> (wr t (set_sb_next a) (sbmem s))) S3)) as ->.
  { unfold S3, x3. destruct (Z.eqb_spec t 0) as [E|Hne]; cbn [negb].
    - rewrite (run_store_class hp c x2) by done. rewrite E, wr_null. done.
    - rewrite run_store_sb_wr by done. cbn [sbmem with_sbmem].
      rewrite wr_insert_ne by done.
      rewrite (put_class_same S2 hp c x2) by done. done. }
  rewrite (run_load_class hp c x3) by done. rewrite Et3.
  rewrite (run_store_sb_at a h3) by (simpl; by rewrite ?lookup_insert_eq).
  rewrite (run_store_class hp c x3) by done.
  rewrite (run_store_sb_at a (set_sb_prev t h3)) by (simpl; by rewrite ?lookup_insert_eq).
  f_equal.
  assert (∀ s1 s2 : state,
            isInitialized s1 = isInitialized s2 → heaps s1 = heaps s2 →
            sbmem s1 = sbmem s2 → blkmem s1 = blkmem s2 →
            bytes s1 = bytes s2 → os_log s1 = os_log s2 → s1 = s2) as Hext.
  { intros [] []; simpl; congruence. }
  assert (sb_numOfBlocks h2 = blocks_per_superblock c) as Enum.
  { simpl. apply wrap32_small. lia. }
  apply Hext; try done.
  - unfold grow_state. fold t x1. unfold S3, x3, S2, x2. rewrite Enum. done.
  - unfold grow_state. cbn [sbmem with_sbmem put_class with_heaps].
    rewrite !insert_insert_eq. f_equal.
    unfold h3, h2, h1, h0, init_header. simpl.
    rewrite (wrap32_small (blocks_per_superblock c)) by lia. done.
Qed.

Lemma chain_seq m a c k : ∀ i,
  (∀ j, i <= j < i + Z.of_nat k →
     m !! block_addr a c j = Some (mkBlock (SIZE_OF_CLASS c) 0 (block_addr a c (j + 1)) a)) →
  chain m a (block_addr a c i) (block_addr a c <$> seqZ i (Z.of_nat k))
        (block_addr a c (i + Z.of_nat k)).
Proof.
  induction k as [|k IH]; intros i Hm.
  - simpl. f_equal. lia.
  - rewrite seqZ_cons by lia. simpl. split; [done|].
    eexists. split; [apply Hm; lia|]. simpl. split_and!; [done..|].
    replace (Z.pred (Z.of_nat (S k))) with (Z.of_nat k) by lia.
    replace (i + Z.of_nat (S k)) with (Z.succ i + Z.of_nat k) by lia.
    replace (i + 1) with (Z.succ i) by lia.
    apply IH. intros j Hj. apply Hm. lia.
Qed.

Lemma grow_blocks a c hp x s :
  0 < a → 0 <= c < NUM_OF_CLASSES →
  (∀ j, 0 <= j < blocks_per_superblock c →
     blkmem (grow_state a c hp x s) !! block_addr a c j
     = Some (mkBlock (SIZE_OF_CLASS c) (if decide (j = 0) then 1 else 0)
                     (block_addr a c (j + 1)) a))
  ∧ (∀ q, (∀ j, 0 <= j < blocks_per_superblock c → q ≠ block_addr a c j) →
       blkmem (grow_state a c hp x s) !! q = blkmem s !! q).
Proof.
  intros Ha Hc. pose proof (blocks_per_superblock_range c Hc) as Hbps.
  assert (a + sizeof_superblockHeader = block_addr a c 0) as E
    by (unfold block_addr; lia).
  unfold grow_state. cbn [blkmem put_class with_heaps with_sbmem with_blkmem].
  rewrite E. split.
  - intros j Hj. case_decide as D.
    + subst. by rewrite lookup_insert_eq.
    + rewrite lookup_insert_ne by (apply block_addr_ne; [done|lia]).
      apply init_map_lookup_in; [done|lia].
  - intros q Hq. rewrite lookup_insert_ne by (intros <-; eapply (Hq 0); [lia|done]).
    apply init_map_lookup_out. intros j Hj. apply Hq. lia.
Qed.

Lemma fresh_not_member L s a hp c :
  wf_data L s → fresh_region s a SUPERBLOCK_SIZE → a ∉ L hp c.
Proof.
  intros (_ & _ & W3 & _) (Ha & _ & _ & Hsb) Hin.
  destruct (W3 _ _ _ Hin) as (_ & _ & h & l & Hh & _).
  destruct (Hsb a) as [?|?]; [eauto|lia|]. unfold SUPERBLOCK_SIZE in *. lia.
Qed.

Lemma grow_wf L s a c hp x :
  wf_data L s →
  in_range hp c →
  fresh_region s a SUPERBLOCK_SIZE →
  get_class s hp c = Some x →
  wf_data (update_list L hp c (L hp c ++ [a])) (grow_state a c hp x s)
  ∧ used_of (sbmem (grow_state a c hp x s)) a = 1
  ∧ (∀ b, b ≠ a → used_of (sbmem (grow_state a c hp x s)) b = used_of (sbmem s) b)
  ∧ class_links (grow_state a c hp x s) hp c (L hp c ++ [a]).
Proof.
  intros Hwf Hr Hfresh Hx.
  pose proof Hwf as (W1 & W2 & W3 & W4 & W5).
  pose proof Hfresh as (Ha & _ & Hfb & Hfs).
  destruct Hr as [Hhp Hc]. pose proof (blocks_per_superblock_range c Hc) as Hbps.
  destruct (W2 hp c (conj Hhp Hc)) as [Hcl Hco].
  destruct Hcl as (x0 & Hx0 & Hnd & Hseg & Hhd & Htl).
  assert (x0 = x) as -> by congruence.
  assert (∀ hp' c', a ∉ L hp' c') as Hnew by (intros; by eapply fresh_not_member).
  set (l := L hp c) in *. set (t := sc_tail x) in *.
  assert (t ≠ 0 → t ∈ l) as Htin.
  { intros Ht. destruct (last_elem_or_null l) as [[E _]|Hin]; [congruence|by rewrite Htl]. }
  assert (t ≠ a) as Hta.
  { intros E. destruct (decide (t = 0)); [lia|]. apply (Hnew hp c). rewrite <-E. by apply Htin. }
  destruct (grow_blocks a c hp x s Ha Hc) as [Hbin Hbout].
  set (ha := mkSuperblock 1 (blocks_per_superblock c) (block_addr a c 1) false 0 t (Some hp)).
  set (s5 := grow_state a c hp x s) in *.
  assert (sbmem s5 = <[a := ha]> (wr t (set_sb_next a) (sbmem s))) as Hsm by done.
  assert (links_only (sbmem s) (wr t (set_sb_next a) (sbmem s))) as Hlo.
  { apply links_only_wr; [apply sb_data_set_next|].
    intros Ht. eapply dseg_lookup; [exact Hseg|by apply Htin]. }
  assert (∀ b, b ≠ a → used_of (sbmem s5) b = used_of (sbmem s) b) as Hub.
  { intros b Hb. rewrite Hsm, used_of_insert, decide_False by done.
    by apply used_of_links_only. }
  assert (used_of (sbmem s5) a = 1) as Hua.
  { by rewrite Hsm, used_of_insert, decide_True. }
  set (x1 := set_usedBlocks (wrap32 (usedBlocks x + 1)) x).
  set (x2 := set_numOfBlocks (wrap32 (numOfBlocks x1 + blocks_per_superblock c)) x1).
  set (x3 := if negb (t =? 0) then x2 else set_sc_head a x2).
  assert (∀ hp' c', get_class s5 hp' c' =
            if decide (hp' = hp ∧ c' = c) then Some (set_sc_tail a x3)
            else get_class s hp' c') as Hgc.
  { intros hp' c'. unfold s5, grow_state. fold t x1 x2 x3.
    assert (get_class (put_class hp c x1
              (with_sbmem (<[a:=ha]> (wr t (set_sb_next a) (sbmem s)))
                 (with_blkmem
                    (<[a + sizeof_superblockHeader :=
                         mkBlock (SIZE_OF_CLASS c) 1 (block_addr a c 1) a]>
                       (init_map (Z.to_nat (blocks_per_superblock c)) 0 a c (blkmem s)))
                    s))) hp c = Some x1) as G1 by (by eapply get_class_put_eq).
    pose proof (get_class_put_eq _ hp c x1 x2 G1) as G2.
    pose proof (get_class_put_eq _ hp c x2 x3 G2) as G3.
    rewrite (get_class_put _ hp c x3) by done.
    case_decide as D; [done|].
    rewrite (get_class_put _ hp c x2), decide_False by done.
    rewrite (get_class_put _ hp c x1), decide_False by done.
    rewrite (get_class_put _ hp c x), decide_False by done. done. }
  assert (isInitialized s5 = true) as Hini by done.
  assert (∀ q bh, blkmem s !! q = Some bh → blkmem s5 !! q = Some bh) as Hold.
  { intros q bh Hq. rewrite Hbout; [done|]. intros j Hj ->.
    pose proof (block_addr_in_region a c j Hc Hj).
    destruct (Hfb (block_addr a c j)); [eauto|lia..]. }
  assert (class_links s5 hp c (l ++ [a])) as Hcl5.
  { exists (set_sc_tail a x3). split_and!.
    - by rewrite Hgc, decide_True.
    - apply NoDup_app. split_and!; [done| |apply NoDup_singleton].
      intros b Hb Hb'%list_elem_of_singleton. subst b. by apply (Hnew hp c).
    - rewrite Hsm. apply dseg_app. split.
      + simpl. eapply (dseg_frame (wr t (set_sb_next a) (sbmem s))).
        * intros b Hb. rewrite lookup_insert_ne; [done|]. intros ->. by apply (Hnew hp c).
        * rewrite Htl. eapply dseg_wr_next_last; [done|exact Hseg].
      + simpl. split_and!; [lia| |done]. exists ha. rewrite lookup_insert_eq.
        split_and!; [done| |done]. simpl. by rewrite <-Htl.
    - simpl. unfold x3. rewrite head_app.
      destruct (last_elem_or_null l) as [[E El]|Hin].
      + rewrite <-Htl in E. rewrite E, El. simpl. done.
      + rewrite <-Htl in Hin.
        assert (t ≠ 0) as Ht0 by (eapply dseg_not_null; [exact Hseg|done]).
        destruct (Z.eqb_spec t 0); [done|]. simpl. rewrite Hhd.
        destruct (head l) eqn:E2; [done|]. apply head_None in E2.
        rewrite E2 in Hin. by apply elem_of_nil in Hin.
    - simpl. by rewrite last_snoc. }
  clearbody s5.
  split_and!; [|done|done|done].
  unfold wf_data. split_and!.
  - done.
  - intros hp' c' Hr'. unfold update_list. case_decide as D.
    + destruct D as [-> ->]. split; [done|].
      destruct Hco as (x0 & Hx0' & Hsz & Hus & Hnu). assert (x0 = x) as -> by congruence.
      exists (set_sc_tail a x3). rewrite Hgc, decide_True by done.
      split_and!; [done| | |].
      * unfold x3. by destruct (negb _).
      * transitivity (usedBlocks x1); [unfold x3; by destruct (negb _)|].
        unfold x1. simpl. rewrite Hus, wrap32_add_l. f_equal.
        rewrite sum_with_app. simpl. rewrite Hua.
        rewrite (sum_with_notin (used_of (sbmem s)) (used_of (sbmem s5)) l a);
          [lia|apply Hnew|done].
      * transitivity (numOfBlocks x2); [unfold x3; by destruct (negb _)|].
        unfold x2, x1. simpl. rewrite Hnu, wrap32_add_l. f_equal.
        rewrite length_app. simpl. lia.
    + destruct (W2 hp' c' Hr') as [Hcl' Hco']. split.
      * eapply class_links_frame_other; [done|by rewrite Hgc, decide_False|].
        intros b Hb. rewrite Hsm, lookup_insert_ne by (intros ->; by eapply Hnew).
        apply wr_lookup_notin. intros Ht ->.
        destruct (wf_data_disjoint L s t hp c hp' c' Hwf (Htin Ht) Hb) as [-> ->].
        by apply D.
      * eapply counters_ok_frame; [done|by rewrite Hgc, decide_False| |done].
        apply sum_with_ext. intros b Hb. apply Hub. intros ->. by eapply Hnew.
  - intros hp' c' a' Ha'.
    assert (a' = a ∧ hp' = hp ∧ c' = c ∨ a' ≠ a ∧ a' ∈ L hp' c') as [(-> & -> & ->)|[Hne Hin]].
    { unfold update_list in Ha'. case_decide as D.
      - destruct D as [-> ->]. apply elem_of_app in Ha' as [H|H%list_elem_of_singleton].
        + right. split; [|done]. intros ->. by eapply Hnew.
        + by left.
      - right. split; [|done]. intros ->. by eapply Hnew. }
    + split; [done|]. split; [done|].
      exists ha, (block_addr a c <$> seqZ 1 (Z.of_nat (Z.to_nat (blocks_per_superblock c - 1)))).
      rewrite Hsm, lookup_insert_eq. simpl.
      rewrite length_fmap, length_seqZ.
      split_and!; try done; try lia.
      * apply NoDup_fmap_2_strong; [|apply NoDup_seqZ].
        intros i j _ _ E. by apply block_addr_inj in E.
      * intros b (i & -> & Hi%elem_of_seqZ)%list_elem_of_fmap. exists i. split; [lia|done].
      * replace (blocks_per_superblock c)
          with (1 + Z.of_nat (Z.to_nat (blocks_per_superblock c - 1))) at 2 by lia.
        apply chain_seq. intros j Hj. rewrite Hbin by lia.
        rewrite decide_False by lia. done.
      * intros i Hi. unfold slot_ok. rewrite Hbin by done. eauto.
    + destruct (W3 _ _ _ Hin) as [Hr' Hok]. split; [done|].
      eapply sb_ok_frame; [done| |].
      * rewrite Hsm, lookup_insert_ne by done. apply Hlo.
      * intros q bh Hq _. by apply Hold.
  - intros a' Ha'. rewrite Hsm in Ha'. destruct (decide (a' = a)) as [->|Hne].
    + exists hp, c. rewrite update_list_eq. apply elem_of_app. right. by left.
    + rewrite lookup_insert_ne in Ha' by done.
      apply (links_only_is_Some _ _ _ Hlo) in Ha'.
      destruct (W4 a' Ha') as (hp' & c' & Hin). exists hp', c'.
      unfold update_list. case_decide as D; [|done].
      destruct D as [-> ->]. apply elem_of_app. by left.
  - intros p b Hb.
    destruct (decide (p ∈ block_addr a c <$> seqZ 0 (blocks_per_superblock c))) as [Hp|Hp].
    + apply list_elem_of_fmap in Hp as (j & -> & Hj%elem_of_seqZ).
      rewrite Hbin in Hb by lia. injection Hb as <-. simpl.
      right. exists hp, c, j. split_and!; [|lia|lia|done].
      rewrite update_list_eq. apply elem_of_app. right. by left.
    + rewrite Hbout in Hb.
      2:{ intros j Hj ->. apply Hp. apply list_elem_of_fmap. exists j. split; [done|].
          apply elem_of_seqZ. lia. }
      destruct (W5 p b Hb) as [?|(hp' & c' & i & Hin & Hi & Hpi)]; [by left|].
      right. exists hp', c', i. split_and!; try done; try lia.
      unfold update_list. case_decide as D; [|done].
      destruct D as [-> ->]. apply elem_of_app. by left.
Qed.

(** ** The new superblock finds its place *)

Lemma grow_bubble_wf L s a c hp x fuel s' :
  wf_with L s →
  hp ≠ NUM_OF_CPUS →
  in_range hp c →
  fresh_region s a SUPERBLOCK_SIZE →
  get_class s hp c = Some x →
  bubble_to_head fuel hp c a (grow_state a c hp x s) = Ok tt s' →
  wf s' ∧ blkmem s' = blkmem (grow_state a c hp x s).
Proof.
  intros (Hwf & Hso & Hg) Hhp Hr Hfresh Hx Hrun.
  destruct (grow_wf L s a c hp x Hwf Hr Hfresh Hx) as (Hwf5 & Hua & Hub & Hcl5).
  assert (∀ hp' c', a ∉ L hp' c') as Hnew by (intros; by eapply fresh_not_member).
  set (s5 := grow_state a c hp x s) in *. clearbody s5.
  destruct (bubble_to_head_spec fuel hp c (L hp c) a [] s5 s' Hcl5 Hrun)
    as (pre1 & pre2 & HL & Hcl' & Hlt2 & Hle1 & Hf).
  assert (∀ l, a ∉ l → StronglySorted (fuller (sbmem s)) l →
               StronglySorted (fuller (sbmem s5)) l) as Hext.
  { intros l Hl. apply (SS_ext (used_of (sbmem s))). intros b Hb. symmetry. apply Hub.
    intros ->. done. }
  split.
  - exists (update_list (update_list L hp c (L hp c ++ [a])) hp c (pre1 ++ a :: pre2 ++ [])).
    apply (relink_wf _ s5).
    + done.
    + intros c' a' Ha'. rewrite update_list_ne in Ha' by congruence.
      rewrite Hub; [by apply Hg|]. intros ->. by eapply Hnew.
    + intros hp' c' Hne. rewrite update_list_ne by done. apply Hext; [apply Hnew|apply Hso].
    + by rewrite update_list_eq.
    + done.
    + rewrite update_list_eq, HL, app_nil_r, <-app_assoc.
      apply Permutation_app_head. apply Permutation_cons_append.
    + apply (SS_bubble_up (used_of (sbmem s5))).
      * rewrite app_nil_r, <-HL. apply Hext; [apply Hnew|apply Hso].
      * done.
      * done.
      * by intros y ?%elem_of_nil.
  - destruct Hf as (F1 & _). done.
Qed.

(** ** Blocks obtained from the OS directly *)

Lemma wf_with_blocks L s s' :
  isInitialized s' = isInitialized s →
  heaps s' = heaps s →
  sbmem s' = sbmem s →
  (∀ q bh, blkmem s !! q = Some bh → parentSuperblock bh ≠ 0 → blkmem s' !! q = Some bh) →
  (∀ q bh, blkmem s' !! q = Some bh →
     blkmem s !! q = Some bh ∨ parentSuperblock bh = 0 ∧ inUse bh = 0) →
  wf_with L s → wf_with L s'.
Proof.
  intros E1 E2 E3 Hkeep Hnew ((W1 & W2 & W3 & W4 & W5) & Hso & Hg).
  assert (∀ hp c, get_class s' hp c = get_class s hp c) as Hgc.
  { intros hp c. unfold get_class. by rewrite E2. }
  split_and!.
  - unfold wf_data. split_and!.
    + congruence.
    + intros hp c Hr. destruct (W2 hp c Hr) as [Hcl Hco]. split.
      * eapply class_links_frame_other; [done|done|]. intros a _. by rewrite E3.
      * eapply counters_ok_frame; [done|by rewrite Hgc|by rewrite E3|done].
    + intros hp c a Ha. destruct (W3 _ _ _ Ha) as [Hr Hok]. split; [done|].
      eapply sb_ok_frame; [done|by rewrite E3|].
      intros q bh Hq Hp. apply Hkeep; [done|]. destruct Hok as [? _]. lia.
    + intros a Ha. apply W4. by rewrite <-E3.
    + intros p b Hb. destruct (Hnew p b Hb) as [Hb'|?]; [by apply (W5 p b)|by left].
  - intros hp c. rewrite E3. apply Hso.
  - intros c a Ha. rewrite E3. by apply Hg.
Qed.

Lemma large_block_parent L s p b :
  wf_data L s → blkmem s !! p = Some b → blockSize b > SUPERBLOCK_SIZE / 2 →
  parentSuperblock b = 0 ∧ inUse b = 0.
Proof.
  intros (W1 & W2 & W3 & W4 & W5) Hb Hsz.
  destruct (W5 p b Hb) as [?|(hp & c & i & Hin & Hi & Hp)]; [done|].
  destruct (W3 _ _ _ Hin) as ([_ Hc] & _ & h & l & _ & _ & _ & _ & _ & _ & _ & _ & Hs).
  destruct (Hs i Hi) as (b' & Hb' & Hsz' & _). rewrite <-Hp in Hb'.
  assert (b' = b) as -> by congruence.
  pose proof (SIZE_OF_CLASS_range c Hc) as Hrange.
  unfold SIZE_THRESHOLD in Hrange. lia.
Qed.

(** ** The first call *)

Lemma init_class s hp c :
  heaps s = heaps cold_state → in_range hp c →
  get_class (state_after (bind init (λ _, modify (with_isInitialized true)) s)) hp c
  = Some (mkClass (SIZE_OF_CLASS c) 0 0 0 0 false).
Proof.
  intros Hh [Hhp Hc]. unfold get_class.
  destruct (Z.leb_spec 0 hp); [|lia]. destruct (Z.ltb_spec hp NUM_OF_HEAPS); [|lia].
  destruct (Z.leb_spec 0 c); [|lia]. destruct (Z.ltb_spec c NUM_OF_CLASSES); [|lia].
  cbn [andb]. simpl heaps. rewrite Hh.
  assert (hp = 0 ∨ hp = 1 ∨ hp = 2) as Hcases by (unfold NUM_OF_HEAPS, NUM_OF_CPUS in *; lia).
  destruct (class_cases c Hc) as
    [->|[->|[->|[->|[->|[->|[->|[->|[->|[->|[->|[->|[->|[->|[->| ->]]]]]]]]]]]]]]];
    destruct Hcases as [->|[->| ->]]; vm_compute; reflexivity.
Qed.

Lemma boot_wf s :
  cold s →
  ∃ s0, bind init (λ _, modify (with_isInitialized true)) s = Ok tt s0
        ∧ wf_with (λ _ _, []) s0
        ∧ sbmem s0 = sbmem s ∧ blkmem s0 = blkmem s ∧ bytes s0 = bytes s.
Proof.
  intros (Hi & Hh & Hsm & Hbm).
  exists (state_after (bind init (λ _, modify (with_isInitialized true)) s)).
  split; [done|]. split; [|done].
  split_and!.
  - unfold wf_data. split_and!.
    + done.
    + intros hp c Hr. pose proof (init_class s hp c Hh Hr) as Hx. split.
      * eexists. split; [exact Hx|]. split_and!; try done. apply NoDup_nil_2.
      * eexists. split; [exact Hx|]. done.
    + intros hp c a Ha. by apply elem_of_nil in Ha.
    + intros a [h Hh']. simpl in Hh'. rewrite Hsm in Hh'. done.
    + intros p b Hb. simpl in Hb. rewrite Hbm in Hb. done.
  - intros hp c. constructor.
  - intros c a Ha. by apply elem_of_nil in Ha.
Qed.

(** The first step of [malloc]. *)
Lemma malloc_boot s :
  cold s ∨ wf s →
  ∃ s0, (if isInitialized s then Ok tt s
         else bind init (λ _, modify (with_isInitialized true)) s) = Ok tt s0
        ∧ wf s0 ∧ sbmem s0 = sbmem s ∧ blkmem s0 = blkmem s ∧ bytes s0 = bytes s.
Proof.
  intros [Hc|Hw].
  - destruct (boot_wf s Hc) as (s0 & Hrun & Hwf & E1 & E2 & E3).
    destruct Hc as (-> & _). exists s0. split_and!; try done. by eexists.
  - pose proof Hw as (L & (W1 & _) & _). rewrite W1. by exists s.
Qed.

(** ** [malloc] preserves the invariant *)

Lemma wf_lock_equiv s s' : lock_equiv s s' → wf s → wf s'.
Proof. intros Hle [L HL]. exists L. by eapply wf_with_lock_equiv. Qed.

Lemma unlock_ret_wf hp c (v : Z) s p s' :
  (unlock_class hp c ;;; ret v) s = Ok p s' →
  p = v ∧ lock_equiv s s'.
Proof.
  intros H. apply bind_Ok in H as ([] & s1 & H1 & H2).
  apply ret_Ok in H2 as [-> ->]. split; [done|]. by eapply unlock_class_lock_equiv.
Qed.

Lemma malloc_fast_wf L s hp c blk a ha fuel p s' :
  wf_with L s →
  hp ≠ NUM_OF_CPUS →
  a ∈ L hp c →
  sbmem s !! a = Some ha →
  sb_usedBlocks ha < sb_numOfBlocks ha →
  blk = freeList ha →
  (b <- load_blk blk ;;
   s0 <- load_sb (parentSuperblock b) ;;
   hd <- load_blk (freeList s0) ;;
   store_sb (parentSuperblock b) (set_freeList (b_next hd)) ;;;
   store_blk blk (set_inUse 1) ;;;
   store_sb (parentSuperblock b)
     (λ s, set_sb_usedBlocks (wrap32 (sb_usedBlocks s + 1)) s) ;;;
   store_class hp c (λ c, set_usedBlocks (wrap32 (usedBlocks c + 1)) c) ;;;
   bubble_to_head fuel hp c (parentSuperblock b) ;;;
   unlock_class hp c ;;;
   ret (blk + sizeof_blockHeader)) s = Ok p s' →
  wf s' ∧ malloc_blocks s s' p ∧ 0 < p.
Proof.
  intros Hwf Hhp Ha Hha Hlt -> Hrun.
  pose proof Hwf as (Hwd & _).
  pose proof (free_head_pos L s hp c a ha Hwd Ha Hha Hlt) as Hpos.
  destruct (free_head L s hp c a ha Hwd Ha Hha Hlt) as (Ha0 & Hb0 & bh & Hbh & Hpar & Hin).
  assert (in_range hp c) as Hr.
  { destruct Hwd as (_ & _ & W3 & _). by destruct (W3 _ _ _ Ha). }
  assert (∃ x, get_class s hp c = Some x) as [x Hx].
  { destruct Hwd as (_ & W2 & _). destruct (W2 hp c Hr) as [(x & Hx & _) _]. eauto. }
  rewrite (run_load_blk (freeList ha) bh) in Hrun by done. rewrite Hpar in Hrun.
  rewrite (run_load_sb a ha) in Hrun by done.
  rewrite (run_load_blk (freeList ha) bh) in Hrun by done.
  rewrite (run_pop hp c a ha bh x) in Hrun by done.
  apply bind_Ok in Hrun as ([] & s2 & Hbub & Hrun).
  destruct (pop_bubble_wf L s hp c a ha bh x fuel s2 Hwf Hhp Ha Hha Hlt Hbh Hx Hbub)
    as (Hwf2 & Hbm2).
  apply unlock_ret_wf in Hrun as [-> Hle].
  split; [by eapply wf_lock_equiv|].
  destruct Hle as (_ & Hbm3 & _).
  split; [|unfold sizeof_blockHeader; lia].
  split.
  - intros q b Hq Hb. rewrite Hbm3, Hbm2. rewrite lookup_insert_ne; [done|].
    intros <-. assert (b = bh) as -> by congruence. lia.
  - intros _. exists (set_inUse 1 bh). split; [|by left].
    replace (freeList ha + sizeof_blockHeader - sizeof_blockHeader) with (freeList ha) by lia.
    by rewrite Hbm3, Hbm2, lookup_insert_eq.
Qed.

Lemma unlock2_ret_wf hp c hp' c' (v : Z) s p s' :
  (unlock_class hp c ;;; unlock_class hp' c' ;;; ret v) s = Ok p s' →
  p = v ∧ lock_equiv s s'.
Proof.
  intros H. apply bind_Ok in H as ([] & s1 & H1 & H2).
  apply unlock_ret_wf in H2 as [-> H2]. split; [done|].
  etrans; [by eapply unlock_class_lock_equiv|done].
Qed.

Lemma malloc_transfer_wf L s hp c g x fuel p s' :
  wf_with L s →
  hp ≠ NUM_OF_CPUS →
  in_range hp c →
  get_class s NUM_OF_CPUS c = Some g →
  sc_head g = x →
  x ≠ 0 →
  (s0 <- load_sb x ;;
   hd <- load_blk (freeList s0) ;;
   store_sb x (set_freeList (b_next hd)) ;;;
   store_blk (freeList s0) (set_inUse 1) ;;;
   store_sb x (λ s, set_sb_usedBlocks (wrap32 (sb_usedBlocks s + 1)) s) ;;;
   store_class NUM_OF_CPUS c (λ c, set_usedBlocks (wrap32 (usedBlocks c + 1)) c) ;;;
   move_superblock fuel x NUM_OF_CPUS hp c ;;;
   unlock_class NUM_OF_CPUS c ;;;
   unlock_class hp c ;;;
   ret (freeList s0 + sizeof_blockHeader)) s = Ok p s' →
  wf s' ∧ malloc_blocks s s' p ∧ 0 < p.
Proof.
  intros (Hwd & Hso & Hg) Hhp Hr Hgc Hhd Hx0 Hrun.
  pose proof Hwd as (W1 & W2 & W3 & W4 & W5).
  assert (in_range NUM_OF_CPUS c) as Hrg by (by apply get_class_Some in Hgc).
  destruct (W2 NUM_OF_CPUS c Hrg) as [(g0 & Hg0 & Hnd & Hseg & Hhd0 & Htl0) _].
  assert (g0 = g) as -> by congruence.
  destruct (L NUM_OF_CPUS c) as [|x' post] eqn:HL; [simpl in Hhd0; congruence|].
  simpl in Hhd0. assert (x' = x) as -> by congruence.
  assert (x ∈ L NUM_OF_CPUS c) as Hx by (rewrite HL; by left).
  destruct (W3 _ _ _ Hx) as (_ & Hokx). pose proof Hokx as (_ & hx & lx & Hhx & _ & Hnx & _).
  assert (sb_usedBlocks hx < sb_numOfBlocks hx) as Hlt.
  { rewrite Hnx. specialize (Hg c x Hx). by rewrite (used_of_lookup _ _ _ Hhx) in Hg. }
  destruct (free_head L s NUM_OF_CPUS c x hx Hwd Hx Hhx Hlt) as (_ & Hb0 & bh & Hbh & Hpar & Hin).
  rewrite (run_load_sb x hx) in Hrun by done.
  rewrite (run_load_blk (freeList hx) bh) in Hrun by done.
  rewrite (run_pop NUM_OF_CPUS c x hx bh g) in Hrun by done.
  apply bind_Ok in Hrun as ([] & s2 & Hmove & Hrun).
  destruct (pop_wf L s NUM_OF_CPUS c x hx bh g Hwd Hx Hhx Hlt Hbh Hgc) as (Hwd2 & _).
  set (sp := pop_state NUM_OF_CPUS c x hx bh g s) in *.
  assert (sbmem sp =
          <[x := set_sb_usedBlocks (wrap32 (sb_usedBlocks hx + 1))
                   (set_freeList (b_next bh) hx)]> (sbmem s)) as Hsm by done.
  assert (blkmem sp = <[freeList hx := set_inUse 1 bh]> (blkmem s)) as Hbm by done.
  clearbody sp.
  apply NoDup_cons in Hnd as [Hxpost Hndpost].
  destruct (move_wf L sp s2 NUM_OF_CPUS hp c [] x post fuel) as (Hwf2 & Hbm2); try done.
  - simpl. rewrite Hsm. apply SS_fuller_insert; [done|].
    specialize (Hso NUM_OF_CPUS c). rewrite HL in Hso.
    by apply StronglySorted_cons in Hso as [_ ?].
  - intros hp' c' Hne. rewrite Hsm. apply SS_fuller_insert; [|apply Hso].
    intros Hx'. destruct (wf_data_disjoint L s x NUM_OF_CPUS c hp' c' Hwd Hx Hx') as [E1 E2].
    subst hp' c'. done.
  - intros c' a Ha Hne. rewrite Hsm, used_of_insert, decide_False by done. by apply Hg.
  - apply unlock2_ret_wf in Hrun as [-> Hle].
    split; [by eapply wf_lock_equiv|].
    destruct Hle as (_ & Hbm3 & _).
    pose proof (free_head_pos L s NUM_OF_CPUS c x hx Hwd Hx Hhx Hlt) as Hpos.
    split; [|unfold sizeof_blockHeader; lia].
    split.
    + intros q b Hq Hb. rewrite Hbm3, Hbm2, Hbm. rewrite lookup_insert_ne; [done|].
      intros <-. assert (b = bh) as -> by congruence. lia.
    + intros _. exists (set_inUse 1 bh). split; [|by left].
      replace (freeList hx + sizeof_blockHeader - sizeof_blockHeader) with (freeList hx) by lia.
      by rewrite Hbm3, Hbm2, Hbm, lookup_insert_eq.
Qed.

Lemma fresh_lookup s a len :
  fresh_region s a len → sbmem s !! a = None ∧ blkmem s !! a = None.
Proof.
  intros (Ha & Hlen & Hb & Hs). split.
  - destruct (sbmem s !! a) eqn:E; [|done]. destruct (Hs a); [eauto|lia..].
  - destruct (blkmem s !! a) eqn:E; [|done]. destruct (Hb a); [eauto|lia..].
Qed.

Lemma malloc_grow_wf L s hp c a fuel p s' :
  wf_with L s →
  hp ≠ NUM_OF_CPUS →
  in_range hp c →
  fresh_region s a SUPERBLOCK_SIZE →
  (_ <- init_superblock a c ;;
   store_sb a (set_parentHeap (Some hp)) ;;;
   s0 <- load_sb a ;;
   hd <- load_blk (freeList s0) ;;
   store_sb a (set_freeList (b_next hd)) ;;;
   store_blk (freeList s0) (set_inUse 1) ;;;
   store_sb a (λ s, set_sb_usedBlocks (wrap32 (sb_usedBlocks s + 1)) s) ;;;
   store_class hp c (λ c, set_usedBlocks (wrap32 (usedBlocks c + 1)) c) ;;;
   s1 <- load_sb a ;;
   store_class hp c
     (λ c, set_numOfBlocks (wrap32 (numOfBlocks c + sb_numOfBlocks s1)) c) ;;;
   store_sb a (set_parentHeap (Some hp)) ;;;
   c0 <- load_class hp c ;;
   (if negb (sc_tail c0 =? 0)
    then store_sb (sc_tail c0) (set_sb_next a)
    else store_class hp c (set_sc_head a)) ;;;
   c0 <- load_class hp c ;;
   store_sb a (set_sb_prev (sc_tail c0)) ;;;
   store_class hp c (set_sc_tail a) ;;;
   store_sb a (set_sb_next 0) ;;;
   bubble_to_head fuel hp c a ;;;
   unlock_class hp c ;;;
   unlock_class NUM_OF_CPUS c ;;;
   ret (freeList s0 + sizeof_blockHeader)) s = Ok p s' →
  wf s' ∧ malloc_blocks s s' p ∧ 0 < p.
Proof.
  intros Hwf Hhp Hr Hfresh Hrun.
  pose proof Hwf as (Hwd & _). pose proof Hwd as (W1 & W2 & W3 & W4 & W5).
  pose proof Hfresh as (Ha & _ & Hfb & _).
  destruct (fresh_lookup _ _ _ Hfresh) as [Hna _].
  destruct (W2 hp c Hr) as [(x & Hx & Hnd & Hseg & Hhd & Htl) _].
  assert (sc_tail x ≠ a) as Hta.
  { rewrite Htl. destruct (last_elem_or_null (L hp c)) as [[E _]|Hin]; [lia|].
    intros E. rewrite E in Hin. by eapply fresh_not_member in Hin. }
  pose proof (grow_run a c hp x s
                (λ s0 _, bubble_to_head fuel hp c a ;;;
                         unlock_class hp c ;;;
                         unlock_class NUM_OF_CPUS c ;;;
                         ret (freeList s0 + sizeof_blockHeader))
                Ha (proj2 Hr) Hx Hna Hta) as E.
  cbv beta in E. rewrite E in Hrun. clear E.
  apply bind_Ok in Hrun as ([] & s2 & Hbub & Hrun).
  destruct (grow_bubble_wf L s a c hp x fuel s2 Hwf Hhp Hr Hfresh Hx Hbub) as (Hwf2 & Hbm2).
  apply unlock2_ret_wf in Hrun as [-> Hle].
  split; [by eapply wf_lock_equiv|].
  destruct Hle as (_ & Hbm3 & _).
  destruct (grow_blocks a c hp x s Ha (proj2 Hr)) as [Hbin Hbout].
  pose proof (blocks_per_superblock_range c (proj2 Hr)) as Hbps.
  split; [|simpl; unfold sizeof_superblockHeader, sizeof_blockHeader; lia].
  split.
  - intros q b Hq Hb. rewrite Hbm3, Hbm2, Hbout; [done|]. intros j Hj ->.
    pose proof (block_addr_in_region a c j (proj2 Hr) Hj).
    destruct (Hfb (block_addr a c j)); [eauto|lia..].
  - intros _. eexists. rewrite Hbm3, Hbm2.
    replace (freeList (set_parentHeap (Some hp) (init_header a c zero_superblock))
             + sizeof_blockHeader - sizeof_blockHeader)
      with (block_addr a c 0) by (unfold block_addr; simpl; lia).
    rewrite Hbin by lia. split; [done|]. by left.
Qed.

Lemma fresh_region_mono s s' p len :
  (∀ q, is_Some (blkmem s' !! q) → is_Some (blkmem s !! q)) →
  (∀ q, is_Some (sbmem s' !! q) → is_Some (sbmem s !! q)) →
  fresh_region s p len → fresh_region s' p len.
Proof. intros Hb Hs (Hp & Hl & Fb & Fs). split_and!; eauto. Qed.

Lemma fresh_region_lock_equiv s s' p len :
  lock_equiv s s' → fresh_region s p len → fresh_region s' p len.
Proof.
  intros (_ & Eb & Es & _). apply fresh_region_mono.
  - intros q. by rewrite Eb.
  - intros q [h Hh]. specialize (Es q). rewrite Hh in Es.
    destruct (sbmem s !! q); [eauto|done].
Qed.

Lemma malloc_large_wf s os len v p s' :
  wf s →
  (∀ a, os = Some a → fresh_region s a len) →
  (p0 <- fetch_memory len os ;;
   if p0 =? 0 then ret 0
   else store_blk p0 (set_blockSize v) ;;; ret (p0 + sizeof_blockHeader)) s = Ok p s' →
  wf s' ∧ malloc_blocks s s' p
  ∧ (p = 0 → blkmem s' = blkmem s ∧ sbmem s' = sbmem s ∧ bytes s' = bytes s).
Proof.
  intros [L Hwf] Hos Hrun. destruct os as [a|]; simpl in Hrun.
  - destruct (Hos a eq_refl) as (Ha & Hlen & Hfb & Hfs).
    destruct (fresh_lookup s a len (Hos a eq_refl)) as [_ Hnb].
    unfold bind, fetch_memory in Hrun.
    destruct (Z.eqb_spec a 0) as [?|Ha0]; [lia|].
    unfold store_blk in Hrun. destruct (Z.eqb_spec a 0) as [?|_]; [lia|].
    simpl in Hrun. rewrite Hnb in Hrun. injection Hrun as <- <-.
    split; [|split; [|unfold sizeof_blockHeader; lia]].
    + exists L. eapply wf_with_blocks; [..|exact Hwf]; try done.
      * intros q bh Hq _. simpl. rewrite lookup_insert_ne; [done|]. intros <-. congruence.
      * intros q bh. simpl. destruct (decide (q = a)) as [->|Hne].
        -- rewrite lookup_insert_eq. intros [= <-]. by right.
        -- rewrite lookup_insert_ne by done. by left.
    + split.
      * intros q b Hq _. simpl. rewrite lookup_insert_ne; [done|]. intros <-. congruence.
      * intros _. eexists. simpl.
        replace (a + sizeof_blockHeader - sizeof_blockHeader) with a by lia.
        rewrite lookup_insert_eq. split; [done|]. by right.
  - unfold bind, fetch_memory in Hrun. simpl in Hrun. injection Hrun as <- <-.
    split; [|split; [|done]].
    + exists L. eapply wf_with_blocks; [..|exact Hwf]; try done. intros q bh Hq. by left.
    + split; [|done]. intros q b Hq _. done.
Qed.

Theorem malloc_wf fuel tid os sz s p s' :
  cold s ∨ wf s →
  os_ok s os sz →
  malloc fuel tid os sz s = Ok p s' →
  wf s' ∧ malloc_blocks s s' p
  ∧ (p = 0 → blkmem s' = blkmem s ∧ sbmem s' = sbmem s ∧ bytes s' = bytes s).
Proof.
  intros Hs Hos Hrun. unfold malloc in Hrun.
  apply bind_Ok in Hrun as ([] & s0 & Hboot & Hrun).
  destruct (malloc_boot s Hs) as (s0' & Hboot' & Hwf0 & Esm & Ebm & Eby).
  assert (s0' = s0) as -> by congruence. clear Hboot Hboot'.
  assert (∀ a len, fresh_region s a len → fresh_region s0 a len) as Hfr.
  { intros a len. apply fresh_region_mono; intros q; by rewrite ?Esm, ?Ebm. }
  assert (∀ p, malloc_blocks s0 s' p → malloc_blocks s s' p) as Hmb.
  { intros p0 [H1 H2]. split; [|done]. intros q b. rewrite <-Ebm. apply H1. }
  unfold os_ok, request_len in Hos.
  destruct (sz >? SIZE_THRESHOLD) eqn:Esz.
  { destruct (malloc_large_wf s0 os (wrap64 (sz + sizeof_blockHeader)) (wrap32 sz) p s' Hwf0)
      as (H1 & H2 & H3); [|exact Hrun|].
    - intros a ->. by apply Hfr.
    - split; [done|]. split; [by apply Hmb|]. rewrite <-Esm, <-Ebm, <-Eby. done. }
  assert (∀ p, (wf s' ∧ malloc_blocks s0 s' p ∧ 0 < p) →
               wf s' ∧ malloc_blocks s s' p
               ∧ (p = 0 → blkmem s' = blkmem s ∧ sbmem s' = sbmem s ∧ bytes s' = bytes s))
    as Hfin.
  { intros p0 (H1 & H2 & H3). split; [done|]. split; [by apply Hmb|]. lia. }
  apply Hfin. clear Hfin Hmb.
  apply bind_Ok in Hrun as (c & s0' & Hc & Hrun). apply lift_option_Ok in Hc as [Hc ->].
  set (hp := HASH tid) in *.
  assert (hp ≠ NUM_OF_CPUS) as Hhp.
  { unfold hp, HASH, NUM_OF_CPUS. pose proof (Z.mod_pos_bound tid 2). lia. }
  apply bind_Ok in Hrun as ([] & s1 & Hlock & Hrun).
  pose proof (lock_class_lock_equiv _ _ _ _ _ Hlock) as Hle1.
  assert (in_range hp c) as Hr.
  { unfold lock_class in Hlock. apply bind_Ok in Hlock as (x & ? & Hl & _).
    apply load_class_Ok in Hl as [_ Hx]. by apply get_class_Some in Hx. }
  destruct Hwf0 as [L Hwf0].
  pose proof (wf_with_lock_equiv L s0 s1 Hle1 Hwf0) as Hwf1.
  assert (∀ p, malloc_blocks s1 s' p → malloc_blocks s0 s' p) as Hmb1.
  { intros p0 [H1 H2]. split; [|done]. intros q b.
    destruct Hle1 as (_ & <- & _). apply H1. }
  pose proof Hwf1 as ((W1 & W2 & W3 & W4 & W5) & _).
  destruct (W2 hp c Hr) as [Hcl _].
  apply bind_Ok in Hrun as (blk & s1' & Hsearch & Hrun).
  destruct (search_sizeclass_spec fuel hp c _ s1 blk s1' Hcl Hsearch) as [-> Hblk].
  destruct (Z.eqb_spec blk 0) as [Eblk|Hblk0]; cbn [negb] in Hrun.
  2:{ destruct Hblk as [?|(a & ha & Ha & Hha & Hlt & ->)]; [done|].
      destruct (malloc_fast_wf L s1 hp c (freeList ha) a ha fuel p s') as (H1 & H2 & H3);
        try done.
      split; [done|]. split; [by apply Hmb1|done]. }
  clear Hblk.
  apply bind_Ok in Hrun as ([] & s2 & Hlock2 & Hrun).
  pose proof (lock_class_lock_equiv _ _ _ _ _ Hlock2) as Hle2.
  pose proof (wf_with_lock_equiv L s1 s2 Hle2 Hwf1) as Hwf2.
  assert (∀ p, malloc_blocks s2 s' p → malloc_blocks s0 s' p) as Hmb2.
  { intros p0 [H1 H2]. apply Hmb1. split; [|done]. intros q b.
    destruct Hle2 as (_ & <- & _). apply H1. }
  apply bind_Ok in Hrun as (g & s2' & Hg & Hrun).
  apply load_class_Ok in Hg as [-> Hg].
  destruct (Z.eqb_spec (sc_head g) 0) as [Hh0|Hh0]; cbn [negb] in Hrun.
  2:{ destruct (malloc_transfer_wf L s2 hp c g (sc_head g) fuel p s') as (H1 & H2 & H3);
        try done.
      split; [done|]. split; [by apply Hmb2|done]. }
  destruct os as [a|].
  2:{ exfalso. unfold bind, fetch_memory, init_superblock in Hrun. simpl in Hrun. done. }
  assert (fresh_region s2 a SUPERBLOCK_SIZE) as Hfresh.
  { eapply fresh_region_lock_equiv; [exact Hle2|].
    eapply fresh_region_lock_equiv; [exact Hle1|]. by apply Hfr. }
  pose proof Hfresh as (Ha & _).
  unfold bind at 1 in Hrun. unfold fetch_memory in Hrun.
  destruct (Z.eqb_spec a 0) as [?|_]; [lia|]. cbn [negb] in Hrun.
  set (s3 := with_os_log _ _) in Hrun.
  assert (lock_equiv s2 s3) as Hle3 by (unfold lock_equiv; done).
  assert (wf_with L s3) as Hwf3 by (by eapply wf_with_lock_equiv).
  assert (fresh_region s3 a SUPERBLOCK_SIZE) as Hfresh3
    by (by eapply fresh_region_lock_equiv).
  destruct (malloc_grow_wf L s3 hp c a fuel p s' Hwf3 Hhp Hr Hfresh3 Hrun) as (H1 & H2 & H3).
  split; [done|]. split; [|done]. apply Hmb2. destruct H2 as [H2 H4]. split; [|done]. apply H2.
Qed.

(** ** [free] preserves the invariant *)

(** The six steps that return the block [b] to the superblock [a]. *)
Lemma run_push {B} hp c a ha b bh x (k : unit → M B) s :
  sbmem s !! a = Some ha → a ≠ 0 →
  blkmem s !! b = Some bh → b ≠ 0 →
  get_class s hp c = Some x →
  (store_blk b (set_inUse 0) ;;;
   s0 <- load_sb a ;;
   store_blk b (set_b_next (freeList s0)) ;;;
   store_sb a (set_freeList b) ;;;
   store_sb a (λ s, set_sb_usedBlocks (wrap32 (sb_usedBlocks s - 1)) s) ;;;
   u <- store_class hp c (λ c, set_usedBlocks (wrap32 (usedBlocks c - 1)) c) ;; k u) s
  = k tt (push_state hp c a ha b bh x s).
Proof.
  intros Hha Ha Hbh Hb Hx.
  rewrite (run_store_blk_at b bh) by done.
  rewrite (run_load_sb a ha) by done.
  erewrite (run_store_blk_at b); [|simpl; apply lookup_insert_eq|done].
  rewrite (run_store_sb_at a ha) by done.
  erewrite (run_store_sb_at a); [|simpl; apply lookup_insert_eq|done].
  erewrite (run_store_class hp c x) by done.
  f_equal. unfold push_state. simpl.
  rewrite !insert_insert_eq. done.
Qed.

Lemma push_bubble_wf L s hp c a ha b bh x fuel s' :
  wf_with L s →
  a ∈ L hp c →
  sbmem s !! a = Some ha →
  blkmem s !! b = Some bh →
  parentSuperblock bh = a →
  inUse bh ≠ 0 →
  get_class s hp c = Some x →
  bubble_to_tail fuel hp c a (push_state hp c a ha b bh x s) = Ok tt s' →
  ∃ L', wf_with L' s'
        ∧ blkmem s' = <[b := set_b_next (freeList ha) (set_inUse 0 bh)]> (blkmem s).
Proof.
  intros (Hwf & Hso & Hg) Ha Hha Hbh Hpar Hin Hx Hrun.
  destruct (push_wf L s hp c a ha b bh x Hwf Ha Hha Hbh Hpar Hin Hx)
    as (Hwf2 & Hu1 & Hw).
  set (s2 := push_state hp c a ha b bh x s) in *.
  assert (sbmem s2 =
          <[a := set_sb_usedBlocks (wrap32 (sb_usedBlocks ha - 1))
                   (set_freeList b ha)]> (sbmem s)) as Hsm by done.
  assert (blkmem s2 = <[b := set_b_next (freeList ha) (set_inUse 0 bh)]> (blkmem s))
    as Hbm by done.
  assert (used_of (sbmem s2) a = used_of (sbmem s) a - 1) as Hua.
  { rewrite Hsm, used_of_insert, decide_True by done. simpl.
    rewrite (used_of_lookup _ _ _ Hha). done. }
  assert (∀ b, b ≠ a → used_of (sbmem s2) b = used_of (sbmem s) b) as Hub.
  { intros b' Hb. by rewrite Hsm, used_of_insert, decide_False. }
  clearbody s2.
  pose proof Hwf2 as (_ & W2 & _).
  destruct (list_elem_of_split _ _ Ha) as (pre & post & HL).
  assert (in_range hp c) as Hr.
  { destruct Hwf as (_ & _ & W3 & _). by destruct (W3 _ _ _ Ha). }
  destruct (W2 hp c Hr) as [Hcl _]. rewrite HL in Hcl.
  pose proof Hcl as (_ & _ & Hnd & _).
  apply NoDup_app in Hnd as (Hnpre & Hdis & [Hnpost _]%NoDup_cons).
  assert (a ∉ pre) as Hapre by (intros H; eapply Hdis; [done|by left]).
  destruct (bubble_to_tail_spec fuel hp c pre a post s2 s' Hcl Hrun)
    as (post1 & post2 & -> & Hcl' & Hlt2 & Hle1 & Hf).
  exists (update_list L hp c (pre ++ post1 ++ a :: post2)). split.
  - apply (relink_wf L s2).
    + done.
    + intros c' a' Ha'. destruct (decide (a' = a)) as [->|Hne].
      * rewrite Hua. specialize (Hg c' a Ha'). lia.
      * rewrite Hub by done. by apply Hg.
    + intros hp' c' Hne. rewrite Hsm. apply SS_fuller_insert; [|apply Hso].
      intros Ha'. destruct (wf_data_disjoint L s a hp c hp' c' Hwf Ha Ha') as [-> ->].
      done.
    + by rewrite HL.
    + done.
    + rewrite HL. apply Permutation_app_head.
      rewrite <-!Permutation_middle. done.
    + specialize (Hso hp c). rewrite HL in Hso.
      apply (SS_bubble_down (used_of (sbmem s2))).
      * rewrite Hsm. apply SS_fuller_insert.
        -- intros [H|H]%elem_of_app; done.
        -- by eapply SS_remove.
      * done.
      * done.
      * intros y Hy. rewrite Hua, Hub by (intros ->; done).
        apply StronglySorted_app in Hso as (Hcross & _ & _).
        specialize (Hcross y a Hy). unfold fuller in Hcross.
        assert (used_of (sbmem s) a <= used_of (sbmem s) y) by (apply Hcross; by left). lia.
  - destruct Hf as (F1 & _). by rewrite F1.
Qed.

(** *** Eviction of the emptiest superblock *)

Lemma sum_with_const f n l : (∀ a, a ∈ l → f a = n) → sum_with f l = Z.of_nat (length l) * n.
Proof.
  induction l as [|a l IH]; intros H; simpl sum_with; simpl length; [lia|].
  rewrite IH by (intros b Hb; apply H; by right).
  rewrite (H a) by (by left). lia.
Qed.

Lemma emptiness_violated_counters x h :
  numOfBlocks x = wrap32 (numOfBlocks x) →
  emptiness_violated x h = true → usedBlocks x ≠ numOfBlocks x.
Proof.
  intros Hn [H _]%andb_prop. apply Z.ltb_lt in H.
  unfold K in H. rewrite Z.mul_0_l in H.
  change (wrap32 0) with 0 in H. rewrite Z.sub_0_r, <-Hn in H. lia.
Qed.

Lemma evict_wf L s hp c x fuel s' :
  wf_with L s →
  hp ≠ NUM_OF_CPUS →
  in_range hp c →
  get_class s hp c = Some x →
  usedBlocks x ≠ numOfBlocks x →
  move_superblock fuel (sc_tail x) hp NUM_OF_CPUS c s = Ok tt s' →
  wf s' ∧ blkmem s' = blkmem s.
Proof.
  intros (Hwd & Hso & Hg) Hhp Hr Hx Hne Hrun.
  pose proof Hwd as (W1 & W2 & W3 & W4 & W5).
  destruct (W2 hp c Hr) as [(x0 & Hx0 & Hnd & Hseg & Hhd & Htl) (x1 & Hx1 & Hsz & Hus & Hnu)].
  assert (x0 = x) as -> by congruence. assert (x1 = x) as -> by congruence.
  pose proof (blocks_per_superblock_range c (proj2 Hr)) as Hbps.
  assert (∀ y, y ∈ L hp c → 0 <= used_of (sbmem s) y <= blocks_per_superblock c) as Hbound.
  { intros y Hy. destruct (W3 _ _ _ Hy) as (_ & _ & h & l & Hh & _ & _ & Hu0 & Hu & _).
    rewrite (used_of_lookup _ _ _ Hh). lia. }
  destruct (L hp c) as [|z l0 _] eqn:HL using rev_ind.
  { exfalso. apply Hne. rewrite Hus, Hnu. done. }
  rename l0 into pre. rewrite last_snoc in Htl. simpl in Htl. rewrite Htl in Hrun.
  assert (used_of (sbmem s) z < blocks_per_superblock c) as Hz.
  { destruct (decide (used_of (sbmem s) z < blocks_per_superblock c)) as [?|Hge]; [done|].
    exfalso. apply Hne. rewrite Hus, Hnu. f_equal. apply sum_with_const.
    intros y Hy. pose proof (Hbound y Hy) as Hy'.
    assert (used_of (sbmem s) z <= used_of (sbmem s) y).
    { specialize (Hso hp c). rewrite HL in Hso.
      eapply (SS_ge_last (used_of (sbmem s))); [exact Hso|by rewrite last_snoc|done]. }
    lia. }
  assert (in_range NUM_OF_CPUS c) as Hrg.
  { split; [unfold NUM_OF_HEAPS, NUM_OF_CPUS; lia|apply Hr]. }
  eapply (move_wf L s s' hp NUM_OF_CPUS c pre z []); try done.
  - specialize (Hso hp c). rewrite HL in Hso. by eapply SS_remove.
  - intros c' a Ha _. by apply Hg.
Qed.

Theorem free_wf fuel ptr s s' :
  wf s →
  (ptr ≠ 0 → ∃ b, blkmem s !! (ptr - sizeof_blockHeader) = Some b
                  ∧ (inUse b = 1 ∨ parentSuperblock b = 0)) →
  free fuel ptr s = Ok tt s' →
  wf s' ∧ (∀ q, q ≠ ptr - sizeof_blockHeader → blkmem s' !! q = blkmem s !! q).
Proof.
  intros [L Hwf] Hlive Hrun. unfold free in Hrun.
  destruct (Z.eqb_spec ptr 0) as [?|Hptr]; cbn [negb] in Hrun.
  { apply ret_Ok in Hrun as [_ ->]. split; [by exists L|done]. }
  destruct (Hlive Hptr) as (b & Hb & Hlv). clear Hlive.
  set (block := ptr - sizeof_blockHeader) in *.
  apply bind_Ok in Hrun as (b0 & s0 & Hl & Hrun).
  apply load_blk_Ok in Hl as (-> & Hblock & Hb0). assert (b0 = b) as -> by congruence.
  pose proof Hwf as (Hwd & Hso & Hg). pose proof Hwd as (W1 & W2 & W3 & W4 & W5).
  destruct (blockSize b >? SUPERBLOCK_SIZE / 2) eqn:Esz.
  { apply Z.gtb_lt in Esz.
    destruct (large_block_parent L s block b Hwd Hb) as [Hp0 Hi0]; [lia|].
    unfold munmap in Hrun. apply modify_Ok in Hrun as ->.
    split.
    - exists L. eapply wf_with_blocks; [..|exact Hwf]; try done.
      + intros q bh Hq Hp. simpl. rewrite lookup_delete_ne; [done|].
        intros <-. congruence.
      + intros q bh. simpl. intros [_ ?]%lookup_delete_Some. by left.
    - intros q Hq. simpl. by rewrite lookup_delete_ne. }
  apply bind_Ok in Hrun as (cl & s0 & Hcl & Hrun). apply lift_option_Ok in Hcl as [Hcl ->].
  set (a := parentSuperblock b) in *.
  apply bind_Ok in Hrun as (hs & s0 & Hl & Hrun).
  apply load_sb_Ok in Hl as (-> & Ha0 & Hhs).
  apply bind_Ok in Hrun as (heap & s0 & Hhp & Hrun). apply lift_option_Ok in Hhp as [Hhp ->].
  apply bind_Ok in Hrun as ([] & s1 & Hk1 & Hrun).
  apply bind_Ok in Hrun as ([] & s2 & Hk2 & Hrun).
  apply bind_Ok in Hrun as ([] & s3 & Hk3 & Hrun).
  assert (lock_equiv s s3) as Hle.
  { etrans; [by eapply lock_sb_lock_equiv|].
    etrans; [by eapply lock_class_lock_equiv|]. by eapply unlock_sb_lock_equiv. }
  destruct (W5 block b Hb) as [[? _]|(hp & c & i & Hin & Hi & Hbi)]; [done|].
  fold a in Hin, Hbi.
  destruct (W3 _ _ _ Hin) as (Hr & _ & hs' & lf & Hhs' & Hph & _ & _ & _ & _ & _ & _ & Hslots).
  assert (hs' = hs) as -> by congruence.
  assert (heap = hp) as -> by congruence.
  destruct (Hslots i Hi) as (b' & Hb' & Hsz' & _). rewrite <-Hbi in Hb'.
  assert (b' = b) as -> by congruence.
  assert (cl = c) as ->.
  { rewrite Hsz', class_of_block_SIZE_OF_CLASS in Hcl by apply Hr. congruence. }
  assert (inUse b ≠ 0) as Hinuse by (destruct Hlv as [?|?]; [lia|done]).
  pose proof (wf_with_lock_equiv L s s3 Hle Hwf) as Hwf3.
  destruct (lock_equiv_sb s s3 a hs Hle Hhs) as (ha3 & Hha3 & _).
  assert (blkmem s3 = blkmem s) as Hbm3 by (by destruct Hle as (_ & ? & _)).
  assert (∃ x3, get_class s3 hp c = Some x3) as [x3 Hx3].
  { destruct Hwf3 as ((_ & W2' & _) & _). destruct (W2' hp c Hr) as [(x3 & ? & _) _]. eauto. }
  rewrite (run_push hp c a ha3 block b x3) in Hrun by (done || by rewrite Hbm3).
  apply bind_Ok in Hrun as ([] & s4 & Hbub & Hrun).
  destruct (push_bubble_wf L s3 hp c a ha3 block b x3 fuel s4) as (L' & Hwf4 & Hbm4);
    [done|done|done|by rewrite Hbm3|done|done|done|done|].
  assert (∀ q, q ≠ block → blkmem s4 !! q = blkmem s !! q) as Hfr4.
  { intros q Hq. by rewrite Hbm4, lookup_insert_ne, Hbm3. }
  apply bind_Ok in Hrun as (c4 & s0 & Hl & Hrun). apply load_class_Ok in Hl as [-> Hc4].
  apply bind_Ok in Hrun as (h4 & s0 & Hl & Hrun). apply load_sb_Ok in Hl as (-> & _ & Hh4).
  apply bind_Ok in Hrun as ([] & s7 & Hev & Hrun).
  pose proof (unlock_class_lock_equiv _ _ _ _ _ Hrun) as Hle8.
  assert (blkmem s' = blkmem s7) as Hbm8 by (by destruct Hle8 as (_ & ? & _)).
  destruct (negb (hp =? NUM_OF_CPUS) && emptiness_violated c4 h4) eqn:Ev.
  2:{ apply ret_Ok in Hev as [_ ->]. split.
      - eapply wf_lock_equiv; [exact Hle8|]. by exists L'.
      - intros q Hq. rewrite Hbm8. by apply Hfr4. }
  apply andb_prop in Ev as [Ehp Ev].
  assert (hp ≠ NUM_OF_CPUS) as Hhpg by (destruct (Z.eqb_spec hp NUM_OF_CPUS); done).
  apply bind_Ok in Hev as ([] & s5 & Hk5 & Hev).
  apply bind_Ok in Hev as ([] & s6 & Hmove & Hk6).
  pose proof (lock_class_lock_equiv _ _ _ _ _ Hk5) as Hle5.
  pose proof (unlock_class_lock_equiv _ _ _ _ _ Hk6) as Hle7.
  pose proof (wf_with_lock_equiv L' s4 s5 Hle5 Hwf4) as Hwf5.
  destruct (lock_equiv_class s4 s5 hp c c4 Hle5 Hc4) as (x5 & Hx5 & _ & Eu & En & _ & Et).
  assert (usedBlocks x5 ≠ numOfBlocks x5) as Hne5.
  { rewrite Eu, En. eapply emptiness_violated_counters; [|exact Ev].
    destruct Hwf4 as ((_ & W2' & _) & _).
    destruct (W2' hp c Hr) as [_ (x & Hx & _ & _ & Hnu)].
    assert (x = c4) as -> by congruence. rewrite Hnu. by rewrite wrap32_idem. }
  rewrite <-Et in Hmove.
  destruct (evict_wf L' s5 hp c x5 fuel s6 Hwf5 Hhpg Hr Hx5 Hne5 Hmove) as (Hwf6 & Hbm6).
  split.
  - eapply wf_lock_equiv; [exact Hle8|]. eapply wf_lock_equiv; [exact Hle7|]. done.
  - intros q Hq. rewrite Hbm8.
    destruct Hle7 as (_ & -> & _). rewrite Hbm6.
    destruct Hle5 as (_ & -> & _). by apply Hfr4.
Qed.

(** ** The invariant holds in every reachable state *)

Lemma cold_cold_state : cold cold_state.
Proof. done. Qed.

Lemma cold_with_bytes v s : cold s → cold (with_bytes v s).
Proof. done. Qed.

Lemma wf_with_bytes v s : wf s → wf (with_bytes v s).
Proof.
  intros [L HL]. exists L. eapply wf_with_blocks; [..|exact HL]; try done.
  intros q bh Hq. by left.
Qed.

Theorem reachable_inv live s :
  reachable live s → (cold s ∨ wf s) ∧ live_ok live s.
Proof.
  induction 1 as [|live s fuel tid os sz p s' Hreach [IH1 IH2] Hsz Hos Hrun
                  |live s fuel ptr s' Hreach [IH1 IH2] Hptr Hrun
                  |live s v Hreach [IH1 IH2]].
  - split; [left; apply cold_cold_state|]. intros p Hp. by apply elem_of_empty in Hp.
  - destruct (malloc_wf fuel tid os sz s p s' IH1 Hos Hrun) as (Hwf & [Hkeep Hnew] & _).
    split; [by right|]. intros q Hq.
    assert (q ∈ live ∨ q = p ∧ p ≠ 0) as [Hin|[-> Hp0]].
    { case_decide; [by left|]. apply elem_of_union in Hq as [Hq%elem_of_singleton|Hq]; auto. }
    + destruct (IH2 q Hin) as (b & Hb & Hlv). exists b. split; [|done].
      apply Hkeep; [done|]. destruct Hlv as [?|?]; [left; lia|by right].
    + by apply Hnew.
  - assert (ptr ≠ 0 → ptr ∈ live) as Hin by (intros ?; by destruct Hptr).
    destruct IH1 as [Hc|Hwf].
    + assert (ptr = 0) as ->.
      { destruct (decide (ptr = 0)) as [?|Hne]; [done|].
        destruct (IH2 ptr (Hin Hne)) as (b & Hb & _).
        destruct Hc as (_ & _ & _ & Hbm). rewrite Hbm in Hb. done. }
      unfold free in Hrun. simpl in Hrun. apply ret_Ok in Hrun as [_ ->].
      split; [by left|]. intros q [Hq _]%elem_of_difference. by apply IH2.
    + destruct (free_wf fuel ptr s s' Hwf) with (2 := Hrun) as [Hwf' Hfr].
      { intros Hne. by apply IH2, Hin. }
      split; [by right|]. intros q [Hq Hne]%elem_of_difference.
      destruct (IH2 q Hq) as (b & Hb & Hlv). exists b. split; [|done].
      rewrite Hfr; [done|]. intros E. apply Hne. apply elem_of_singleton. lia.
  - split.
    + destruct IH1 as [?|?]; [left; by apply cold_with_bytes|right; by apply wf_with_bytes].
    + intros q Hq. by apply IH2.
Qed.

(** ** The free list of a superblock *)

Lemma free_walk_chain m a l : ∀ p e fuel,
  chain m a p l e →
  (length l < fuel)%nat →
  (∀ b, m !! e = Some b → ¬ (inUse b = 0 ∧ parentSuperblock b = a)) →
  free_walk m a fuel p = l.
Proof.
  induction l as [|b l IH]; intros p e fuel Hch Hlen He.
  - simpl in Hch. subst p. destruct fuel as [|fuel]; [simpl in Hlen; lia|]. simpl.
    destruct (m !! e) as [b|] eqn:Eb; [|done].
    destruct (Z.eqb_spec (inUse b) 0), (Z.eqb_spec (parentSuperblock b) a); try done.
    exfalso. by eapply He.
  - destruct Hch as (-> & h & Hh & Hu & Hp & Hch).
    destruct fuel as [|fuel]; [simpl in Hlen; lia|]. simpl. rewrite Hh, Hu, Hp.
    rewrite !Z.eqb_refl. simpl. f_equal. eapply IH; [done| |done]. simpl in Hlen. lia.
Qed.

Lemma free_list_wf L s hp c a :
  wf_data L s → a ∈ L hp c →
  ∃ h, sbmem s !! a = Some h
       ∧ sb_numOfBlocks h = blocks_per_superblock c
       ∧ 0 <= sb_usedBlocks h
       ∧ sb_usedBlocks h + Z.of_nat (length (free_list s a)) = sb_numOfBlocks h
       ∧ chain (blkmem s) a (freeList h) (free_list s a)
               (block_addr a c (blocks_per_superblock c)).
Proof.
  intros Hwf Ha. pose proof Hwf as (W1 & W2 & W3 & W4 & W5).
  destruct (W3 _ _ _ Ha) as ([_ Hc] & Ha0 & h & l & Hh & _ & Hn & Hu0 & Hu & _ & _ & Hch & _).
  pose proof (blocks_per_superblock_range c Hc) as Hbps.
  assert (free_list s a = l) as ->.
  { unfold free_list. rewrite Hh.
    eapply free_walk_chain; [done|rewrite Hn; lia|].
    intros b Hb [Hi Hp].
    destruct (W5 _ _ Hb) as [[? _]|(hp' & c' & i & Hin & Hi' & E)]; [lia|].
    rewrite Hp in Hin, E.
    destruct (wf_data_disjoint L s a hp c hp' c' Hwf Ha Hin) as [<- <-].
    apply block_addr_inj in E; [lia|done]. }
  exists h. split_and!; try done. lia.
Qed.

Lemma block_addr_end a c :
  0 <= c < NUM_OF_CLASSES →
  block_addr a c (blocks_per_superblock c) < a + SUPERBLOCK_SIZE.
Proof.
  intros Hc. unfold block_addr.
  destruct (class_cases c Hc) as
    [->|[->|[->|[->|[->|[->|[->|[->|[->|[->|[->|[->|[->|[->|[->| ->]]]]]]]]]]]]]]];
    vm_compute blocks_per_superblock; vm_compute SIZE_OF_CLASS;
    unfold sizeof_superblockHeader, sizeof_blockHeader, SUPERBLOCK_SIZE; lia.
Qed.

(** The free list of a superblock that has just been constructed in a
    fresh region. *)
Lemma init_free_list s p c :
  0 <= c < NUM_OF_CLASSES →
  fresh_region s p SUPERBLOCK_SIZE →
  init_superblock p c s = Ok 0 (init_state p c s)
  ∧ free_list (init_state p c s) p = block_addr p c <$> seqZ 0 (blocks_per_superblock c)
  ∧ (∃ h, sbmem (init_state p c s) !! p = Some h
          ∧ sb_usedBlocks h = 0
          ∧ sb_numOfBlocks h = blocks_per_superblock c
          ∧ freeList h = block_addr p c 0)
  ∧ (∀ i, 0 <= i < blocks_per_superblock c →
       blkmem (init_state p c s) !! block_addr p c i
       = Some (mkBlock (SIZE_OF_CLASS c) 0 (block_addr p c (i + 1)) p)).
Proof.
  intros Hc Hfresh. pose proof Hfresh as (Hp & _ & Hfb & _).
  pose proof (blocks_per_superblock_range c Hc) as Hbps.
  assert (∀ i, 0 <= i < blocks_per_superblock c →
            blkmem (init_state p c s) !! block_addr p c i
            = Some (mkBlock (SIZE_OF_CLASS c) 0 (block_addr p c (i + 1)) p)) as Hin.
  { intros i Hi. unfold init_state. simpl. apply init_map_lookup_in; [done|lia]. }
  split_and!; [by apply init_superblock_run| | |done].
  - unfold free_list, init_state. cbn [sbmem with_sbmem with_blkmem].
    rewrite lookup_insert_eq.
    cbn [sb_numOfBlocks freeList init_header set_freeList set_sb_lock
         set_sb_numOfBlocks set_sb_usedBlocks].
    rewrite (wrap32_small (blocks_per_superblock c)) by lia.
    replace (p + sizeof_superblockHeader) with (block_addr p c 0)
      by (unfold block_addr; lia).
    assert (blocks_per_superblock c = Z.of_nat (Z.to_nat (blocks_per_superblock c))) as En
      by lia.
    rewrite En at 3.
    eapply (free_walk_chain _ _ _ _ (block_addr p c (0 + Z.of_nat (Z.to_nat (blocks_per_superblock c))))).
    + apply chain_seq. intros j Hj. apply Hin. lia.
    + rewrite length_fmap, length_seqZ. lia.
    + intros b Hb. exfalso. simpl in Hb.
      rewrite init_map_lookup_out in Hb.
      * pose proof (block_addr_end p c Hc) as He.
        pose proof (block_addr_pos p c (blocks_per_superblock c) Hp Hc) as He0.
        rewrite <-En in Hb. replace (0 + blocks_per_superblock c)
          with (blocks_per_superblock c) in Hb by lia.
        assert (p <= block_addr p c (blocks_per_superblock c))
          by (unfold block_addr, sizeof_superblockHeader, sizeof_blockHeader;
              pose proof (SIZE_OF_CLASS_range c Hc); nia).
        destruct (Hfb (block_addr p c (blocks_per_superblock c))); [eauto|lia..].
      * intros j Hj. apply block_addr_ne; [done|lia].
  - eexists. unfold init_state. simpl. rewrite lookup_insert_eq. split; [done|].
    simpl. split_and!; [done|apply wrap32_small; lia|unfold block_addr; lia].
Qed.

(** ** Two reachable states *)

Lemma state_alloc_run : malloc 8 0 (Some 1048576) 16 cold_state = Ok 1048680 state_alloc.
Proof.
  unfold state_alloc.
  apply (value_of_Ok (malloc 8 0 (Some 1048576) 16 cold_state)).
  vm_compute. reflexivity.
Qed.

Lemma state_alloc_free_run : free 8 1048680 state_alloc = Ok tt state_alloc_free.
Proof.
  unfold state_alloc_free.
  apply (value_of_Ok (free 8 1048680 state_alloc)).
  vm_compute. reflexivity.
Qed.

Lemma fresh_region_cold p len : 0 < p → 0 < len → fresh_region cold_state p len.
Proof.
  intros Hp Hl. split_and!; [done|done| |]; intros q [h Hh]; simpl in Hh;
    by rewrite lookup_empty in Hh.
Qed.

Lemma reachable_state_alloc : reachable ({[1048680]} ∪ ∅) state_alloc.
Proof.
  apply (reach_malloc ∅ cold_state 8 0 (Some 1048576) 16 1048680 state_alloc).
  - apply reach_cold.
  - lia.
  - apply fresh_region_cold; [lia|]. vm_compute. reflexivity.
  - apply state_alloc_run.
Qed.

Lemma reachable_state_alloc_free :
  reachable (({[1048680]} ∪ ∅) ∖ {[1048680]}) state_alloc_free.
Proof.
  apply (reach_free _ state_alloc 8 1048680 state_alloc_free).
  - apply reachable_state_alloc.
  - right. apply elem_of_union. left. by apply elem_of_singleton.
  - apply state_alloc_free_run.
Qed.

Lemma cold_links s hp c : cold s → in_range hp c → class_links s hp c [].
Proof.
  intros (_ & Hh & _) [Hhp Hc].
  assert (get_class s hp c = Some zero_class) as Hx.
  { unfold get_class. rewrite Hh.
    destruct (Z.leb_spec 0 hp); [|lia]. destruct (Z.ltb_spec hp NUM_OF_HEAPS); [|lia].
    destruct (Z.leb_spec 0 c); [|lia]. destruct (Z.ltb_spec c NUM_OF_CLASSES); [|lia].
    cbn [andb].
    assert (hp = 0 ∨ hp = 1 ∨ hp = 2) as Hcases
      by (unfold NUM_OF_HEAPS, NUM_OF_CPUS in *; lia).
    destruct (class_cases c Hc) as
      [->|[->|[->|[->|[->|[->|[->|[->|[->|[->|[->|[->|[->|[->|[->| ->]]]]]]]]]]]]]]];
      destruct Hcases as [->|[->| ->]]; vm_compute; reflexivity. }
  exists zero_class. split_and!; try done. apply NoDup_nil_2.
Qed.

(** ** The ordered lists and the free lists *)

(** C5.  In every reachable state, for every superblock, [usedBlocks]
    plus the length of the free list is [numOfBlocks], and the free list
    of a superblock whose blocks are all used is empty (its
    [freeList.head] is then the address just past the last block, which
    is not a free block of the superblock).  A superblock constructed by
    [init_superblock] in a region just mapped has [usedBlocks = 0], and
    its free list is made of its [numOfBlocks] blocks in the order of
    their addresses, each linked to the next one and carrying the block
    size of the class and the address of the superblock. *)
Theorem C5_free_list_accounts_for_unused_blocks live s :
  reachable live s →
  (∀ a h, sbmem s !! a = Some h →
     sb_usedBlocks h + Z.of_nat (length (free_list s a)) = sb_numOfBlocks h
     ∧ (sb_usedBlocks h = sb_numOfBlocks h → free_list s a = []))
  ∧ (∀ p c, 0 <= c < NUM_OF_CLASSES → fresh_region s p SUPERBLOCK_SIZE →
       init_superblock p c s = Ok 0 (init_state p c s)
       ∧ free_list (init_state p c s) p
         = block_addr p c <$> seqZ 0 (blocks_per_superblock c)
       ∧ (∃ h, sbmem (init_state p c s) !! p = Some h
               ∧ sb_usedBlocks h = 0
               ∧ sb_numOfBlocks h = blocks_per_superblock c
               ∧ freeList h = block_addr p c 0)
       ∧ (∀ i, 0 <= i < blocks_per_superblock c →
            blkmem (init_state p c s) !! block_addr p c i
            = Some (mkBlock (SIZE_OF_CLASS c) 0 (block_addr p c (i + 1)) p))).
Proof.
  intros Hreach. split.
  - intros a h Hh.
    destruct (reachable_inv live s Hreach) as [[Hc|[L Hwf]] _].
    { destruct Hc as (_ & _ & Hsm & _). rewrite Hsm in Hh. done. }
    destruct Hwf as (Hwd & _). pose proof Hwd as (_ & _ & _ & W4 & _).
    destruct (W4 a) as (hp & c & Ha); [eauto|].
    destruct (free_list_wf L s hp c a Hwd Ha) as (h' & Hh' & Hn & Hu0 & Hu & _).
    assert (h' = h) as -> by congruence.
    split; [done|]. intros E. destruct (free_list s a); [done|]. simpl length in Hu. lia.
  - intros p c Hc Hfresh. by apply init_free_list.
Qed.

Lemma C5_witness :
  1 + Z.of_nat (length (free_list state_alloc 1048576)) = 1636
  ∧ (1 = 1636 → free_list state_alloc 1048576 = []).
Proof.
  apply (proj1 (C5_free_list_accounts_for_unused_blocks _ state_alloc reachable_state_alloc)
           1048576 (mkSuperblock 1 1636 1048696 false 0 0 (Some 0))).
  vm_compute. reflexivity.
Defined.


(** ** [calloc] and [realloc] *)

Lemma wrap64_small x : 0 <= x < 2 ^ 64 → wrap64 x = x.
Proof. intros H. unfold wrap64. by apply Z.mod_small. Qed.

(** C9.  [calloc] does not return NULL when the allocation fails in the
    grow path.  From the cold start, [calloc(1, 16)] with the OS refusing
    the mapping of the superblock: the call of [malloc] passes the NULL
    pointer to [init_superblock] before testing it (the defect of C2) and
    faults on the first header write, with the class lock of the CPU heap
    and the class lock of the global heap both held.  [calloc] does not
    get a NULL pointer back to return. *)
Theorem C9_calloc_faults_when_grow_fails :
  ∀ fuel, ∃ s,
    calloc fuel 0 None 1 16 cold_state = Fault s
    ∧ (sc_lock <$> get_class s (HASH 0) 4) = Some true
    ∧ (sc_lock <$> get_class s NUM_OF_CPUS 4) = Some true.
Proof.
  intros fuel. exists (state_after (calloc fuel 0 None 1 16 cold_state)).
  split; [apply is_fault_Fault; vm_compute; reflexivity|].
  split; vm_compute; reflexivity.
Qed.

(** C8.  [realloc] does not return NULL when the allocation fails in the
    grow path.  In [state_alloc], where [1048680] is an allocated block of
    16 bytes, [realloc(1048680, 32)] with the OS refusing the mapping of a
    superblock of class 5: the call of [malloc] passes the NULL pointer to
    [init_superblock] before testing it (the defect of C2) and faults on
    the first header write, with the class lock of the CPU heap and the
    class lock of the global heap both held.  [realloc] does not get a
    NULL pointer back to return; the old block is still allocated. *)
Theorem C8_realloc_faults_when_grow_fails :
  ∀ fuel, ∃ s,
    realloc fuel 0 None 1048680 32 state_alloc = Fault s
    ∧ (sc_lock <$> get_class s (HASH 0) 5) = Some true
    ∧ (sc_lock <$> get_class s NUM_OF_CPUS 5) = Some true
    ∧ blkmem s !! (1048680 - sizeof_blockHeader) = Some (mkBlock 16 1 1048696 1048576).
Proof.
  intros fuel. exists (state_after (realloc fuel 0 None 1048680 32 state_alloc)).
  split; [apply is_fault_Fault; vm_compute; reflexivity|].
  split_and!; vm_compute; reflexivity.
Qed.

(** ** A block is reused after it is freed *)

Lemma run_lock_class {B} hp c x (f : unit → M B) s :
  get_class s hp c = Some x → sc_lock x = false →
  bind (lock_class hp c) f s = f tt (put_class hp c (set_sc_lock true x) s).
Proof.
  intros Hx Hl. unfold lock_class.
  rewrite bind_assoc_run, (run_load_class hp c x) by done. rewrite Hl.
  by rewrite (run_store_class hp c x).
Qed.

Lemma run_unlock_class {B} hp c x (f : unit → M B) s :
  get_class s hp c = Some x →
  bind (unlock_class hp c) f s = f tt (put_class hp c (set_sc_lock false x) s).
Proof. intros Hx. unfold unlock_class. by rewrite (run_store_class hp c x). Qed.

Lemma run_lock_sb {B} a h (f : unit → M B) s :
  sbmem s !! a = Some h → a ≠ 0 → sb_lock h = false →
  bind (lock_sb a) f s = f tt (with_sbmem (<[a := set_sb_lock true h]> (sbmem s)) s).
Proof.
  intros Hh Ha Hl. unfold lock_sb.
  rewrite bind_assoc_run, (run_load_sb a h) by done. rewrite Hl.
  by rewrite (run_store_sb_at a h).
Qed.

Lemma run_unlock_sb {B} a h (f : unit → M B) s :
  sbmem s !! a = Some h → a ≠ 0 →
  bind (unlock_sb a) f s = f tt (with_sbmem (<[a := set_sb_lock false h]> (sbmem s)) s).
Proof.
  intros Hh Ha. unfold unlock_sb.
  rewrite bind_assoc_run, (run_load_sb a h) by done.
  by rewrite (run_store_sb_at a h).
Qed.

Lemma run_bubble_to_head_first {B} fuel hp c a h (f : unit → M B) s :
  sbmem s !! a = Some h → a ≠ 0 → sb_prev h = 0 →
  bind (bubble_to_head (S fuel) hp c a) f s = f tt s.
Proof.
  intros Hh Ha Hp. cbn [bubble_to_head].
  rewrite bind_assoc_run, (run_load_sb a h) by done. rewrite Hp. simpl. done.
Qed.

Lemma run_bubble_to_tail_last {B} fuel hp c a h (f : unit → M B) s :
  sbmem s !! a = Some h → a ≠ 0 → sb_next h = 0 →
  bind (bubble_to_tail (S fuel) hp c a) f s = f tt s.
Proof.
  intros Hh Ha Hp. cbn [bubble_to_tail].
  rewrite bind_assoc_run, (run_load_sb a h) by done. rewrite Hp. simpl. done.
Qed.

(** [move_superblock] of the only superblock of a list to an empty list. *)
Lemma move_superblock_single fuel x src dst c s cs cd hx :
  src ≠ dst → x ≠ 0 →
  get_class s src c = Some cs → sc_head cs = x → sc_tail cs = x →
  get_class s dst c = Some cd → sc_head cd = 0 →
  sbmem s !! x = Some hx → sb_next hx = 0 → sb_prev hx = 0 →
  ∃ s',
    move_superblock (S fuel) x src dst c s = Ok tt s'
    ∧ sbmem s' = <[x := mkSuperblock (sb_usedBlocks hx) (sb_numOfBlocks hx) (freeList hx)
                          (sb_lock hx) 0 0 (Some dst)]> (sbmem s)
    ∧ blkmem s' = blkmem s
    ∧ isInitialized s' = isInitialized s
    ∧ get_class s' src c
      = Some (mkClass (sc_size cs) (wrap32 (usedBlocks cs - sb_usedBlocks hx))
                      (wrap32 (numOfBlocks cs - sb_numOfBlocks hx)) 0 0 (sc_lock cs))
    ∧ get_class s' dst c
      = Some (mkClass (sc_size cd) (wrap32 (usedBlocks cd + sb_usedBlocks hx))
                      (wrap32 (numOfBlocks cd + sb_numOfBlocks hx)) x x (sc_lock cd))
    ∧ (∀ hp' c', (hp', c') ≠ (src, c) → (hp', c') ≠ (dst, c) →
         get_class s' hp' c' = get_class s hp' c')
    ∧ os_log s' = os_log s.
Proof.
  intros Hsd Hx0 Hcs Hhd Htl Hcd Hhdd Hhx Hn Hp.
  unfold move_superblock.
  rewrite (run_load_class src c cs) by done.
  rewrite (run_load_sb x hx) by done.
  rewrite (run_when_store_class _ src c cs) by done.
  rewrite Hhd, (Z.eqb_refl x), Hn.
  set (cs1 := set_sc_head 0 cs).
  set (S1 := put_class src c cs1 s).
  assert (get_class S1 src c = Some cs1) as G1 by (by eapply get_class_put_eq).
  rewrite (run_load_class src c cs1) by done.
  rewrite (run_when_store_class _ src c cs1) by done.
  change (sc_tail cs1) with (sc_tail cs). rewrite Htl, (Z.eqb_refl x), Hp.
  set (cs2 := set_sc_tail 0 cs1).
  set (S2 := put_class src c cs2 S1).
  assert (get_class S2 src c = Some cs2) as G2 by (by eapply get_class_put_eq).
  assert (get_class S2 dst c = Some cd) as G2d.
  { unfold S2, S1. rewrite (get_class_put_ne _ src c cs1) by (done || congruence).
    rewrite (get_class_put_ne _ src c cs) by (done || congruence). done. }
  change (negb (0 =? 0)) with false. rewrite run_when_false.
  rewrite (run_load_sb x hx) by done. rewrite Hp.
  change (negb (0 =? 0)) with false. rewrite run_when_false.
  rewrite (run_store_sb_at x hx) by done.
  rewrite (run_load_class dst c cd) by done.
  erewrite (run_store_sb_at x); [|simpl; apply lookup_insert_eq|done].
  rewrite Hhdd. change (negb (0 =? 0)) with false. cbv iota.
  rewrite (run_store_class dst c cd) by done.
  set (cd1 := set_sc_tail x cd).
  erewrite (run_store_class dst c cd1); [|by eapply get_class_put_eq].
  set (cd2 := set_sc_head x cd1).
  set (hx2 := set_sb_next 0 (set_sb_prev 0 hx)).
  cbn [sbmem with_sbmem put_class with_heaps]. rewrite insert_insert_eq.
  erewrite (run_bubble_to_tail_last fuel dst c x hx2); [|simpl; apply lookup_insert_eq|done|done].
  erewrite (run_store_sb_at x hx2); [|simpl; apply lookup_insert_eq|done].
  set (hx3 := set_parentHeap (Some dst) hx2).
  erewrite (run_load_sb x hx3); [|simpl; apply lookup_insert_eq|done].
  cbn [sbmem with_sbmem put_class with_heaps]. rewrite insert_insert_eq.
  set (S3 := with_sbmem (<[x := hx3]> (sbmem S2)) _).
  assert (get_class S3 dst c = Some cd2) as G3d.
  { unfold S3. rewrite get_class_with_sbmem. eapply get_class_put_eq.
    eapply get_class_put_eq. exact G2d. }
  assert (get_class S3 src c = Some cs2) as G3s.
  { unfold S3. rewrite get_class_with_sbmem.
    rewrite (get_class_put_ne _ dst c cd1);
      [|eapply get_class_put_eq; exact G2d|congruence].
    rewrite (get_class_put_ne _ dst c cd); [|exact G2d|congruence]. exact G2. }
  rewrite (run_store_class src c cs2) by done.
  set (cs3 := set_usedBlocks (wrap32 (usedBlocks cs2 - sb_usedBlocks hx3)) cs2).
  set (S4 := put_class src c cs3 S3).
  assert (get_class S4 src c = Some cs3) as G4s by (by eapply get_class_put_eq).
  rewrite (run_store_class src c cs3) by done.
  set (cs4 := set_numOfBlocks (wrap32 (numOfBlocks cs3 - sb_numOfBlocks hx3)) cs3).
  set (S5 := put_class src c cs4 S4).
  assert (get_class S5 src c = Some cs4) as G5s by (by eapply get_class_put_eq).
  assert (get_class S5 dst c = Some cd2) as G5d.
  { unfold S5, S4. rewrite (get_class_put_ne _ src c cs3) by (done || congruence).
    rewrite (get_class_put_ne _ src c cs2) by (done || congruence). done. }
  rewrite (run_store_class dst c cd2) by done.
  set (cd3 := set_usedBlocks (wrap32 (usedBlocks cd2 + sb_usedBlocks hx3)) cd2).
  set (S6 := put_class dst c cd3 S5).
  assert (get_class S6 dst c = Some cd3) as G6d by (by eapply get_class_put_eq).
  rewrite (store_class_run dst c cd3) by done.
  set (cd4 := set_numOfBlocks (wrap32 (numOfBlocks cd3 + sb_numOfBlocks hx3)) cd3).
  exists (put_class dst c cd4 S6). split; [reflexivity|].
  split_and!.
  - done.
  - done.
  - done.
  - rewrite (get_class_put_ne _ dst c cd3) by (done || congruence).
    unfold S6. rewrite (get_class_put_ne _ dst c cd2) by (done || congruence).
    rewrite G5s. done.
  - rewrite (get_class_put_eq _ dst c cd3) by done. done.
  - intros hp' c' H1 H2.
    rewrite (get_class_put_ne _ dst c cd3) by done.
    unfold S6. rewrite (get_class_put_ne _ dst c cd2) by done.
    unfold S5. rewrite (get_class_put_ne _ src c cs3) by done.
    unfold S4. rewrite (get_class_put_ne _ src c cs2) by done.
    unfold S3. rewrite get_class_with_sbmem.
    rewrite (get_class_put_ne _ dst c cd1); [|eapply get_class_put_eq; exact G2d|done].
    rewrite (get_class_put_ne _ dst c cd); [|exact G2d|done].
    change (get_class S2 hp' c' = get_class s hp' c').
    unfold S2. rewrite (get_class_put_ne _ src c cs1) by done.
    unfold S1. rewrite (get_class_put_ne _ src c cs) by done. done.
  - done.
Qed.

Lemma grow_class a c hp x s hp' c' :
  get_class s hp c = Some x →
  get_class (grow_state a c hp x s) hp' c'
  = if decide (hp' = hp ∧ c' = c)
    then Some (set_sc_tail a
                 (if negb (sc_tail x =? 0)
                  then set_numOfBlocks (wrap32 (numOfBlocks x + blocks_per_superblock c))
                         (set_usedBlocks (wrap32 (usedBlocks x + 1)) x)
                  else set_sc_head a
                         (set_numOfBlocks (wrap32 (numOfBlocks x + blocks_per_superblock c))
                            (set_usedBlocks (wrap32 (usedBlocks x + 1)) x))))
    else get_class s hp' c'.
Proof.
  intros Hx. unfold grow_state.
  set (x1 := set_usedBlocks (wrap32 (usedBlocks x + 1)) x).
  set (x2 := set_numOfBlocks (wrap32 (numOfBlocks x1 + blocks_per_superblock c)) x1).
  set (x3 := if negb (sc_tail x =? 0) then x2 else set_sc_head a x2).
  set (S0 := with_sbmem _ _).
  assert (get_class S0 hp c = Some x) as G0 by done.
  pose proof (get_class_put_eq _ hp c x x1 G0) as G1.
  pose proof (get_class_put_eq _ hp c x1 x2 G1) as G2.
  pose proof (get_class_put_eq _ hp c x2 x3 G2) as G3.
  rewrite (get_class_put _ hp c x3) by done.
  case_decide as D; [done|].
  rewrite (get_class_put _ hp c x2), decide_False by done.
  rewrite (get_class_put _ hp c x1), decide_False by done.
  rewrite (get_class_put _ hp c x), decide_False by done. done.
Qed.

Lemma HASH_range tid : 0 <= HASH tid < NUM_OF_CPUS.
Proof. unfold HASH. apply Z.mod_pos_bound. done. Qed.

Lemma malloc_vacant fuel tid a sz c s0 :
  0 < a → sz <= SIZE_THRESHOLD →
  class_of_size sz = Some c → 0 <= c < NUM_OF_CLASSES →
  vacant c s0 →
  sbmem s0 !! a = None →
  ∃ s1,
    malloc (S fuel) tid (Some a) sz s0 = Ok (a + 104) s1
    ∧ lone c s1 a (HASH tid) 1 (block_addr a c 1)
    ∧ blkmem s1 !! (a + 80) = Some (mkBlock (SIZE_OF_CLASS c) 1 (block_addr a c 1) a).
Proof.
  intros Ha Hsz Hcl Hc [Hini Hinit] Hfresh. unfold malloc.
  pose proof (blocks_per_superblock_range c Hc) as Hn.
  assert (wrap32 (blocks_per_superblock c) = blocks_per_superblock c) as Hw
    by (apply wrap32_small; lia).
  unfold bind at 1. rewrite Hini.
  destruct (Z.gtb_spec sz SIZE_THRESHOLD) as [?|_]; [lia|].
  rewrite Hcl. cbn [lift_option]. rewrite run_ret.
  set (hp := HASH tid).
  pose proof (HASH_range tid) as Hhp. fold hp in Hhp. unfold NUM_OF_CPUS in Hhp.
  assert (0 <= hp < NUM_OF_HEAPS) as Hr by (unfold NUM_OF_HEAPS, NUM_OF_CPUS; lia).
  assert (0 <= NUM_OF_CPUS < NUM_OF_HEAPS) as Hrg by (unfold NUM_OF_HEAPS, NUM_OF_CPUS; lia).
  assert ((NUM_OF_CPUS, c) ≠ (hp, c)) as Hne1 by (unfold NUM_OF_CPUS; intros [=]; lia).
  assert ((hp, c) ≠ (NUM_OF_CPUS, c)) as Hne2 by (unfold NUM_OF_CPUS; intros [=]; lia).
  set (x0 := mkClass (SIZE_OF_CLASS c) 0 0 0 0 false) in *.
  rewrite (run_lock_class hp c x0) by (reflexivity || by apply Hinit).
  set (x0L := set_sc_lock true x0). set (S1 := put_class hp c x0L s0).
  assert (get_class S1 hp c = Some x0L) as G1 by (eapply get_class_put_eq; by apply Hinit).
  assert (get_class S1 NUM_OF_CPUS c = Some x0) as G1g.
  { unfold S1. rewrite (get_class_put_ne _ hp c x0); [by apply Hinit|by apply Hinit|exact Hne1]. }
  unfold search_sizeclass.
  rewrite bind_assoc_run, (run_load_class hp c x0L) by exact G1.
  change (usedBlocks x0L =? numOfBlocks x0L) with true. cbv iota.
  rewrite run_ret. change (negb (0 =? 0)) with false. cbv iota.
  rewrite (run_lock_class NUM_OF_CPUS c x0) by (reflexivity || exact G1g).
  set (S2 := put_class NUM_OF_CPUS c x0L S1).
  assert (get_class S2 NUM_OF_CPUS c = Some x0L) as G2g
    by (eapply get_class_put_eq; exact G1g).
  assert (get_class S2 hp c = Some x0L) as G2.
  { unfold S2. rewrite (get_class_put_ne _ NUM_OF_CPUS c x0); [exact G1|exact G1g|exact Hne2]. }
  rewrite (run_load_class NUM_OF_CPUS c x0L) by exact G2g.
  change (negb (sc_head x0L =? 0)) with false. cbv iota.
  unfold bind at 1. unfold fetch_memory.
  destruct (Z.eqb_spec a 0) as [?|_]; [lia|]. cbn [negb].
  set (S3 := with_os_log _ _).
  assert (get_class S3 hp c = Some x0L) as G3 by exact G2.
  assert (get_class S3 NUM_OF_CPUS c = Some x0L) as G3g by exact G2g.
  assert (sbmem S3 !! a = None) as Hsm3 by exact Hfresh.
  assert (∀ hp', (hp', c) ≠ (hp, c) → (hp', c) ≠ (NUM_OF_CPUS, c) →
                 get_class S3 hp' c = get_class s0 hp' c) as G3o.
  { intros hp' H1 H2. change (get_class S2 hp' c = get_class s0 hp' c).
    unfold S2. rewrite (get_class_put_ne _ NUM_OF_CPUS c x0); [|exact G1g|exact H2].
    unfold S1. rewrite (get_class_put_ne _ hp c x0); [reflexivity|by apply Hinit|exact H1]. }
  assert (isInitialized S3 = true) as Hi3 by exact Hini.
  clearbody S3. clear S2 G2 G2g S1 G1 G1g.
  pose proof (grow_run a c hp x0L S3
                (λ s0 _, bubble_to_head (S fuel) hp c a ;;;
                         unlock_class hp c ;;;
                         unlock_class NUM_OF_CPUS c ;;;
                         ret (freeList s0 + sizeof_blockHeader))
                Ha Hc G3 Hsm3) as E.
  cbv beta in E. rewrite E by (simpl; lia). clear E.
  set (ha := mkSuperblock 1 (blocks_per_superblock c) (block_addr a c 1) false 0 0 (Some hp)).
  assert (sbmem (grow_state a c hp x0L S3) !! a = Some ha) as HsmG.
  { unfold grow_state. cbn [sbmem put_class with_heaps with_sbmem with_blkmem].
    apply lookup_insert_eq. }
  assert (blkmem (grow_state a c hp x0L S3) !! (a + 80)
          = Some (mkBlock (SIZE_OF_CLASS c) 1 (block_addr a c 1) a)) as HbG.
  { unfold grow_state. cbn [blkmem put_class with_heaps with_sbmem with_blkmem].
    apply lookup_insert_eq. }
  assert (isInitialized (grow_state a c hp x0L S3) = true) as HiG by exact Hi3.
  pose proof (grow_class a c hp x0L S3 hp c G3) as GG.
  rewrite decide_True in GG by (split; reflexivity).
  pose proof (grow_class a c hp x0L S3 NUM_OF_CPUS c G3) as GGg.
  rewrite decide_False in GGg by (unfold NUM_OF_CPUS; lia).
  rewrite G3g in GGg.
  assert (∀ hp', (hp', c) ≠ (hp, c) → (hp', c) ≠ (NUM_OF_CPUS, c) →
                 get_class (grow_state a c hp x0L S3) hp' c = get_class s0 hp' c) as GGo.
  { intros hp' H1 H2. rewrite (grow_class a c hp x0L S3 hp' c G3).
    rewrite decide_False by (intros [-> _]; by apply H1). by apply G3o. }
  revert HsmG HbG HiG GG GGg GGo. generalize (grow_state a c hp x0L S3).
  intros G HsmG HbG HiG GG GGg GGo.
  rewrite (run_bubble_to_head_first fuel hp c a ha); [|exact HsmG|lia|reflexivity].
  erewrite (run_unlock_class hp c) by exact GG.
  set (xf := set_sc_lock false (set_sc_tail a _)).
  set (S4 := put_class hp c xf G).
  assert (get_class S4 hp c = Some xf) as G4 by (eapply get_class_put_eq; exact GG).
  assert (get_class S4 NUM_OF_CPUS c = Some x0L) as G4g.
  { unfold S4. erewrite get_class_put_ne; [exact GGg|exact GG|exact Hne1]. }
  erewrite (run_unlock_class NUM_OF_CPUS c) by exact G4g.
  set (S5 := put_class NUM_OF_CPUS c (set_sc_lock false x0L) S4).
  exists S5. split_and!.
  - unfold ret. f_equal. cbn [freeList set_parentHeap init_header set_freeList].
    unfold sizeof_superblockHeader, sizeof_blockHeader. lia.
  - split_and!.
    + exact HiG.
    + exact HsmG.
    + unfold S5. rewrite (get_class_put_ne _ NUM_OF_CPUS c x0L); [|exact G4g|exact Hne2].
      rewrite G4. unfold xf, x0L, x0.
      cbn [set_sc_lock set_sc_tail set_sc_head set_numOfBlocks set_usedBlocks
           sc_tail sc_head sc_size usedBlocks numOfBlocks sc_lock negb Z.eqb].
      change (wrap32 (0 + 1)) with 1. rewrite Z.add_0_l, Hw. reflexivity.
    + intros hp' Hhp' Hne. destruct (decide (hp' = NUM_OF_CPUS)) as [->|Hng].
      * unfold S5. rewrite (get_class_put_eq _ NUM_OF_CPUS c x0L) by exact G4g. reflexivity.
      * assert ((hp', c) ≠ (hp, c)) as H1 by (intros [=]; done).
        assert ((hp', c) ≠ (NUM_OF_CPUS, c)) as H2 by (intros [=]; done).
        unfold S5. rewrite (get_class_put_ne _ NUM_OF_CPUS c x0L); [|exact G4g|exact H2].
        unfold S4. rewrite (get_class_put_ne _ hp c _ _ _ _ GG) by exact H1.
        rewrite GGo by done. by apply Hinit.
  - exact HbG.
Qed.

Lemma vacant_booted c :
  0 <= c < NUM_OF_CLASSES → vacant c booted_state ∧ sbmem booted_state = ∅.
Proof.
  intros Hc. split; [|reflexivity]. split; [reflexivity|].
  intros hp Hhp. by apply (init_class cold_state hp c).
Qed.

Lemma malloc_cold fuel tid os sz :
  malloc fuel tid os sz cold_state = malloc fuel tid os sz booted_state.
Proof. reflexivity. Qed.

(** [free] of the only used block of a lone superblock: the superblock,
    then empty, is moved to the global heap. *)
Lemma free_lone fuel c s1 a hp fl :
  0 < a → 0 <= c < NUM_OF_CLASSES → 0 <= hp < NUM_OF_CPUS →
  lone c s1 a hp 1 fl →
  blkmem s1 !! (a + 80) = Some (mkBlock (SIZE_OF_CLASS c) 1 fl a) →
  ∃ s2,
    free (S fuel) (a + 104) s1 = Ok tt s2
    ∧ lone c s2 a NUM_OF_CPUS 0 (a + 80)
    ∧ blkmem s2 !! (a + 80) = Some (mkBlock (SIZE_OF_CLASS c) 0 fl a)
    ∧ os_log s2 = os_log s1.
Proof.
  intros Ha Hc Hhp (Hini & Hsb & Hcl & Hoth) Hblk.
  pose proof (blocks_per_superblock_range c Hc) as Hn.
  pose proof (SIZE_OF_CLASS_range c Hc) as Hsc.
  assert (wrap32 (blocks_per_superblock c) = blocks_per_superblock c) as Hw
    by (apply wrap32_small; lia).
  unfold NUM_OF_CPUS in Hhp.
  assert (hp ≠ NUM_OF_CPUS) as Hhpg by (unfold NUM_OF_CPUS; lia).
  assert ((NUM_OF_CPUS, c) ≠ (hp, c)) as Hne1 by (intros [=]; done).
  assert ((hp, c) ≠ (NUM_OF_CPUS, c)) as Hne2 by (intros [=]; done).
  set (x0 := mkClass (SIZE_OF_CLASS c) 0 0 0 0 false) in *.
  assert (get_class s1 NUM_OF_CPUS c = Some x0) as Hg.
  { apply Hoth; [unfold NUM_OF_HEAPS, NUM_OF_CPUS; lia|done]. }
  set (b := mkBlock (SIZE_OF_CLASS c) 1 fl a) in *.
  set (h1 := mkSuperblock 1 (blocks_per_superblock c) fl false 0 0 (Some hp)) in *.
  set (x1 := mkClass (SIZE_OF_CLASS c) 1 (blocks_per_superblock c) a a false) in *.
  unfold free.
  destruct (Z.eqb_spec (a + 104) 0) as [?|_]; [lia|]. cbn [negb]. cbv zeta.
  replace (a + 104 - sizeof_blockHeader) with (a + 80) by (unfold sizeof_blockHeader; lia).
  rewrite (run_load_blk (a + 80) b) by (done || lia).
  change (blockSize b) with (SIZE_OF_CLASS c).
  destruct (Z.gtb_spec (SIZE_OF_CLASS c) (SUPERBLOCK_SIZE / 2)) as [Hgt|_];
    [change (SUPERBLOCK_SIZE / 2) with SIZE_THRESHOLD in Hgt; lia|].
  rewrite (class_of_block_SIZE_OF_CLASS c Hc). cbn [lift_option]. rewrite run_ret.
  change (parentSuperblock b) with a.
  rewrite (run_load_sb a h1) by (done || lia).
  change (parentHeap h1) with (Some hp). cbn [lift_option]. rewrite run_ret.
  rewrite (run_lock_sb a h1) by (done || lia).
  rewrite (run_lock_class hp c x1) by done.
  erewrite (run_unlock_sb a); [|simpl; apply lookup_insert_eq|lia].
  cbn [sbmem with_sbmem put_class with_heaps]. rewrite insert_insert_eq.
  change (set_sb_lock false (set_sb_lock true h1)) with h1.
  set (x1L := set_sc_lock true x1).
  set (S3 := with_sbmem (<[a := h1]> (sbmem s1)) _).
  assert (get_class S3 hp c = Some x1L) as G3 by (by eapply get_class_put_eq).
  assert (∀ hp' c', (hp', c') ≠ (hp, c) → get_class S3 hp' c' = get_class s1 hp' c') as G3o.
  { intros hp' c' Hne. unfold S3. rewrite get_class_with_sbmem.
    by rewrite (get_class_put_ne _ hp c x1). }
  rewrite (run_push hp c a h1 (a + 80) b x1L);
    [|simpl; apply lookup_insert_eq|lia|done|lia|done].
  set (h2 := set_sb_usedBlocks (wrap32 (sb_usedBlocks h1 - 1)) (set_freeList (a + 80) h1)).
  set (x2 := set_usedBlocks (wrap32 (usedBlocks x1L - 1)) x1L).
  assert (sbmem (push_state hp c a h1 (a + 80) b x1L S3) = <[a := h2]> (sbmem s1)) as HsmP.
  { unfold push_state. cbn [sbmem put_class with_heaps with_sbmem with_blkmem].
    unfold S3. cbn [sbmem with_sbmem]. by rewrite insert_insert_eq. }
  assert (blkmem (push_state hp c a h1 (a + 80) b x1L S3) !! (a + 80)
          = Some (mkBlock (SIZE_OF_CLASS c) 0 fl a)) as HbP.
  { unfold push_state. cbn [blkmem put_class with_heaps with_sbmem with_blkmem].
    by rewrite lookup_insert_eq. }
  assert (get_class (push_state hp c a h1 (a + 80) b x1L S3) hp c = Some x2) as GP
    by (unfold push_state; by eapply get_class_put_eq).
  assert (∀ hp' c', (hp', c') ≠ (hp, c) →
            get_class (push_state hp c a h1 (a + 80) b x1L S3) hp' c'
            = get_class s1 hp' c') as GPo.
  { intros hp' c' Hne. unfold push_state.
    rewrite (get_class_put_ne _ hp c x1L) by done. by apply G3o. }
  assert (isInitialized (push_state hp c a h1 (a + 80) b x1L S3) = true) as HiP by done.
  assert (os_log (push_state hp c a h1 (a + 80) b x1L S3) = os_log s1) as HoP by done.
  revert HsmP HbP GP GPo HiP HoP. generalize (push_state hp c a h1 (a + 80) b x1L S3).
  intros P HsmP HbP GP GPo HiP HoP. clear S3 G3 G3o.
  assert (sbmem P !! a = Some h2) as HaP by (by rewrite HsmP, lookup_insert_eq).
  rewrite (run_bubble_to_tail_last fuel hp c a h2) by (done || lia).
  rewrite (run_load_class hp c x2) by done.
  rewrite (run_load_sb a h2) by (done || lia).
  destruct (Z.eqb_spec hp NUM_OF_CPUS) as [?|_]; [done|]. cbn [negb andb].
  assert (emptiness_violated x2 h2 = true) as Hev.
  { unfold emptiness_violated, x2, h2, x1L, x1, h1, K.
    cbn [usedBlocks numOfBlocks sb_numOfBlocks set_usedBlocks set_sc_lock
         set_sb_usedBlocks set_freeList].
    change (wrap32 (1 - 1)) with 0. rewrite Z.mul_0_l. change (wrap32 0) with 0.
    rewrite Z.sub_0_r, Hw. change (to_float 0) with 0. unfold F_den, F_num.
    apply andb_true_intro. split; apply Z.ltb_lt; lia. }
  rewrite Hev. cbv iota.
  change (sc_tail x2) with a.
  rewrite !bind_assoc_run.
  assert (get_class P NUM_OF_CPUS c = Some x0) as GPg by (rewrite GPo; [done|exact Hne1]).
  rewrite (run_lock_class NUM_OF_CPUS c x0); [|exact GPg|done].
  set (x0L := set_sc_lock true x0).
  set (S5 := put_class NUM_OF_CPUS c x0L P).
  assert (get_class S5 NUM_OF_CPUS c = Some x0L) as G5g by (by eapply get_class_put_eq).
  assert (get_class S5 hp c = Some x2) as G5.
  { unfold S5. by rewrite (get_class_put_ne _ NUM_OF_CPUS c x0) by (done || congruence). }
  assert (sbmem S5 !! a = Some h2) as Ha5 by exact HaP.
  destruct (move_superblock_single fuel a hp NUM_OF_CPUS c S5 x2 x0L h2)
    as (S6 & Hmove & Hsm6 & Hbm6 & Hi6 & G6 & G6g & G6o & Ho6);
    [exact Hhpg|lia|exact G5|reflexivity|reflexivity|exact G5g|reflexivity|exact Ha5
    |reflexivity|reflexivity|].
  rewrite !bind_assoc_run. unfold bind at 1. rewrite Hmove.
  rewrite (run_unlock_class NUM_OF_CPUS c _ _ _ G6g).
  set (S7 := put_class NUM_OF_CPUS c _ S6).
  assert (get_class S7 hp c = get_class S6 hp c) as G7.
  { unfold S7. by erewrite get_class_put_ne by (done || congruence). }
  unfold unlock_class. rewrite G6 in G7.
  erewrite store_class_run by exact G7.
  eexists. split; [reflexivity|].
  split_and!.
  - split_and!.
    + change (isInitialized S6 = true). by rewrite Hi6.
    + change (sbmem S6 !! a = Some (mkSuperblock 0 (blocks_per_superblock c) (a + 80)
                                      false 0 0 (Some NUM_OF_CPUS))).
      rewrite Hsm6, lookup_insert_eq. done.
    + erewrite get_class_put_ne; [|exact G7|exact Hne1].
      unfold S7. erewrite get_class_put_eq by exact G6g.
      unfold x0L, x0, h2, h1.
      cbn [set_sc_lock sc_size usedBlocks numOfBlocks sc_lock sb_usedBlocks sb_numOfBlocks
           set_sb_usedBlocks set_freeList].
      change (wrap32 (1 - 1)) with 0. rewrite !Z.add_0_l, Hw.
      change (wrap32 0) with 0. reflexivity.
    + intros hp' Hhp' Hne. destruct (decide (hp' = hp)) as [->|Hnh].
      * erewrite get_class_put_eq by exact G7.
        unfold x2, x1L, x1, h2, h1.
        cbn [set_sc_lock sc_size usedBlocks numOfBlocks sc_lock sb_usedBlocks sb_numOfBlocks
             set_sb_usedBlocks set_freeList set_usedBlocks].
        change (wrap32 (1 - 1)) with 0. rewrite Z.sub_0_r, Z.sub_diag.
        change (wrap32 0) with 0. reflexivity.
      * assert ((hp', c) ≠ (hp, c)) as H1 by (intros [=]; done).
        assert ((hp', c) ≠ (NUM_OF_CPUS, c)) as H2 by (intros [=]; done).
        erewrite get_class_put_ne; [|exact G7|exact H1].
        unfold S7. erewrite get_class_put_ne; [|exact G6g|exact H2].
        rewrite G6o by done.
        unfold S5. erewrite get_class_put_ne; [|exact GPg|exact H2].
        rewrite GPo by done. apply Hoth; done.
  - change (blkmem S6 !! (a + 80) = Some (mkBlock (SIZE_OF_CLASS c) 0 fl a)).
    by rewrite Hbm6.
  - change (os_log S6 = os_log s1). by rewrite Ho6.
Qed.

(** [malloc] when the only superblock of the class is in the global heap
    and is empty: it is moved to the heap of the caller and its first
    free block is returned; the OS is not asked. *)
Lemma malloc_lone_global fuel tid os sz c s2 a fl :
  0 < a → sz <= SIZE_THRESHOLD →
  class_of_size sz = Some c → 0 <= c < NUM_OF_CLASSES →
  lone c s2 a NUM_OF_CPUS 0 (a + 80) →
  blkmem s2 !! (a + 80) = Some (mkBlock (SIZE_OF_CLASS c) 0 fl a) →
  ∃ s3,
    malloc (S fuel) tid os sz s2 = Ok (a + 104) s3
    ∧ lone c s3 a (HASH tid) 1 fl
    ∧ blkmem s3 !! (a + 80) = Some (mkBlock (SIZE_OF_CLASS c) 1 fl a)
    ∧ os_log s3 = os_log s2.
Proof.
  intros Ha Hsz Hcl Hc (Hini & Hsb & Hclg & Hoth) Hblk. unfold malloc.
  pose proof (blocks_per_superblock_range c Hc) as Hn.
  assert (wrap32 (blocks_per_superblock c) = blocks_per_superblock c) as Hw
    by (apply wrap32_small; lia).
  unfold bind at 1. rewrite Hini.
  destruct (Z.gtb_spec sz SIZE_THRESHOLD) as [?|_]; [lia|].
  rewrite Hcl. cbn [lift_option]. rewrite run_ret.
  set (hp := HASH tid).
  pose proof (HASH_range tid) as Hhp. fold hp in Hhp. unfold NUM_OF_CPUS in Hhp.
  assert (hp ≠ NUM_OF_CPUS) as Hhpg by (unfold NUM_OF_CPUS; lia).
  assert (0 <= hp < NUM_OF_HEAPS) as Hr by (unfold NUM_OF_HEAPS, NUM_OF_CPUS; lia).
  assert ((NUM_OF_CPUS, c) ≠ (hp, c)) as Hne1 by (intros [=]; done).
  assert ((hp, c) ≠ (NUM_OF_CPUS, c)) as Hne2 by (intros [=]; done).
  set (x0 := mkClass (SIZE_OF_CLASS c) 0 0 0 0 false) in *.
  set (xg := mkClass (SIZE_OF_CLASS c) 0 (blocks_per_superblock c) a a false) in *.
  set (hg := mkSuperblock 0 (blocks_per_superblock c) (a + 80) false 0 0 (Some NUM_OF_CPUS)) in *.
  set (bf := mkBlock (SIZE_OF_CLASS c) 0 fl a) in *.
  assert (get_class s2 hp c = Some x0) as G0 by (by apply Hoth).
  rewrite (run_lock_class hp c x0) by (reflexivity || exact G0).
  set (x0L := set_sc_lock true x0). set (S1 := put_class hp c x0L s2).
  assert (get_class S1 hp c = Some x0L) as G1 by (eapply get_class_put_eq; exact G0).
  assert (get_class S1 NUM_OF_CPUS c = Some xg) as G1g.
  { unfold S1. rewrite (get_class_put_ne _ hp c x0); [exact Hclg|exact G0|exact Hne1]. }
  unfold search_sizeclass.
  rewrite bind_assoc_run, (run_load_class hp c x0L) by exact G1.
  change (usedBlocks x0L =? numOfBlocks x0L) with true. cbv iota.
  rewrite run_ret. change (negb (0 =? 0)) with false. cbv iota.
  rewrite (run_lock_class NUM_OF_CPUS c xg) by (reflexivity || exact G1g).
  set (xgL := set_sc_lock true xg).
  set (S2 := put_class NUM_OF_CPUS c xgL S1).
  assert (get_class S2 NUM_OF_CPUS c = Some xgL) as G2g
    by (eapply get_class_put_eq; exact G1g).
  assert (get_class S2 hp c = Some x0L) as G2.
  { unfold S2. rewrite (get_class_put_ne _ NUM_OF_CPUS c xg); [exact G1|exact G1g|exact Hne2]. }
  assert (∀ hp', (hp', c) ≠ (hp, c) → (hp', c) ≠ (NUM_OF_CPUS, c) →
                 get_class S2 hp' c = get_class s2 hp' c) as G2o.
  { intros hp' H1 H2.
    unfold S2. rewrite (get_class_put_ne _ NUM_OF_CPUS c xg); [|exact G1g|exact H2].
    unfold S1. rewrite (get_class_put_ne _ hp c x0); [reflexivity|exact G0|exact H1]. }
  assert (sbmem S2 !! a = Some hg) as Hs2 by exact Hsb.
  assert (blkmem S2 !! (a + 80) = Some bf) as Hb2 by exact Hblk.
  assert (isInitialized S2 = true) as Hi2 by exact Hini.
  assert (os_log S2 = os_log s2) as Ho2 by reflexivity.
  clearbody S2. clear S1 G1 G1g.
  rewrite (run_load_class NUM_OF_CPUS c xgL) by exact G2g.
  change (sc_head xgL) with a.
  destruct (Z.eqb_spec a 0) as [?|_]; [lia|]. cbn [negb].
  rewrite (run_load_sb a hg) by (exact Hs2 || lia).
  cbv zeta. change (freeList hg) with (a + 80).
  rewrite (run_load_blk (a + 80) bf) by (exact Hb2 || lia).
  change (a + 80) with (freeList hg) at 1.
  rewrite (run_pop NUM_OF_CPUS c a hg bf xgL); [|exact Hs2|lia|exact Hb2|simpl; lia|exact G2g].
  set (h1 := set_sb_usedBlocks (wrap32 (sb_usedBlocks hg + 1)) (set_freeList (b_next bf) hg)).
  set (xg1 := set_usedBlocks (wrap32 (usedBlocks xgL + 1)) xgL).
  assert (sbmem (pop_state NUM_OF_CPUS c a hg bf xgL S2) !! a = Some h1) as HsP.
  { unfold pop_state. cbn [sbmem put_class with_heaps with_sbmem with_blkmem].
    apply lookup_insert_eq. }
  assert (blkmem (pop_state NUM_OF_CPUS c a hg bf xgL S2) !! (a + 80)
          = Some (mkBlock (SIZE_OF_CLASS c) 1 fl a)) as HbP.
  { unfold pop_state. cbn [blkmem put_class with_heaps with_sbmem with_blkmem].
    apply lookup_insert_eq. }
  assert (get_class (pop_state NUM_OF_CPUS c a hg bf xgL S2) NUM_OF_CPUS c = Some xg1) as GPg.
  { unfold pop_state. eapply get_class_put_eq.
    rewrite get_class_with_sbmem. exact G2g. }
  assert (∀ hp', (hp', c) ≠ (NUM_OF_CPUS, c) →
            get_class (pop_state NUM_OF_CPUS c a hg bf xgL S2) hp' c = get_class S2 hp' c)
    as GPo.
  { intros hp' Hne. unfold pop_state.
    rewrite (get_class_put_ne _ NUM_OF_CPUS c xgL);
      [by rewrite get_class_with_sbmem|by rewrite get_class_with_sbmem|exact Hne]. }
  assert (isInitialized (pop_state NUM_OF_CPUS c a hg bf xgL S2) = true) as HiP by exact Hi2.
  assert (os_log (pop_state NUM_OF_CPUS c a hg bf xgL S2) = os_log s2) as HoP by exact Ho2.
  revert HsP HbP GPg GPo HiP HoP. generalize (pop_state NUM_OF_CPUS c a hg bf xgL S2).
  intros P HsP HbP GPg GPo HiP HoP.
  assert (get_class P hp c = Some x0L) as GP by (rewrite GPo; [exact G2|exact Hne2]).
  destruct (move_superblock_single fuel a NUM_OF_CPUS hp c P xg1 x0L h1)
    as (S6 & Hmove & Hsm6 & Hbm6 & Hi6 & G6g & G6 & G6o & Ho6);
    [congruence|lia|exact GPg|reflexivity|reflexivity|exact GP|reflexivity|exact HsP
    |reflexivity|reflexivity|].
  unfold bind at 1. rewrite Hmove.
  rewrite (run_unlock_class NUM_OF_CPUS c _ _ _ G6g).
  set (S7 := put_class NUM_OF_CPUS c _ S6).
  assert (get_class S7 hp c = get_class S6 hp c) as G7.
  { unfold S7. erewrite get_class_put_ne; [reflexivity|exact G6g|exact Hne2]. }
  rewrite G6 in G7.
  rewrite (run_unlock_class hp c _ _ _ G7).
  eexists. split; [|split_and!].
  - unfold ret. f_equal. simpl. unfold sizeof_blockHeader. lia.
  - split_and!.
    + change (isInitialized S6 = true). by rewrite Hi6.
    + change (sbmem S6 !! a = Some (mkSuperblock 1 (blocks_per_superblock c) fl
                                      false 0 0 (Some hp))).
      rewrite Hsm6, lookup_insert_eq. reflexivity.
    + erewrite get_class_put_eq by exact G7.
      unfold x0L, x0, h1, hg.
      cbn [set_sc_lock sc_size usedBlocks numOfBlocks sc_lock sb_usedBlocks sb_numOfBlocks
           set_sb_usedBlocks set_freeList].
      change (wrap32 (0 + 1)) with 1. rewrite !Z.add_0_l, Hw.
      change (wrap32 1) with 1. reflexivity.
    + intros hp' Hhp' Hne. destruct (decide (hp' = NUM_OF_CPUS)) as [->|Hng].
      * erewrite get_class_put_ne; [|exact G7|exact Hne1].
        unfold S7. erewrite get_class_put_eq by exact G6g.
        unfold xg1, xgL, xg, h1, hg.
        cbn [set_sc_lock sc_size usedBlocks numOfBlocks sc_lock sb_usedBlocks sb_numOfBlocks
             set_sb_usedBlocks set_freeList set_usedBlocks].
        change (wrap32 (0 + 1)) with 1. change (wrap32 (1 - 1)) with 0.
        rewrite Z.sub_diag. change (wrap32 0) with 0. reflexivity.
      * assert ((hp', c) ≠ (hp, c)) as H1 by (intros [=]; done).
        assert ((hp', c) ≠ (NUM_OF_CPUS, c)) as H2 by (intros [=]; done).
        erewrite get_class_put_ne; [|exact G7|exact H1].
        unfold S7. erewrite get_class_put_ne; [|exact G6g|exact H2].
        rewrite G6o by done. rewrite GPo by exact H2. rewrite G2o by done.
        apply Hoth; done.
  - change (blkmem S6 !! (a + 80) = Some (mkBlock (SIZE_OF_CLASS c) 1 fl a)).
    by rewrite Hbm6.
  - change (os_log S6 = os_log s2). by rewrite Ho6.
Qed.

(** ** The mutexes that [malloc] and [free] take are released *)

Lemma cold_class s hp c : cold s → in_range hp c → get_class s hp c = Some zero_class.
Proof.
  intros (_ & Hh & _) [Hhp Hc].
  unfold get_class. rewrite Hh.
  destruct (Z.leb_spec 0 hp); [|lia]. destruct (Z.ltb_spec hp NUM_OF_HEAPS); [|lia].
  destruct (Z.leb_spec 0 c); [|lia]. destruct (Z.ltb_spec c NUM_OF_CLASSES); [|lia].
  cbn [andb].
  assert (hp = 0 ∨ hp = 1 ∨ hp = 2) as Hcases
    by (unfold NUM_OF_HEAPS, NUM_OF_CPUS in *; lia).
  destruct (class_cases c Hc) as
    [->|[->|[->|[->|[->|[->|[->|[->|[->|[->|[->|[->|[->|[->|[->| ->]]]]]]]]]]]]]]];
    destruct Hcases as [->|[->| ->]]; vm_compute; reflexivity.
Qed.

Global Instance no_new_lock_refl : Reflexive no_new_lock.
Proof. intros s. split; eauto. Qed.

Global Instance no_new_lock_trans : Transitive no_new_lock.
Proof.
  intros s1 s2 s3 [A1 A2] [B1 B2]. split.
  - intros a h Hh Hl. destruct (B1 a h Hh Hl) as (h' & Hh' & Hl'). eauto.
  - intros hp c x Hx Hl. destruct (B2 hp c x Hx Hl) as (x' & Hx' & Hl'). eauto.
Qed.

Lemma held_within_mono S C s s' :
  no_new_lock s s' → held_within S C s → held_within S C s'.
Proof.
  intros [A1 A2] [B1 B2]. split.
  - intros a h Hh Hl. destruct (A1 a h Hh Hl) as (h' & Hh' & Hl'). eauto.
  - intros hp c x Hx Hl. destruct (A2 hp c x Hx Hl) as (x' & Hx' & Hl'). eauto.
Qed.

Lemma held_within_weaken S C S' C' s :
  S ⊆ S' → C ⊆ C' → held_within S C s → held_within S' C' s.
Proof. intros HS HC [B1 B2]. split; intros; [apply HS|apply HC]; eauto. Qed.

Lemma unlocked_held s : unlocked s ↔ held_within [] [] s.
Proof.
  split; intros [A1 A2]; split.
  - intros a h Hh Hl. rewrite (A1 a h Hh) in Hl. done.
  - intros hp c x Hx Hl. rewrite (A2 hp c x Hx) in Hl. done.
  - intros a h Hh. destruct (sb_lock h) eqn:E; [|done].
    apply (A1 a h Hh) in E. by apply elem_of_nil in E.
  - intros hp c x Hx. destruct (sc_lock x) eqn:E; [|done].
    apply (A2 hp c x Hx) in E. by apply elem_of_nil in E.
Qed.

(** *** The operations that take no mutex *)

Lemma nnl_store_sb p f :
  (∀ h, sb_lock (f h) = true → sb_lock h = true) →
  preserves no_new_lock (store_sb p f).
Proof.
  intros Hf s u s' H. apply store_sb_Ok in H as (Hp & ->).
  split; [|intros hp c x'; rewrite get_class_with_sbmem; eauto].
  intros a h'. simpl. destruct (decide (a = p)) as [->|Hne].
  - rewrite lookup_insert_eq. intros [= <-] Hl. apply Hf in Hl.
    destruct (sbmem s !! p) as [h|]; [eauto|done].
  - rewrite lookup_insert_ne by done. eauto.
Qed.

Lemma nnl_store_class hp c f :
  (∀ x, sc_lock (f x) = true → sc_lock x = true) →
  preserves no_new_lock (store_class hp c f).
Proof.
  intros Hf s u s' H. apply store_class_Ok in H as (x0 & Hx0 & ->).
  split; [intros a h'; rewrite sbmem_put_class; eauto|].
  intros hp' c' x'. rewrite (get_class_put _ _ _ x0) by done.
  case_decide as D.
  - destruct D as [-> ->]. intros [= <-] Hl. eauto.
  - eauto.
Qed.

Lemma nnl_store_blk p f : preserves no_new_lock (store_blk p f).
Proof.
  intros s u s' H. apply store_blk_Ok in H as (Hp & ->).
  split; [eauto|intros hp c x'; rewrite get_class_with_blkmem; eauto].
Qed.

Lemma nnl_modify f :
  (∀ s, sbmem (f s) = sbmem s ∧ heaps (f s) = heaps s) →
  preserves no_new_lock (modify f).
Proof.
  intros Hf s u s' H. apply modify_Ok in H as ->. destruct (Hf s) as [E1 E2].
  split.
  - intros a h'. rewrite E1. eauto.
  - intros hp c x'. unfold get_class. rewrite E2. eauto.
Qed.

Lemma nnl_fetch_memory sz os : preserves no_new_lock (fetch_memory sz os).
Proof.
  intros s p s' H. unfold fetch_memory in H.
  destruct os; injection H as <- <-; split; eauto.
Qed.

Lemma nnl_munmap a len : preserves no_new_lock (munmap a len).
Proof. unfold munmap. by apply nnl_modify. Qed.

Lemma nnl_unlock_class hp c : preserves no_new_lock (unlock_class hp c).
Proof. unfold unlock_class. by apply nnl_store_class. Qed.

Lemma nnl_unlock_sb p : preserves no_new_lock (unlock_sb p).
Proof. unfold unlock_sb. repeat preserves_step. by apply nnl_store_sb. Qed.

(** Closes a goal [preserves no_new_lock m] for a body [m] that takes no
    mutex. *)
Ltac nnl_solve tac :=
  repeat preserves_step;
  first [ by apply nnl_store_sb | by apply nnl_store_class | apply nnl_store_blk
        | apply nnl_fetch_memory | apply nnl_munmap
        | apply nnl_unlock_class | apply nnl_unlock_sb | tac ].

Lemma nnl_search_loop fuel : ∀ p, preserves no_new_lock (search_loop fuel p).
Proof.
  induction fuel as [|fuel IH]; intros p; simpl; [apply preserves_timeout|].
  nnl_solve ltac:(apply IH).
Qed.

Lemma nnl_search_sizeclass fuel hp c : preserves no_new_lock (search_sizeclass fuel hp c).
Proof. unfold search_sizeclass. nnl_solve ltac:(apply nnl_search_loop). Qed.

Lemma nnl_swap_superblocks hp c sb : preserves no_new_lock (swap_superblocks hp c sb).
Proof. unfold swap_superblocks. nnl_solve fail. Qed.

Lemma nnl_bubble_to_tail fuel hp c sb : preserves no_new_lock (bubble_to_tail fuel hp c sb).
Proof.
  induction fuel as [|fuel IH]; simpl; [apply preserves_timeout|].
  nnl_solve ltac:(first [apply nnl_swap_superblocks | apply IH]).
Qed.

Lemma nnl_bubble_to_head fuel hp c sb : preserves no_new_lock (bubble_to_head fuel hp c sb).
Proof.
  induction fuel as [|fuel IH]; simpl; [apply preserves_timeout|].
  nnl_solve ltac:(first [apply nnl_swap_superblocks | apply IH]).
Qed.

Lemma nnl_move_superblock fuel sb src dst c :
  preserves no_new_lock (move_superblock fuel sb src dst c).
Proof. unfold move_superblock. nnl_solve ltac:(apply nnl_bubble_to_tail). Qed.

Lemma nnl_init_blocks k : ∀ p sb c, preserves no_new_lock (init_blocks k p sb c).
Proof.
  induction k as [|k IH]; intros p sb c; simpl.
  - apply preserves_ret. tc_solve.
  - nnl_solve ltac:(apply IH).
Qed.

Lemma nnl_init_superblock sb c : preserves no_new_lock (init_superblock sb c).
Proof. unfold init_superblock. nnl_solve ltac:(apply nnl_init_blocks). Qed.

(** *** Rules *)

Lemma hoare_bind {A B} P (Q1 : A → state → Prop) (Q : B → state → Prop) (m : M A) (f : A → M B) :
  hoare P m Q1 → (∀ a, hoare (Q1 a) (f a) Q) → hoare P (bind m f) Q.
Proof.
  intros Hm Hf s b s' HP H. apply bind_Ok in H as (a & s1 & H1 & H2).
  eapply Hf; [|exact H2]. eapply Hm; [exact HP|exact H1].
Qed.

Lemma hoare_ret {A} (P : state → Prop) (a : A) : hoare P (ret a) (λ _, P).
Proof. intros s b s' HP H. apply ret_Ok in H as [_ ->]. done. Qed.

Lemma hoare_pre {A} (P P' : state → Prop) (m : M A) Q :
  (∀ s, P s → P' s) → hoare P' m Q → hoare P m Q.
Proof. intros HP Hm s a s' Hs H. eapply Hm; [by apply HP|exact H]. Qed.

Lemma hoare_neutral {A} S C (m : M A) :
  preserves no_new_lock m → hoare (held_within S C) m (λ _, held_within S C).
Proof. intros Hm s a s' HP H. eapply held_within_mono; [by eapply Hm|done]. Qed.

Lemma hoare_lock_class S C hp c :
  hoare (held_within S C) (lock_class hp c) (λ _, held_within S ((hp, c) :: C)).
Proof.
  intros s u s' [A1 A2] H. unfold lock_class in H.
  apply bind_Ok in H as (x & s1 & H1 & H2). apply load_class_Ok in H1 as [-> Hx].
  destruct (sc_lock x); [done|].
  apply store_class_Ok in H2 as (x0 & Hx0 & ->). split.
  - intros a h. rewrite sbmem_put_class. apply A1.
  - intros hp' c' x'. rewrite (get_class_put _ _ _ x0) by done.
    case_decide as D.
    + destruct D as [-> ->]. intros _ _. by left.
    + intros Hx' Hl. right. by eapply A2.
Qed.

Lemma hoare_unlock_class S C hp c :
  hoare (held_within S ((hp, c) :: C)) (unlock_class hp c) (λ _, held_within S C).
Proof.
  intros s u s' [A1 A2] H. unfold unlock_class in H.
  apply store_class_Ok in H as (x0 & Hx0 & ->). split.
  - intros a h. rewrite sbmem_put_class. apply A1.
  - intros hp' c' x'. rewrite (get_class_put _ _ _ x0) by done.
    case_decide as D.
    + intros [= <-]. done.
    + intros Hx' Hl. pose proof (A2 hp' c' x' Hx' Hl) as Hin.
      apply elem_of_cons in Hin as [E|?]; [|done].
      injection E as -> ->. by destruct D.
Qed.

Lemma hoare_lock_sb S C p :
  hoare (held_within S C) (lock_sb p) (λ _, held_within (p :: S) C).
Proof.
  intros s u s' [A1 A2] H. unfold lock_sb in H.
  apply bind_Ok in H as (h & s1 & H1 & H2). apply load_sb_Ok in H1 as (-> & _).
  destruct (sb_lock h); [done|].
  apply store_sb_Ok in H2 as (Hp & ->). split.
  - intros a h'. simpl. destruct (decide (a = p)) as [->|Hne].
    + intros _ _. by left.
    + rewrite lookup_insert_ne by done. intros Hh' Hl. right. by eapply A1.
  - intros hp c x. rewrite get_class_with_sbmem. apply A2.
Qed.

Lemma hoare_unlock_sb S C p :
  hoare (held_within (p :: S) C) (unlock_sb p) (λ _, held_within S C).
Proof.
  intros s u s' [A1 A2] H. unfold unlock_sb in H.
  apply bind_Ok in H as (h & s1 & H1 & H2). apply load_sb_Ok in H1 as (-> & _).
  apply store_sb_Ok in H2 as (Hp & ->). split.
  - intros a h'. simpl. destruct (decide (a = p)) as [->|Hne].
    + rewrite lookup_insert_eq. intros [= <-]. done.
    + rewrite lookup_insert_ne by done. intros Hh' Hl.
      pose proof (A1 a h' Hh' Hl) as Hin.
      apply elem_of_cons in Hin as [?|?]; done.
  - intros hp c x. rewrite get_class_with_sbmem. apply A2.
Qed.

(** Steps over the operations at the head of a body that take no mutex. *)
Ltac nnl_any :=
  nnl_solve ltac:(first [ apply nnl_search_sizeclass | apply nnl_bubble_to_tail
                        | apply nnl_bubble_to_head | apply nnl_move_superblock
                        | apply nnl_init_superblock ]).

Ltac nnl_strict :=
  repeat preserves_step;
  first [ by apply nnl_store_sb | by apply nnl_store_class | apply nnl_store_blk
        | apply nnl_fetch_memory | apply nnl_munmap
        | apply nnl_search_sizeclass | apply nnl_bubble_to_tail
        | apply nnl_bubble_to_head | apply nnl_move_superblock
        | apply nnl_init_superblock ].

Ltac hoare_neutral_steps :=
  repeat (cbv zeta;
          lazymatch goal with
          | |- hoare _ (bind (unlock_class _ _) _) _ => fail
          | |- hoare _ (bind (unlock_sb _) _) _ => fail
          | |- _ => idtac
          end;
          eapply hoare_bind; [solve [apply hoare_neutral; nnl_strict] | intros ?]).

(** *** [free] *)

Lemma free_held fuel ptr :
  hoare (held_within [] []) (free fuel ptr) (λ _, held_within [] []).
Proof.
  unfold free. destruct (negb (ptr =? 0)); [|apply hoare_ret]. cbv zeta.
  eapply hoare_bind; [apply hoare_neutral; nnl_any|intros b].
  destruct (blockSize b >? SUPERBLOCK_SIZE / 2); [apply hoare_neutral; nnl_any|].
  hoare_neutral_steps.
  eapply hoare_bind; [apply hoare_lock_sb|intros ?].
  eapply hoare_bind; [apply hoare_lock_class|intros ?].
  eapply hoare_bind; [apply hoare_unlock_sb|intros ?].
  hoare_neutral_steps.
  eapply hoare_bind; [|intros ?; apply hoare_unlock_class].
  match goal with |- hoare _ (if ?b then _ else _) _ => destruct b end;
    [|apply hoare_ret].
  eapply hoare_bind; [apply hoare_lock_class|intros ?]. cbv zeta.
  eapply hoare_bind; [apply hoare_neutral; nnl_any|intros ?].
  apply hoare_unlock_class.
Qed.

(** *** [malloc] *)

Lemma nnl_init : preserves no_new_lock init.
Proof.
  intros s u s' H. unfold init in H. apply modify_Ok in H as ->. split; [eauto|].
  intros hp c x'. unfold get_class. simpl heaps.
  destruct ((0 <=? hp) && (hp <? NUM_OF_HEAPS) && (0 <=? c) && (c <? NUM_OF_CLASSES));
    [|done].
  rewrite list_lookup_imap.
  destruct (heaps s !! Z.to_nat hp) as [h|]; [|done]. simpl.
  rewrite list_lookup_imap.
  destruct (classes h !! Z.to_nat c) as [x|]; [|done]. simpl.
  intros [= <-]. done.
Qed.

Lemma nnl_boot :
  preserves no_new_lock
    (λ s, if isInitialized s then Ok tt s
          else bind init (λ _, modify (with_isInitialized true)) s).
Proof.
  intros s u s' H. destruct (isInitialized s).
  - assert (s' = s) as -> by congruence. reflexivity.
  - revert H. revert s u s'.
    change (preserves no_new_lock (bind init (λ _, modify (with_isInitialized true)))).
    apply preserves_bind; [tc_solve|apply nnl_init|intros ?].
    by apply nnl_modify.
Qed.

Lemma hoare_init_superblock S C sb c :
  hoare (held_within S C) (init_superblock sb c) (λ _ s, held_within S C s ∧ sb ≠ 0).
Proof.
  intros s a s' HP H. split.
  - eapply held_within_mono; [|exact HP]. by eapply nnl_init_superblock.
  - intros ->. unfold init_superblock, bind, store_sb in H. simpl in H. done.
Qed.

Lemma malloc_held fuel tid os sz :
  hoare (held_within [] []) (malloc fuel tid os sz) (λ _, held_within [] []).
Proof.
  unfold malloc.
  eapply hoare_bind; [apply hoare_neutral, nnl_boot|intros ?].
  destruct (sz >? SIZE_THRESHOLD); [apply hoare_neutral; nnl_any|].
  eapply hoare_bind; [apply hoare_neutral; nnl_any|intros c]. cbv zeta.
  eapply hoare_bind; [apply hoare_lock_class|intros ?].
  eapply hoare_bind; [apply hoare_neutral; nnl_any|intros blk].
  destruct (negb (blk =? 0)).
  { hoare_neutral_steps.
    eapply hoare_bind; [apply hoare_unlock_class|intros ?]. apply hoare_ret. }
  eapply hoare_bind; [apply hoare_lock_class|intros ?].
  eapply hoare_bind; [apply hoare_neutral; nnl_any|intros g]. cbv zeta.
  destruct (negb (sc_head g =? 0)).
  { hoare_neutral_steps.
    eapply hoare_bind; [apply hoare_unlock_class|intros ?].
    eapply hoare_bind; [apply hoare_unlock_class|intros ?]. apply hoare_ret. }
  eapply hoare_bind; [apply hoare_neutral; nnl_any|intros sb].
  eapply hoare_bind; [apply hoare_init_superblock|intros ?].
  destruct (Z.eqb_spec sb 0) as [->|Hsb]; cbn [negb].
  { intros s0 v s0' [_ H]. done. }
  eapply (hoare_pre _ (held_within [] [(HASH tid, c); (NUM_OF_CPUS, c)])).
  { intros s0 [H _]. eapply held_within_weaken; [done| |exact H].
    intros k. rewrite !elem_of_cons. tauto. }
  hoare_neutral_steps.
  eapply hoare_bind; [apply hoare_unlock_class|intros ?].
  eapply hoare_bind; [apply hoare_unlock_class|intros ?]. apply hoare_ret.
Qed.

Theorem reachable_unlocked live s : reachable live s → unlocked s.
Proof.
  induction 1 as [|live s fuel tid os sz p s' Hreach IH Hsz Hos Hrun
                  |live s fuel ptr s' Hreach IH Hptr Hrun
                  |live s v Hreach IH].
  - split; [intros a h Hh; simpl in Hh; by rewrite lookup_empty in Hh|].
    intros hp c x Hx.
    assert (in_range hp c) as Hr by (by apply get_class_Some in Hx).
    rewrite (cold_class cold_state hp c cold_cold_state Hr) in Hx. by injection Hx as <-.
  - apply unlocked_held. eapply malloc_held; [|exact Hrun]. by apply unlocked_held.
  - apply unlocked_held. eapply free_held; [|exact Hrun]. by apply unlocked_held.
  - exact IH.
Qed.

(** ** What [malloc] does to the payload bytes and to the OS *)

Global Instance same_os_refl : Reflexive same_os.
Proof. intros s. by split. Qed.

Global Instance same_os_trans : Transitive same_os.
Proof. intros s1 s2 s3 [A1 A2] [B1 B2]. split; congruence. Qed.

Lemma same_os_store_sb p f : preserves same_os (store_sb p f).
Proof. intros s u s' H. apply store_sb_Ok in H as (Hp & ->). by split. Qed.

Lemma same_os_store_blk p f : preserves same_os (store_blk p f).
Proof. intros s u s' H. apply store_blk_Ok in H as (Hp & ->). by split. Qed.

Lemma same_os_store_class hp c f : preserves same_os (store_class hp c f).
Proof. intros s u s' H. apply store_class_Ok in H as (x0 & Hx0 & ->). by split. Qed.

Lemma same_os_modify f :
  (∀ s, bytes (f s) = bytes s ∧ os_log (f s) = os_log s) →
  preserves same_os (modify f).
Proof. intros Hf s u s' H. apply modify_Ok in H as ->. apply Hf. Qed.

Ltac os_solve tac :=
  repeat preserves_step;
  first [ apply same_os_store_sb | apply same_os_store_class | apply same_os_store_blk
        | by apply same_os_modify | tac ].

Lemma same_os_lock_class hp c : preserves same_os (lock_class hp c).
Proof. unfold lock_class. os_solve fail. Qed.

Lemma same_os_unlock_class hp c : preserves same_os (unlock_class hp c).
Proof. unfold unlock_class. os_solve fail. Qed.

Lemma same_os_lock_sb p : preserves same_os (lock_sb p).
Proof. unfold lock_sb. os_solve fail. Qed.

Lemma same_os_unlock_sb p : preserves same_os (unlock_sb p).
Proof. unfold unlock_sb. os_solve fail. Qed.

Lemma same_os_search_loop fuel : ∀ p, preserves same_os (search_loop fuel p).
Proof.
  induction fuel as [|fuel IH]; intros p; simpl; [apply preserves_timeout|].
  os_solve ltac:(apply IH).
Qed.

Lemma same_os_search_sizeclass fuel hp c : preserves same_os (search_sizeclass fuel hp c).
Proof. unfold search_sizeclass. os_solve ltac:(apply same_os_search_loop). Qed.

Lemma same_os_swap_superblocks hp c sb : preserves same_os (swap_superblocks hp c sb).
Proof. unfold swap_superblocks. os_solve fail. Qed.

Lemma same_os_bubble_to_tail fuel hp c sb : preserves same_os (bubble_to_tail fuel hp c sb).
Proof.
  induction fuel as [|fuel IH]; simpl; [apply preserves_timeout|].
  os_solve ltac:(first [apply same_os_swap_superblocks | apply IH]).
Qed.

Lemma same_os_bubble_to_head fuel hp c sb : preserves same_os (bubble_to_head fuel hp c sb).
Proof.
  induction fuel as [|fuel IH]; simpl; [apply preserves_timeout|].
  os_solve ltac:(first [apply same_os_swap_superblocks | apply IH]).
Qed.

Lemma same_os_move_superblock fuel sb src dst c :
  preserves same_os (move_superblock fuel sb src dst c).
Proof. unfold move_superblock. os_solve ltac:(apply same_os_bubble_to_tail). Qed.

Lemma same_os_init_blocks k : ∀ p sb c, preserves same_os (init_blocks k p sb c).
Proof.
  induction k as [|k IH]; intros p sb c; simpl.
  - apply preserves_ret. tc_solve.
  - os_solve ltac:(apply IH).
Qed.

Lemma same_os_init_superblock sb c : preserves same_os (init_superblock sb c).
Proof. unfold init_superblock. os_solve ltac:(apply same_os_init_blocks). Qed.

Lemma same_os_boot :
  preserves same_os
    (λ s, if isInitialized s then Ok tt s
          else bind init (λ _, modify (with_isInitialized true)) s).
Proof.
  intros s u s' H. destruct (isInitialized s).
  - assert (s' = s) as -> by congruence. reflexivity.
  - revert H. revert s u s'.
    change (preserves same_os (bind init (λ _, modify (with_isInitialized true)))).
    unfold init. os_solve fail.
Qed.

Ltac os_any :=
  os_solve ltac:(first [ apply same_os_lock_class | apply same_os_unlock_class
                       | apply same_os_lock_sb | apply same_os_unlock_sb
                       | apply same_os_search_sizeclass | apply same_os_bubble_to_tail
                       | apply same_os_bubble_to_head | apply same_os_move_superblock
                       | apply same_os_init_superblock ]).

(** The one call of [fetch_memory] that [malloc] can make. *)
Lemma fetch_memory_effect len os s p s' :
  fetch_memory len os s = Ok p s' →
  p = default 0 os
  ∧ (∀ x, bytes s' x = bytes s x ∨ ∃ a, os = Some a ∧ a <= x < a + len ∧ bytes s' x = 0)
  ∧ os_log s' = Mmap len p :: os_log s.
Proof.
  unfold fetch_memory. destruct os as [a|]; intros [= <- <-]; simpl.
  - split; [done|]. split; [|done]. intros x.
    destruct (Z.leb_spec a x), (Z.ltb_spec x (a + len)); simpl; eauto.
    right. exists a. split; [done|]. split; [lia|done].
  - split; [done|]. split; [|done]. eauto.
Qed.

Lemma malloc_os_effect fuel tid os sz s p s' :
  malloc fuel tid os sz s = Ok p s' →
  (bytes s' = bytes s ∧ os_log s' = os_log s)
  ∨ ((∀ x, bytes s' x = bytes s x
           ∨ ∃ a, os = Some a ∧ a <= x < a + request_len sz ∧ bytes s' x = 0)
     ∧ os_log s' = Mmap (request_len sz) (default 0 os) :: os_log s).
Proof.
  intros Hrun. unfold malloc in Hrun.
  apply bind_Ok in Hrun as ([] & s0 & Hboot & Hrun).
  apply same_os_boot in Hboot as [Eb0 El0]. unfold request_len.
  assert (∀ len s1 p1 sf,
            fetch_memory len os s0 = Ok p1 s1 → same_os s1 sf →
            (∀ x, bytes sf x = bytes s x ∨ ∃ a, os = Some a ∧ a <= x < a + len ∧ bytes sf x = 0)
            ∧ os_log sf = Mmap len (default 0 os) :: os_log s) as Hfetch.
  { intros len s1 p1 sf Hf [E1 E2].
    apply fetch_memory_effect in Hf as (-> & Hby & Hlog).
    rewrite E1, E2, Hlog, <-Eb0, <-El0. done. }
  destruct (sz >? SIZE_THRESHOLD).
  { apply bind_Ok in Hrun as (p0 & s1 & Hf & Hrun). right.
    eapply Hfetch; [exact Hf|].
    revert Hrun. generalize s1 p s'.
    lazymatch goal with
    | |- ∀ s1 p s', ?m s1 = Ok p s' → _ => change (preserves same_os m)
    end.
    os_any. }
  apply bind_Ok in Hrun as (c & s0' & Hc & Hrun). apply lift_option_Ok in Hc as [Hc ->].
  cbv zeta in Hrun.
  apply bind_Ok in Hrun as ([] & s1 & Hlock & Hrun).
  apply same_os_lock_class in Hlock.
  apply bind_Ok in Hrun as (blk & s1' & Hsearch & Hrun).
  apply same_os_search_sizeclass in Hsearch.
  assert (same_os s s1') as H1.
  { etrans; [split; [exact Eb0|exact El0]|]. by etrans. }
  destruct (negb (blk =? 0)).
  { left. assert (same_os s1' s') as [E1 E2].
    { revert Hrun. generalize s1' p s'.
      lazymatch goal with
      | |- ∀ s1 p s', ?m s1 = Ok p s' → _ => change (preserves same_os m)
      end.
      os_any. }
    destruct H1. split; congruence. }
  apply bind_Ok in Hrun as ([] & s2 & Hlock2 & Hrun).
  apply same_os_lock_class in Hlock2.
  apply bind_Ok in Hrun as (g & s2' & Hg & Hrun).
  apply load_class_Ok in Hg as [-> Hg].
  destruct (negb (sc_head g =? 0)).
  { left. assert (same_os s2 s') as [E1 E2].
    { revert Hrun. generalize s2 p s'.
      lazymatch goal with
      | |- ∀ s1 p s', ?m s1 = Ok p s' → _ => change (preserves same_os m)
      end.
      os_any. }
    destruct H1, Hlock2. split; congruence. }
  apply bind_Ok in Hrun as (sb & s3 & Hf & Hrun). right.
  assert (same_os s3 s') as Hrest.
  { revert Hrun. generalize s3 p s'.
    lazymatch goal with
    | |- ∀ s1 p s', ?m s1 = Ok p s' → _ => change (preserves same_os m)
    end.
    os_any. }
  apply fetch_memory_effect in Hf as (-> & Hby & Hlog).
  destruct Hrest as [E1 E2], H1 as [F1 F2], Hlock2 as [G1 G2].
  split.
  - intros x. rewrite E1. destruct (Hby x) as [E|(a & -> & Hx & E)].
    + left. congruence.
    + right. exists a. done.
  - rewrite E2, Hlog. congruence.
Qed.

(** ** The search for a free block *)

(** [search_loop] on a well-linked list returns, without a change of the
    state, NULL when every superblock is full and else the head of the
    free list of the first superblock that is not full. *)
Lemma search_loop_first fuel : ∀ l prev s,
  dseg (sbmem s) prev l 0 →
  (length l < fuel)%nat →
  ∃ blk,
    search_loop fuel (default 0 (head l)) s = Ok blk s
    ∧ ((blk = 0
        ∧ ∀ a h, a ∈ l → sbmem s !! a = Some h → sb_numOfBlocks h <= sb_usedBlocks h)
       ∨ ∃ l1 a l2 h,
           l = l1 ++ a :: l2
           ∧ sbmem s !! a = Some h
           ∧ sb_usedBlocks h < sb_numOfBlocks h
           ∧ blk = freeList h
           ∧ ∀ a' h', a' ∈ l1 → sbmem s !! a' = Some h' →
                      sb_numOfBlocks h' <= sb_usedBlocks h').
Proof.
  induction fuel as [|fuel IH]; intros l prev s Hseg Hlen; [lia|].
  destruct l as [|a r]; simpl.
  - exists 0. split; [done|]. left. split; [done|].
    intros a h Ha. by apply elem_of_nil in Ha.
  - destruct Hseg as (Ha0 & (h & Hh & Hp & Hn) & Hr).
    destruct (Z.eqb_spec a 0) as [?|_]; [done|].
    rewrite (run_load_sb a h) by done.
    destruct (Z.ltb_spec (sb_usedBlocks h) (sb_numOfBlocks h)) as [Hlt|Hge].
    + exists (freeList h). split; [done|]. right.
      exists [], a, r, h. split_and!; try done.
      intros a' h' Ha'. by apply elem_of_nil in Ha'.
    + rewrite Hn. simpl in Hlen.
      destruct (IH r a s Hr ltac:(lia)) as (blk & Hrun & Hres).
      exists blk. split; [done|].
      destruct Hres as [[-> Hfull]|(l1 & b & l2 & hb & -> & Hhb & Hlt & -> & Hfull)].
      * left. split; [done|]. intros a' h' [->|Ha']%elem_of_cons Hh'.
        -- assert (h' = h) as -> by congruence. done.
        -- by eapply Hfull.
      * right. exists (a :: l1), b, l2, hb. split_and!; try done.
        intros a' h' [->|Ha']%elem_of_cons Hh'.
        -- assert (h' = h) as -> by congruence. done.
        -- by eapply Hfull.
Qed.

(** ** The relinking loops return *)

Lemma swap_superblocks_run hp c pre x y post s :
  class_links s hp c (pre ++ x :: y :: post) →
  ∃ s', swap_superblocks hp c x s = Ok tt s'.
Proof.
  intros (cx & Hc & Hnd & Hseg & Hhd & Htl).
  apply dseg_app in Hseg as [Hpre Hrest].
  change (default 0 (head (x :: y :: post))) with x in Hpre.
  destruct Hrest as (Hx0 & (hx & Hhx & Hxp & Hxn) & (Hy0 & (hy & Hhy & Hyp & Hyn) & Hpost)).
  change (default 0 (head (y :: post))) with y in Hxn.
  set (m := sbmem s) in *.
  set (p0 := default 0 (last pre)) in *. set (n0 := default 0 (head post)) in *.
  apply NoDup_app in Hnd as (Hndpre & Hdisj & Hnd).
  apply NoDup_cons in Hnd as (Hxnotin & Hnd).
  apply NoDup_cons in Hnd as (Hynotin & Hndpost).
  assert (x ≠ y) as Hxy by (intros ->; apply Hxnotin; by left).
  assert (x ∉ pre) as Hxpre by (intros H; eapply Hdisj; [done|by left]).
  assert (y ∉ pre) as Hypre by (intros H; eapply Hdisj; [done|right; by left]).
  assert (x ∉ post) as Hxpost by (intros H; apply Hxnotin; by right).
  assert (p0 ≠ x ∧ p0 ≠ y ∧ (p0 ≠ 0 → p0 ∈ pre)) as (Hp0x & Hp0y & Hp0in).
  { destruct (last_elem_or_null pre) as [[E _]|Hin]; fold p0 in E || fold p0 in Hin.
    - rewrite E. done.
    - split_and!; [intros E; by rewrite E in Hin..|done]. }
  assert (n0 ≠ x ∧ n0 ≠ y ∧ (n0 ≠ 0 → n0 ∈ post)) as (Hn0x & Hn0y & Hn0in).
  { destruct (head_elem_or_null post) as [[E _]|Hin]; fold n0 in E || fold n0 in Hin.
    - rewrite E. done.
    - split_and!; [intros E; by rewrite E in Hin..|done]. }
  set (m1 := wr p0 (set_sb_next y) m).
  set (m2 := wr n0 (set_sb_prev x) m1).
  assert (m2 !! x = Some hx) as Hm2x by (unfold m2, m1; by rewrite !wr_lookup_ne).
  assert (m2 !! y = Some hy) as Hm2y by (unfold m2, m1; by rewrite !wr_lookup_ne).
  set (hx' := set_sb_prev y (set_sb_next n0 hx)).
  set (hy' := set_sb_prev p0 (set_sb_next x hy)).
  set (M := <[y := hy']> (<[x := hx']> m2)).
  set (cx1 := if sc_head cx =? x then set_sc_head y cx else cx).
  set (cx2 := if sc_tail cx1 =? y then set_sc_tail x cx1 else cx1).
  exists (put_class hp c cx2 (put_class hp c cx1 (with_sbmem M s))).
  unfold swap_superblocks.
  rewrite (run_load_sb x hx) by done. cbv zeta. rewrite Hxn.
  destruct (Z.eqb_spec y 0) as [?|_]; [done|].
  rewrite Hxp. rewrite run_when_store_sb. fold m m1.
  rewrite (run_load_sb y hy); [|simpl; unfold m1; rewrite wr_lookup_ne by done; done|done].
  rewrite Hyn. rewrite run_when_store_sb. simpl sbmem. fold m2.
  rewrite with_sbmem_with_sbmem.
  rewrite (run_load_sb x hx) by done.
  rewrite (run_load_sb y hy) by done.
  rewrite Hxp, Hyn.
  rewrite (run_store_sb_at x hx) by done. simpl sbmem. rewrite with_sbmem_with_sbmem.
  rewrite (run_store_sb_at x (set_sb_next n0 hx)) by (simpl; by rewrite ?lookup_insert_eq).
  simpl sbmem. rewrite with_sbmem_with_sbmem, insert_insert_eq. fold hx'.
  rewrite (run_store_sb_at y hy) by (simpl; by rewrite ?lookup_insert_ne).
  simpl sbmem. rewrite with_sbmem_with_sbmem.
  rewrite (run_store_sb_at y (set_sb_next x hy)) by (simpl; by rewrite ?lookup_insert_eq).
  simpl sbmem. rewrite with_sbmem_with_sbmem, insert_insert_eq. fold hy' M.
  rewrite (run_load_class hp c cx) by done.
  rewrite (run_when_store_class _ hp c cx) by done. fold cx1.
  erewrite (run_load_class hp c) by (by eapply get_class_put_eq).
  erewrite when_store_class_run by (by eapply get_class_put_eq).
  fold cx2. done.
Qed.

Lemma bubble_to_tail_run fuel hp c : ∀ post pre x s,
  class_links s hp c (pre ++ x :: post) →
  (length post < fuel)%nat →
  ∃ s', bubble_to_tail fuel hp c x s = Ok tt s'.
Proof.
  induction fuel as [|fuel IH]; intros post pre x s Hl Hlen; [lia|].
  simpl.
  destruct (class_links_lookup _ _ _ _ _ _ Hl) as (Hx0 & hx & Hhx & Hxp & Hxn).
  rewrite (run_load_sb x hx) by done. rewrite Hxn.
  destruct post as [|y post]; [by exists s|].
  change (default 0 (head (y :: post))) with y.
  destruct (class_links_lookup s hp c (pre ++ [x]) y post) as (Hy0 & hy & Hhy & Hyp & Hyn).
  { by rewrite <-app_assoc. }
  destruct (Z.eqb_spec y 0) as [?|_]; [done|].
  rewrite (run_load_sb y hy) by done.
  destruct (Z.ltb_spec (sb_usedBlocks hx) (sb_usedBlocks hy)) as [Hlt|Hge]; [|by exists s].
  destruct (swap_superblocks_run hp c pre x y post s Hl) as (s1 & Hswap).
  destruct (swap_superblocks_spec _ _ _ _ _ _ _ _ Hl Hswap) as [Hl1 _].
  replace (pre ++ y :: x :: post) with ((pre ++ [y]) ++ x :: post) in Hl1
    by (by rewrite <-app_assoc).
  simpl in Hlen.
  destruct (IH post (pre ++ [y]) x s1 Hl1 ltac:(lia)) as (s' & Hrun).
  exists s'. unfold bind at 1. rewrite Hswap. done.
Qed.

Lemma bubble_to_head_run fuel hp c : ∀ pre x post s,
  class_links s hp c (pre ++ x :: post) →
  (length pre < fuel)%nat →
  ∃ s', bubble_to_head fuel hp c x s = Ok tt s'.
Proof.
  induction fuel as [|fuel IH]; intros pre x post s Hl Hlen; [lia|].
  simpl.
  destruct (class_links_lookup _ _ _ _ _ _ Hl) as (Hx0 & hx & Hhx & Hxp & Hxn).
  rewrite (run_load_sb x hx) by done. rewrite Hxp.
  destruct pre as [|p pre _] using rev_ind; [by exists s|].
  rewrite last_snoc. change (default 0 (Some p)) with p.
  rewrite last_snoc in Hxp. change (default 0 (Some p)) with p in Hxp.
  destruct (class_links_lookup s hp c pre p (x :: post)) as (Hp0 & hp0 & Hhp & Hpp & Hpn).
  { by rewrite <-app_assoc in Hl. }
  destruct (Z.eqb_spec p 0) as [?|_]; [done|].
  rewrite (run_load_sb p hp0) by done.
  destruct (Z.gtb_spec (sb_usedBlocks hx) (sb_usedBlocks hp0)) as [Hlt|Hge]; [|by exists s].
  rewrite <-app_assoc in Hl. simpl in Hl.
  destruct (swap_superblocks_run hp c pre p x post s Hl) as (s1 & Hswap).
  destruct (swap_superblocks_spec _ _ _ _ _ _ _ _ Hl Hswap) as [Hl1 _].
  rewrite length_app in Hlen. simpl in Hlen.
  destruct (IH pre x (p :: post) s1 Hl1 ltac:(lia)) as (s' & Hrun).
  exists s'. unfold bind at 1. rewrite Hswap. done.
Qed.

Lemma move_superblock_run fuel src dst c pre x post ld s :
  src ≠ dst →
  class_links s src c (pre ++ x :: post) →
  class_links s dst c ld →
  (∀ a, a ∈ ld → a ∉ pre ++ x :: post) →
  (length ld < fuel)%nat →
  ∃ s', move_superblock fuel x src dst c s = Ok tt s'.
Proof.
  intros Hsd Hsrc Hdst Hdisj Hlen.
  destruct (move_superblock_unlink_push_eq fuel src dst c pre x post ld s Hsd Hsrc Hdst Hdisj)
    as (s1 & Hsrc1 & Hdst1 & _ & _ & _ & _ & _ & _ & _ & _ & _ & Heq).
  rewrite Heq. clear Heq.
  destruct (bubble_to_tail_run fuel dst c ld [] x s1 Hdst1 Hlen) as (s2 & Hbub).
  destruct (bubble_to_tail_spec fuel dst c [] x ld s1 s2 Hdst1 Hbub)
    as (ld1 & ld2 & -> & Hdst2 & _ & _ & Hf2).
  simpl in Hdst2.
  destruct (class_links_lookup _ _ _ _ _ _ Hdst2) as (Hx0 & hx & Hhx & _).
  destruct Hf2 as (_ & _ & _ & _ & _ & _ & _ & _ & F9 & _).
  assert (∃ cs, get_class s2 src c = Some cs) as [cs Hcs].
  { destruct Hsrc1 as (cs1 & Hcs1 & _). specialize (F9 src c). rewrite Hcs1 in F9.
    destruct (get_class s2 src c); [eauto|done]. }
  destruct Hdst2 as (cd & Hcd & _).
  unfold bind at 1. rewrite Hbub.
  rewrite (run_store_sb_at x hx) by done.
  erewrite (run_load_sb x); [|simpl; apply lookup_insert_eq|done].
  erewrite (run_store_class src c cs) by (by rewrite get_class_with_sbmem).
  erewrite (run_store_class src c); [|eapply get_class_put_eq; by rewrite get_class_with_sbmem].
  erewrite (run_store_class dst c cd).
  2:{ erewrite get_class_put_ne;
        [|eapply get_class_put_eq; by rewrite get_class_with_sbmem|congruence].
      erewrite get_class_put_ne; [|by rewrite get_class_with_sbmem|congruence].
      by rewrite get_class_with_sbmem. }
  erewrite store_class_run; [by eexists|].
  eapply get_class_put_eq.
  erewrite get_class_put_ne;
    [|eapply get_class_put_eq; by rewrite get_class_with_sbmem|congruence].
  erewrite get_class_put_ne; [|by rewrite get_class_with_sbmem|congruence].
  by rewrite get_class_with_sbmem.
Qed.

(** ** [free] and [malloc] return *)

Lemma bind_run {A B} (m : M A) (f : A → M B) s a s1 :
  m s = Ok a s1 → bind m f s = f a s1.
Proof. intros H. unfold bind. by rewrite H. Qed.

Lemma lock_class_ok s hp c x :
  get_class s hp c = Some x → sc_lock x = false →
  lock_class hp c s = Ok tt (put_class hp c (set_sc_lock true x) s).
Proof.
  intros Hx Hl. unfold lock_class.
  rewrite (run_load_class hp c x) by done. rewrite Hl.
  by rewrite (store_class_run hp c x).
Qed.

Lemma unlock_class_ok s hp c x :
  get_class s hp c = Some x →
  unlock_class hp c s = Ok tt (put_class hp c (set_sc_lock false x) s).
Proof. intros Hx. unfold unlock_class. by rewrite (store_class_run hp c x). Qed.

Lemma lock_sb_ok s a h :
  sbmem s !! a = Some h → a ≠ 0 → sb_lock h = false →
  lock_sb a s = Ok tt (with_sbmem (<[a := set_sb_lock true h]> (sbmem s)) s).
Proof.
  intros Hh Ha Hl. unfold lock_sb.
  rewrite (run_load_sb a h) by done. rewrite Hl.
  unfold store_sb. destruct (Z.eqb_spec a 0); [done|]. by rewrite Hh.
Qed.

Lemma unlock_sb_ok s a h :
  sbmem s !! a = Some h → a ≠ 0 →
  unlock_sb a s = Ok tt (with_sbmem (<[a := set_sb_lock false h]> (sbmem s)) s).
Proof.
  intros Hh Ha. unfold unlock_sb.
  rewrite (run_load_sb a h) by done.
  unfold store_sb. destruct (Z.eqb_spec a 0); [done|]. by rewrite Hh.
Qed.

(** A list of a class has no more members than there are superblocks. *)
Lemma class_links_length s hp c l :
  class_links s hp c l → (length l <= size (dom (sbmem s)))%nat.
Proof.
  intros (x & _ & Hnd & Hseg & _).
  rewrite <-(size_list_to_set (C := gset Z) l) by done.
  apply subseteq_size. intros a Ha. apply elem_of_list_to_set in Ha.
  apply elem_of_dom. by eapply dseg_lookup.
Qed.

Lemma class_links_fuel s s' hp c l fuel :
  class_links s' hp c l →
  (∀ a, is_Some (sbmem s' !! a) → is_Some (sbmem s !! a)) →
  (size (dom (sbmem s)) < fuel)%nat →
  (length l < fuel)%nat.
Proof.
  intros Hl Hsub Hf. pose proof (class_links_length s' hp c l Hl) as H1.
  assert (size (dom (sbmem s')) <= size (dom (sbmem s)))%nat; [|lia].
  apply subseteq_size. intros a Ha. apply elem_of_dom. apply Hsub. by apply elem_of_dom.
Qed.

Lemma lock_equiv_is_Some s s' a :
  lock_equiv s s' → is_Some (sbmem s' !! a) → is_Some (sbmem s !! a).
Proof.
  intros (_ & _ & E & _) [h Hh]. specialize (E a). rewrite Hh in E.
  destruct (sbmem s !! a); [eauto|done].
Qed.

(** The eviction of [free] returns. *)
Lemma evict_run L s hp c x fuel :
  wf_with L s →
  hp ≠ NUM_OF_CPUS →
  in_range hp c →
  get_class s hp c = Some x →
  usedBlocks x ≠ numOfBlocks x →
  (length (L NUM_OF_CPUS c) < fuel)%nat →
  ∃ s', move_superblock fuel (sc_tail x) hp NUM_OF_CPUS c s = Ok tt s'.
Proof.
  intros (Hwd & Hso & Hg) Hhp Hr Hx Hne Hlen.
  pose proof Hwd as (W1 & W2 & W3 & W4 & W5).
  destruct (W2 hp c Hr) as [Hcl (x1 & Hx1 & Hsz & Hus & Hnu)].
  pose proof Hcl as (x0 & Hx0 & Hnd & Hseg & Hhd & Htl).
  assert (x0 = x) as -> by congruence. assert (x1 = x) as -> by congruence.
  destruct (L hp c) as [|z pre _] eqn:HL using rev_ind.
  { exfalso. apply Hne. rewrite Hus, Hnu. done. }
  rewrite last_snoc in Htl. simpl in Htl. rewrite Htl.
  assert (in_range NUM_OF_CPUS c) as Hrg.
  { split; [unfold NUM_OF_HEAPS, NUM_OF_CPUS; lia|apply Hr]. }
  destruct (W2 NUM_OF_CPUS c Hrg) as [Hclg _].
  eapply (move_superblock_run fuel hp NUM_OF_CPUS c pre z [] (L NUM_OF_CPUS c)); try done.
  intros a Ha Ha'.
  assert (a ∈ L hp c) as Ha'' by (by rewrite HL).
  destruct (wf_data_disjoint L s a NUM_OF_CPUS c hp c Hwd Ha Ha'') as [E _]. congruence.
Qed.

(** [free] of a block of a superblock that is marked used returns. *)
Lemma free_run L s fuel ptr b :
  wf_with L s →
  unlocked s →
  blkmem s !! (ptr - sizeof_blockHeader) = Some b →
  inUse b = 1 →
  parentSuperblock b ≠ 0 →
  (size (dom (sbmem s)) < fuel)%nat →
  ∃ s', free fuel ptr s = Ok tt s'.
Proof.
  intros Hwf Hunl Hb Huse Hpar Hfuel.
  pose proof Hwf as (Hwd & Hso & Hg). pose proof Hwd as (W1 & W2 & W3 & W4 & W5).
  set (block := ptr - sizeof_blockHeader) in *.
  destruct (W5 block b Hb) as [[? _]|(hp & c & i & Hin & Hi & Hbi)]; [done|].
  set (a := parentSuperblock b) in *.
  destruct (W3 _ _ _ Hin) as (Hr & Ha0 & h & lf & Hh & Hph & _ & _ & _ & _ & _ & _ & Hslots).
  destruct (Hslots i Hi) as (b' & Hb' & Hsz & _). rewrite <-Hbi in Hb'.
  assert (b' = b) as -> by congruence.
  pose proof (SIZE_OF_CLASS_range c (proj2 Hr)) as Hsc.
  pose proof (block_addr_pos a c i Ha0 (proj2 Hr)) as Hbpos.
  assert (0 < block) as Hblock.
  { rewrite Hbi. pose proof (block_addr_in_region a c i (proj2 Hr) Hi). lia. }
  destruct (W2 hp c Hr) as [(x & Hx & _) _].
  destruct Hunl as [Hul1 Hul2].
  pose proof (Hul1 a h Hh) as Hhl. pose proof (Hul2 hp c x Hx) as Hxl.
  unfold free.
  destruct (Z.eqb_spec ptr 0) as [?|_]; [unfold block in Hblock; unfold sizeof_blockHeader in *; lia|].
  cbn [negb]. cbv zeta. fold block.
  rewrite (run_load_blk block b) by (done || lia).
  destruct (Z.gtb_spec (blockSize b) (SUPERBLOCK_SIZE / 2)) as [Hgt|_];
    [change (SUPERBLOCK_SIZE / 2) with SIZE_THRESHOLD in Hgt; lia|].
  rewrite Hsz, (class_of_block_SIZE_OF_CLASS c (proj2 Hr)). cbn [lift_option].
  rewrite run_ret. fold a.
  rewrite (run_load_sb a h) by (done || lia).
  rewrite Hph. cbn [lift_option]. rewrite run_ret.
  (* the three lock operations *)
  pose proof (lock_sb_ok s a h Hh ltac:(lia) Hhl) as Hk1.
  set (s1 := with_sbmem (<[a := set_sb_lock true h]> (sbmem s)) s) in Hk1.
  assert (get_class s1 hp c = Some x) as Hx1 by (by unfold s1; rewrite get_class_with_sbmem).
  pose proof (lock_class_ok s1 hp c x Hx1 Hxl) as Hk2.
  set (s2 := put_class hp c (set_sc_lock true x) s1) in Hk2.
  assert (sbmem s2 !! a = Some (set_sb_lock true h)) as Hh2.
  { unfold s2. rewrite sbmem_put_class. unfold s1. simpl. apply lookup_insert_eq. }
  pose proof (unlock_sb_ok s2 a _ Hh2 ltac:(lia)) as Hk3.
  set (s3 := with_sbmem _ s2) in Hk3.
  assert (lock_equiv s s3) as Hle.
  { etrans; [by eapply lock_sb_lock_equiv|].
    etrans; [by eapply lock_class_lock_equiv|]. by eapply unlock_sb_lock_equiv. }
  assert (held_within [] [(hp, c)] s3) as Hheld.
  { eapply (hoare_unlock_sb [] [(hp, c)] a); [|exact Hk3].
    eapply (hoare_lock_class [a] [] hp c); [|exact Hk2].
    eapply (hoare_lock_sb [] [] a); [|exact Hk1].
    apply unlocked_held. by split. }
  rewrite (bind_run _ _ _ _ _ Hk1), (bind_run _ _ _ _ _ Hk2), (bind_run _ _ _ _ _ Hk3).
  clearbody s3. clear Hk1 Hk2 Hk3 Hh2 s2 Hx1 s1.
  pose proof (wf_with_lock_equiv L s s3 Hle Hwf) as Hwf3.
  destruct (lock_equiv_sb s s3 a h Hle Hh) as (ha3 & Hha3 & _).
  assert (blkmem s3 = blkmem s) as Hbm3 by (by destruct Hle as (_ & ? & _)).
  destruct (lock_equiv_class s s3 hp c x Hle Hx) as (x3 & Hx3 & _).
  assert (inUse b ≠ 0) as Hinuse by lia.
  (* the block is put back *)
  rewrite (run_push hp c a ha3 block b x3) by (done || lia || by rewrite Hbm3).
  destruct (push_wf L s3 hp c a ha3 block b x3) as (Hwdp & _); try done;
    [apply Hwf3|by rewrite Hbm3|].
  assert (∀ q, is_Some (sbmem (push_state hp c a ha3 block b x3 s3) !! q) →
               is_Some (sbmem s !! q)) as Hsubp.
  { intros q. unfold push_state.
    cbn [sbmem put_class with_heaps with_sbmem with_blkmem].
    destruct (decide (q = a)) as [->|Hne].
    - intros _. eauto.
    - rewrite lookup_insert_ne by done. by apply lock_equiv_is_Some. }
  assert (held_within [] [(hp, c)] (push_state hp c a ha3 block b x3 s3)) as Hheldp.
  { eapply held_within_mono; [|exact Hheld].
    assert (preserves no_new_lock
              (store_blk block (set_inUse 0) ;;;
               s0 <- load_sb a ;;
               store_blk block (set_b_next (freeList s0)) ;;;
               store_sb a (set_freeList block) ;;;
               store_sb a (λ s, set_sb_usedBlocks (wrap32 (sb_usedBlocks s - 1)) s) ;;;
               u <- store_class hp c (λ c, set_usedBlocks (wrap32 (usedBlocks c - 1)) c) ;;
               ret u))
      as Hp by nnl_any.
    eapply (Hp s3 tt).
    rewrite (run_push hp c a ha3 block b x3) by (done || lia || by rewrite Hbm3).
    done. }
  destruct (list_elem_of_split _ _ Hin) as (pre & post & HL).
  pose proof Hwdp as (_ & W2p & _).
  destruct (W2p hp c Hr) as [Hclp _]. rewrite HL in Hclp.
  assert (length post < fuel)%nat as Hlen.
  { pose proof (class_links_fuel s _ hp c _ fuel Hclp Hsubp Hfuel) as H.
    rewrite length_app in H. simpl in H. lia. }
  destruct (bubble_to_tail_run fuel hp c post pre a _ Hclp Hlen) as (s4 & Hbub).
  rewrite (bind_run _ _ _ _ _ Hbub).
  destruct (push_bubble_wf L s3 hp c a ha3 block b x3 fuel s4) as (L' & Hwf4 & Hbm4);
    [done|done|done|by rewrite Hbm3|done|done|done|done|].
  destruct (bubble_to_tail_spec fuel hp c pre a post _ s4 Hclp Hbub)
    as (post1 & post2 & -> & Hcl4 & _ & _ & Hf4).
  pose proof (links_frame_links_only _ _ _ _ _ Hf4) as Hlo4.
  assert (∀ q, is_Some (sbmem s4 !! q) → is_Some (sbmem s !! q)) as Hsub4.
  { intros q Hq. apply Hsubp. by eapply links_only_is_Some. }
  assert (held_within [] [(hp, c)] s4) as Hheld4.
  { eapply held_within_mono; [|exact Hheldp]. by eapply nnl_bubble_to_tail. }
  revert Hbub Hclp Hf4 Hlo4 Hsub4 Hheld4 Hcl4 Hsubp Hheldp Hwdp W2p Hbm4.
  generalize (push_state hp c a ha3 block b x3 s3).
  intros sp Hbub Hclp Hf4 Hlo4 Hsub4 Hheld4 Hcl4 Hsubp Hheldp Hwdp W2p Hbm4.
  destruct (class_links_lookup s4 hp c (pre ++ post1) a post2) as (_ & h4 & Hh4 & _);
    [by rewrite <-app_assoc|].
  pose proof Hcl4 as (c4 & Hc4 & _).
  rewrite (run_load_class hp c c4) by done.
  rewrite (run_load_sb a h4) by (done || lia).
  destruct (negb (hp =? NUM_OF_CPUS) && emptiness_violated c4 h4) eqn:Ev.
  2:{ rewrite run_ret. rewrite (unlock_class_ok s4 hp c c4 Hc4). eauto. }
  apply andb_prop in Ev as [Ehp Ev].
  assert (hp ≠ NUM_OF_CPUS) as Hhpg by (destruct (Z.eqb_spec hp NUM_OF_CPUS); done).
  assert (in_range NUM_OF_CPUS c) as Hrg.
  { split; [unfold NUM_OF_HEAPS, NUM_OF_CPUS; lia|apply Hr]. }
  pose proof Hwf4 as ((_ & W2' & _) & _).
  destruct (W2' NUM_OF_CPUS c Hrg) as [(g4 & Hg4 & _) _].
  assert (sc_lock g4 = false) as Hgl.
  { destruct (sc_lock g4) eqn:E; [|done]. destruct Hheld4 as [_ H2].
    specialize (H2 NUM_OF_CPUS c g4 Hg4 E). apply list_elem_of_singleton in H2.
    injection H2 as ?. done. }
  pose proof (lock_class_ok s4 NUM_OF_CPUS c g4 Hg4 Hgl) as Hk5.
  set (s5 := put_class NUM_OF_CPUS c (set_sc_lock true g4) s4) in Hk5.
  rewrite !bind_assoc_run. rewrite (bind_run _ _ _ _ _ Hk5). cbv zeta.
  pose proof (lock_class_lock_equiv _ _ _ _ _ Hk5) as Hle5.
  pose proof (wf_with_lock_equiv L' s4 s5 Hle5 Hwf4) as Hwf5.
  destruct (lock_equiv_class s4 s5 hp c c4 Hle5 Hc4) as (x5 & Hx5 & _ & Eu & En & _ & Et).
  assert (usedBlocks x5 ≠ numOfBlocks x5) as Hne5.
  { rewrite Eu, En. eapply emptiness_violated_counters; [|exact Ev].
    destruct (W2' hp c Hr) as [_ (x' & Hx' & _ & _ & Hnu)].
    assert (x' = c4) as -> by congruence. rewrite Hnu. by rewrite wrap32_idem. }
  assert (length (L' NUM_OF_CPUS c) < fuel)%nat as Hleng.
  { destruct Hwf5 as ((_ & W25 & _) & _). destruct (W25 NUM_OF_CPUS c Hrg) as [Hclg _].
    eapply (class_links_fuel s s5); [exact Hclg| |done].
    intros q Hq. apply Hsub4. by eapply lock_equiv_is_Some. }
  destruct (evict_run L' s5 hp c x5 fuel Hwf5 Hhpg Hr Hx5 Hne5 Hleng) as (s6 & Hmove).
  rewrite <-Et. rewrite !bind_assoc_run. rewrite (bind_run _ _ _ _ _ Hmove).
  destruct (evict_wf L' s5 hp c x5 fuel s6 Hwf5 Hhpg Hr Hx5 Hne5 Hmove) as ([L6 Hwf6] & _).
  pose proof Hwf6 as ((_ & W26 & _) & _).
  destruct (W26 NUM_OF_CPUS c Hrg) as [(g6 & Hg6 & _) _].
  pose proof (unlock_class_ok s6 NUM_OF_CPUS c g6 Hg6) as Hk6.
  rewrite (bind_run _ _ _ _ _ Hk6).
  pose proof (unlock_class_lock_equiv _ _ _ _ _ Hk6) as Hle7.
  pose proof (wf_with_lock_equiv L6 _ _ Hle7 Hwf6) as ((_ & W27 & _) & _).
  destruct (W27 hp c Hr) as [(x7 & Hx7 & _) _].
  rewrite (unlock_class_ok _ hp c x7 Hx7). eauto.
Qed.

Lemma search_sizeclass_run fuel hp c l s :
  class_links s hp c l →
  (length l < fuel)%nat →
  ∃ blk, search_sizeclass fuel hp c s = Ok blk s.
Proof.
  intros (x & Hx & _ & Hseg & Hhd & _) Hlen. unfold search_sizeclass.
  rewrite (run_load_class hp c x) by done.
  destruct (usedBlocks x =? numOfBlocks x); [by exists 0|].
  rewrite Hhd.
  destruct (search_loop_first fuel l 0 s Hseg Hlen) as (blk & Hrun & _). eauto.
Qed.

Lemma malloc_fast_run L s hp c a ha fuel :
  wf_with L s →
  hp ≠ NUM_OF_CPUS →
  a ∈ L hp c →
  sbmem s !! a = Some ha →
  sb_usedBlocks ha < sb_numOfBlocks ha →
  (length (L hp c) < fuel)%nat →
  ∃ p s',
    (b <- load_blk (freeList ha) ;;
     s0 <- load_sb (parentSuperblock b) ;;
     hd <- load_blk (freeList s0) ;;
     store_sb (parentSuperblock b) (set_freeList (b_next hd)) ;;;
     store_blk (freeList ha) (set_inUse 1) ;;;
     store_sb (parentSuperblock b)
       (λ s, set_sb_usedBlocks (wrap32 (sb_usedBlocks s + 1)) s) ;;;
     store_class hp c (λ c, set_usedBlocks (wrap32 (usedBlocks c + 1)) c) ;;;
     bubble_to_head fuel hp c (parentSuperblock b) ;;;
     unlock_class hp c ;;;
     ret (freeList ha + sizeof_blockHeader)) s = Ok p s'
    ∧ p ≠ 0.
Proof.
  intros Hwf Hhp Ha Hha Hlt Hlen.
  pose proof Hwf as (Hwd & _).
  pose proof (free_head_pos L s hp c a ha Hwd Ha Hha Hlt) as Hpos.
  destruct (free_head L s hp c a ha Hwd Ha Hha Hlt) as (Ha0 & Hb0 & bh & Hbh & Hpar & Hin).
  assert (in_range hp c) as Hr.
  { destruct Hwd as (_ & _ & W3 & _). by destruct (W3 _ _ _ Ha). }
  assert (∃ x, get_class s hp c = Some x) as [x Hx].
  { destruct Hwd as (_ & W2 & _). destruct (W2 hp c Hr) as [(x & Hx & _) _]. eauto. }
  rewrite (run_load_blk (freeList ha) bh) by done. rewrite Hpar.
  rewrite (run_load_sb a ha) by done.
  rewrite (run_load_blk (freeList ha) bh) by done.
  rewrite (run_pop hp c a ha bh x) by done.
  destruct (pop_wf L s hp c a ha bh x Hwd Ha Hha Hlt Hbh Hx) as (Hwd2 & _).
  destruct (list_elem_of_split _ _ Ha) as (pre & post & HL).
  pose proof Hwd2 as (_ & W2 & _).
  destruct (W2 hp c Hr) as [Hcl _]. rewrite HL in Hcl.
  assert (length pre < fuel)%nat as Hlenp.
  { rewrite HL, length_app in Hlen. lia. }
  destruct (bubble_to_head_run fuel hp c pre a post _ Hcl Hlenp) as (s2 & Hbub).
  rewrite (bind_run _ _ _ _ _ Hbub).
  destruct (pop_bubble_wf L s hp c a ha bh x fuel s2 Hwf Hhp Ha Hha Hlt Hbh Hx Hbub)
    as ([L2 ((_ & W22 & _) & _)] & _).
  destruct (W22 hp c Hr) as [(x2 & Hx2 & _) _].
  rewrite (bind_run _ _ _ _ _ (unlock_class_ok s2 hp c x2 Hx2)).
  eexists _, _. split; [reflexivity|]. unfold sizeof_blockHeader. lia.
Qed.

Lemma malloc_transfer_run L s hp c g x fuel :
  wf_with L s →
  hp ≠ NUM_OF_CPUS →
  in_range hp c →
  get_class s NUM_OF_CPUS c = Some g →
  sc_head g = x →
  x ≠ 0 →
  (length (L hp c) < fuel)%nat →
  ∃ p s',
    (s0 <- load_sb x ;;
     hd <- load_blk (freeList s0) ;;
     store_sb x (set_freeList (b_next hd)) ;;;
     store_blk (freeList s0) (set_inUse 1) ;;;
     store_sb x (λ s, set_sb_usedBlocks (wrap32 (sb_usedBlocks s + 1)) s) ;;;
     store_class NUM_OF_CPUS c (λ c, set_usedBlocks (wrap32 (usedBlocks c + 1)) c) ;;;
     move_superblock fuel x NUM_OF_CPUS hp c ;;;
     unlock_class NUM_OF_CPUS c ;;;
     unlock_class hp c ;;;
     ret (freeList s0 + sizeof_blockHeader)) s = Ok p s'
    ∧ p ≠ 0.
Proof.
  intros (Hwd & Hso & Hg) Hhp Hr Hgc Hhd Hx0 Hlen.
  pose proof Hwd as (W1 & W2 & W3 & W4 & W5).
  assert (in_range NUM_OF_CPUS c) as Hrg by (by apply get_class_Some in Hgc).
  destruct (W2 NUM_OF_CPUS c Hrg) as [(g0 & Hg0 & Hnd & Hseg & Hhd0 & Htl0) _].
  assert (g0 = g) as -> by congruence.
  destruct (L NUM_OF_CPUS c) as [|x' post] eqn:HL; [simpl in Hhd0; congruence|].
  simpl in Hhd0. assert (x' = x) as -> by congruence.
  assert (x ∈ L NUM_OF_CPUS c) as Hx by (rewrite HL; by left).
  destruct (W3 _ _ _ Hx) as (_ & Hokx). pose proof Hokx as (_ & hx & lx & Hhx & _ & Hnx & _).
  assert (sb_usedBlocks hx < sb_numOfBlocks hx) as Hlt.
  { rewrite Hnx. specialize (Hg c x Hx). by rewrite (used_of_lookup _ _ _ Hhx) in Hg. }
  destruct (free_head L s NUM_OF_CPUS c x hx Hwd Hx Hhx Hlt) as (_ & Hb0 & bh & Hbh & Hpar & Hin).
  pose proof (free_head_pos L s NUM_OF_CPUS c x hx Hwd Hx Hhx Hlt) as Hpos.
  rewrite (run_load_sb x hx) by done.
  rewrite (run_load_blk (freeList hx) bh) by done.
  rewrite (run_pop NUM_OF_CPUS c x hx bh g) by done.
  destruct (pop_wf L s NUM_OF_CPUS c x hx bh g Hwd Hx Hhx Hlt Hbh Hgc) as (Hwd2 & _).
  pose proof Hwd2 as (_ & W22 & _).
  destruct (W22 NUM_OF_CPUS c Hrg) as [Hclg _]. rewrite HL in Hclg.
  destruct (W22 hp c Hr) as [Hclh _].
  assert (∀ a, a ∈ L hp c → a ∉ [] ++ x :: post) as Hdisj.
  { intros a Ha Ha'. simpl in Ha'. rewrite <-HL in Ha'.
    destruct (wf_data_disjoint L s a hp c NUM_OF_CPUS c Hwd Ha Ha') as [E _]. done. }
  assert (NUM_OF_CPUS ≠ hp) as Hhp' by done.
  destruct (move_superblock_run fuel NUM_OF_CPUS hp c [] x post (L hp c) _
              Hhp' Hclg Hclh Hdisj Hlen) as (s3 & Hmove).
  rewrite (bind_run _ _ _ _ _ Hmove).
  destruct (move_superblock_spec fuel NUM_OF_CPUS hp c [] x post (L hp c) _ s3
              Hhp' Hclg Hclh Hdisj Hmove)
    as (ld1 & ld2 & _ & (cs3 & Hcs3 & _) & (cd3 & Hcd3 & _) & _).
  rewrite (bind_run _ _ _ _ _ (unlock_class_ok s3 NUM_OF_CPUS c cs3 Hcs3)).
  erewrite (bind_run _ _ _ _ _ (unlock_class_ok _ hp c cd3 _)).
  - eexists _, _. split; [reflexivity|]. unfold sizeof_blockHeader. lia.
Unshelve.
  erewrite get_class_put_ne; [exact Hcd3|exact Hcs3|congruence].
Qed.

Lemma malloc_grow_run L s hp c a fuel :
  wf_with L s →
  hp ≠ NUM_OF_CPUS →
  in_range hp c →
  fresh_region s a SUPERBLOCK_SIZE →
  (length (L hp c) < fuel)%nat →
  ∃ p s',
    (_ <- init_superblock a c ;;
     store_sb a (set_parentHeap (Some hp)) ;;;
     s0 <- load_sb a ;;
     hd <- load_blk (freeList s0) ;;
     store_sb a (set_freeList (b_next hd)) ;;;
     store_blk (freeList s0) (set_inUse 1) ;;;
     store_sb a (λ s, set_sb_usedBlocks (wrap32 (sb_usedBlocks s + 1)) s) ;;;
     store_class hp c (λ c, set_usedBlocks (wrap32 (usedBlocks c + 1)) c) ;;;
     s1 <- load_sb a ;;
     store_class hp c
       (λ c, set_numOfBlocks (wrap32 (numOfBlocks c + sb_numOfBlocks s1)) c) ;;;
     store_sb a (set_parentHeap (Some hp)) ;;;
     c0 <- load_class hp c ;;
     (if negb (sc_tail c0 =? 0)
      then store_sb (sc_tail c0) (set_sb_next a)
      else store_class hp c (set_sc_head a)) ;;;
     c0 <- load_class hp c ;;
     store_sb a (set_sb_prev (sc_tail c0)) ;;;
     store_class hp c (set_sc_tail a) ;;;
     store_sb a (set_sb_next 0) ;;;
     bubble_to_head fuel hp c a ;;;
     unlock_class hp c ;;;
     unlock_class NUM_OF_CPUS c ;;;
     ret (freeList s0 + sizeof_blockHeader)) s = Ok p s'
    ∧ p ≠ 0.
Proof.
  intros Hwf Hhp Hr Hfresh Hlen.
  pose proof Hwf as (Hwd & _). pose proof Hwd as (W1 & W2 & W3 & W4 & W5).
  pose proof Hfresh as (Ha & _ & Hfb & _).
  destruct (fresh_lookup _ _ _ Hfresh) as [Hna _].
  destruct (W2 hp c Hr) as [(x & Hx & Hnd & Hseg & Hhd & Htl) _].
  assert (sc_tail x ≠ a) as Hta.
  { rewrite Htl. destruct (last_elem_or_null (L hp c)) as [[E _]|Hin]; [lia|].
    intros E. rewrite E in Hin. by eapply fresh_not_member in Hin. }
  pose proof (grow_run a c hp x s
                (λ s0 _, bubble_to_head fuel hp c a ;;;
                         unlock_class hp c ;;;
                         unlock_class NUM_OF_CPUS c ;;;
                         ret (freeList s0 + sizeof_blockHeader))
                Ha (proj2 Hr) Hx Hna Hta) as E.
  cbv beta in E. rewrite E. clear E.
  destruct (grow_wf L s a c hp x Hwd Hr Hfresh Hx) as (_ & _ & _ & Hcl5).
  destruct (bubble_to_head_run fuel hp c (L hp c) a [] _ Hcl5 Hlen) as (s2 & Hbub).
  rewrite (bind_run _ _ _ _ _ Hbub).
  destruct (grow_bubble_wf L s a c hp x fuel s2 Hwf Hhp Hr Hfresh Hx Hbub)
    as ([L2 ((_ & W22 & _) & _)] & _).
  assert (in_range NUM_OF_CPUS c) as Hrg.
  { split; [unfold NUM_OF_HEAPS, NUM_OF_CPUS; lia|apply Hr]. }
  destruct (W22 hp c Hr) as [(x2 & Hx2 & _) _].
  destruct (W22 NUM_OF_CPUS c Hrg) as [(g2 & Hg2 & _) _].
  rewrite (bind_run _ _ _ _ _ (unlock_class_ok s2 hp c x2 Hx2)).
  erewrite (bind_run _ _ _ _ _ (unlock_class_ok _ NUM_OF_CPUS c g2 _)).
  - eexists _, _. split; [reflexivity|].
    simpl. unfold sizeof_superblockHeader, sizeof_blockHeader. lia.
Unshelve.
  erewrite get_class_put_ne; [exact Hg2|exact Hx2|congruence].
Qed.

(** [malloc] of a request of at least one byte that the OS would grant
    returns a block. *)
Lemma malloc_run s fuel tid a sz :
  cold s ∨ wf s →
  unlocked s →
  1 <= sz →
  fresh_region s a (request_len sz) →
  (size (dom (sbmem s)) < fuel)%nat →
  ∃ p s', malloc fuel tid (Some a) sz s = Ok p s' ∧ p ≠ 0.
Proof.
  intros Hs Hunl Hsz Hfresh Hfuel. unfold malloc.
  destruct (malloc_boot s Hs) as (s0 & Hboot & [L Hwf0] & Esm & Ebm & Eby).
  assert (held_within [] [] s0) as Hheld0.
  { eapply held_within_mono; [by eapply nnl_boot|]. by apply unlocked_held. }
  assert (fresh_region s0 a (request_len sz)) as Hfresh0.
  { revert Hfresh. apply fresh_region_mono; intros q; by rewrite ?Esm, ?Ebm. }
  rewrite (bind_run _ _ _ _ _ Hboot). rewrite <-Esm in Hfuel.
  clear Hboot Hs Hunl Hfresh Esm Ebm Eby.
  unfold request_len in Hfresh0. pose proof Hfresh0 as (Ha & _).
  destruct (Z.gtb_spec sz SIZE_THRESHOLD) as [Hbig|Hsmall].
  { unfold bind, fetch_memory, store_blk, ret.
    destruct (Z.eqb_spec a 0) as [?|_]; [lia|].
    eexists _, _. split; [reflexivity|]. unfold sizeof_blockHeader. lia. }
  destruct (class_of_size_in_bounds sz) as (c & Hc & Hcr & _); [lia|].
  rewrite Hc. cbn [lift_option]. rewrite run_ret. cbv zeta.
  set (hp := HASH tid).
  pose proof (HASH_range tid) as Hhp. fold hp in Hhp.
  assert (hp ≠ NUM_OF_CPUS) as Hhpg by lia.
  assert (in_range hp c) as Hr.
  { split; [unfold NUM_OF_HEAPS; lia|done]. }
  assert (in_range NUM_OF_CPUS c) as Hrg.
  { split; [unfold NUM_OF_HEAPS, NUM_OF_CPUS; lia|done]. }
  pose proof Hwf0 as ((_ & W2 & _) & _).
  destruct (W2 hp c Hr) as [(x & Hx & _) _].
  assert (sc_lock x = false) as Hxl.
  { apply unlocked_held in Hheld0. by eapply (proj2 Hheld0). }
  pose proof (lock_class_ok s0 hp c x Hx Hxl) as Hk1.
  rewrite (bind_run _ _ _ _ _ Hk1).
  pose proof (lock_class_lock_equiv _ _ _ _ _ Hk1) as Hle1.
  pose proof (hoare_lock_class [] [] hp c _ _ _ Hheld0 Hk1) as Hheld1.
  pose proof (wf_with_lock_equiv L _ _ Hle1 Hwf0) as Hwf1.
  assert (∀ q, is_Some (sbmem (put_class hp c (set_sc_lock true x) s0) !! q) →
               is_Some (sbmem s0 !! q)) as Hsub1
    by (intros q; by apply lock_equiv_is_Some).
  assert (fresh_region (put_class hp c (set_sc_lock true x) s0) a SUPERBLOCK_SIZE)
    as Hfresh1 by (by eapply fresh_region_lock_equiv).
  revert Hle1 Hheld1 Hwf1 Hsub1 Hfresh1. clear Hk1.
  generalize (put_class hp c (set_sc_lock true x) s0).
  intros s1 Hle1 Hheld1 Hwf1 Hsub1 Hfresh1.
  pose proof Hwf1 as ((_ & W21 & _) & _).
  destruct (W21 hp c Hr) as [Hcl1 _].
  assert (length (L hp c) < fuel)%nat as Hlen by (by eapply (class_links_fuel s0 s1)).
  destruct (search_sizeclass_run fuel hp c _ s1 Hcl1 Hlen) as (blk & Hsearch).
  rewrite (bind_run _ _ _ _ _ Hsearch).
  destruct (search_sizeclass_spec fuel hp c _ s1 blk s1 Hcl1 Hsearch) as [_ Hblk].
  destruct (Z.eqb_spec blk 0) as [Eblk|Hblk0]; cbn [negb].
  2:{ destruct Hblk as [?|(a' & ha & Ha' & Hha & Hlt & ->)]; [done|].
      by eapply (malloc_fast_run L s1 hp c a' ha fuel). }
  destruct (W21 NUM_OF_CPUS c Hrg) as [(g & Hg & _) _].
  assert (sc_lock g = false) as Hgl.
  { destruct (sc_lock g) eqn:E; [|done]. destruct Hheld1 as [_ H2].
    specialize (H2 NUM_OF_CPUS c g Hg E). apply list_elem_of_singleton in H2.
    injection H2 as ?. done. }
  pose proof (lock_class_ok s1 NUM_OF_CPUS c g Hg Hgl) as Hk2.
  rewrite (bind_run _ _ _ _ _ Hk2).
  pose proof (lock_class_lock_equiv _ _ _ _ _ Hk2) as Hle2.
  pose proof (wf_with_lock_equiv L _ _ Hle2 Hwf1) as Hwf2.
  assert (fresh_region (put_class NUM_OF_CPUS c (set_sc_lock true g) s1) a SUPERBLOCK_SIZE)
    as Hfresh2 by (by eapply fresh_region_lock_equiv).
  assert (get_class (put_class NUM_OF_CPUS c (set_sc_lock true g) s1) NUM_OF_CPUS c
          = Some (set_sc_lock true g)) as Hg2 by (by eapply get_class_put_eq).
  revert Hle2 Hwf2 Hfresh2 Hg2. clear Hk2.
  generalize (put_class NUM_OF_CPUS c (set_sc_lock true g) s1).
  intros s2 Hle2 Hwf2 Hfresh2 Hg2.
  rewrite (run_load_class NUM_OF_CPUS c _ _ _ Hg2).
  destruct (Z.eqb_spec (sc_head (set_sc_lock true g)) 0) as [Hh0|Hh0]; cbn [negb].
  2:{ by eapply (malloc_transfer_run L s2 hp c (set_sc_lock true g)). }
  unfold bind at 1. unfold fetch_memory.
  destruct (Z.eqb_spec a 0) as [?|_]; [lia|]. cbn [negb].
  set (s3 := with_os_log _ _).
  assert (lock_equiv s2 s3) as Hle3 by (unfold lock_equiv; done).
  assert (wf_with L s3) as Hwf3 by (by eapply wf_with_lock_equiv).
  assert (fresh_region s3 a SUPERBLOCK_SIZE) as Hfresh3
    by (by eapply fresh_region_lock_equiv).
  clearbody s3.
  by eapply (malloc_grow_run L s3 hp c a fuel).
Qed.

(** * Further properties of the code *)

(** X1.  A small block that is freed is handed out again.  From the cold
    start, [malloc(sz)] for [1 <= sz <= SUPERBLOCK_SIZE/2] with the OS
    granting the superblock at [a] returns a non-NULL pointer [p];
    [free(p)] returns; and the next [malloc(sz')] of a size of the same
    class returns the same [p], whichever thread calls it and whatever the
    OS would answer: [free] moved the superblock, then empty, to the
    global heap, [malloc] takes it from there, and the OS is not called
    (the OS log after the second [malloc] is the one after the first). *)
Theorem malloc_free_malloc_reuses_block fuel tid tid' os a sz sz' :
  0 < a →
  1 <= sz <= SIZE_THRESHOLD →
  1 <= sz' <= SIZE_THRESHOLD →
  class_of_size sz' = class_of_size sz →
  ∃ p s1 s2 s3,
    malloc (S fuel) tid (Some a) sz cold_state = Ok p s1
    ∧ p ≠ 0
    ∧ free (S fuel) p s1 = Ok tt s2
    ∧ malloc (S fuel) tid' os sz' s2 = Ok p s3
    ∧ os_log s3 = os_log s1.
Proof.
  intros Ha Hsz Hsz' Hcl.
  destruct (class_of_size_in_bounds sz Hsz) as (c & Hc & Hcr & _).
  destruct (vacant_booted c Hcr) as [Hv Hsm].
  destruct (malloc_vacant fuel tid a sz c booted_state) as (s1 & H1 & L1 & B1);
    [done|lia|done|done|done|by rewrite Hsm|].
  destruct (free_lone fuel c s1 a (HASH tid) (block_addr a c 1))
    as (s2 & H2 & L2 & B2 & O2); [done|done|apply HASH_range|done|done|].
  destruct (malloc_lone_global fuel tid' os sz' c s2 a (block_addr a c 1))
    as (s3 & H3 & _ & _ & O3); [done|lia|congruence|done|done|done|].
  exists (a + 104), s1, s2, s3. split_and!.
  - by rewrite malloc_cold.
  - lia.
  - done.
  - done.
  - congruence.
Qed.

Lemma malloc_free_malloc_reuses_block_witness :
  ∃ p s1 s2 s3,
    malloc 1 0 (Some 1048576) 16 cold_state = Ok p s1
    ∧ p ≠ 0
    ∧ free 1 p s1 = Ok tt s2
    ∧ malloc 1 1 None 9 s2 = Ok p s3
    ∧ os_log s3 = os_log s1.
Proof.
  apply (malloc_free_malloc_reuses_block 0 0 1 None 1048576 16 9).
  - lia.
  - split; [lia|vm_compute; discriminate].
  - split; [lia|vm_compute; discriminate].
  - reflexivity.
Defined.

(** X2.  Round trip of a large block.  In an initialised state, a request
    of more than [SUPERBLOCK_SIZE/2] and less than [2^32] bytes that the OS
    grants at [a] maps [sz + sizeof(blockHeader)] bytes and returns the
    address past the header; [free] of that pointer unmaps the region with
    the same length, whatever the fuel (no list is walked); afterwards the
    header at [a] is gone and the superblock headers and the heaps are as
    before the request. *)
Theorem large_block_round_trip fuel fuel' tid a sz s :
  isInitialized s = true →
  0 < a →
  SIZE_THRESHOLD < sz < 2 ^ 32 →
  ∃ s1 s2,
    malloc fuel tid (Some a) sz s = Ok (a + sizeof_blockHeader) s1
    ∧ free fuel' (a + sizeof_blockHeader) s1 = Ok tt s2
    ∧ os_log s2 = Munmap a (sz + sizeof_blockHeader)
                    :: Mmap (sz + sizeof_blockHeader) a :: os_log s
    ∧ blkmem s2 = delete a (blkmem s)
    ∧ sbmem s2 = sbmem s
    ∧ heaps s2 = heaps s.
Proof.
  intros Hini Ha Hsz. change SIZE_THRESHOLD with 32768 in Hsz.
  assert (wrap64 (sz + sizeof_blockHeader) = sz + sizeof_blockHeader) as Hw64.
  { unfold wrap64, sizeof_blockHeader in *. apply Z.mod_small.
    lia. }
  assert (wrap32 sz = sz) as Hw32.
  { apply wrap32_small. lia. }
  unfold malloc. unfold bind at 1. rewrite Hini.
  destruct (Z.gtb_spec sz SIZE_THRESHOLD) as [_|Hle];
    [|change SIZE_THRESHOLD with 32768 in Hle; lia].
  rewrite Hw64, Hw32.
  unfold bind at 1. unfold fetch_memory.
  destruct (Z.eqb_spec a 0) as [?|_]; [lia|].
  unfold bind at 1. unfold store_blk.
  destruct (Z.eqb_spec a 0) as [?|_]; [lia|].
  unfold ret. eexists. eexists. split; [reflexivity|].
  unfold free.
  destruct (Z.eqb_spec (a + sizeof_blockHeader) 0) as [?|_];
    [unfold sizeof_blockHeader in *; lia|]. cbn [negb]. cbv zeta.
  replace (a + sizeof_blockHeader - sizeof_blockHeader) with a by lia.
  erewrite run_load_blk; [|simpl; apply lookup_insert_eq|lia].
  cbn [blockSize set_blockSize].
  destruct (Z.gtb_spec sz (SUPERBLOCK_SIZE / 2)) as [_|Hle];
    [|change (SUPERBLOCK_SIZE / 2) with 32768 in Hle; lia].
  unfold munmap, modify. split; [reflexivity|].
  cbn [os_log blkmem sbmem heaps with_os_log with_blkmem with_bytes].
  split_and!; try reflexivity.
  apply delete_insert_eq.
Qed.

Lemma large_block_round_trip_witness :
  ∃ s1 s2,
    malloc 0 0 (Some 1048576) 40000 state_alloc = Ok (1048576 + sizeof_blockHeader) s1
    ∧ free 0 (1048576 + sizeof_blockHeader) s1 = Ok tt s2
    ∧ os_log s2 = Munmap 1048576 (40000 + sizeof_blockHeader)
                    :: Mmap (40000 + sizeof_blockHeader) 1048576 :: os_log state_alloc
    ∧ blkmem s2 = delete 1048576 (blkmem state_alloc)
    ∧ sbmem s2 = sbmem state_alloc
    ∧ heaps s2 = heaps state_alloc.
Proof.
  apply (large_block_round_trip 0 0 0 1048576 40000 state_alloc).
  - reflexivity.
  - lia.
  - split; [vm_compute; reflexivity|lia].
Defined.

(** X3.  Layout of a superblock.  [init_superblock] of a non-NULL
    superblock of a valid class returns 0.  Each of the [numOfBlocks]
    blocks it makes, header and payload of [2^class] bytes, lies after the
    superblock header and inside the [SUPERBLOCK_SIZE] bytes of the
    superblock; a block ends before the next one starts.  The call writes
    block headers at the block addresses only, the superblock header at
    [a] only, and leaves the heaps, the payload bytes and the OS log
    alone. *)
Theorem init_superblock_layout a c s :
  0 < a →
  0 <= c < NUM_OF_CLASSES →
  ∃ s',
    init_superblock a c s = Ok 0 s'
    ∧ (∀ i, 0 <= i < blocks_per_superblock c →
         a + sizeof_superblockHeader <= block_addr a c i
         ∧ block_addr a c i + sizeof_blockHeader + SIZE_OF_CLASS c <= a + SUPERBLOCK_SIZE
         ∧ ∃ b, blkmem s' !! block_addr a c i = Some b ∧ blockSize b = SIZE_OF_CLASS c)
    ∧ (∀ i j, 0 <= i < j →
         block_addr a c i + sizeof_blockHeader + SIZE_OF_CLASS c <= block_addr a c j)
    ∧ (∀ q, (∀ i, 0 <= i < blocks_per_superblock c → q ≠ block_addr a c i) →
         blkmem s' !! q = blkmem s !! q)
    ∧ (∀ q, q ≠ a → sbmem s' !! q = sbmem s !! q)
    ∧ heaps s' = heaps s ∧ bytes s' = bytes s ∧ os_log s' = os_log s.
Proof.
  intros Ha Hc. exists (init_state a c s).
  pose proof (SIZE_OF_CLASS_range c Hc) as Hs.
  pose proof (blocks_per_superblock_range c Hc) as Hn.
  split; [by apply init_superblock_run|]. split_and!.
  - intros i Hi. split_and!.
    + unfold block_addr, sizeof_blockHeader. nia.
    + unfold block_addr, blocks_per_superblock in *.
      set (st := sizeof_blockHeader + SIZE_OF_CLASS c) in *.
      assert (0 < st) by (unfold st, sizeof_blockHeader; lia).
      pose proof (Z.mul_div_le (SUPERBLOCK_SIZE - sizeof_superblockHeader) st ltac:(done)).
      unfold sizeof_superblockHeader, SUPERBLOCK_SIZE in *. nia.
    + exists (mkBlock (SIZE_OF_CLASS c) 0 (block_addr a c (i + 1)) a).
      split; [|reflexivity].
      unfold init_state. simpl. apply init_map_lookup_in; [done|lia].
  - intros i j Hij. unfold block_addr, sizeof_blockHeader. nia.
  - intros q Hq. unfold init_state. simpl. apply init_map_lookup_out.
    intros j Hj. apply Hq. lia.
  - intros q Hq. unfold init_state. simpl. by rewrite lookup_insert_ne.
  - reflexivity.
  - reflexivity.
  - reflexivity.
Qed.

Lemma init_superblock_layout_witness :
  ∃ s',
    init_superblock 1048576 15 cold_state = Ok 0 s'
    ∧ (∀ i, 0 <= i < blocks_per_superblock 15 →
         1048576 + sizeof_superblockHeader <= block_addr 1048576 15 i
         ∧ block_addr 1048576 15 i + sizeof_blockHeader + SIZE_OF_CLASS 15
           <= 1048576 + SUPERBLOCK_SIZE
         ∧ ∃ b, blkmem s' !! block_addr 1048576 15 i = Some b
                ∧ blockSize b = SIZE_OF_CLASS 15)
    ∧ (∀ i j, 0 <= i < j →
         block_addr 1048576 15 i + sizeof_blockHeader + SIZE_OF_CLASS 15
         <= block_addr 1048576 15 j)
    ∧ (∀ q, (∀ i, 0 <= i < blocks_per_superblock 15 → q ≠ block_addr 1048576 15 i) →
         blkmem s' !! q = blkmem cold_state !! q)
    ∧ (∀ q, q ≠ 1048576 → sbmem s' !! q = sbmem cold_state !! q)
    ∧ heaps s' = heaps cold_state ∧ bytes s' = bytes cold_state
    ∧ os_log s' = os_log cold_state.
Proof.
  apply (init_superblock_layout 1048576 15 cold_state).
  - lia.
  - unfold NUM_OF_CLASSES. lia.
Defined.

(** ** Invariants of the reachable states *)

(** The list of a class is determined by the state. *)
Lemma dseg_unique m : ∀ l l' p p',
  dseg m p l 0 → dseg m p' l' 0 →
  default 0 (head l) = default 0 (head l') → l = l'.
Proof.
  induction l as [|a r IH]; intros l' p p' Hl Hl' E.
  - destruct l' as [|a' r']; [done|]. destruct Hl' as (Ha' & _). simpl in E. congruence.
  - destruct Hl as (Ha & (h & Hh & _ & Hn) & Hr).
    destruct l' as [|a' r']; [simpl in E; congruence|].
    simpl in E. subst a'.
    destruct Hl' as (_ & (h' & Hh' & _ & Hn') & Hr').
    assert (h' = h) as -> by congruence.
    f_equal. eapply IH; [exact Hr|exact Hr'|congruence].
Qed.

Lemma class_links_unique s hp c l l' :
  class_links s hp c l → class_links s hp c l' → l = l'.
Proof.
  intros (x & Hx & _ & Hseg & Hhd & _) (x' & Hx' & _ & Hseg' & Hhd' & _).
  assert (x' = x) as -> by congruence.
  eapply dseg_unique; [exact Hseg|exact Hseg'|congruence].
Qed.

(** X4.  Every superblock belongs to one list.  In every reachable state,
    a superblock header [h] at [a] is a member of the list of exactly one
    class [c] of one heap [hp]; [parentHeap] is that heap, [numOfBlocks]
    is the number of blocks of a superblock of class [c], and
    [0 <= usedBlocks <= numOfBlocks]. *)
Theorem superblock_in_one_list live s a h :
  reachable live s →
  sbmem s !! a = Some h →
  ∃ hp c l,
    in_range hp c
    ∧ class_links s hp c l ∧ a ∈ l
    ∧ parentHeap h = Some hp
    ∧ sb_numOfBlocks h = blocks_per_superblock c
    ∧ 0 <= sb_usedBlocks h <= sb_numOfBlocks h
    ∧ (∀ hp' c' l', in_range hp' c' → class_links s hp' c' l' → a ∈ l' →
                    hp' = hp ∧ c' = c).
Proof.
  intros Hreach Hh.
  destruct (reachable_inv live s Hreach) as [[Hc|[L Hwf]] _].
  { destruct Hc as (_ & _ & Hsm & _). rewrite Hsm in Hh. done. }
  destruct Hwf as (Hwd & _). pose proof Hwd as (_ & W2 & W3 & W4 & _).
  destruct (W4 a) as (hp & c & Ha); [eauto|].
  destruct (W3 hp c a Ha) as (Hr & _ & h' & fl & Hh' & Hpar & Hnum & Hu0 & Hsum & _).
  assert (h' = h) as -> by congruence.
  exists hp, c, (L hp c). split_and!; try done.
  - by apply W2.
  - lia.
  - intros hp' c' l' Hr' Hl' Ha'.
    assert (l' = L hp' c') as -> by (eapply class_links_unique; [exact Hl'|by apply W2]).
    destruct (wf_data_disjoint L s a hp c hp' c' Hwd Ha Ha'). done.
Qed.

Lemma superblock_in_one_list_witness :
  ∃ hp c l,
    in_range hp c
    ∧ class_links state_alloc hp c l ∧ 1048576 ∈ l
    ∧ parentHeap (mkSuperblock 1 1636 1048696 false 0 0 (Some 0)) = Some hp
    ∧ sb_numOfBlocks (mkSuperblock 1 1636 1048696 false 0 0 (Some 0))
      = blocks_per_superblock c
    ∧ 0 <= sb_usedBlocks (mkSuperblock 1 1636 1048696 false 0 0 (Some 0))
      <= sb_numOfBlocks (mkSuperblock 1 1636 1048696 false 0 0 (Some 0))
    ∧ (∀ hp' c' l', in_range hp' c' → class_links state_alloc hp' c' l' → 1048576 ∈ l' →
                    hp' = hp ∧ c' = c).
Proof.
  apply (superblock_in_one_list _ state_alloc 1048576
           (mkSuperblock 1 1636 1048696 false 0 0 (Some 0)) reachable_state_alloc).
  vm_compute. reflexivity.
Defined.

(** X5.  The counters of a class are the sums over its list.  In every
    reachable state, [usedBlocks] of a class is the sum of the
    [usedBlocks] of the superblocks of its list and [numOfBlocks] is the
    number of its superblocks times the number of blocks of a superblock
    of the class, both as 32-bit unsigned values; when the latter product
    is below [2^32] the counters are these numbers themselves and
    [usedBlocks <= numOfBlocks]. *)
Theorem class_counters_are_sums live s hp c :
  reachable live s →
  in_range hp c →
  ∃ x l,
    get_class s hp c = Some x
    ∧ class_links s hp c l
    ∧ usedBlocks x = wrap32 (sum_with (used_of (sbmem s)) l)
    ∧ numOfBlocks x = wrap32 (Z.of_nat (length l) * blocks_per_superblock c)
    ∧ (Z.of_nat (length l) * blocks_per_superblock c < 2 ^ 32 →
       usedBlocks x = sum_with (used_of (sbmem s)) l
       ∧ numOfBlocks x = Z.of_nat (length l) * blocks_per_superblock c
       ∧ 0 <= usedBlocks x <= numOfBlocks x).
Proof.
  intros Hreach Hr.
  destruct (reachable_inv live s Hreach) as [[Hc|[L Hwf]] _].
  - pose proof (cold_links s hp c Hc Hr) as Hl.
    pose proof Hl as (x & Hx & _ & _ & Hhd & Htl).
    pose proof (cold_class s hp c Hc Hr) as Hz.
    exists zero_class, []. split_and!; try done.
  - destruct Hwf as (Hwd & _). pose proof Hwd as (_ & W2 & W3 & _).
    destruct (W2 hp c Hr) as [Hl (x & Hx & _ & Hu & Hn)].
    exists x, (L hp c). split_and!; try done.
    intros Hlt.
    pose proof (blocks_per_superblock_range c (proj2 Hr)) as Hbps.
    assert (0 <= sum_with (used_of (sbmem s)) (L hp c)
            <= Z.of_nat (length (L hp c)) * blocks_per_superblock c) as Hb.
    { apply sum_with_bounds. intros a Ha.
      destruct (W3 hp c a Ha) as (_ & _ & h & fl & Hh & _ & Hnum & Hu0 & Hsum & _).
      rewrite (used_of_lookup _ _ _ Hh). lia. }
    rewrite Hu, Hn, !wrap32_small by lia. lia.
Qed.

Lemma class_counters_are_sums_witness :
  ∃ x l,
    get_class state_alloc 0 4 = Some x
    ∧ class_links state_alloc 0 4 l
    ∧ usedBlocks x = wrap32 (sum_with (used_of (sbmem state_alloc)) l)
    ∧ numOfBlocks x = wrap32 (Z.of_nat (length l) * blocks_per_superblock 4)
    ∧ (Z.of_nat (length l) * blocks_per_superblock 4 < 2 ^ 32 →
       usedBlocks x = sum_with (used_of (sbmem state_alloc)) l
       ∧ numOfBlocks x = Z.of_nat (length l) * blocks_per_superblock 4
       ∧ 0 <= usedBlocks x <= numOfBlocks x).
Proof.
  apply (class_counters_are_sums _ state_alloc 0 4 reachable_state_alloc).
  unfold in_range, NUM_OF_HEAPS, NUM_OF_CPUS, NUM_OF_CLASSES. lia.
Defined.

(** X6.  A superblock of the global heap has a free block.  In every
    reachable state, a superblock whose [parentHeap] is the global heap is
    not full, and the head of its free list is the header of a block of
    this superblock that is not in use.  ([malloc] takes this block
    without a test when it moves a superblock from the global heap,
    lines 282-287.) *)
Theorem global_superblock_has_free_block live s a h :
  reachable live s →
  sbmem s !! a = Some h →
  parentHeap h = Some NUM_OF_CPUS →
  sb_usedBlocks h < sb_numOfBlocks h
  ∧ freeList h ≠ 0
  ∧ ∃ b, blkmem s !! freeList h = Some b ∧ inUse b = 0 ∧ parentSuperblock b = a.
Proof.
  intros Hreach Hh Hpar.
  destruct (reachable_inv live s Hreach) as [[Hc|[L Hwf]] _].
  { destruct Hc as (_ & _ & Hsm & _). rewrite Hsm in Hh. done. }
  destruct Hwf as (Hwd & _ & Hg). pose proof Hwd as (_ & W2 & W3 & W4 & _).
  destruct (W4 a) as (hp & c & Ha); [eauto|].
  destruct (W3 hp c a Ha) as (Hr & _ & h' & fl & Hh' & Hpar' & Hnum & _).
  assert (h' = h) as -> by congruence.
  assert (hp = NUM_OF_CPUS) as -> by congruence.
  assert (sb_usedBlocks h < sb_numOfBlocks h) as Hlt.
  { rewrite Hnum. specialize (Hg c a Ha). by rewrite (used_of_lookup _ _ _ Hh) in Hg. }
  destruct (free_head L s NUM_OF_CPUS c a h Hwd Ha Hh Hlt) as (_ & Hf0 & b & Hb & Hp & Hi).
  split; [done|]. split; [done|]. by exists b.
Qed.

Lemma global_superblock_has_free_block_witness :
  sb_usedBlocks (mkSuperblock 0 1636 1048656 false 0 0 (Some 2))
  < sb_numOfBlocks (mkSuperblock 0 1636 1048656 false 0 0 (Some 2))
  ∧ freeList (mkSuperblock 0 1636 1048656 false 0 0 (Some 2)) ≠ 0
  ∧ ∃ b, blkmem state_alloc_free
           !! freeList (mkSuperblock 0 1636 1048656 false 0 0 (Some 2)) = Some b
         ∧ inUse b = 0 ∧ parentSuperblock b = 1048576.
Proof.
  apply (global_superblock_has_free_block _ state_alloc_free 1048576
           (mkSuperblock 0 1636 1048656 false 0 0 (Some 2)) reachable_state_alloc_free).
  - vm_compute. reflexivity.
  - reflexivity.
Defined.

(** ** The block that [malloc] returns *)

(** The head of the free list of a superblock that is not full is a block
    of the size of its class. *)
Lemma free_head_size L s hp c a ha :
  wf_data L s → a ∈ L hp c → sbmem s !! a = Some ha →
  sb_usedBlocks ha < sb_numOfBlocks ha →
  ∃ bh, blkmem s !! freeList ha = Some bh
        ∧ parentSuperblock bh = a ∧ inUse bh = 0 ∧ a ≠ 0
        ∧ blockSize bh = SIZE_OF_CLASS c.
Proof.
  intros Hwd Ha Hha Hlt.
  destruct (free_head L s hp c a ha Hwd Ha Hha Hlt) as (Ha0 & _ & bh & Hbh & Hpar & Hin).
  exists bh. split_and!; try done.
  destruct Hwd as (_ & _ & W3 & _).
  destruct (W3 hp c a Ha) as (_ & _ & h & l & Hh & _ & Hnum & _ & Hsum & _ & Hmem & Hch & Hslot).
  assert (h = ha) as -> by congruence.
  destruct l as [|b l']; [simpl in Hsum; lia|].
  destruct Hch as (E & _). 
  destruct (Hmem b) as (i & Hi & Eb); [by left|].
  destruct (Hslot i Hi) as (b' & Hb' & Hsz & _).
  rewrite <-Eb, <-E, Hbh in Hb'. by injection Hb' as <-.
Qed.

(** What the three paths of a small request and the path of a large
    request do to the header of the block they return. *)
Lemma malloc_fast_block L s hp c a ha fuel p s' :
  wf_with L s →
  hp ≠ NUM_OF_CPUS →
  a ∈ L hp c →
  sbmem s !! a = Some ha →
  sb_usedBlocks ha < sb_numOfBlocks ha →
  (b <- load_blk (freeList ha) ;;
   s0 <- load_sb (parentSuperblock b) ;;
   hd <- load_blk (freeList s0) ;;
   store_sb (parentSuperblock b) (set_freeList (b_next hd)) ;;;
   store_blk (freeList ha) (set_inUse 1) ;;;
   store_sb (parentSuperblock b)
     (λ s, set_sb_usedBlocks (wrap32 (sb_usedBlocks s + 1)) s) ;;;
   store_class hp c (λ c, set_usedBlocks (wrap32 (usedBlocks c + 1)) c) ;;;
   bubble_to_head fuel hp c (parentSuperblock b) ;;;
   unlock_class hp c ;;;
   ret (freeList ha + sizeof_blockHeader)) s = Ok p s' →
  ∃ bh, p = freeList ha + sizeof_blockHeader
        ∧ blkmem s !! freeList ha = Some bh
        ∧ inUse bh = 0 ∧ parentSuperblock bh ≠ 0
        ∧ blockSize bh = SIZE_OF_CLASS c
        ∧ blkmem s' !! freeList ha = Some (set_inUse 1 bh).
Proof.
  intros Hwf Hhp Ha Hha Hlt Hrun.
  pose proof Hwf as (Hwd & _).
  destruct (free_head L s hp c a ha Hwd Ha Hha Hlt) as (Ha0 & Hb0 & bh & Hbh & Hpar & Hin).
  destruct (free_head_size L s hp c a ha Hwd Ha Hha Hlt) as (bh' & Hbh' & _ & _ & _ & Hsz).
  assert (bh' = bh) as -> by congruence.
  assert (in_range hp c) as Hr.
  { destruct Hwd as (_ & _ & W3 & _). by destruct (W3 _ _ _ Ha). }
  assert (∃ x, get_class s hp c = Some x) as [x Hx].
  { destruct Hwd as (_ & W2 & _). destruct (W2 hp c Hr) as [(x & Hx & _) _]. eauto. }
  rewrite (run_load_blk (freeList ha) bh) in Hrun by done. rewrite Hpar in Hrun.
  rewrite (run_load_sb a ha) in Hrun by done.
  rewrite (run_load_blk (freeList ha) bh) in Hrun by done.
  rewrite (run_pop hp c a ha bh x) in Hrun by done.
  apply bind_Ok in Hrun as ([] & s2 & Hbub & Hrun).
  destruct (pop_bubble_wf L s hp c a ha bh x fuel s2 Hwf Hhp Ha Hha Hlt Hbh Hx Hbub)
    as (Hwf2 & Hbm2).
  apply unlock_ret_wf in Hrun as [-> Hle].
  destruct Hle as (_ & Hbm3 & _).
  exists bh. split_and!; try done; [congruence|].
  by rewrite Hbm3, Hbm2, lookup_insert_eq.
Qed.

Lemma malloc_transfer_block L s hp c g x fuel p s' :
  wf_with L s →
  hp ≠ NUM_OF_CPUS →
  in_range hp c →
  get_class s NUM_OF_CPUS c = Some g →
  sc_head g = x →
  x ≠ 0 →
  (s0 <- load_sb x ;;
   hd <- load_blk (freeList s0) ;;
   store_sb x (set_freeList (b_next hd)) ;;;
   store_blk (freeList s0) (set_inUse 1) ;;;
   store_sb x (λ s, set_sb_usedBlocks (wrap32 (sb_usedBlocks s + 1)) s) ;;;
   store_class NUM_OF_CPUS c (λ c, set_usedBlocks (wrap32 (usedBlocks c + 1)) c) ;;;
   move_superblock fuel x NUM_OF_CPUS hp c ;;;
   unlock_class NUM_OF_CPUS c ;;;
   unlock_class hp c ;;;
   ret (freeList s0 + sizeof_blockHeader)) s = Ok p s' →
  ∃ q bh, p = q + sizeof_blockHeader
          ∧ blkmem s !! q = Some bh
          ∧ inUse bh = 0 ∧ parentSuperblock bh ≠ 0
          ∧ blockSize bh = SIZE_OF_CLASS c
          ∧ blkmem s' !! q = Some (set_inUse 1 bh).
Proof.
  intros (Hwd & Hso & Hg) Hhp Hr Hgc Hhd Hx0 Hrun.
  pose proof Hwd as (W1 & W2 & W3 & W4 & W5).
  assert (in_range NUM_OF_CPUS c) as Hrg by (by apply get_class_Some in Hgc).
  destruct (W2 NUM_OF_CPUS c Hrg) as [(g0 & Hg0 & Hnd & Hseg & Hhd0 & Htl0) _].
  assert (g0 = g) as -> by congruence.
  destruct (L NUM_OF_CPUS c) as [|x' post] eqn:HL; [simpl in Hhd0; congruence|].
  simpl in Hhd0. assert (x' = x) as -> by congruence.
  assert (x ∈ L NUM_OF_CPUS c) as Hx by (rewrite HL; by left).
  destruct (W3 _ _ _ Hx) as (_ & Hokx). pose proof Hokx as (_ & hx & lx & Hhx & _ & Hnx & _).
  assert (sb_usedBlocks hx < sb_numOfBlocks hx) as Hlt.
  { rewrite Hnx. specialize (Hg c x Hx). by rewrite (used_of_lookup _ _ _ Hhx) in Hg. }
  destruct (free_head L s NUM_OF_CPUS c x hx Hwd Hx Hhx Hlt) as (_ & Hb0 & bh & Hbh & Hpar & Hin).
  destruct (free_head_size L s NUM_OF_CPUS c x hx Hwd Hx Hhx Hlt)
    as (bh' & Hbh' & _ & _ & _ & Hsz).
  assert (bh' = bh) as -> by congruence.
  rewrite (run_load_sb x hx) in Hrun by done.
  rewrite (run_load_blk (freeList hx) bh) in Hrun by done.
  rewrite (run_pop NUM_OF_CPUS c x hx bh g) in Hrun by done.
  apply bind_Ok in Hrun as ([] & s2 & Hmove & Hrun).
  destruct (pop_wf L s NUM_OF_CPUS c x hx bh g Hwd Hx Hhx Hlt Hbh Hgc) as (Hwd2 & _).
  assert (sbmem (pop_state NUM_OF_CPUS c x hx bh g s) =
          <[x := set_sb_usedBlocks (wrap32 (sb_usedBlocks hx + 1))
                   (set_freeList (b_next bh) hx)]> (sbmem s)) as Hsm by done.
  assert (blkmem (pop_state NUM_OF_CPUS c x hx bh g s)
          = <[freeList hx := set_inUse 1 bh]> (blkmem s)) as Hbm by done.
  revert Hmove Hwd2 Hsm Hbm. generalize (pop_state NUM_OF_CPUS c x hx bh g s).
  intros sp Hmove Hwd2 Hsm Hbm.
  apply NoDup_cons in Hnd as [Hxpost Hndpost].
  destruct (move_wf L sp s2 NUM_OF_CPUS hp c [] x post fuel) as (Hwf2 & Hbm2); try done.
  - simpl. rewrite Hsm. apply SS_fuller_insert; [done|].
    specialize (Hso NUM_OF_CPUS c). rewrite HL in Hso.
    by apply StronglySorted_cons in Hso as [_ ?].
  - intros hp' c' Hne. rewrite Hsm. apply SS_fuller_insert; [|apply Hso].
    intros Hx'. destruct (wf_data_disjoint L s x NUM_OF_CPUS c hp' c' Hwd Hx Hx') as [E1 E2].
    subst hp' c'. done.
  - intros c' a Ha Hne. rewrite Hsm, used_of_insert, decide_False by done. by apply Hg.
  - apply unlock2_ret_wf in Hrun as [-> Hle].
    destruct Hle as (_ & Hbm3 & _).
    exists (freeList hx), bh. split_and!; try done; [congruence|].
    by rewrite Hbm3, Hbm2, Hbm, lookup_insert_eq.
Qed.

Lemma malloc_grow_block L s hp c a fuel p s' :
  wf_with L s →
  hp ≠ NUM_OF_CPUS →
  in_range hp c →
  fresh_region s a SUPERBLOCK_SIZE →
  (_ <- init_superblock a c ;;
   store_sb a (set_parentHeap (Some hp)) ;;;
   s0 <- load_sb a ;;
   hd <- load_blk (freeList s0) ;;
   store_sb a (set_freeList (b_next hd)) ;;;
   store_blk (freeList s0) (set_inUse 1) ;;;
   store_sb a (λ s, set_sb_usedBlocks (wrap32 (sb_usedBlocks s + 1)) s) ;;;
   store_class hp c (λ c, set_usedBlocks (wrap32 (usedBlocks c + 1)) c) ;;;
   s1 <- load_sb a ;;
   store_class hp c
     (λ c, set_numOfBlocks (wrap32 (numOfBlocks c + sb_numOfBlocks s1)) c) ;;;
   store_sb a (set_parentHeap (Some hp)) ;;;
   c0 <- load_class hp c ;;
   (if negb (sc_tail c0 =? 0)
    then store_sb (sc_tail c0) (set_sb_next a)
    else store_class hp c (set_sc_head a)) ;;;
   c0 <- load_class hp c ;;
   store_sb a (set_sb_prev (sc_tail c0)) ;;;
   store_class hp c (set_sc_tail a) ;;;
   store_sb a (set_sb_next 0) ;;;
   bubble_to_head fuel hp c a ;;;
   unlock_class hp c ;;;
   unlock_class NUM_OF_CPUS c ;;;
   ret (freeList s0 + sizeof_blockHeader)) s = Ok p s' →
  p = a + sizeof_superblockHeader + sizeof_blockHeader
  ∧ blkmem s !! (a + sizeof_superblockHeader) = None
  ∧ blkmem s' !! (a + sizeof_superblockHeader)
    = Some (mkBlock (SIZE_OF_CLASS c) 1 (block_addr a c 1) a).
Proof.
  intros Hwf Hhp Hr Hfresh Hrun.
  pose proof Hwf as (Hwd & _). pose proof Hwd as (W1 & W2 & W3 & W4 & W5).
  pose proof Hfresh as (Ha & _ & Hfb & _).
  destruct (fresh_lookup _ _ _ Hfresh) as [Hna _].
  destruct (W2 hp c Hr) as [(x & Hx & Hnd & Hseg & Hhd & Htl) _].
  assert (sc_tail x ≠ a) as Hta.
  { rewrite Htl. destruct (last_elem_or_null (L hp c)) as [[E _]|Hin]; [lia|].
    intros E. rewrite E in Hin. by eapply fresh_not_member in Hin. }
  pose proof (grow_run a c hp x s
                (λ s0 _, bubble_to_head fuel hp c a ;;;
                         unlock_class hp c ;;;
                         unlock_class NUM_OF_CPUS c ;;;
                         ret (freeList s0 + sizeof_blockHeader))
                Ha (proj2 Hr) Hx Hna Hta) as E.
  cbv beta in E. rewrite E in Hrun. clear E.
  apply bind_Ok in Hrun as ([] & s2 & Hbub & Hrun).
  destruct (grow_bubble_wf L s a c hp x fuel s2 Hwf Hhp Hr Hfresh Hx Hbub) as (Hwf2 & Hbm2).
  apply unlock2_ret_wf in Hrun as [-> Hle].
  destruct Hle as (_ & Hbm3 & _).
  destruct (grow_blocks a c hp x s Ha (proj2 Hr)) as [Hbin Hbout].
  pose proof (blocks_per_superblock_range c (proj2 Hr)) as Hbps.
  split_and!.
  - simpl. done.
  - destruct (blkmem s !! (a + sizeof_superblockHeader)) eqn:E; [|done].
    destruct (Hfb (a + sizeof_superblockHeader)); [eauto|..];
      unfold sizeof_superblockHeader, SUPERBLOCK_SIZE in *; lia.
  - rewrite Hbm3, Hbm2.
    replace (a + sizeof_superblockHeader) with (block_addr a c 0)
      by (unfold block_addr; lia).
    rewrite Hbin by lia. done.
Qed.

Lemma malloc_large_block s os len v p s' :
  (∀ a, os = Some a → fresh_region s a len) →
  (p0 <- fetch_memory len os ;;
   if p0 =? 0 then ret 0
   else store_blk p0 (set_blockSize v) ;;; ret (p0 + sizeof_blockHeader)) s = Ok p s' →
  p ≠ 0 →
  blkmem s !! (p - sizeof_blockHeader) = None
  ∧ blkmem s' !! (p - sizeof_blockHeader) = Some (set_blockSize v zero_block)
  ∧ 0 < p - sizeof_blockHeader.
Proof.
  intros Hos Hrun Hp. destruct os as [a|]; simpl in Hrun.
  - destruct (Hos a eq_refl) as (Ha & Hlen & Hfb & Hfs).
    destruct (fresh_lookup s a len (Hos a eq_refl)) as [_ Hnb].
    unfold bind, fetch_memory in Hrun.
    destruct (Z.eqb_spec a 0) as [?|Ha0]; [lia|].
    unfold store_blk in Hrun. destruct (Z.eqb_spec a 0) as [?|_]; [lia|].
    simpl in Hrun. rewrite Hnb in Hrun. injection Hrun as <- <-.
    replace (a + sizeof_blockHeader - sizeof_blockHeader) with a by lia.
    split; [done|]. split; [|done]. simpl. by rewrite lookup_insert_eq.
  - unfold bind, fetch_memory in Hrun. simpl in Hrun. injection Hrun as <- <-. done.
Qed.

Lemma placed_pos L s q bh :
  wf_with L s → blkmem s !! q = Some bh → parentSuperblock bh ≠ 0 → 0 < q.
Proof.
  intros ((_ & _ & W3 & _ & W5) & _) Hq Hpar.
  destruct (W5 q bh Hq) as [[? _]|(hp & c & i & Hin & Hi & ->)]; [done|].
  destruct (W3 _ _ _ Hin) as (Hr & Ha0 & _).
  apply block_addr_pos; [done|apply Hr|lia].
Qed.

Lemma malloc_block_pos fuel tid os sz s p s' :
  cold s ∨ wf s →
  os_ok s os sz →
  malloc fuel tid os sz s = Ok p s' →
  p ≠ 0 →
  0 < p - sizeof_blockHeader
  ∧ (blkmem s !! (p - sizeof_blockHeader) = None
   ∨ ∃ bh, blkmem s !! (p - sizeof_blockHeader) = Some bh
           ∧ inUse bh = 0 ∧ parentSuperblock bh ≠ 0)
  ∧ ∃ b', blkmem s' !! (p - sizeof_blockHeader) = Some b'
          ∧ (sz > SIZE_THRESHOLD ∧ blockSize b' = wrap32 sz ∧ parentSuperblock b' = 0
             ∨ sz <= SIZE_THRESHOLD ∧ parentSuperblock b' ≠ 0
               ∧ ∃ c, class_of_size sz = Some c ∧ blockSize b' = SIZE_OF_CLASS c).
Proof.
  intros Hs Hos Hrun Hp. unfold malloc in Hrun.
  apply bind_Ok in Hrun as ([] & s0 & Hboot & Hrun).
  destruct (malloc_boot s Hs) as (s0' & Hboot' & Hwf0 & Esm & Ebm & Eby).
  assert (s0' = s0) as -> by congruence. clear Hboot Hboot'.
  assert (∀ a len, fresh_region s a len → fresh_region s0 a len) as Hfr.
  { intros a len. apply fresh_region_mono; intros q; by rewrite ?Esm, ?Ebm. }
  rewrite <-Ebm.
  unfold os_ok, request_len in Hos.
  destruct (Z.gtb_spec sz SIZE_THRESHOLD) as [Hbig|Hsmall].
  { destruct (malloc_large_block s0 os (wrap64 (sz + sizeof_blockHeader)) (wrap32 sz) p s')
      as (H1 & H2 & H3); [|exact Hrun|done|].
    - intros a ->. by apply Hfr.
    - split; [done|]. split; [by left|]. eexists. split; [exact H2|]. left.
      split; [lia|]. split; reflexivity. }
  apply bind_Ok in Hrun as (c & s0' & Hc & Hrun). apply lift_option_Ok in Hc as [Hc ->].
  set (hp := HASH tid) in *.
  assert (hp ≠ NUM_OF_CPUS) as Hhp.
  { unfold hp, HASH, NUM_OF_CPUS. pose proof (Z.mod_pos_bound tid 2). lia. }
  apply bind_Ok in Hrun as ([] & s1 & Hlock & Hrun).
  pose proof (lock_class_lock_equiv _ _ _ _ _ Hlock) as Hle1.
  assert (in_range hp c) as Hr.
  { unfold lock_class in Hlock. apply bind_Ok in Hlock as (x & ? & Hl & _).
    apply load_class_Ok in Hl as [_ Hx]. by apply get_class_Some in Hx. }
  destruct Hwf0 as [L Hwf0].
  pose proof (wf_with_lock_equiv L s0 s1 Hle1 Hwf0) as Hwf1.
  assert (blkmem s1 = blkmem s0) as Eb1 by (by destruct Hle1 as (_ & ? & _)).
  rewrite <-Eb1.
  pose proof Hwf1 as ((W1 & W2 & W3 & W4 & W5) & _).
  destruct (W2 hp c Hr) as [Hcl _].
  apply bind_Ok in Hrun as (blk & s1' & Hsearch & Hrun).
  destruct (search_sizeclass_spec fuel hp c _ s1 blk s1' Hcl Hsearch) as [-> Hblk].
  destruct (Z.eqb_spec blk 0) as [Eblk|Hblk0]; cbn [negb] in Hrun.
  2:{ destruct Hblk as [?|(a & ha & Ha & Hha & Hlt & ->)]; [done|].
      destruct (malloc_fast_block L s1 hp c a ha fuel p s')
        as (bh & -> & Hbh & Hin & Hpar & Hsz & Hbh'); try done.
      replace (freeList ha + sizeof_blockHeader - sizeof_blockHeader)
        with (freeList ha) by lia.
      split; [by eapply (placed_pos L s1)|].
      split; [right; by exists bh|].
      eexists. split; [exact Hbh'|]. right. split; [lia|].
      split; [by destruct bh|]. by exists c. }
  clear Hblk.
  apply bind_Ok in Hrun as ([] & s2 & Hlock2 & Hrun).
  pose proof (lock_class_lock_equiv _ _ _ _ _ Hlock2) as Hle2.
  pose proof (wf_with_lock_equiv L s1 s2 Hle2 Hwf1) as Hwf2.
  assert (blkmem s2 = blkmem s1) as Eb2 by (by destruct Hle2 as (_ & ? & _)).
  rewrite <-Eb2.
  apply bind_Ok in Hrun as (g & s2' & Hg & Hrun).
  apply load_class_Ok in Hg as [-> Hg].
  destruct (Z.eqb_spec (sc_head g) 0) as [Hh0|Hh0]; cbn [negb] in Hrun.
  2:{ destruct (malloc_transfer_block L s2 hp c g (sc_head g) fuel p s')
        as (q & bh & -> & Hbh & Hin & Hpar & Hsz & Hbh'); try done.
      replace (q + sizeof_blockHeader - sizeof_blockHeader) with q by lia.
      split; [by eapply (placed_pos L s2)|].
      split; [right; by exists bh|].
      eexists. split; [exact Hbh'|]. right. split; [lia|].
      split; [by destruct bh|]. by exists c. }
  destruct os as [a|].
  2:{ exfalso. unfold bind, fetch_memory, init_superblock in Hrun. simpl in Hrun. done. }
  assert (fresh_region s2 a SUPERBLOCK_SIZE) as Hfresh.
  { eapply fresh_region_lock_equiv; [exact Hle2|].
    eapply fresh_region_lock_equiv; [exact Hle1|]. by apply Hfr. }
  pose proof Hfresh as (Ha & _).
  unfold bind at 1 in Hrun. unfold fetch_memory in Hrun.
  destruct (Z.eqb_spec a 0) as [?|_]; [lia|]. cbn [negb] in Hrun.
  set (s3 := with_os_log _ _) in Hrun.
  assert (lock_equiv s2 s3) as Hle3 by (unfold lock_equiv; done).
  assert (wf_with L s3) as Hwf3 by (by eapply wf_with_lock_equiv).
  assert (fresh_region s3 a SUPERBLOCK_SIZE) as Hfresh3
    by (by eapply fresh_region_lock_equiv).
  destruct (malloc_grow_block L s3 hp c a fuel p s' Hwf3 Hhp Hr Hfresh3 Hrun)
    as (-> & Hn & Hb').
  replace (a + sizeof_superblockHeader + sizeof_blockHeader - sizeof_blockHeader)
    with (a + sizeof_superblockHeader) by lia.
  split; [unfold sizeof_superblockHeader; lia|].
  split; [by left|].
  eexists. split; [exact Hb'|]. right. split; [lia|].
  split; [simpl; lia|]. by exists c.
Qed.

Lemma malloc_block fuel tid os sz s p s' :
  cold s ∨ wf s →
  os_ok s os sz →
  malloc fuel tid os sz s = Ok p s' →
  p ≠ 0 →
  (blkmem s !! (p - sizeof_blockHeader) = None
   ∨ ∃ bh, blkmem s !! (p - sizeof_blockHeader) = Some bh
           ∧ inUse bh = 0 ∧ parentSuperblock bh ≠ 0)
  ∧ ∃ b', blkmem s' !! (p - sizeof_blockHeader) = Some b'
          ∧ (sz > SIZE_THRESHOLD ∧ blockSize b' = wrap32 sz
             ∨ sz <= SIZE_THRESHOLD
               ∧ ∃ c, class_of_size sz = Some c ∧ blockSize b' = SIZE_OF_CLASS c).
Proof.
  intros Hs Hos Hrun Hp.
  destruct (malloc_block_pos fuel tid os sz s p s' Hs Hos Hrun Hp)
    as (_ & H1 & b' & Hb' & Hcase).
  split; [done|]. exists b'. split; [done|].
  destruct Hcase as [(? & ? & _)|(? & _ & ?)]; [by left|by right].
Qed.

Lemma reachable_live_pos live s :
  reachable live s → ∀ p, p ∈ live → 0 < p - sizeof_blockHeader.
Proof.
  induction 1 as [|live s fuel tid os sz p s' Hreach IH Hsz Hos Hrun
                  |live s fuel ptr s' Hreach IH Hptr Hrun
                  |live s v Hreach IH]; intros q Hq.
  - by apply elem_of_empty in Hq.
  - assert (q ∈ live ∨ q = p ∧ p ≠ 0) as [Hin|[-> Hp0]].
    { case_decide; [by left|]. apply elem_of_union in Hq as [Hq%elem_of_singleton|Hq]; auto. }
    + by apply IH.
    + destruct (reachable_inv live s Hreach) as [Hs _].
      by destruct (malloc_block_pos fuel tid os sz s p s' Hs Hos Hrun Hp0) as [? _].
  - apply elem_of_difference in Hq as [Hq _]. by apply IH.
  - by apply IH.
Qed.

(** X8.  [malloc] never returns a block that is allocated.  In every
    reachable state, with [live] the pointers returned by [malloc] and not
    freed since, and with the OS granting only regions that hold no header
    of the allocator, a non-NULL pointer returned by [malloc] is not in
    [live]: the block it takes from a free list was marked free, and a
    block of a new superblock or a large block had no header before. *)
Theorem malloc_result_is_not_live live s fuel tid os sz p s' :
  reachable live s →
  os_ok s os sz →
  malloc fuel tid os sz s = Ok p s' →
  p ≠ 0 →
  p ∉ live.
Proof.
  intros Hreach Hos Hrun Hp Hin.
  destruct (reachable_inv live s Hreach) as [Hs Hlive].
  destruct (Hlive p Hin) as (b & Hb & Huse).
  destruct (malloc_block fuel tid os sz s p s' Hs Hos Hrun Hp)
    as [[Hn|(bh & Hbh & Hfree & Hpar)] _]; [congruence|].
  assert (bh = b) as -> by congruence. lia.
Qed.

Lemma malloc_result_is_not_live_witness :
  1048720 ∉ ({[1048680]} ∪ ∅ : gset Z).
Proof.
  apply (malloc_result_is_not_live _ state_alloc 8 0 None 16 1048720
           (state_after (malloc 8 0 None 16 state_alloc)) reachable_state_alloc).
  - exact I.
  - apply (value_of_Ok (malloc 8 0 None 16 state_alloc)). vm_compute. reflexivity.
  - lia.
Defined.

(** X9.  The block that [malloc] returns is large enough.  When
    [malloc(sz)] returns a non-NULL pointer for a request of
    [1 <= sz < 2^32] bytes, the header before the pointer records a block
    size of at least [sz] and less than [2 * sz]: the size of the class,
    [2^ceil(log2 sz)], for a request of at most [SUPERBLOCK_SIZE/2] bytes,
    and [sz] itself for a larger one. *)
Theorem malloc_block_fits_request live s fuel tid os sz p s' :
  reachable live s →
  os_ok s os sz →
  1 <= sz < 2 ^ 32 →
  malloc fuel tid os sz s = Ok p s' →
  p ≠ 0 →
  ∃ b, blkmem s' !! (p - sizeof_blockHeader) = Some b
       ∧ sz <= blockSize b < 2 * sz
       ∧ (sz <= SIZE_THRESHOLD → blockSize b = 2 ^ Z.log2_up sz).
Proof.
  intros Hreach Hos Hsz Hrun Hp.
  destruct (reachable_inv live s Hreach) as [Hs _].
  destruct (malloc_block fuel tid os sz s p s' Hs Hos Hrun Hp)
    as [_ (b & Hb & [[Hbig Hbs]|[Hsmall (c & Hc & Hbs)]])].
  - exists b. split; [done|]. rewrite Hbs, wrap32_small by lia. split; [lia|]. lia.
  - exists b. split; [done|].
    destruct (class_of_size_in_bounds sz) as (c' & Hc' & Hcr & Hle); [lia|].
    assert (c' = c) as -> by congruence.
    assert (SIZE_OF_CLASS c = 2 ^ Z.log2_up sz) as E.
    { unfold class_of_size in Hc. destruct (sz =? 0); [done|]. injection Hc as <-.
      unfold SIZE_OF_CLASS. by rewrite Z.shiftl_1_l. }
    rewrite Hbs. split; [|done]. split; [done|]. rewrite E.
    destruct (decide (sz = 1)) as [->|Hne]; [done|].
    pose proof (Z.log2_up_spec sz ltac:(lia)) as [Hlo _].
    assert (2 ^ Z.log2_up sz = 2 * 2 ^ Z.pred (Z.log2_up sz)) as ->; [|lia].
    rewrite <-Z.pow_succ_r.
    + f_equal. lia.
    + assert (0 < Z.log2_up sz) by (apply Z.log2_up_pos; lia). lia.
Qed.

Lemma malloc_block_fits_request_witness :
  ∃ b, blkmem (state_after (malloc 8 0 None 9 state_alloc))
         !! (1048720 - sizeof_blockHeader) = Some b
       ∧ 9 <= blockSize b < 2 * 9
       ∧ (9 <= SIZE_THRESHOLD → blockSize b = 2 ^ Z.log2_up 9).
Proof.
  apply (malloc_block_fits_request _ state_alloc 8 0 None 9 1048720
           (state_after (malloc 8 0 None 9 state_alloc)) reachable_state_alloc).
  - exact I.
  - lia.
  - apply (value_of_Ok (malloc 8 0 None 9 state_alloc)). vm_compute. reflexivity.
  - lia.
Defined.

(** X10.  The mutexes are released.  In every state reached by calls of
    [malloc] and [free] that returned, no mutex of a superblock and no
    mutex of a size class is held: each path of [malloc] and of [free]
    that returns unlocks the class of the heap of the caller, the class of
    the global heap and the superblock where it locked them. *)
Theorem mutexes_released_on_return live s :
  reachable live s →
  (∀ a h, sbmem s !! a = Some h → sb_lock h = false)
  ∧ (∀ hp c x, get_class s hp c = Some x → sc_lock x = false).
Proof. intros Hreach. by apply reachable_unlocked in Hreach. Qed.

Lemma mutexes_released_on_return_witness :
  (∀ a h, sbmem state_alloc_free !! a = Some h → sb_lock h = false)
  ∧ (∀ hp c x, get_class state_alloc_free hp c = Some x → sc_lock x = false).
Proof.
  apply (mutexes_released_on_return _ state_alloc_free reachable_state_alloc_free).
Defined.

(** X11.  What [malloc] does to the payload bytes and to the OS.  A call
    of [malloc] that returns changes a payload byte only inside the region
    that the OS has just mapped, where the byte is zero; it calls [mmap]
    at most once, with the length of the request plus the header for a
    large request and [SUPERBLOCK_SIZE] otherwise, and it never calls
    [munmap]. *)
Theorem malloc_payload_and_os fuel tid os sz s p s' :
  malloc fuel tid os sz s = Ok p s' →
  (∀ x, bytes s' x ≠ bytes s x →
        ∃ a, os = Some a ∧ a <= x < a + request_len sz ∧ bytes s' x = 0)
  ∧ (os_log s' = os_log s
     ∨ os_log s' = Mmap (request_len sz) (default 0 os) :: os_log s).
Proof.
  intros Hrun.
  destruct (malloc_os_effect fuel tid os sz s p s' Hrun) as [[E1 E2]|[Hby Hlog]].
  - split; [|by left]. intros x Hx. by rewrite E1 in Hx.
  - split; [|by right]. intros x Hx. by destruct (Hby x).
Qed.

Lemma malloc_payload_and_os_witness :
  (∀ x, bytes state_alloc x ≠ bytes cold_state x →
        ∃ a, Some 1048576 = Some a ∧ a <= x < a + request_len 16
             ∧ bytes state_alloc x = 0)
  ∧ (os_log state_alloc = os_log cold_state
     ∨ os_log state_alloc
       = Mmap (request_len 16) (default 0 (Some 1048576)) :: os_log cold_state).
Proof.
  apply (malloc_payload_and_os 8 0 (Some 1048576) 16 cold_state 1048680 state_alloc).
  apply state_alloc_run.
Defined.

(** X12.  [search_sizeclass] finds the fullest superblock with a free
    block.  In a reachable state, on the list [l] of a class, with more
    fuel than [l] has members and a number of blocks below [2^32],
    [search_sizeclass] returns and leaves the state as it is.  It returns
    NULL exactly when the counters of the class are equal, and then every
    superblock of the list is full (the [return NULL] after the loop is
    not reached); otherwise it returns the head of the free list of a
    superblock of the list that is not full, which is a free block of this
    superblock, and no superblock of the list with a free block has more
    used blocks. *)
Theorem search_sizeclass_takes_fullest live s hp c l fuel :
  reachable live s →
  in_range hp c →
  class_links s hp c l →
  (length l < fuel)%nat →
  Z.of_nat (length l) * blocks_per_superblock c < 2 ^ 32 →
  ∃ blk x,
    search_sizeclass fuel hp c s = Ok blk s
    ∧ get_class s hp c = Some x
    ∧ (blk = 0 ↔ usedBlocks x = numOfBlocks x)
    ∧ ((blk = 0
        ∧ ∀ a h, a ∈ l → sbmem s !! a = Some h → sb_usedBlocks h = sb_numOfBlocks h)
       ∨ ∃ a h b,
           a ∈ l ∧ sbmem s !! a = Some h
           ∧ sb_usedBlocks h < sb_numOfBlocks h
           ∧ blk = freeList h ∧ blk ≠ 0
           ∧ blkmem s !! blk = Some b ∧ inUse b = 0 ∧ parentSuperblock b = a
           ∧ ∀ a' h', a' ∈ l → sbmem s !! a' = Some h' →
                      sb_usedBlocks h' < sb_numOfBlocks h' →
                      sb_usedBlocks h' <= sb_usedBlocks h).
Proof.
  intros Hreach Hr Hl Hlen Hsmall.
  destruct (reachable_inv live s Hreach) as [[Hc|[L Hwf]] _].
  { assert (l = []) as -> by (eapply class_links_unique; [exact Hl|by apply cold_links]).
    exists 0, zero_class. unfold search_sizeclass.
    rewrite (run_load_class hp c zero_class) by (by apply cold_class).
    split; [done|]. split; [by apply cold_class|]. split; [done|].
    left. split; [done|]. intros a h Ha. by apply elem_of_nil in Ha. }
  destruct Hwf as (Hwd & Hso & _). pose proof Hwd as (_ & W2 & W3 & _).
  destruct (W2 hp c Hr) as [Hl' (x & Hx & _ & Hu & Hn)].
  assert (l = L hp c) as -> by (by eapply class_links_unique).
  pose proof (blocks_per_superblock_range c (proj2 Hr)) as Hbps.
  assert (∀ a, a ∈ L hp c →
            ∃ h, sbmem s !! a = Some h ∧ sb_numOfBlocks h = blocks_per_superblock c
                 ∧ 0 <= sb_usedBlocks h <= blocks_per_superblock c) as Hsb.
  { intros a Ha.
    destruct (W3 hp c a Ha) as (_ & _ & h & fl & Hh & _ & Hnum & Hu0 & Hsum & _).
    exists h. split_and!; try done. lia. }
  assert (∀ a, a ∈ L hp c → 0 <= used_of (sbmem s) a <= blocks_per_superblock c) as Hub.
  { intros a Ha. destruct (Hsb a Ha) as (h & Hh & _ & Hb).
    by rewrite (used_of_lookup _ _ _ Hh). }
  pose proof (sum_with_bounds _ _ _ Hub) as Hsum.
  rewrite wrap32_small in Hu, Hn by lia.
  unfold search_sizeclass. rewrite (run_load_class hp c x) by done.
  destruct Hl as (x' & Hx' & _ & Hseg & Hhd & _).
  assert (x' = x) as -> by congruence.
  destruct (Z.eqb_spec (usedBlocks x) (numOfBlocks x)) as [E|Hne].
  { exists 0, x. split; [done|]. split; [done|]. split; [done|].
    left. split; [done|]. intros a h Ha Hh.
    rewrite Hu, Hn in E.
    pose proof (sum_with_full _ _ _ Hub E a Ha) as Hfull.
    rewrite (used_of_lookup _ _ _ Hh) in Hfull.
    destruct (Hsb a Ha) as (h' & Hh' & Hnum & _). assert (h' = h) as -> by congruence.
    lia. }
  rewrite Hhd.
  destruct (search_loop_first fuel (L hp c) 0 s Hseg Hlen) as (blk & Hrun & Hres).
  exists blk, x. split; [done|]. split; [done|].
  assert (∀ a h, a ∈ L hp c → sbmem s !! a = Some h →
                 sb_numOfBlocks h <= sb_usedBlocks h → sb_usedBlocks h = sb_numOfBlocks h)
    as Hfull_eq.
  { intros a h Ha Hh Hge. destruct (Hsb a Ha) as (h' & Hh' & Hnum & Hb).
    assert (h' = h) as -> by congruence. lia. }
  destruct Hres as [[-> Hfull]|(l1 & a & l2 & h & E & Hh & Hlt & -> & Hfull)].
  - exfalso. apply Hne. rewrite Hu, Hn. apply sum_with_const. intros a Ha.
    destruct (Hsb a Ha) as (h & Hh & Hnum & Hb).
    rewrite (used_of_lookup _ _ _ Hh), <-Hnum.
    eapply Hfull_eq; [exact Ha|exact Hh|by eapply Hfull].
  - assert (a ∈ L hp c) as Ha by (rewrite E; apply elem_of_app; right; by left).
    destruct (free_head L s hp c a h Hwd Ha Hh Hlt) as (_ & Hf0 & b & Hb & Hpar & Hin).
    split; [split; intros ?; done|]. right.
    exists a, h, b. split_and!; try done.
    intros a' h' Ha' Hh' Hlt'. rewrite E in Ha'.
    apply elem_of_app in Ha' as [Ha'|Ha'].
    { specialize (Hfull a' h' Ha' Hh'). lia. }
    apply elem_of_cons in Ha' as [->|Ha'].
    { assert (h' = h) as -> by congruence. lia. }
    specialize (Hso hp c). rewrite E in Hso.
    apply StronglySorted_app in Hso as (_ & _ & Hso).
    apply StronglySorted_cons in Hso as [Hall _].
    rewrite Forall_forall in Hall. specialize (Hall a' Ha').
    unfold fuller in Hall.
    by rewrite (used_of_lookup _ _ _ Hh), (used_of_lookup _ _ _ Hh') in Hall.
Qed.

Lemma search_sizeclass_takes_fullest_witness :
  ∃ blk x,
    search_sizeclass 2 0 4 state_alloc = Ok blk state_alloc
    ∧ get_class state_alloc 0 4 = Some x
    ∧ (blk = 0 ↔ usedBlocks x = numOfBlocks x)
    ∧ ((blk = 0
        ∧ ∀ a h, a ∈ [1048576] → sbmem state_alloc !! a = Some h →
                 sb_usedBlocks h = sb_numOfBlocks h)
       ∨ ∃ a h b,
           a ∈ [1048576] ∧ sbmem state_alloc !! a = Some h
           ∧ sb_usedBlocks h < sb_numOfBlocks h
           ∧ blk = freeList h ∧ blk ≠ 0
           ∧ blkmem state_alloc !! blk = Some b ∧ inUse b = 0 ∧ parentSuperblock b = a
           ∧ ∀ a' h', a' ∈ [1048576] → sbmem state_alloc !! a' = Some h' →
                      sb_usedBlocks h' < sb_numOfBlocks h' →
                      sb_usedBlocks h' <= sb_usedBlocks h).
Proof.
  apply (search_sizeclass_takes_fullest _ state_alloc 0 4 [1048576] 2 reachable_state_alloc).
  - unfold in_range, NUM_OF_HEAPS, NUM_OF_CPUS, NUM_OF_CLASSES. lia.
  - exists (mkClass 16 1 1636 1048576 1048576 false).
    split; [vm_compute; reflexivity|].
    split; [apply NoDup_singleton|].
    split; [|split; reflexivity].
    split; [lia|]. split; [|exact I].
    exists (mkSuperblock 1 1636 1048696 false 0 0 (Some 0)).
    split; [vm_compute; reflexivity|]. split; reflexivity.
  - simpl. lia.
  - vm_compute. reflexivity.
Defined.

(** ** Requests below [2^32] bytes *)

Lemma reachable32_reachable live s : reachable32 live s → reachable live s.
Proof.
  induction 1 as [|live s fuel tid os sz p s' Hreach IH Hsz Hos Hrun
                  |live s fuel ptr s' Hreach IH Hptr Hrun
                  |live s v Hreach IH].
  - apply reach_cold.
  - eapply reach_malloc; [exact IH| |exact Hos|exact Hrun].
    change (2 ^ 32) with 4294967296 in Hsz. change (2 ^ 64) with 18446744073709551616. lia.
  - eapply reach_free; [exact IH|exact Hptr|exact Hrun].
  - by apply reach_write.
Qed.

(** A live block that names no superblock was mapped for one request and
    records a size above the threshold. *)
Lemma reachable32_large live s :
  reachable32 live s →
  ∀ p b, p ∈ live → blkmem s !! (p - sizeof_blockHeader) = Some b →
         parentSuperblock b = 0 → blockSize b > SUPERBLOCK_SIZE / 2.
Proof.
  induction 1 as [|live s fuel tid os sz p s' Hreach IH Hsz Hos Hrun
                  |live s fuel ptr s' Hreach IH Hptr Hrun
                  |live s v Hreach IH]; intros q b Hq Hb Hpar.
  - by apply elem_of_empty in Hq.
  - destruct (reachable_inv live s (reachable32_reachable _ _ Hreach)) as [Hs Hlive].
    destruct (malloc_wf fuel tid os sz s p s' Hs Hos Hrun) as (Hwf & [Hkeep Hnew] & Hnull).
    assert (q ∈ live → blockSize b > SUPERBLOCK_SIZE / 2) as Hold.
    { intros Hin. destruct (Hlive q Hin) as (b0 & Hb0 & Hlv).
      assert (blkmem s' !! (q - sizeof_blockHeader) = Some b0) as Hb0'.
      { apply Hkeep; [done|]. destruct Hlv as [?|?]; [left; lia|by right]. }
      assert (b0 = b) as -> by congruence. by eapply IH. }
    destruct (decide (p = 0)) as [->|Hp0]; [by apply Hold|].
    apply elem_of_union in Hq as [Hq%elem_of_singleton|Hq]; [subst q|by apply Hold].
    destruct (malloc_block_pos fuel tid os sz s p s' Hs Hos Hrun Hp0)
      as (_ & _ & b' & Hb' & Hcase).
    assert (b' = b) as -> by congruence.
    destruct Hcase as [(Hbig & Hbs & _)|(_ & Hne & _)]; [|done].
    rewrite Hbs, wrap32_small by lia. exact Hbig.
  - apply elem_of_difference in Hq as [Hq Hne].
    destruct (reachable_inv live s (reachable32_reachable _ _ Hreach)) as [Hs Hlive].
    destruct (Hlive q Hq) as (b0 & Hb0 & _).
    destruct Hs as [Hc|Hwf].
    { destruct Hc as (_ & _ & _ & Hbm). rewrite Hbm in Hb0. done. }
    destruct (free_wf fuel ptr s s' Hwf) with (2 := Hrun) as [_ Hfr].
    { intros Hn0. apply Hlive. by destruct Hptr. }
    rewrite Hfr in Hb; [by eapply IH|].
    intros E. apply Hne. apply elem_of_singleton. lia.
  - by eapply IH.
Qed.

Lemma reachable32_state_alloc : reachable32 ({[1048680]} ∪ ∅) state_alloc.
Proof.
  apply (reach32_malloc ∅ cold_state 8 0 (Some 1048576) 16 1048680 state_alloc).
  - apply reach32_cold.
  - lia.
  - apply fresh_region_cold; [lia|]. vm_compute. reflexivity.
  - apply state_alloc_run.
Qed.

(** X7.  An allocated block is where [free] looks for it.  In every state
    reached with requests below [2^32] bytes, the header of every pointer
    that [malloc] returned and that was not freed since is in place, not
    at NULL, and [free] takes for it the branch of the path that allocated
    it: either the block names no superblock and records a size above
    [SUPERBLOCK_SIZE/2] (it is unmapped), or it records at most
    [SUPERBLOCK_SIZE/2], is marked used, carries the block size of a class
    [c], and is block [i] of a superblock whose header is in place and
    unlocked, whose [parentHeap] is a heap of the array and whose class is
    [c] ([log2(blockSize)] is [c]), that class being unlocked too. *)
Theorem live_block_is_placed live s p :
  reachable32 live s →
  p ∈ live →
  ∃ b,
    blkmem s !! (p - sizeof_blockHeader) = Some b
    ∧ p - sizeof_blockHeader ≠ 0
    ∧ (parentSuperblock b = 0 ∧ blockSize b > SUPERBLOCK_SIZE / 2
       ∨ parentSuperblock b ≠ 0
         ∧ blockSize b <= SUPERBLOCK_SIZE / 2
         ∧ inUse b = 1
         ∧ ∃ h hp c i x,
             sbmem s !! parentSuperblock b = Some h
             ∧ sb_lock h = false
             ∧ parentHeap h = Some hp
             ∧ in_range hp c
             ∧ get_class s hp c = Some x
             ∧ sc_lock x = false
             ∧ blockSize b = SIZE_OF_CLASS c
             ∧ class_of_block (blockSize b) = Some c
             ∧ 0 <= i < sb_numOfBlocks h
             ∧ p - sizeof_blockHeader = block_addr (parentSuperblock b) c i).
Proof.
  intros Hreach32 Hp.
  pose proof (reachable32_reachable _ _ Hreach32) as Hreach.
  destruct (reachable_inv live s Hreach) as [Hs Hlive].
  destruct (reachable_unlocked live s Hreach) as [Hul1 Hul2].
  pose proof (reachable_live_pos live s Hreach p Hp) as Hpos.
  destruct (Hlive p Hp) as (b & Hb & Huse). exists b.
  split; [done|]. split; [lia|].
  destruct (decide (parentSuperblock b = 0)) as [Hp0|Hn0].
  { left. split; [done|]. by eapply reachable32_large. }
  right. split; [done|].
  destruct Hs as [Hc|[L Hwf]].
  { destruct Hc as (_ & _ & _ & Hbm). rewrite Hbm in Hb. done. }
  destruct Hwf as (Hwd & _). pose proof Hwd as (_ & W2 & W3 & _ & W5).
  destruct (W5 _ _ Hb) as [[? _]|(hp & c & i & Ha & Hi & E)]; [done|].
  destruct Huse as [Hu|?]; [|done].
  destruct (W3 hp c _ Ha) as (Hr & _ & h & fl & Hh & Hpar & Hnum & _ & _ & _ & _ & _ & Hslot).
  destruct (Hslot i Hi) as (b' & Hb' & Hsz & _).
  rewrite <-E, Hb in Hb'. injection Hb' as <-.
  destruct (W2 hp c Hr) as [(x & Hx & _) _].
  pose proof (SIZE_OF_CLASS_range c (proj2 Hr)) as Hrange.
  split; [rewrite Hsz; change (SUPERBLOCK_SIZE / 2) with SIZE_THRESHOLD; lia|].
  split; [done|].
  exists h, hp, c, i, x. split_and!; try done.
  - by eapply Hul1.
  - by eapply Hul2.
  - rewrite Hsz. apply class_of_block_SIZE_OF_CLASS. apply Hr.
  - lia.
  - lia.
Qed.

Lemma live_block_is_placed_witness :
  ∃ b,
    blkmem state_alloc !! (1048680 - sizeof_blockHeader) = Some b
    ∧ 1048680 - sizeof_blockHeader ≠ 0
    ∧ (parentSuperblock b = 0 ∧ blockSize b > SUPERBLOCK_SIZE / 2
       ∨ parentSuperblock b ≠ 0
         ∧ blockSize b <= SUPERBLOCK_SIZE / 2
         ∧ inUse b = 1
         ∧ ∃ h hp c i x,
             sbmem state_alloc !! parentSuperblock b = Some h
             ∧ sb_lock h = false
             ∧ parentHeap h = Some hp
             ∧ in_range hp c
             ∧ get_class state_alloc hp c = Some x
             ∧ sc_lock x = false
             ∧ blockSize b = SIZE_OF_CLASS c
             ∧ class_of_block (blockSize b) = Some c
             ∧ 0 <= i < sb_numOfBlocks h
             ∧ 1048680 - sizeof_blockHeader = block_addr (parentSuperblock b) c i).
Proof.
  apply (live_block_is_placed _ state_alloc 1048680 reachable32_state_alloc).
  apply elem_of_union. left. by apply elem_of_singleton.
Defined.

(** ** [malloc] and [free] return *)

Lemma free_run_reachable live s fuel p :
  reachable live s →
  p ∈ live →
  (∀ b, blkmem s !! (p - sizeof_blockHeader) = Some b →
        parentSuperblock b = 0 → blockSize b > SUPERBLOCK_SIZE / 2) →
  (size (dom (sbmem s)) < fuel)%nat →
  ∃ s', free fuel p s = Ok tt s'.
Proof.
  intros Hreach Hp Hlarge Hfuel.
  destruct (reachable_inv live s Hreach) as [Hs Hlive].
  pose proof (reachable_live_pos live s Hreach p Hp) as Hpos.
  destruct (Hlive p Hp) as (b & Hb & Huse).
  destruct Hs as [Hc|[L Hwf]].
  { destruct Hc as (_ & _ & _ & Hbm). rewrite Hbm in Hb. done. }
  destruct (decide (parentSuperblock b = 0)) as [Hp0|Hp0].
  - specialize (Hlarge b Hb Hp0). unfold free.
    destruct (Z.eqb_spec p 0) as [?|_]; [unfold sizeof_blockHeader in Hpos; lia|].
    cbn [negb]. cbv zeta.
    rewrite (run_load_blk (p - sizeof_blockHeader) b) by (done || lia).
    destruct (Z.gtb_spec (blockSize b) (SUPERBLOCK_SIZE / 2)) as [_|?]; [|lia].
    by eexists.
  - eapply (free_run L s fuel p b); try done.
    + by eapply reachable_unlocked.
    + destruct Huse; [done|lia].
Qed.

(** X13.  [free] returns.  In a state reached with requests below [2^32]
    bytes, [free] of a pointer that [malloc] returned and that was not
    freed since returns: it does not fault, wait for a mutex or loop
    beyond the fuel, when the fuel exceeds the number of superblocks.  The
    state after it is such a state again, with the pointer no longer
    live. *)
Theorem free_returns live s fuel p :
  reachable32 live s →
  p ∈ live →
  (size (dom (sbmem s)) < fuel)%nat →
  ∃ s', free fuel p s = Ok tt s' ∧ reachable32 (live ∖ {[p]}) s'.
Proof.
  intros Hreach Hp Hfuel.
  destruct (free_run_reachable live s fuel p) as [s' Hrun]; try done.
  { by apply reachable32_reachable. }
  { intros b Hb Hpar. by eapply reachable32_large. }
  exists s'. split; [done|]. eapply reach32_free; [done|by right|done].
Qed.

Lemma free_returns_witness :
  ∃ s', free 2 1048680 state_alloc = Ok tt s'
        ∧ reachable32 (({[1048680]} ∪ ∅) ∖ {[1048680]}) s'.
Proof.
  apply (free_returns _ state_alloc 2 1048680 reachable32_state_alloc).
  - set_solver.
  - vm_compute. lia.
Defined.

(** X14.  [malloc] returns a block.  In a reachable state, a request of at
    least one byte, for which the OS would grant a region that holds no
    header of the allocator, returns a pointer that is not NULL, when the
    fuel exceeds the number of superblocks: [malloc] does not fault, wait
    for a mutex or loop beyond the fuel.  The state after it is reachable
    with the pointer live. *)
Theorem malloc_returns_block live s fuel tid a sz :
  reachable live s →
  1 <= sz < 2 ^ 64 →
  fresh_region s a (request_len sz) →
  (size (dom (sbmem s)) < fuel)%nat →
  ∃ p s', malloc fuel tid (Some a) sz s = Ok p s' ∧ p ≠ 0
          ∧ reachable ({[p]} ∪ live) s'.
Proof.
  intros Hreach Hsz Hfresh Hfuel.
  destruct (reachable_inv live s Hreach) as [Hs _].
  destruct (malloc_run s fuel tid a sz Hs) as (p & s' & Hrun & Hp); try done.
  { by eapply reachable_unlocked. }
  { lia. }
  exists p, s'. split; [done|]. split; [done|].
  pose proof (reach_malloc live s fuel tid (Some a) sz p s' Hreach) as H.
  rewrite decide_False in H by done. apply H; [lia|done|done].
Qed.

Lemma malloc_returns_block_witness :
  ∃ p s', malloc 1 0 (Some 1048576) 40000 cold_state = Ok p s' ∧ p ≠ 0
          ∧ reachable ({[p]} ∪ ∅) s'.
Proof.
  apply (malloc_returns_block ∅ cold_state 1 0 1048576 40000 reach_cold).
  - lia.
  - apply fresh_region_cold; [lia|]. vm_compute. reflexivity.
  - vm_compute. lia.
Defined.

(** * The order of the lists *)

(** ** A list of three superblocks *)

Lemma class_links_three : class_links state_three 0 15 [131072; 196608; 65536].
Proof.
  exists (mkClass 32768 2 3 131072 65536 false).
  split; [vm_compute; reflexivity|].
  split; [repeat constructor; set_solver|].
  split; [|split; reflexivity].
  cbn [dseg]. split_and!; [lia| |lia| |lia| |exact I].
  - exists (mkSuperblock 1 1 163944 false 196608 0 (Some 0)).
    split; [vm_compute; reflexivity|]. split; reflexivity.
  - exists (mkSuperblock 1 1 229480 false 65536 131072 (Some 0)).
    split; [vm_compute; reflexivity|]. split; reflexivity.
  - exists (mkSuperblock 0 1 65616 false 0 196608 (Some 0)).
    split; [vm_compute; reflexivity|]. split; reflexivity.
Qed.

Lemma class_links_three_global : class_links state_three NUM_OF_CPUS 15 [].
Proof.
  exists (mkClass 32768 0 0 0 0 false).
  split; [vm_compute; reflexivity|].
  split; [constructor|]. split; [exact I|]. split; reflexivity.
Qed.

Lemma used_of_three :
  used_of (sbmem state_three) 131072 = 1
  ∧ used_of (sbmem state_three) 196608 = 1
  ∧ used_of (sbmem state_three) 65536 = 0.
Proof. split_and!; vm_compute; reflexivity. Qed.

Lemma class_links_three_mid : class_links state_three_mid 0 15 [131072; 196608; 65536].
Proof.
  exists (mkClass 32768 2 3 131072 65536 false).
  split; [vm_compute; reflexivity|].
  split; [repeat constructor; set_solver|].
  split; [|split; reflexivity].
  cbn [dseg]. split_and!; [lia| |lia| |lia| |exact I].
  - exists (mkSuperblock 0 1 163944 false 196608 0 (Some 0)).
    split; [vm_compute; reflexivity|]. split; reflexivity.
  - exists (mkSuperblock 1 1 229480 false 65536 131072 (Some 0)).
    split; [vm_compute; reflexivity|]. split; reflexivity.
  - exists (mkSuperblock 0 1 65616 false 0 196608 (Some 0)).
    split; [vm_compute; reflexivity|]. split; reflexivity.
Qed.

Lemma used_of_three_mid :
  used_of (sbmem state_three_mid) 131072 = 0
  ∧ used_of (sbmem state_three_mid) 196608 = 1
  ∧ used_of (sbmem state_three_mid) 65536 = 0.
Proof. split_and!; vm_compute; reflexivity. Qed.

Lemma sorted_pair m a b :
  used_of m b <= used_of m a → StronglySorted (fuller m) [a; b].
Proof.
  intros H. apply SSorted_cons; [apply SSorted_cons; [apply SSorted_nil|apply Forall_nil_2]|].
  apply Forall_cons. split; [exact H|apply Forall_nil_2].
Qed.

(** ** The lists of the reachable states *)

Lemma reachable_sorted live s hp c :
  reachable live s → in_range hp c →
  ∃ l, class_links s hp c l ∧ StronglySorted (fuller (sbmem s)) l.
Proof.
  intros Hreach Hr.
  destruct (reachable_inv live s Hreach) as [[Hc|[L Hwf]] _].
  - exists []. split; [by apply cold_links|constructor].
  - exists (L hp c). destruct Hwf as ((_ & W2 & _) & Hso & _).
    split; [by apply W2|apply Hso].
Qed.

Lemma used_of_move_frame src dst c x fp s s' y :
  move_frame src dst c x fp s s' → used_of (sbmem s') y = used_of (sbmem s) y.
Proof.
  intros (_ & _ & _ & _ & _ & Hcore & _).
  specialize (Hcore y). unfold used_of.
  destruct (sbmem s' !! y) as [h'|], (sbmem s !! y) as [h|]; simpl in *; try done.
  by injection Hcore as -> _ _ _.
Qed.

(** C4.  The lists are in an order of non-increasing [usedBlocks], and
    the loops move a superblock only past strictly mis-ordered neighbours.
    - In every state reached from the cold state by calls of [malloc] and
      [free], the list of every size class of every heap is linked from
      head to tail in an order of non-increasing [usedBlocks].
    - In such a state [malloc] (of at least one byte, the OS granting a
      region that holds no header) and [free] (of an allocated block)
      return when the fuel exceeds the number of superblocks, and every
      list is in that order after the call.
    - [move_superblock] returns; it takes [x] out of the list of [src],
      whose other members keep their order, and inserts it into the list
      [ld] of [dst] after the members that are strictly fuller than [x];
      when [ld] was in order, so is the list of [dst] afterwards.
    - [bubble_to_tail] returns within as many iterations as [x] has
      successors; [x] has then passed the successors [post1], each
      strictly fuller than [x], and stands before [post2], whose first
      member is not fuller than [x]: a neighbour of equal fullness is not
      passed, and the other superblocks keep their order and their
      [usedBlocks].  When the other superblocks were in order and those
      before [x] at least as full as [x], the list is in order afterwards.
    - [bubble_to_head] is the mirror image: [x] passes the predecessors
      that are strictly emptier than [x] and stops behind one that is at
      least as full. *)
Theorem C4_lists_sorted_and_bubbling_strict :
  (∀ live s hp c,
     reachable live s → in_range hp c →
     ∃ l, class_links s hp c l ∧ StronglySorted (fuller (sbmem s)) l)
  ∧ (∀ live s fuel tid a sz,
       reachable live s →
       1 <= sz < 2 ^ 64 →
       fresh_region s a (request_len sz) →
       (size (dom (sbmem s)) < fuel)%nat →
       ∃ p s',
         malloc fuel tid (Some a) sz s = Ok p s'
         ∧ p ≠ 0
         ∧ ∀ hp c, in_range hp c →
             ∃ l, class_links s' hp c l ∧ StronglySorted (fuller (sbmem s')) l)
  ∧ (∀ live s fuel p,
       reachable live s →
       p ∈ live →
       (∀ b, blkmem s !! (p - sizeof_blockHeader) = Some b →
             parentSuperblock b = 0 → blockSize b > SUPERBLOCK_SIZE / 2) →
       (size (dom (sbmem s)) < fuel)%nat →
       ∃ s',
         free fuel p s = Ok tt s'
         ∧ ∀ hp c, in_range hp c →
             ∃ l, class_links s' hp c l ∧ StronglySorted (fuller (sbmem s')) l)
  ∧ (∀ fuel src dst c pre x post ld s,
       src ≠ dst →
       class_links s src c (pre ++ x :: post) →
       class_links s dst c ld →
       (∀ a, a ∈ ld → a ∉ pre ++ x :: post) →
       (length ld < fuel)%nat →
       ∃ s' ld1 ld2,
         move_superblock fuel x src dst c s = Ok tt s'
         ∧ ld = ld1 ++ ld2
         ∧ class_links s' src c (pre ++ post)
         ∧ class_links s' dst c (ld1 ++ x :: ld2)
         ∧ (∀ y, y ∈ ld1 → used_of (sbmem s) x < used_of (sbmem s) y)
         ∧ (∀ y, head ld2 = Some y → used_of (sbmem s) y <= used_of (sbmem s) x)
         ∧ (∀ y, used_of (sbmem s') y = used_of (sbmem s) y)
         ∧ (StronglySorted (fuller (sbmem s)) ld →
            StronglySorted (fuller (sbmem s')) (ld1 ++ x :: ld2))
         ∧ (StronglySorted (fuller (sbmem s)) (pre ++ x :: post) →
            StronglySorted (fuller (sbmem s')) (pre ++ post)))
  ∧ (∀ fuel hp c pre x post s,
       class_links s hp c (pre ++ x :: post) →
       (length post < fuel)%nat →
       ∃ s' post1 post2,
         bubble_to_tail fuel hp c x s = Ok tt s'
         ∧ post = post1 ++ post2
         ∧ class_links s' hp c (pre ++ post1 ++ x :: post2)
         ∧ (∀ y, y ∈ post1 → used_of (sbmem s) x < used_of (sbmem s) y)
         ∧ (∀ y, head post2 = Some y → used_of (sbmem s) y <= used_of (sbmem s) x)
         ∧ (∀ y, used_of (sbmem s') y = used_of (sbmem s) y)
         ∧ (StronglySorted (fuller (sbmem s)) (pre ++ post) →
            (∀ y, y ∈ pre → used_of (sbmem s) x <= used_of (sbmem s) y) →
            StronglySorted (fuller (sbmem s')) (pre ++ post1 ++ x :: post2)))
  ∧ (∀ fuel hp c pre x post s,
       class_links s hp c (pre ++ x :: post) →
       (length pre < fuel)%nat →
       ∃ s' pre1 pre2,
         bubble_to_head fuel hp c x s = Ok tt s'
         ∧ pre = pre1 ++ pre2
         ∧ class_links s' hp c (pre1 ++ x :: pre2 ++ post)
         ∧ (∀ y, y ∈ pre2 → used_of (sbmem s) y < used_of (sbmem s) x)
         ∧ (∀ y, last pre1 = Some y → used_of (sbmem s) x <= used_of (sbmem s) y)
         ∧ (∀ y, used_of (sbmem s') y = used_of (sbmem s) y)
         ∧ (StronglySorted (fuller (sbmem s)) (pre ++ post) →
            (∀ y, y ∈ post → used_of (sbmem s) y <= used_of (sbmem s) x) →
            StronglySorted (fuller (sbmem s')) (pre1 ++ x :: pre2 ++ post))).
Proof.
  split_and!.
  - intros live s hp c. apply reachable_sorted.
  - intros live s fuel tid a sz Hreach Hsz Hfresh Hfuel.
    destruct (reachable_inv live s Hreach) as [Hs _].
    destruct (malloc_run s fuel tid a sz Hs) as (p & s' & Hrun & Hp); try done.
    { by eapply reachable_unlocked. }
    { lia. }
    exists p, s'. split; [done|]. split; [done|].
    pose proof (reach_malloc live s fuel tid (Some a) sz p s' Hreach) as H.
    intros hp c. eapply reachable_sorted. apply H; [lia|done|done].
  - intros live s fuel p Hreach Hp Hlarge Hfuel.
    destruct (free_run_reachable live s fuel p Hreach Hp Hlarge Hfuel) as [s' Hrun].
    exists s'. split; [done|].
    intros hp c. eapply reachable_sorted. eapply reach_free; [done|by right|done].
  - intros fuel src dst c pre x post ld s Hsd Hsrc Hdst Hdisj Hfuel.
    destruct (move_superblock_run fuel src dst c pre x post ld s Hsd Hsrc Hdst Hdisj Hfuel)
      as (s' & Hrun).
    destruct (move_superblock_spec fuel src dst c pre x post ld s s' Hsd Hsrc Hdst Hdisj Hrun)
      as (ld1 & ld2 & -> & Hsrc' & Hdst' & Hgt & Hle & Hf).
    assert (∀ l, StronglySorted (fuller (sbmem s)) l → StronglySorted (fuller (sbmem s')) l)
      as Hext.
    { intros l. apply (SS_ext (used_of (sbmem s))).
      intros a _. symmetry. by eapply used_of_move_frame. }
    exists s', ld1, ld2. split_and!; try done.
    + intros y. by eapply used_of_move_frame.
    + intros Hso. apply Hext.
      apply (SS_bubble_down (used_of (sbmem s)) []); [exact Hso|exact Hgt|exact Hle|].
      intros y Hy. by apply elem_of_nil in Hy.
    + intros Hso. apply Hext. by eapply SS_remove.
  - intros fuel hp c pre x post s Hl Hfuel.
    destruct (bubble_to_tail_run fuel hp c post pre x s Hl Hfuel) as (s' & Hrun).
    destruct (bubble_to_tail_spec fuel hp c pre x post s s' Hl Hrun)
      as (post1 & post2 & -> & Hl' & Hgt & Hle & Hf).
    pose proof (links_frame_links_only _ _ _ _ _ Hf) as Hlo.
    exists s', post1, post2. split_and!; try done.
    + intros y. by apply used_of_links_only.
    + intros Hso Hpre. eapply SS_fuller_links_only; [exact Hlo|].
      by apply (SS_bubble_down (used_of (sbmem s))).
  - intros fuel hp c pre x post s Hl Hfuel.
    destruct (bubble_to_head_run fuel hp c pre x post s Hl Hfuel) as (s' & Hrun).
    destruct (bubble_to_head_spec fuel hp c pre x post s s' Hl Hrun)
      as (pre1 & pre2 & -> & Hl' & Hlt & Hge & Hf).
    pose proof (links_frame_links_only _ _ _ _ _ Hf) as Hlo.
    exists s', pre1, pre2. split_and!; try done.
    + intros y. by apply used_of_links_only.
    + intros Hso Hpost. eapply SS_fuller_links_only; [exact Hlo|].
      apply (SS_bubble_up (used_of (sbmem s))); try done.
      by rewrite <-app_assoc in Hso.
Qed.

Lemma C4_witness :
  ∃ s',
    bubble_to_tail 3 0 15 131072 state_three_mid = Ok tt s'
    ∧ class_links s' 0 15 [196608; 131072; 65536]
    ∧ StronglySorted (fuller (sbmem s')) [196608; 131072; 65536].
Proof.
  destruct C4_lists_sorted_and_bubbling_strict as (_ & _ & _ & _ & Htail & _).
  destruct (Htail 3%nat 0 15 [] 131072 [196608; 65536] state_three_mid
              class_links_three_mid ltac:(cbn [length]; lia))
    as (s' & post1 & post2 & Hrun & E & Hl & Hgt & Hle & _ & Hso).
  destruct used_of_three_mid as (U1 & U2 & U3).
  rewrite U1 in Hgt, Hle.
  assert (post1 = [196608] ∧ post2 = [65536]) as [-> ->].
  { destruct post1 as [|y1 post1].
    - exfalso. cbn [app] in E. subst post2.
      specialize (Hle 196608 eq_refl). rewrite U2 in Hle. lia.
    - cbn [app] in E. injection E as <- E.
      destruct post1 as [|y2 post1].
      + cbn [app] in E. subst post2. split; reflexivity.
      + exfalso. cbn [app] in E. injection E as <- E.
        specialize (Hgt 65536 ltac:(apply elem_of_cons; right; apply elem_of_cons; left; reflexivity)).
        rewrite U3 in Hgt. lia. }
  exists s'. split; [exact Hrun|]. split; [exact Hl|].
  apply Hso.
  - apply sorted_pair. rewrite U2, U3. lia.
  - intros y Hy. apply elem_of_nil in Hy. destruct Hy.
Defined.

(** * Reuse of a freed block *)

(** C7.  From the cold start, in one thread: [malloc(16)], with the OS
    granting the superblock at [a], returns a pointer [p]; [free(p)]
    returns and leaves the block at the head of the free list of its
    superblock; and the next [malloc(16)] returns [p] again, for any
    fuel of at least one and whatever the OS would answer (it is not
    called).  [free] has moved the superblock, then empty, to the global
    heap, and the second [malloc] takes it back from there and pops the
    head of its free list. *)
Theorem C7_second_malloc_returns_first_pointer fuel tid a :
  0 < a →
  ∃ p s1 s2,
    malloc (S fuel) tid (Some a) 16 cold_state = Ok p s1
    ∧ p ≠ 0
    ∧ free (S fuel) p s1 = Ok tt s2
    ∧ (∃ h, sbmem s2 !! a = Some h ∧ freeList h = p - sizeof_blockHeader)
    ∧ ∀ os, ∃ s3,
        malloc (S fuel) tid os 16 s2 = Ok p s3
        ∧ os_log s3 = os_log s1
        ∧ (inUse <$> blkmem s3 !! (p - sizeof_blockHeader)) = Some 1.
Proof.
  intros Ha.
  assert (0 <= 4 < NUM_OF_CLASSES) as Hcr by (unfold NUM_OF_CLASSES; lia).
  assert (class_of_size 16 = Some 4) as Hc by reflexivity.
  assert (16 <= SIZE_THRESHOLD) as Hsz by (change SIZE_THRESHOLD with 32768; lia).
  destruct (vacant_booted 4 Hcr) as [Hv Hsm].
  destruct (malloc_vacant fuel tid a 16 4 booted_state) as (s1 & H1 & L1 & B1);
    [done|done|done|done|done|by rewrite Hsm|].
  destruct (free_lone fuel 4 s1 a (HASH tid) (block_addr a 4 1))
    as (s2 & H2 & L2 & B2 & O2); [done|done|apply HASH_range|done|done|].
  exists (a + 104), s1, s2. split_and!.
  - by rewrite malloc_cold.
  - lia.
  - done.
  - destruct L2 as (_ & Hsb & _). eexists. split; [exact Hsb|].
    unfold sizeof_blockHeader. simpl. lia.
  - intros os.
    destruct (malloc_lone_global fuel tid os 16 4 s2 a (block_addr a 4 1))
      as (s3 & H3 & _ & B3 & O3); [done|done|done|done|done|done|].
    exists s3. split; [done|]. split; [congruence|].
    replace (a + 104 - sizeof_blockHeader) with (a + 80) by (unfold sizeof_blockHeader; lia).
    by rewrite B3.
Qed.

Lemma C7_witness :
  ∃ p s1 s2,
    malloc 1 0 (Some 1048576) 16 cold_state = Ok p s1
    ∧ p ≠ 0
    ∧ free 1 p s1 = Ok tt s2
    ∧ (∃ h, sbmem s2 !! 1048576 = Some h ∧ freeList h = p - sizeof_blockHeader)
    ∧ ∀ os, ∃ s3,
        malloc 1 0 os 16 s2 = Ok p s3
        ∧ os_log s3 = os_log s1
        ∧ (inUse <$> blkmem s3 !! (p - sizeof_blockHeader)) = Some 1.
Proof.
  apply (C7_second_malloc_returns_first_pointer 0 0 1048576). lia.
Defined.

(** * The list operations *)

(** Two states in which the same list is linked agree on the links of its
    members. *)
Lemma class_links_header_eq s s' hp c l a h h' :
  class_links s hp c l → class_links s' hp c l → a ∈ l →
  sbmem s !! a = Some h → sbmem s' !! a = Some h' →
  sb_data h' = sb_data h → sb_lock h' = sb_lock h → h' = h.
Proof.
  intros Hl Hl' Ha Hh Hh' Hd Hk.
  apply list_elem_of_split in Ha as (l1 & l2 & ->).
  destruct (class_links_lookup _ _ _ _ _ _ Hl) as (_ & h0 & Hh0 & Hp & Hn).
  destruct (class_links_lookup _ _ _ _ _ _ Hl') as (_ & h0' & Hh0' & Hp' & Hn').
  assert (h0 = h) as -> by congruence. assert (h0' = h') as -> by congruence.
  destruct h, h'. unfold sb_data in Hd. simpl in *. congruence.
Qed.

(** X15.  [swap_superblocks] exchanges a superblock with its successor.
    When the list of a class is [pre ++ x :: y :: post], the call on [x]
    returns and the list is [pre ++ y :: x :: post]; it writes only the
    links of the members of the list and the head and tail of the class.
    A second call, on [y], returns and restores every superblock header
    and every class: the state is the one before the first call. *)
Theorem swap_superblocks_exchanges_neighbours hp c pre x y post s :
  class_links s hp c (pre ++ x :: y :: post) →
  ∃ s', swap_superblocks hp c x s = Ok tt s'
        ∧ class_links s' hp c (pre ++ y :: x :: post)
        ∧ links_frame hp c (pre ++ x :: y :: post) s s'
        ∧ ∃ s'', swap_superblocks hp c y s' = Ok tt s''
                 ∧ sbmem s'' = sbmem s
                 ∧ blkmem s'' = blkmem s
                 ∧ bytes s'' = bytes s
                 ∧ os_log s'' = os_log s
                 ∧ isInitialized s'' = isInitialized s
                 ∧ ∀ hp' c', get_class s'' hp' c' = get_class s hp' c'.
Proof.
  intros Hl.
  destruct (swap_superblocks_run hp c pre x y post s Hl) as (s' & Hrun).
  destruct (swap_superblocks_spec hp c pre x y post s s' Hl Hrun) as (Hl' & Hf).
  exists s'. split_and!; try done.
  destruct (swap_superblocks_run hp c pre y x post s' Hl') as (s'' & Hrun').
  destruct (swap_superblocks_spec hp c pre y x post s' s'' Hl' Hrun') as (Hl'' & Hf').
  exists s''. split; [done|].
  assert (links_frame hp c (pre ++ x :: y :: post) s s'') as Hff.
  { eapply links_frame_trans; [exact Hf|].
    eapply links_frame_perm; [|exact Hf'].
    intros a. rewrite !elem_of_app, !elem_of_cons. tauto. }
  destruct Hff as (A1 & A2 & A3 & A4 & A5 & A6 & A7 & A8 & A9 & A10).
  split_and!; try done.
  - apply map_eq. intros a.
    destruct (decide (a ∈ pre ++ x :: y :: post)) as [Ha|Ha]; [|by apply A5].
    pose proof Hl as (_ & _ & _ & Hseg & _). pose proof Hl'' as (_ & _ & _ & Hseg'' & _).
    destruct (dseg_lookup _ _ _ _ a Hseg Ha) as [h Hh].
    destruct (dseg_lookup _ _ _ _ a Hseg'' Ha) as [h'' Hh''].
    pose proof (A6 a) as Hd. pose proof (A7 a) as Hk.
    rewrite Hh, Hh'' in Hd, Hk. simpl in Hd, Hk.
    rewrite Hh, Hh''. f_equal.
    eapply class_links_header_eq; [exact Hl|exact Hl''|exact Ha|done|done|congruence|congruence].
  - intros hp' c'.
    destruct (decide ((hp', c') = (hp, c))) as [E|E]; [|by apply A8].
    injection E as -> ->.
    destruct Hl as (x0 & Hx0 & _ & _ & Hhd & Htl).
    destruct Hl'' as (x2 & Hx2 & _ & _ & Hhd2 & Htl2).
    pose proof (A9 hp c) as Hd. pose proof (A10 hp c) as Hk.
    rewrite Hx0, Hx2 in Hd, Hk. simpl in Hd, Hk.
    rewrite Hx0, Hx2. f_equal.
    destruct x0, x2. unfold sc_data in Hd. simpl in *. congruence.
Qed.

Lemma swap_superblocks_exchanges_neighbours_witness :
  ∃ s', swap_superblocks 0 15 131072 state_three = Ok tt s'
        ∧ class_links s' 0 15 ([] ++ 196608 :: 131072 :: [65536])
        ∧ links_frame 0 15 ([] ++ 131072 :: 196608 :: [65536]) state_three s'
        ∧ ∃ s'', swap_superblocks 0 15 196608 s' = Ok tt s''
                 ∧ sbmem s'' = sbmem state_three
                 ∧ blkmem s'' = blkmem state_three
                 ∧ bytes s'' = bytes state_three
                 ∧ os_log s'' = os_log state_three
                 ∧ isInitialized s'' = isInitialized state_three
                 ∧ ∀ hp' c', get_class s'' hp' c' = get_class state_three hp' c'.
Proof.
  apply (swap_superblocks_exchanges_neighbours 0 15 [] 131072 196608 [65536] state_three).
  exact class_links_three.
Defined.

(** X16.  [swap_superblocks] on the last superblock of a list does
    nothing: the superblock has no successor, and the call returns with
    the state unchanged. *)
Theorem swap_superblocks_last_is_noop hp c pre x s :
  class_links s hp c (pre ++ [x]) →
  swap_superblocks hp c x s = Ok tt s.
Proof.
  intros Hl.
  destruct (class_links_lookup _ _ _ _ _ _ Hl) as (Hx0 & hx & Hhx & _ & Hxn).
  unfold swap_superblocks. rewrite (run_load_sb x hx) by done.
  rewrite Hxn. reflexivity.
Qed.

Lemma swap_superblocks_last_is_noop_witness :
  swap_superblocks 0 15 65536 state_three = Ok tt state_three.
Proof.
  apply (swap_superblocks_last_is_noop 0 15 [131072; 196608] 65536 state_three).
  exact class_links_three.
Defined.

(** X17.  [move_superblock] transfers a superblock between two lists.
    When [x] is in the list of class [c] of heap [src], the list [ld] of
    heap [dst] shares no member with it and is in an order of
    non-increasing [usedBlocks], the call returns (its loop within as many
    iterations as [ld] has members); [x] has left the list of [src], whose
    other members keep their order, and is in the list of [dst], which is
    in an order of non-increasing [usedBlocks]; [x] records [dst] as its
    heap, and the counters of the two classes have moved by the counters
    of [x]. *)
Theorem move_superblock_transfers fuel src dst c pre x post ld s :
  src ≠ dst →
  class_links s src c (pre ++ x :: post) →
  class_links s dst c ld →
  (∀ a, a ∈ ld → a ∉ pre ++ x :: post) →
  StronglySorted (fuller (sbmem s)) ld →
  (length ld < fuel)%nat →
  ∃ s' ld1 ld2,
    move_superblock fuel x src dst c s = Ok tt s'
    ∧ ld = ld1 ++ ld2
    ∧ class_links s' src c (pre ++ post)
    ∧ class_links s' dst c (ld1 ++ x :: ld2)
    ∧ StronglySorted (fuller (sbmem s')) (ld1 ++ x :: ld2)
    ∧ move_frame src dst c x (pre ++ x :: post ++ ld) s s'.
Proof.
  intros Hsd Hsrc Hdst Hdisj Hso Hfuel.
  destruct (move_superblock_run fuel src dst c pre x post ld s Hsd Hsrc Hdst Hdisj Hfuel)
    as (s' & Hrun).
  destruct (move_superblock_spec fuel src dst c pre x post ld s s' Hsd Hsrc Hdst Hdisj Hrun)
    as (ld1 & ld2 & -> & Hsrc' & Hdst' & Hgt & Hle & Hf).
  exists s', ld1, ld2. split_and!; try done.
  apply (SS_ext (used_of (sbmem s))).
  - intros a _. symmetry. by eapply used_of_move_frame.
  - apply (SS_bubble_down (used_of (sbmem s)) []); [exact Hso|exact Hgt|exact Hle|].
    intros y Hy. by apply elem_of_nil in Hy.
Qed.

Lemma move_superblock_transfers_witness :
  ∃ s' ld1 ld2,
    move_superblock 1 65536 0 NUM_OF_CPUS 15 state_three = Ok tt s'
    ∧ [] = ld1 ++ ld2
    ∧ class_links s' 0 15 ([131072; 196608] ++ [])
    ∧ class_links s' NUM_OF_CPUS 15 (ld1 ++ 65536 :: ld2)
    ∧ StronglySorted (fuller (sbmem s')) (ld1 ++ 65536 :: ld2)
    ∧ move_frame 0 NUM_OF_CPUS 15 65536 ([131072; 196608] ++ 65536 :: [] ++ []) state_three s'.
Proof.
  apply (move_superblock_transfers 1 0 NUM_OF_CPUS 15 [131072; 196608] 65536 [] []
           state_three).
  - unfold NUM_OF_CPUS. lia.
  - exact class_links_three.
  - exact class_links_three_global.
  - intros a Ha. apply elem_of_nil in Ha. destruct Ha.
  - apply SSorted_nil.
  - simpl. lia.
Defined.

(** * [calloc] *)

Lemma malloc_large_run s fuel tid a sz :
  cold s ∨ wf s → sz > SIZE_THRESHOLD → 0 < a → blkmem s !! a = None →
  ∃ s', malloc fuel tid (Some a) sz s = Ok (a + sizeof_blockHeader) s'
        ∧ blkmem s' !! a = Some (set_blockSize (wrap32 sz) zero_block)
        ∧ os_log s' = Mmap (wrap64 (sz + sizeof_blockHeader)) a :: os_log s.
Proof.
  intros Hs Hbig Ha Hna. unfold malloc.
  destruct (malloc_boot s Hs) as (s0 & Hboot & _ & Esm & Ebm & Eby).
  destruct (same_os_boot _ _ _ Hboot) as [_ Elog].
  rewrite (bind_run _ _ _ _ _ Hboot).
  destruct (Z.gtb_spec sz SIZE_THRESHOLD) as [_|?]; [|lia].
  unfold bind, fetch_memory, store_blk, ret.
  destruct (Z.eqb_spec a 0) as [?|_]; [lia|].
  eexists. split; [reflexivity|]. simpl.
  rewrite Ebm, Hna, Elog, lookup_insert_eq. done.
Qed.

(** The payload of the block that [malloc] returned holds the request. *)
Lemma malloc_in_payload live s fuel tid a sz p s' :
  reachable live s →
  1 <= sz < 2 ^ 32 →
  fresh_region s a (request_len sz) →
  malloc fuel tid (Some a) sz s = Ok p s' →
  p ≠ 0 →
  ∃ len, payload_len s' p = Some len ∧ sz <= len.
Proof.
  intros Hreach Hsz Hfresh Hrun Hp.
  destruct (reachable_inv live s Hreach) as [Hs _].
  pose proof Hfresh as (Ha & _).
  change (2 ^ 32) with 4294967296 in Hsz.
  destruct (Z.gtb_spec sz SIZE_THRESHOLD) as [Hbig|Hsmall].
  - destruct (fresh_lookup _ _ _ Hfresh) as [_ Hna].
    destruct (malloc_large_run s fuel tid a sz Hs ltac:(lia) Ha Hna) as (s1 & Hrun1 & Hb & Hlog).
    rewrite Hrun1 in Hrun. injection Hrun as <- <-.
    exists sz. split; [|lia]. unfold payload_len.
    replace (a + sizeof_blockHeader - sizeof_blockHeader) with a by lia.
    rewrite Hb, Hlog. cbn [parentSuperblock set_blockSize zero_block mapped_len].
    rewrite !Z.eqb_refl, wrap64_small.
    + change (Some (sz + sizeof_blockHeader - sizeof_blockHeader) = Some sz).
      replace (sz + sizeof_blockHeader - sizeof_blockHeader) with sz by lia. reflexivity.
    + unfold sizeof_blockHeader. change (2 ^ 64) with 18446744073709551616. lia.
  - destruct (malloc_block_pos fuel tid (Some a) sz s p s' Hs Hfresh Hrun Hp)
      as (_ & _ & b' & Hb' & [(? & _)|(_ & Hpar & c & Hc & Hbs)]); [lia|].
    destruct (class_of_size_in_bounds sz) as (c' & Hc' & _ & Hle); [lia|].
    assert (c' = c) as -> by congruence.
    exists (blockSize b'). split; [|lia]. unfold payload_len. rewrite Hb'.
    destruct (Z.eqb_spec (parentSuperblock b') 0) as [?|_]; done.
Qed.

(** X18.  [calloc] returns a zeroed block.  In a reachable state, when the
    product [num * sz] is at least one byte and below [2^32] and the OS
    would grant a region that holds no header of the allocator, [calloc]
    returns a pointer that is not NULL (with fuel above the number of
    superblocks); the [num * sz] bytes from it are zero, they are bytes of
    the payload of the block, whose header records at least [num * sz],
    and the state is reachable with the pointer live. *)
Theorem calloc_returns_zeroed_block live s fuel tid a num sz :
  reachable live s →
  1 <= num * sz < 2 ^ 32 →
  fresh_region s a (request_len (num * sz)) →
  (size (dom (sbmem s)) < fuel)%nat →
  ∃ p s',
    calloc fuel tid (Some a) num sz s = Ok p s'
    ∧ p ≠ 0
    ∧ (∀ x, p <= x < p + num * sz → bytes s' x = 0)
    ∧ (∃ len, payload_len s' p = Some len ∧ num * sz <= len)
    ∧ reachable ({[p]} ∪ live) s'.
Proof.
  intros Hreach Hn Hfresh Hfuel.
  assert (wrap64 (num * sz) = num * sz) as Hw.
  { apply wrap64_small. change (2 ^ 32) with 4294967296 in Hn.
    change (2 ^ 64) with 18446744073709551616. lia. }
  destruct (reachable_inv live s Hreach) as [Hs _].
  destruct (malloc_run s fuel tid a (num * sz) Hs) as (p & s1 & Hrun & Hp); try done.
  { by eapply reachable_unlocked. }
  { lia. }
  destruct (malloc_in_payload live s fuel tid a (num * sz) p s1 Hreach Hn Hfresh Hrun Hp)
    as (len & Hlen & Hle).
  assert (reachable ({[p]} ∪ live) s1) as Hreach1.
  { pose proof (reach_malloc live s fuel tid (Some a) (num * sz) p s1 Hreach) as H.
    rewrite decide_False in H by done. apply H; [|done|done].
    change (2 ^ 32) with 4294967296 in Hn. change (2 ^ 64) with 18446744073709551616. lia. }
  unfold calloc. rewrite Hw, (bind_run _ _ _ _ _ Hrun).
  destruct (Z.eqb_spec p 0) as [?|_]; [done|]. cbn [negb].
  unfold bind, memset0, in_payload. rewrite Hlen.
  destruct (Z.eqb_spec (num * sz) 0) as [?|_]; [lia|].
  destruct (Z.leb_spec (num * sz) len) as [_|?]; [|lia].
  eexists _, _. split; [reflexivity|]. split; [done|]. split_and!.
  - intros x Hx. cbn [bytes with_bytes].
    destruct (Z.leb_spec p x), (Z.ltb_spec x (p + num * sz)); try lia. done.
  - by exists len.
  - by apply reach_write.
Qed.

Lemma calloc_returns_zeroed_block_witness :
  ∃ p s',
    calloc 1 0 (Some 1048576) 4 4 cold_state = Ok p s'
    ∧ p ≠ 0
    ∧ (∀ x, p <= x < p + 4 * 4 → bytes s' x = 0)
    ∧ (∃ len, payload_len s' p = Some len ∧ 4 * 4 <= len)
    ∧ reachable ({[p]} ∪ ∅) s'.
Proof.
  apply (calloc_returns_zeroed_block ∅ cold_state 1 0 1048576 4 4 reach_cold).
  - lia.
  - apply fresh_region_cold; [lia|]. vm_compute. reflexivity.
  - vm_compute. lia.
Defined.

(** * [realloc] *)

(** ** The superblocks after [malloc] *)

Lemma is_Some_links_frame hp c l s s' q :
  links_frame hp c l s s' → is_Some (sbmem s' !! q) → is_Some (sbmem s !! q).
Proof.
  intros (_ & _ & _ & _ & _ & F6 & _) [h Hh]. specialize (F6 q). rewrite Hh in F6.
  destruct (sbmem s !! q); [eauto|done].
Qed.

Lemma is_Some_move_frame src dst c x fp s s' q :
  move_frame src dst c x fp s s' → is_Some (sbmem s' !! q) → is_Some (sbmem s !! q).
Proof.
  intros (_ & _ & _ & _ & _ & F6 & _) [h Hh]. specialize (F6 q). rewrite Hh in F6.
  destruct (sbmem s !! q); [eauto|done].
Qed.

Lemma malloc_fast_dom L s hp c a ha fuel p s' :
  wf_with L s →
  hp ≠ NUM_OF_CPUS →
  a ∈ L hp c →
  sbmem s !! a = Some ha →
  sb_usedBlocks ha < sb_numOfBlocks ha →
  (b <- load_blk (freeList ha) ;;
   s0 <- load_sb (parentSuperblock b) ;;
   hd <- load_blk (freeList s0) ;;
   store_sb (parentSuperblock b) (set_freeList (b_next hd)) ;;;
   store_blk (freeList ha) (set_inUse 1) ;;;
   store_sb (parentSuperblock b)
     (λ s, set_sb_usedBlocks (wrap32 (sb_usedBlocks s + 1)) s) ;;;
   store_class hp c (λ c, set_usedBlocks (wrap32 (usedBlocks c + 1)) c) ;;;
   bubble_to_head fuel hp c (parentSuperblock b) ;;;
   unlock_class hp c ;;;
   ret (freeList ha + sizeof_blockHeader)) s = Ok p s' →
  ∀ q, is_Some (sbmem s' !! q) → is_Some (sbmem s !! q).
Proof.
  intros Hwf Hhp Ha Hha Hlt Hrun.
  pose proof Hwf as (Hwd & _).
  destruct (free_head L s hp c a ha Hwd Ha Hha Hlt) as (Ha0 & Hb0 & bh & Hbh & Hpar & Hin).
  assert (in_range hp c) as Hr.
  { destruct Hwd as (_ & _ & W3 & _). by destruct (W3 _ _ _ Ha). }
  assert (∃ x, get_class s hp c = Some x) as [x Hx].
  { destruct Hwd as (_ & W2 & _). destruct (W2 hp c Hr) as [(x & Hx & _) _]. eauto. }
  rewrite (run_load_blk (freeList ha) bh) in Hrun by done. rewrite Hpar in Hrun.
  rewrite (run_load_sb a ha) in Hrun by done.
  rewrite (run_load_blk (freeList ha) bh) in Hrun by done.
  rewrite (run_pop hp c a ha bh x) in Hrun by done.
  apply bind_Ok in Hrun as ([] & s2 & Hbub & Hrun).
  destruct (pop_wf L s hp c a ha bh x Hwd Ha Hha Hlt Hbh Hx) as (Hwd2 & _).
  assert (sbmem (pop_state hp c a ha bh x s) =
          <[a := set_sb_usedBlocks (wrap32 (sb_usedBlocks ha + 1))
                   (set_freeList (b_next bh) ha)]> (sbmem s)) as Hsm by done.
  revert Hbub Hwd2 Hsm. generalize (pop_state hp c a ha bh x s). intros sp Hbub Hwd2 Hsm.
  destruct Hwd2 as (_ & W2' & _). destruct (W2' hp c Hr) as [Hcl _].
  destruct (list_elem_of_split _ _ Ha) as (pre & post & HL). rewrite HL in Hcl.
  destruct (bubble_to_head_spec fuel hp c pre a post sp s2 Hcl Hbub)
    as (_ & _ & _ & _ & _ & _ & Hf).
  apply unlock_ret_wf in Hrun as [_ Hle].
  intros q Hq.
  assert (is_Some (sbmem sp !! q)) as Hq'.
  { eapply is_Some_links_frame; [exact Hf|]. by eapply lock_equiv_is_Some. }
  rewrite Hsm in Hq'. destruct (decide (q = a)) as [->|Hne]; [eauto|].
  by rewrite lookup_insert_ne in Hq'.
Qed.

Lemma malloc_transfer_dom L s hp c g x fuel p s' :
  wf_with L s →
  hp ≠ NUM_OF_CPUS →
  in_range hp c →
  get_class s NUM_OF_CPUS c = Some g →
  sc_head g = x →
  x ≠ 0 →
  (s0 <- load_sb x ;;
   hd <- load_blk (freeList s0) ;;
   store_sb x (set_freeList (b_next hd)) ;;;
   store_blk (freeList s0) (set_inUse 1) ;;;
   store_sb x (λ s, set_sb_usedBlocks (wrap32 (sb_usedBlocks s + 1)) s) ;;;
   store_class NUM_OF_CPUS c (λ c, set_usedBlocks (wrap32 (usedBlocks c + 1)) c) ;;;
   move_superblock fuel x NUM_OF_CPUS hp c ;;;
   unlock_class NUM_OF_CPUS c ;;;
   unlock_class hp c ;;;
   ret (freeList s0 + sizeof_blockHeader)) s = Ok p s' →
  ∀ q, is_Some (sbmem s' !! q) → is_Some (sbmem s !! q).
Proof.
  intros (Hwd & Hso & Hg) Hhp Hr Hgc Hhd Hx0 Hrun.
  pose proof Hwd as (W1 & W2 & W3 & W4 & W5).
  assert (in_range NUM_OF_CPUS c) as Hrg by (by apply get_class_Some in Hgc).
  destruct (W2 NUM_OF_CPUS c Hrg) as [(g0 & Hg0 & Hnd & Hseg & Hhd0 & Htl0) _].
  assert (g0 = g) as -> by congruence.
  destruct (L NUM_OF_CPUS c) as [|x' post] eqn:HL; [simpl in Hhd0; congruence|].
  simpl in Hhd0. assert (x' = x) as -> by congruence.
  assert (x ∈ L NUM_OF_CPUS c) as Hx by (rewrite HL; by left).
  destruct (W3 _ _ _ Hx) as (_ & Hokx). pose proof Hokx as (_ & hx & lx & Hhx & _ & Hnx & _).
  assert (sb_usedBlocks hx < sb_numOfBlocks hx) as Hlt.
  { rewrite Hnx. specialize (Hg c x Hx). by rewrite (used_of_lookup _ _ _ Hhx) in Hg. }
  destruct (free_head L s NUM_OF_CPUS c x hx Hwd Hx Hhx Hlt) as (_ & Hb0 & bh & Hbh & Hpar & Hin).
  rewrite (run_load_sb x hx) in Hrun by done.
  rewrite (run_load_blk (freeList hx) bh) in Hrun by done.
  rewrite (run_pop NUM_OF_CPUS c x hx bh g) in Hrun by done.
  apply bind_Ok in Hrun as ([] & s2 & Hmove & Hrun).
  destruct (pop_wf L s NUM_OF_CPUS c x hx bh g Hwd Hx Hhx Hlt Hbh Hgc) as (Hwd2 & _).
  assert (sbmem (pop_state NUM_OF_CPUS c x hx bh g s) =
          <[x := set_sb_usedBlocks (wrap32 (sb_usedBlocks hx + 1))
                   (set_freeList (b_next bh) hx)]> (sbmem s)) as Hsm by done.
  revert Hmove Hwd2 Hsm. generalize (pop_state NUM_OF_CPUS c x hx bh g s).
  intros sp Hmove Hwd2 Hsm.
  pose proof Hwd2 as (_ & W2' & _).
  destruct (W2' NUM_OF_CPUS c Hrg) as [Hsrc _]. rewrite HL in Hsrc.
  destruct (W2' hp c Hr) as [Hdst _].
  destruct (move_superblock_spec fuel NUM_OF_CPUS hp c [] x post (L hp c) sp s2)
    as (_ & _ & _ & _ & _ & _ & _ & Hmf); [done|exact Hsrc|exact Hdst| |exact Hmove|].
  { intros a Ha Ha'. change ([] ++ x :: post) with (x :: post) in Ha'. rewrite <-HL in Ha'.
    destruct (wf_data_disjoint L sp a hp c NUM_OF_CPUS c Hwd2 Ha Ha') as [? _]. done. }
  apply unlock2_ret_wf in Hrun as [_ Hle].
  intros q Hq.
  assert (is_Some (sbmem sp !! q)) as Hq'.
  { eapply is_Some_move_frame; [exact Hmf|]. by eapply lock_equiv_is_Some. }
  rewrite Hsm in Hq'. destruct (decide (q = x)) as [->|Hne]; [eauto|].
  by rewrite lookup_insert_ne in Hq'.
Qed.

Lemma malloc_grow_dom L s hp c a fuel p s' :
  wf_with L s →
  hp ≠ NUM_OF_CPUS →
  in_range hp c →
  fresh_region s a SUPERBLOCK_SIZE →
  (_ <- init_superblock a c ;;
   store_sb a (set_parentHeap (Some hp)) ;;;
   s0 <- load_sb a ;;
   hd <- load_blk (freeList s0) ;;
   store_sb a (set_freeList (b_next hd)) ;;;
   store_blk (freeList s0) (set_inUse 1) ;;;
   store_sb a (λ s, set_sb_usedBlocks (wrap32 (sb_usedBlocks s + 1)) s) ;;;
   store_class hp c (λ c, set_usedBlocks (wrap32 (usedBlocks c + 1)) c) ;;;
   s1 <- load_sb a ;;
   store_class hp c
     (λ c, set_numOfBlocks (wrap32 (numOfBlocks c + sb_numOfBlocks s1)) c) ;;;
   store_sb a (set_parentHeap (Some hp)) ;;;
   c0 <- load_class hp c ;;
   (if negb (sc_tail c0 =? 0)
    then store_sb (sc_tail c0) (set_sb_next a)
    else store_class hp c (set_sc_head a)) ;;;
   c0 <- load_class hp c ;;
   store_sb a (set_sb_prev (sc_tail c0)) ;;;
   store_class hp c (set_sc_tail a) ;;;
   store_sb a (set_sb_next 0) ;;;
   bubble_to_head fuel hp c a ;;;
   unlock_class hp c ;;;
   unlock_class NUM_OF_CPUS c ;;;
   ret (freeList s0 + sizeof_blockHeader)) s = Ok p s' →
  ∀ q, is_Some (sbmem s' !! q) → q = a ∨ is_Some (sbmem s !! q).
Proof.
  intros Hwf Hhp Hr Hfresh Hrun.
  pose proof Hwf as (Hwd & _). pose proof Hwd as (W1 & W2 & W3 & W4 & W5).
  pose proof Hfresh as (Ha & _ & Hfb & _).
  destruct (fresh_lookup _ _ _ Hfresh) as [Hna _].
  destruct (W2 hp c Hr) as [(x & Hx & Hnd & Hseg & Hhd & Htl) _].
  assert (sc_tail x ≠ a) as Hta.
  { rewrite Htl. destruct (last_elem_or_null (L hp c)) as [[E _]|Hin]; [lia|].
    intros E. rewrite E in Hin. by eapply fresh_not_member in Hin. }
  assert (sc_tail x ≠ 0 → is_Some (sbmem s !! sc_tail x)) as Htin.
  { intros Hne. rewrite Htl in Hne |- *.
    destruct (last_elem_or_null (L hp c)) as [[E _]|Hin]; [done|].
    destruct (W3 _ _ _ Hin) as (_ & _ & h & l & Hh & _). eauto. }
  pose proof (grow_run a c hp x s
                (λ s0 _, bubble_to_head fuel hp c a ;;;
                         unlock_class hp c ;;;
                         unlock_class NUM_OF_CPUS c ;;;
                         ret (freeList s0 + sizeof_blockHeader))
                Ha (proj2 Hr) Hx Hna Hta) as E.
  cbv beta in E. rewrite E in Hrun. clear E.
  apply bind_Ok in Hrun as ([] & s2 & Hbub & Hrun).
  destruct (grow_wf L s a c hp x Hwd Hr Hfresh Hx) as (_ & _ & _ & Hcl5).
  assert (sbmem (grow_state a c hp x s) =
          <[a := mkSuperblock 1 (blocks_per_superblock c) (block_addr a c 1)
                   false 0 (sc_tail x) (Some hp)]>
             (wr (sc_tail x) (set_sb_next a) (sbmem s))) as Hsm by done.
  revert Hbub Hcl5 Hsm. generalize (grow_state a c hp x s). intros s5 Hbub Hcl5 Hsm.
  destruct (bubble_to_head_spec fuel hp c (L hp c) a [] s5 s2 Hcl5 Hbub)
    as (_ & _ & _ & _ & _ & _ & Hf).
  apply unlock2_ret_wf in Hrun as [_ Hle].
  intros q Hq.
  assert (is_Some (sbmem s5 !! q)) as Hq'.
  { eapply is_Some_links_frame; [exact Hf|]. by eapply lock_equiv_is_Some. }
  rewrite Hsm in Hq'. destruct (decide (q = a)) as [->|Hne]; [by left|]. right.
  rewrite lookup_insert_ne in Hq' by done.
  destruct (decide (q = sc_tail x)) as [->|Hne2].
  - apply Htin. intros E0. rewrite E0, wr_null in Hq'. rewrite E0 in Hne, Hta.
    revert Hq'. rewrite <-E0. intros Hq'.
    rewrite E0 in Hq'. destruct Hq' as [h Hh].
    destruct (W4 0) as (hp0 & c0 & Hin0); [eauto|].
    destruct (W3 _ _ _ Hin0) as (_ & ? & _). lia.
  - by rewrite wr_lookup_ne in Hq'.
Qed.

(** [malloc] adds at most the superblock that the OS has just mapped. *)
Lemma malloc_sbmem_dom fuel tid os sz s p s' :
  cold s ∨ wf s →
  os_ok s os sz →
  malloc fuel tid os sz s = Ok p s' →
  ∀ q, is_Some (sbmem s' !! q) → os = Some q ∨ is_Some (sbmem s !! q).
Proof.
  intros Hs Hos Hrun. unfold malloc in Hrun.
  apply bind_Ok in Hrun as ([] & s0 & Hboot & Hrun).
  destruct (malloc_boot s Hs) as (s0' & Hboot' & Hwf0 & Esm & Ebm & Eby).
  assert (s0' = s0) as -> by congruence. clear Hboot Hboot'.
  assert (∀ a len, fresh_region s a len → fresh_region s0 a len) as Hfr.
  { intros a len. apply fresh_region_mono; intros q; by rewrite ?Esm, ?Ebm. }
  rewrite <-Esm.
  unfold os_ok, request_len in Hos.
  destruct (Z.gtb_spec sz SIZE_THRESHOLD) as [Hbig|Hsmall].
  { apply bind_Ok in Hrun as (p0 & s1 & Hf & Hrun).
    assert (sbmem s1 = sbmem s0) as E1.
    { unfold fetch_memory in Hf. destruct os; injection Hf as <- <-; done. }
    intros q Hq. right. rewrite <-E1.
    destruct (p0 =? 0).
    - apply ret_Ok in Hrun as [_ ->]. done.
    - apply bind_Ok in Hrun as ([] & s2 & Hst & Hrun).
      apply ret_Ok in Hrun as [_ ->].
      apply store_blk_Ok in Hst as (_ & ->). done. }
  apply bind_Ok in Hrun as (c & s0' & Hc & Hrun). apply lift_option_Ok in Hc as [Hc ->].
  set (hp := HASH tid) in *.
  assert (hp ≠ NUM_OF_CPUS) as Hhp.
  { unfold hp, HASH, NUM_OF_CPUS. pose proof (Z.mod_pos_bound tid 2). lia. }
  apply bind_Ok in Hrun as ([] & s1 & Hlock & Hrun).
  pose proof (lock_class_lock_equiv _ _ _ _ _ Hlock) as Hle1.
  assert (in_range hp c) as Hr.
  { unfold lock_class in Hlock. apply bind_Ok in Hlock as (x & ? & Hl & _).
    apply load_class_Ok in Hl as [_ Hx]. by apply get_class_Some in Hx. }
  destruct Hwf0 as [L Hwf0].
  pose proof (wf_with_lock_equiv L s0 s1 Hle1 Hwf0) as Hwf1.
  pose proof Hwf1 as ((W1 & W2 & W3 & W4 & W5) & _).
  destruct (W2 hp c Hr) as [Hcl _].
  apply bind_Ok in Hrun as (blk & s1' & Hsearch & Hrun).
  destruct (search_sizeclass_spec fuel hp c _ s1 blk s1' Hcl Hsearch) as [-> Hblk].
  destruct (Z.eqb_spec blk 0) as [Eblk|Hblk0]; cbn [negb] in Hrun.
  2:{ destruct Hblk as [?|(a & ha & Ha & Hha & Hlt & ->)]; [done|].
      intros q Hq. right. eapply lock_equiv_is_Some; [exact Hle1|].
      by eapply (malloc_fast_dom L s1 hp c a ha fuel p s'). }
  clear Hblk.
  apply bind_Ok in Hrun as ([] & s2 & Hlock2 & Hrun).
  pose proof (lock_class_lock_equiv _ _ _ _ _ Hlock2) as Hle2.
  pose proof (wf_with_lock_equiv L s1 s2 Hle2 Hwf1) as Hwf2.
  apply bind_Ok in Hrun as (g & s2' & Hg & Hrun).
  apply load_class_Ok in Hg as [-> Hg].
  destruct (Z.eqb_spec (sc_head g) 0) as [Hh0|Hh0]; cbn [negb] in Hrun.
  2:{ intros q Hq. right. eapply lock_equiv_is_Some; [exact Hle1|].
      eapply lock_equiv_is_Some; [exact Hle2|].
      by eapply (malloc_transfer_dom L s2 hp c g (sc_head g) fuel p s'). }
  destruct os as [a|].
  2:{ exfalso. unfold bind, fetch_memory, init_superblock in Hrun. simpl in Hrun. done. }
  assert (fresh_region s2 a SUPERBLOCK_SIZE) as Hfresh.
  { eapply fresh_region_lock_equiv; [exact Hle2|].
    eapply fresh_region_lock_equiv; [exact Hle1|]. by apply Hfr. }
  pose proof Hfresh as (Ha & _).
  unfold bind at 1 in Hrun. unfold fetch_memory in Hrun.
  destruct (Z.eqb_spec a 0) as [?|_]; [lia|]. cbn [negb] in Hrun.
  set (s3 := with_os_log _ _) in Hrun.
  assert (lock_equiv s2 s3) as Hle3 by (unfold lock_equiv; done).
  assert (wf_with L s3) as Hwf3 by (by eapply wf_with_lock_equiv).
  assert (fresh_region s3 a SUPERBLOCK_SIZE) as Hfresh3
    by (by eapply fresh_region_lock_equiv).
  intros q Hq.
  destruct (malloc_grow_dom L s3 hp c a fuel p s' Hwf3 Hhp Hr Hfresh3 Hrun q Hq) as [->|Hq3].
  - by left.
  - right. eapply lock_equiv_is_Some; [exact Hle1|].
    eapply lock_equiv_is_Some; [exact Hle2|]. done.
Qed.

Lemma malloc_sbmem_size fuel tid os sz s p s' :
  cold s ∨ wf s →
  os_ok s os sz →
  malloc fuel tid os sz s = Ok p s' →
  (size (dom (sbmem s')) <= S (size (dom (sbmem s))))%nat.
Proof.
  intros Hs Hos Hrun.
  pose proof (malloc_sbmem_dom fuel tid os sz s p s' Hs Hos Hrun) as Hdom.
  destruct os as [a|].
  - transitivity (size ({[a]} ∪ dom (sbmem s))).
    + apply subseteq_size. intros q Hq. apply elem_of_dom in Hq.
      destruct (Hdom q Hq) as [[= ->]|Hq']; [set_solver|].
      apply elem_of_union. right. by apply elem_of_dom.
    + rewrite size_union_alt, size_singleton.
      pose proof (subseteq_size (dom (sbmem s) ∖ {[a]}) (dom (sbmem s))) as H.
      specialize (H ltac:(set_solver)). lia.
  - transitivity (size (dom (sbmem s))); [|lia].
    apply subseteq_size. intros q Hq. apply elem_of_dom in Hq.
    destruct (Hdom q Hq) as [?|Hq']; [done|]. by apply elem_of_dom.
Qed.

(** ** [free] keeps the payload bytes *)

Lemma free_bytes fuel ptr s s' : free fuel ptr s = Ok tt s' → bytes s' = bytes s.
Proof.
  unfold free. destruct (ptr =? 0); cbn [negb]; [by intros [= <-]|]. cbv zeta.
  intros Hrun. apply bind_Ok in Hrun as (b & s0 & Hl & Hrun).
  apply load_blk_Ok in Hl as (-> & _ & Hb).
  destruct (blockSize b >? SUPERBLOCK_SIZE / 2).
  - unfold munmap in Hrun. apply modify_Ok in Hrun as ->. done.
  - match type of Hrun with
    | ?m s = _ => assert (preserves same_os m) as Hp by os_any
    end.
    by destruct (Hp _ _ _ Hrun).
Qed.

(** ** [realloc] within the payload of the old block *)

Lemma payload_len_malloc live s fuel tid a sz p s' ptr len :
  reachable live s →
  fresh_region s a (request_len sz) →
  malloc fuel tid (Some a) sz s = Ok p s' →
  ptr ∈ live →
  payload_len s ptr = Some len →
  payload_len s' ptr = Some len.
Proof.
  intros Hreach Hfresh Hrun Hptr Hlen.
  destruct (reachable_inv live s Hreach) as [Hs Hlive].
  destruct (malloc_wf fuel tid (Some a) sz s p s' Hs Hfresh Hrun) as (_ & [Hkeep _] & _).
  destruct (Hlive ptr Hptr) as (b & Hb & Hlv).
  assert (blkmem s' !! (ptr - sizeof_blockHeader) = Some b) as Hb'.
  { apply Hkeep; [done|]. destruct Hlv as [?|?]; [left; lia|by right]. }
  unfold payload_len in *. rewrite Hb in Hlen. rewrite Hb'.
  destruct (parentSuperblock b =? 0); [|done].
  destruct (malloc_os_effect fuel tid (Some a) sz s p s' Hrun) as [[_ ->]|[_ ->]]; [done|].
  cbn [mapped_len default]. change (id a) with a.
  destruct (Z.eqb_spec a (ptr - sizeof_blockHeader)) as [E|_]; [|done].
  destruct (fresh_lookup _ _ _ Hfresh) as [_ Hna]. rewrite E in Hna. congruence.
Qed.

(** X19.  [realloc] to a size within the payload of the old block.  In a
    state reached with requests below [2^32] bytes, for an allocated
    block [ptr] whose payload has at least [sz >= 1] bytes, when the OS
    would grant a region that holds no header of the allocator and none of
    the [sz] bytes to copy, [realloc(ptr, sz)] returns a pointer that is
    neither NULL nor [ptr] (with fuel above the number of superblocks plus
    one); the [sz] bytes from it are those that were at [ptr], and the old
    block is freed: the state is reachable with the new pointer live and
    [ptr] no longer live. *)
Theorem realloc_moves_block live s fuel tid a ptr sz len :
  reachable32 live s →
  ptr ∈ live →
  payload_len s ptr = Some len →
  1 <= sz <= len →
  sz < 2 ^ 32 →
  fresh_region s a (request_len sz) →
  (∀ x, ptr <= x < ptr + sz → ¬ (a <= x < a + request_len sz)) →
  (S (size (dom (sbmem s))) < fuel)%nat →
  ∃ p s',
    realloc fuel tid (Some a) ptr sz s = Ok p s'
    ∧ p ≠ 0
    ∧ p ≠ ptr
    ∧ (∀ i, 0 <= i < sz → bytes s' (p + i) = bytes s (ptr + i))
    ∧ reachable32 (({[p]} ∪ live) ∖ {[ptr]}) s'.
Proof.
  intros Hreach32 Hptr Hlen Hsz Hsz32 Hfresh Hdisj Hfuel.
  pose proof (reachable32_reachable _ _ Hreach32) as Hreach.
  destruct (reachable_inv live s Hreach) as [Hs Hlive].
  destruct (malloc_run s fuel tid a sz Hs) as (p & s1 & Hrun & Hp); try done.
  { by eapply reachable_unlocked. }
  { lia. }
  { lia. }
  assert (reachable32 ({[p]} ∪ live) s1) as Hreach1.
  { pose proof (reach32_malloc live s fuel tid (Some a) sz p s1 Hreach32) as H.
    rewrite decide_False in H by done. apply H; [lia|done|done]. }
  assert (p ≠ ptr) as Hne.
  { intros ->. destruct (Hlive ptr Hptr) as (b & Hb & Huse).
    destruct (malloc_block fuel tid (Some a) sz s ptr s1 Hs Hfresh Hrun Hp)
      as [[Hn|(bh & Hbh & Hfree & Hpar)] _]; [congruence|].
    assert (bh = b) as -> by congruence. lia. }
  destruct (malloc_in_payload live s fuel tid a sz p s1 Hreach ltac:(lia) Hfresh Hrun Hp)
    as (len1 & Hlen1 & Hle1).
  pose proof (payload_len_malloc live s fuel tid a sz p s1 ptr len Hreach Hfresh Hrun Hptr Hlen)
    as Hlen'.
  set (v := λ x, if (p <=? x) && (x <? p + sz) then bytes s1 (ptr + (x - p)) else bytes s1 x).
  assert (memcpy p ptr sz s1 = Ok tt (with_bytes v s1)) as Hcp.
  { unfold memcpy, in_payload. rewrite Hlen1, Hlen'.
    destruct (Z.eqb_spec sz 0) as [?|_]; [lia|].
    destruct (Z.leb_spec sz len1) as [_|?]; [|lia].
    destruct (Z.leb_spec sz len) as [_|?]; [|lia]. done. }
  assert (reachable32 ({[p]} ∪ live) (with_bytes v s1)) as Hreach2 by (by apply reach32_write).
  assert (ptr ∈ ({[p]} ∪ live : gset Z)) as Hptr2 by set_solver.
  destruct (free_run_reachable ({[p]} ∪ live) (with_bytes v s1) fuel ptr) as [s3 Hfree].
  { by apply reachable32_reachable. }
  { done. }
  { intros b Hb Hpar. by eapply reachable32_large. }
  { pose proof (malloc_sbmem_size fuel tid (Some a) sz s p s1 Hs Hfresh Hrun) as Hsize.
    change (sbmem (with_bytes v s1)) with (sbmem s1). lia. }
  exists p, s3. split_and!; try done.
  - unfold realloc. rewrite (bind_run _ _ _ _ _ Hrun).
    destruct (Z.eqb_spec p 0) as [?|_]; [done|]. cbn [negb].
    rewrite (bind_run _ _ _ _ _ Hcp), (bind_run _ _ _ _ _ Hfree). done.
  - intros i Hi. rewrite (free_bytes _ _ _ _ Hfree). cbn [bytes with_bytes]. unfold v.
    destruct (Z.leb_spec p (p + i)), (Z.ltb_spec (p + i) (p + sz)); try lia. cbn [andb].
    replace (ptr + (p + i - p)) with (ptr + i) by lia.
    destruct (malloc_os_effect fuel tid (Some a) sz s p s1 Hrun) as [[-> _]|[Hby _]]; [done|].
    destruct (Hby (ptr + i)) as [?|(a' & [= <-] & Hin & _)]; [done|].
    exfalso. apply (Hdisj (ptr + i)); [lia|done].
  - eapply reach32_free; [exact Hreach2|by right|exact Hfree].
Qed.

Lemma fresh_region_state_alloc : fresh_region state_alloc 2097152 65536.
Proof.
  assert (map_Forall (λ q _, q < 2097152) (blkmem state_alloc)) as Hb.
  { apply (bool_decide_unpack _). vm_compute. exact I. }
  assert (map_Forall (λ q _, q < 2097152) (sbmem state_alloc)) as Hs.
  { apply (bool_decide_unpack _). vm_compute. exact I. }
  split; [lia|]. split; [lia|]. split.
  - intros q [b Hq]. left. exact (Hb q b Hq).
  - intros q [h Hq]. left. exact (Hs q h Hq).
Qed.

Lemma realloc_moves_block_witness :
  ∃ p s',
    realloc 3 0 (Some 2097152) 1048680 16 state_alloc = Ok p s'
    ∧ p ≠ 0
    ∧ p ≠ 1048680
    ∧ (∀ i, 0 <= i < 16 → bytes s' (p + i) = bytes state_alloc (1048680 + i))
    ∧ reachable32 (({[p]} ∪ ({[1048680]} ∪ ∅)) ∖ {[1048680]}) s'.
Proof.
  apply (realloc_moves_block _ state_alloc 3 0 2097152 1048680 16 16
           reachable32_state_alloc).
  - apply elem_of_union. left. apply elem_of_singleton. reflexivity.
  - vm_compute. reflexivity.
  - lia.
  - vm_compute. reflexivity.
  - exact fresh_region_state_alloc.
  - intros x Hx Hx'. lia.
  - vm_compute. lia.
Defined.

